(* ===== verification/_CoqProject ===== *)
-Q . S2P
Prelude.v
Sort.v
JsString.v
JsNumber.v
Platform.v
Html.v
Markup.v
NodeDir.v
Mesh.v
World.v
TraceHistory.v
Route.v
Trace.v
Heatmap.v
Filters.v
Popup.v
MapView.v
NodesTable.v
NodeActions.v
Chat.v
Charts.v
Messages.v
Sse.v
Page.v
PageFrame.v
PageSafe.v
Lanes.v
PageInv.v
