(* ===== verification/Prelude.v ===== *)
(** * The dashboard of the Meshtastic proxy: a verified model

    The repository holds a proxy for Meshtastic radios, written in Go, and its web
    dashboard, written in JavaScript without a framework. This development models
    the dashboard: the four scripts under
    src/internal/web/templates/static/ (utils.js, app.js, nodes.js, chat.js) and
    [switchTab] of src/internal/web/templates/dashboard.html.

    ** The program

    The server renders the page with the node directory, the traffic series and
    the last messages in it, and then pushes events over one [EventSource]. The
    scripts keep a copy of the directory ([nodeDir]) and show it three times: as
    markers and popups of a map, as a table of nodes, and in names all over the
    page. Beside that they draw two charts, a table of messages, a chat, and run
    one small protocol, the traceroute: at most one request in flight, a timeout of
    30 s, then a cooldown. The scripts interact through shared variables, through
    timers and requests that capture variables, and through a bus on which app.js
    tells nodes.js that the directory has changed.

    ** The files

    Foundations.
    - [Prelude]: JavaScript strings as UTF-16 code units, truthiness, the state
      and exception monad of statements, [for_each], list lemmas, automation.
    - [Sort]: [Array.prototype.sort] as stable insertion sort; ordered, stable,
      a permutation.
    - [JsString], [JsNumber]: the string and number functions the scripts use;
      numbers with a fraction are binary64 ([spec_float] of the Standard Library),
      [toFixed] is exact.
    - [Platform]: a class for what depends on the locale or the engine (case
      mapping, collation, local times, [Math.pow], [Math.log]) with the few laws
      that the proofs use, and a reference instance that satisfies them.
    - [Html], [Markup]: an HTML tokenizer (text, tags, attributes, character
      references) and the notion of markup that is safe to concatenate.
    - [World]: the state of the page: one record per component, the elements of
      the DOM that the scripts touch, pending timers and requests, the log of
      effects; and frame reasoning ([preserves], [total]).

    Components, each with its operations in the order of the source.
    - [Mesh] (utils.js): escaping, names, ages, icons, the bus.
    - [NodeDir] (app.js, the assignments to [nodeDir] of the update handlers).
    - [Popup], [MapView] (app.js: icons, popups, [updateMapMarkers], the update
      handlers, [initMap]), [Filters] (the filter panel), [Heatmap].
    - [TraceHistory] (nodes.js), [Route] ([drawTraceroute]), [Trace] (the
      traceroute machine).
    - [NodesTable], [NodeActions] (nodes.js).
    - [Chat] (chat.js).
    - [Charts], [Messages] (app.js: charts and cards, message table, clients).
    - [Sse] (app.js: connection, pause, dispatch of events, cache refresh).

    The page.
    - [Page]: [switchTab], and [handle], which runs the listener of any input:
      an event of the stream, a timer, an answer, a click. A run is a list of
      inputs.
    - [PageFrame], [PageSafe], [Lanes]: what the operations leave alone, why none
      throws, and which component owns which timer.
    - [PageInv]: the invariant of the whole page.

    ** How state and effects are modelled

    A statement is a function [world -> result A * world]; an exception keeps the
    mutations made before it, and [dispatch] is a listener whose exception does not
    reach its caller. The bus is an interface: the class [Bus] of [MapView]
    promises that listeners change only the table and the DOM; the map is verified
    against it and [NodesTable] discharges it. [innerHTML] holds the markup string;
    where the scripts read the DOM back (checkboxes, text of a row, buttons) the
    model parses that string or keeps the buttons as records: the trace buttons of
    the document are those of the table's rows and that of the popup which is open;
    a popup's button is rendered with its content, shown when the filter
    ([openPopup]) or the user ([IMarkerClick]) opens the popup, and gone when it is
    closed ([IPopupClose]) or its marker is removed. The page starts as the
    template writes it: [initial_dom] holds the classes, the [disabled] send
    button and the texts the scripts later change. A timer or request is
    a constructor that carries the variables its closure captures; [handle] fires
    it. An absent property of a JSON object is a missing key of the entry's maps,
    so that the omission of zero fields by the server is visible.

    ** What the theorems show

    - The page ([PageInv]): [page_safe], after any inputs with well-formed
      payloads no listener throws, and the machines are consistent;
      [page_recovers], nothing stays disconnected or disabled for good.
    - Traceroute ([Trace]): an invariant by rule induction over a step relation,
      the functional behaviour of each operation, termination of cooldown and
      timeout.
    - Map ([MapView], [Filters], [Heatmap], [Popup]): the map mirrors the
      directory, filters decide exactly visibility, generated checkboxes parse
      back to the intended boxes, intensities are bounded.
    - Table ([NodesTable], [NodeActions]): completeness, order and stability of
      the rows, the exact condition under which rendering fails, the favourite
      toggle.
    - Chat ([Chat]), charts ([Charts]), messages ([Messages]): the bounded logs
      are in step with what is shown; the chart refines an abstract series.
    - Connection ([Sse]): exponential back-off, what pausing freezes.
    - Escaping ([Mesh], [Popup], [Chat]): text in element content is inert; with
      counterexamples where a value is used in an attribute or not escaped.
    - Defects: [late_failure_cancels_next], [equator_node_aborts],
      [nodeName_attribute_injection], [popup_user_id_injection], [badges_blank],
      [empty_hint_lost], [counter_not_bytes] each exhibit a run of the scripts.

    ** Bounds and fuel

    The code has no unbounded loops: its [while] loops trim a list, and are [drop]
    and [take] ([trim_series] for a limit from 0 on; the server's is at least 1).
    The only fuel is that of printing an integer ([digits] of
    [JsString]), one unit per binary digit of the number, which [digit_fuel_enough]
    shows to be enough; the tokenizer consumes its input structurally. The theorems
    hold for every integer and every string that meets their stated conditions,
    not only below a bound.

    ** Assumed

    - Of the directory: [page_safe], [page_recovers], [map_reachable_inv] and
      [updateMapMarkers_spec] take directories in which a node with one coordinate
      has both ([dir_ok]); without it the refresh of the map does throw, as
      [equator_node_aborts] shows, and so do the heatmap and the table. Coordinates
      of position events are numbers; floating point fields are finite, as JSON
      makes them ([json_floats], for [table_entries_spec] and
      [heat_points_spec]).
    - Of the payloads: [JSON.parse] succeeds, payloads are typed records. Histories
      of the chat hold at most 500 messages, the size of the server's ring buffer;
      byte counts are not negative; the list of channels is an array, or the
      request fails ([NullAnswer] is what [null] would do).
    - Of the texts: [filter_boxes_mirror] and [nodeName_well_formed] exclude double
      quotes, which [esc] leaves as they are, and with [esc_inert], for the text
      of its second part, NUL and carriage return, which the HTML parser
      replaces.
    - Of the clock: [Date.now()] does not go back ([IClock] takes the maximum), so
      that the seconds since a click are not negative.
    - Of the engine: the laws of [Platform]: collation is a total preorder,
      [Math.pow] keeps the unit interval for finite exponents from 0 on, and the
      like. [Reference] satisfies them.

    ** Not modelled

    - Layout and look: the height of the text area, focus, scroll positions other
      than "at the bottom", chart options, tiles, animation.
    - Inside the libraries: Leaflet is its markers, its popups (one open at most,
      rendered from the content last set), its layers and the exception of
      [L.latLng], also where the heatmap draws ([put_layer]); Chart.js is an
      [update] effect. The redraw of a heatmap layer that exists happens in a later
      animation frame, whose exceptions reach no script; a popup that fades out
      counts as gone.
    - In the counts of roles in the table's filter, roles that are named like a
      property of [Object.prototype] ([role_count]); the checkboxes of the map's
      filter treat them as the [in] operator does ([existing_checked]).
    - The Go server. Its facts are quoted where used (omitted zero fields, 500
      messages, 237 bytes per text).

    ** Plan

    Next: the server's directory (src/internal/metrics/node_directory.go) as the
    abstract directory that the page's copy refines under the stream of events;
    the ring buffers behind the histories; the trace buttons of the document as
    exactly those of the rows and the open popup; a step relation for the answers of the server, so that the traceroute machine
    is verified against the server's behaviour. *)

From stdpp Require Export base tactics list gmap functions numbers option sorting relations strings.
From Stdlib Require Export ZArith Lia.

#[global] Open Scope Z_scope.

(** ** JavaScript strings

    A JavaScript string is a sequence of UTF-16 code units. *)

Definition jstr := list N.

#[global] Instance jstr_eq_dec : EqDecision jstr := _.
#[global] Instance jstr_countable : Countable jstr := _.

(** UTF-8 bytes of a source literal to the UTF-16 code units it denotes. *)
Fixpoint utf16 (bs : list N) : jstr :=
  match bs with
  | [] => []
  | b0 :: t0 =>
      if (b0 <? 128)%N then b0 :: utf16 t0
      else match t0 with
      | [] => []
      | b1 :: t1 =>
          if (b0 <? 224)%N then ((b0 - 192) * 64 + (b1 - 128))%N :: utf16 t1
          else match t1 with
          | [] => []
          | b2 :: t2 =>
              if (b0 <? 240)%N
              then ((b0 - 224) * 4096 + (b1 - 128) * 64 + (b2 - 128))%N :: utf16 t2
              else match t2 with
              | [] => []
              | b3 :: t3 =>
                  let c := ((b0 - 240) * 262144 + (b1 - 128) * 4096
                            + (b2 - 128) * 64 + (b3 - 128) - 65536)%N in
                  (55296 + c / 1024)%N :: (56320 + c mod 1024)%N :: utf16 t3
              end
          end
      end
  end.

Fixpoint bytes_of (s : string) : list N :=
  match s with
  | EmptyString => []
  | String a s' => Ascii.N_of_ascii a :: bytes_of s'
  end.

(** [js "..."] is the string a literal of the source denotes. *)
Definition js (s : string) : jstr := utf16 (bytes_of s).
Arguments js : simpl never.
Coercion js : string >-> jstr.

(** Markup: as [js], with every double quote of the source written as a
    backquote. *)
Definition html (s : string) : jstr :=
  (fun c => if (c =? 96)%N then 34%N else c) <$> js s.
Arguments html : simpl never.

(** [a +++ b] is JavaScript's [a + b] on strings. *)
Definition jcat (a b : jstr) : jstr := a ++ b.

Declare Scope js_scope.
Delimit Scope js_scope with js.
Notation "a +++ b" := (jcat a b) (at level 60, right associativity) : js_scope.
#[global] Open Scope js_scope.

(** ** Truthiness

    The coercion to Boolean of [if (x)], [!x], [x && y] and [x || y]. A
    property that an object does not have reads as [undefined], here [None]. *)

Class Truthy (A : Type) := truthy : A -> bool.
#[global] Hint Mode Truthy ! : typeclass_instances.

#[export] Instance truthy_bool : Truthy bool := fun b => b.
#[export] Instance truthy_Z : Truthy Z := fun z => negb (z =? 0).
#[export] Instance truthy_jstr : Truthy jstr :=
  fun s => match s with [] => false | _ => true end.
#[export] Instance truthy_option {A} `{Truthy A} : Truthy (option A) :=
  fun o => match o with Some a => truthy a | None => false end.

(** [o || d] where [o] may be [undefined]. *)
Definition or_else {A} `{Truthy A} (o : option A) (d : A) : A :=
  match o with
  | Some a => if truthy a then a else d
  | None => d
  end.

(** ** Statements: state, exceptions

    A statement runs in a state [W]; an exception leaves the mutations made
    before it in place. *)

Inductive error :=
| TypeError (what : string)
| LibError (what : string).

Inductive result (A : Type) :=
| Ok (a : A)
| Throw (e : error).
Arguments Ok {A} a.
Arguments Throw {A} e.

Definition M (W A : Type) : Type := W -> result A * W.

Section monad.
Context {W : Type}.

Definition mret' {A} (a : A) : M W A := fun w => (Ok a, w).
Definition mthrow {A} (e : error) : M W A := fun w => (Throw e, w).
Definition mbind' {A B} (m : M W A) (k : A -> M W B) : M W B :=
  fun w => match m w with
           | (Ok a, w') => k a w'
           | (Throw e, w') => (Throw e, w')
           end.
Definition gets {A} (f : W -> A) : M W A := fun w => (Ok (f w), w).
Definition modify (f : W -> W) : M W unit := fun w => (Ok tt, f w).
Definition lift {A} (r : result A) : M W A := fun w => (r, w).

(** [for (const x of xs) body(x)] and [xs.forEach(body)]. *)
Fixpoint for_each {A} (xs : list A) (body : A -> M W unit) : M W unit :=
  match xs with
  | [] => mret' tt
  | x :: xs' => mbind' (body x) (fun _ => for_each xs' body)
  end.

Definition when (b : bool) (m : M W unit) : M W unit :=
  if b then m else mret' tt.

(** An exception that escapes an event listener is reported and does not
    reach the code that dispatched the event. *)
Definition dispatch (m : M W unit) : M W unit :=
  fun w => (Ok tt, snd (m w)).
End monad.

Notation "x <-- m ;; k" := (mbind' m (fun x => k))
  (at level 100, m at next level, right associativity) : js_scope.
Notation "m ;;; k" := (mbind' m (fun _ => k))
  (at level 100, right associativity) : js_scope.

(** Fallible expressions, without a state. *)
Definition rbind {A B} (r : result A) (k : A -> result B) : result B :=
  match r with Ok a => k a | Throw e => Throw e end.
Notation "x <-? r ;; k" := (rbind r (fun x => k))
  (at level 100, r at next level, right associativity) : js_scope.

Definition is_ok {A} (r : result A) : bool :=
  match r with Ok _ => true | Throw _ => false end.

(** ** Automation *)

Create HintDb mesh.

(** Unfold the monad and run as far as the state allows. *)
Ltac mrun :=
  cbv [mbind' mret' mthrow gets modify lift when dispatch rbind]; cbn.

(** Prove a closed decidable proposition by computation. *)
Ltac by_decide := apply (bool_decide_unpack _); vm_compute; exact I.

Ltac case_if :=
  match goal with
  | |- context [if ?b then _ else _] => destruct b eqn:?
  end.

(** ** Lists *)

Lemma bind_ok {W A B} (m : M W A) (k : A -> M W B) w a w' :
  m w = (Ok a, w') -> mbind' m k w = k a w'.
Proof. intros E. unfold mbind'. by rewrite E. Qed.

Lemma for_each_modify {W A} (f : A -> W -> W) (xs : list A) (w : W) :
  for_each xs (fun x => modify (f x)) w = (Ok tt, foldl (fun w x => f x w) w xs).
Proof. revert w; induction xs as [|x xs IH]; intros w; [done|]. cbn. apply IH. Qed.

Lemma for_each_app {W A} (xs ys : list A) (body : A -> M W unit) (w : W) :
  for_each (xs ++ ys) body w
  = (for_each xs body ;;; for_each ys body) w.
Proof.
  revert w; induction xs as [|x xs IH]; intros w; [done|].
  cbn. unfold mbind'. destruct (body x w) as [[[]|e] w'] eqn:E; [|done].
  rewrite IH. done.
Qed.

(** A loop invariant for a [for_each] whose body never throws. *)
Lemma for_each_ok {W A} (P : W -> Prop) (xs : list A) (body : A -> M W unit) (w : W) :
  P w ->
  (forall x w', x ∈ xs -> P w' -> exists w'', body x w' = (Ok tt, w'') /\ P w'') ->
  exists w', for_each xs body w = (Ok tt, w') /\ P w'.
Proof.
  revert w; induction xs as [|x xs IH]; intros w HP Hb; [by exists w|].
  destruct (Hb x w) as (w1 & E & HP1); [left|done|].
  cbn. unfold mbind'. rewrite E. apply IH; [done|].
  intros y w' Hy. apply Hb. by right.
Qed.

Lemma filter_length_le {A} (P : A -> Prop) `{forall x, Decision (P x)} (l : list A) :
  (length (filter P l) <= length l)%nat.
Proof. apply length_filter. Qed.

(** Filtering by a Boolean function. *)
Lemma length_filter_cons {A} (f : A -> bool) (x : A) (l : list A) :
  length (filter (fun y => f y = true) (x :: l))
  = ((if f x then 1 else 0) + length (filter (fun y => f y = true) l))%nat.
Proof. rewrite filter_cons. by destruct (f x). Qed.

Lemma filter_all {A} (P : A -> Prop) `{forall x, Decision (P x)} (l : list A) :
  Forall P l -> filter P l = l.
Proof. induction 1 as [|x l Hx _ IH]; [done|]. by rewrite filter_cons_True, IH. Qed.

Lemma filter_none {A} (P : A -> Prop) `{forall x, Decision (P x)} (l : list A) :
  Forall (fun x => ~ P x) l -> filter P l = [].
Proof. induction 1 as [|x l Hx _ IH]; [done|]. by rewrite filter_cons_False, IH. Qed.

Lemma filter_length_all {A} (P : A -> Prop) `{forall x, Decision (P x)} (l : list A) :
  (length l <= length (filter P l))%nat -> Forall P l.
Proof.
  induction l as [|x l IH]; [constructor|]. rewrite filter_cons.
  pose proof (length_filter P l). case_decide; cbn; [|lia].
  intros Hl. constructor; [done|]. apply IH. lia.
Qed.

Lemma StronglySorted_filter {A} (R : A -> A -> Prop) (P : A -> Prop) `{forall x, Decision (P x)} l :
  StronglySorted R l -> StronglySorted R (filter P l).
Proof.
  induction 1 as [|x l _ IH Hx]; [constructor|]. rewrite filter_cons. case_decide; [|done].
  constructor; [done|]. apply Forall_forall. intros y [_ Hy]%list_elem_of_filter.
  by eapply Forall_forall in Hx.
Qed.

Lemma StronglySorted_impl {A} (R S : A -> A -> Prop) l :
  (forall a b, R a b -> S a b) -> StronglySorted R l -> StronglySorted S l.
Proof.
  intros Hi. induction 1 as [|x l _ IH Hx]; constructor; [done|].
  eapply Forall_impl; [exact Hx|apply Hi].
Qed.

(** [while (l.length > n) l.shift()]. *)
Definition keep_last {A} (n : nat) (l : list A) : list A := drop (length l - n) l.

Lemma keep_last_length {A} n (l : list A) :
  length (keep_last n l) = (length l `min` n)%nat.
Proof. unfold keep_last. rewrite length_drop. lia. Qed.

Lemma keep_last_all {A} n (l : list A) :
  (length l <= n)%nat -> keep_last n l = l.
Proof. intros H. unfold keep_last. by replace (length l - n)%nat with 0%nat by lia. Qed.

Lemma keep_last_suffix {A} n (l : list A) :
  exists l0, l = l0 ++ keep_last n l.
Proof. exists (take (length l - n) l). unfold keep_last. by rewrite take_drop. Qed.

Lemma keep_last_app {A} n (l l' : list A) : keep_last n (keep_last n l ++ l') = keep_last n (l ++ l').
Proof.
  unfold keep_last. rewrite !length_app, length_drop.
  destruct (decide (length l <= n)%nat) as [Hl|Hl].
  { replace (length l - n)%nat with 0%nat by lia. rewrite drop_0. f_equal. lia. }
  assert (drop (length l - n) l ++ l' = drop (length l - n) (l ++ l')) as ->
    by (by rewrite drop_app_le by lia).
  rewrite drop_drop. f_equal. lia.
Qed.
