(* ===== verification/Sort.v ===== *)
(** * [Array.prototype.sort]

    For a comparison function that is a total preorder, [sort] returns the one
    sorted permutation that keeps equal elements in their order; insertion
    computes it. *)

From S2P Require Import Prelude.

Section sort.
Context {A : Type} (cmp : A -> A -> Z).

(** [x] goes before the first element that is not smaller. *)
Fixpoint insert_sorted (x : A) (l : list A) : list A :=
  match l with
  | [] => [x]
  | y :: l' => if cmp x y <=? 0 then x :: l else y :: insert_sorted x l'
  end.

Definition sort (l : list A) : list A := foldr insert_sorted [] l.

Lemma insert_perm x l : insert_sorted x l ≡ₚ x :: l.
Proof.
  induction l as [|y l IH]; [done|]. cbn. case_if; [done|]. rewrite IH. apply Permutation_swap.
Qed.

Lemma sort_perm l : sort l ≡ₚ l.
Proof. induction l as [|x l IH]; [done|]. cbn. by rewrite insert_perm, IH. Qed.

Lemma sort_length l : length (sort l) = length l.
Proof. by rewrite sort_perm. Qed.

Definition ordered (a b : A) : Prop := cmp a b <= 0.

(** [cmp] is a total preorder of the elements that satisfy [P]. *)
Context (P : A -> Prop).
Context (cmp_total : forall a b, cmp a b <= 0 \/ cmp b a <= 0).
Context (cmp_trans : forall a b c, P a -> P b -> P c -> cmp a b <= 0 -> cmp b c <= 0 -> cmp a c <= 0).

Lemma insert_ordered x l :
  P x -> Forall P l -> StronglySorted ordered l -> StronglySorted ordered (insert_sorted x l).
Proof.
  intros Hx HP. induction 1 as [|y l Hl IH Hy]; [repeat constructor|]. cbn.
  apply Forall_cons in HP as [HPy HP]. destruct (Z.leb_spec (cmp x y) 0).
  - constructor; [by constructor|]. constructor; [done|]. apply Forall_forall. intros z Hz.
    rewrite Forall_forall in HP. rewrite Forall_forall in Hy. apply (cmp_trans x y z); auto. by apply Hy.
  - constructor; [by apply IH|]. apply Forall_forall. intros z. rewrite insert_perm.
    intros [->|Hz]%elem_of_cons; [|by eapply Forall_forall in Hy].
    unfold ordered. destruct (cmp_total x y); [lia|done].
Qed.

Lemma sort_P l : Forall P l -> Forall P (sort l).
Proof. intros HP. by rewrite sort_perm. Qed.

Lemma sort_ordered l : Forall P l -> StronglySorted ordered (sort l).
Proof.
  induction 1 as [|x l Hx HP IH]; [constructor|]. apply insert_ordered; [done|by apply sort_P|done].
Qed.

(** Elements equal to [k] stay in their order. *)
Definition equal_to (k a : A) : Prop := cmp k a <= 0 /\ cmp a k <= 0.
#[export] Instance equal_to_dec k a : Decision (equal_to k a).
Proof. unfold equal_to. apply _. Defined.

Lemma insert_stable k x l :
  P k -> P x -> Forall P l -> StronglySorted ordered l ->
  filter (equal_to k) (insert_sorted x l) = filter (equal_to k) (x :: l).
Proof.
  intros Hk Hx HP. induction 1 as [|y l Hl IH Hy]; [done|]. cbn [insert_sorted].
  apply Forall_cons in HP as [HPy HP].
  destruct (Z.leb_spec (cmp x y) 0) as [Hxy|Hxy]; [done|].
  rewrite filter_cons, IH, !filter_cons by done.
  destruct (decide (equal_to k y)) as [[Hk1 Hk2]|]; [|done].
  assert (~ equal_to k x) as Hn.
  { intros [Hkx Hxk]. pose proof (cmp_trans x k y Hx Hk HPy Hxk Hk1). lia. }
  by rewrite !decide_False by done.
Qed.

Lemma sort_stable k l :
  P k -> Forall P l -> filter (equal_to k) (sort l) = filter (equal_to k) l.
Proof.
  intros Hk. induction 1 as [|x l Hx HP IH]; [done|]. cbn [sort foldr]. fold (sort l).
  rewrite insert_stable by (done || by apply sort_P || by apply sort_ordered).
  by rewrite !filter_cons, IH.
Qed.
End sort.
