(* ===== verification/JsString.v ===== *)
(** * JavaScript string operations

    The operations of [String.prototype], [Number.prototype.toString] and
    [parseInt] that the dashboard scripts use, on UTF-16 code units. Case
    mapping and the locale-dependent operations are in [Platform]. *)

From S2P Require Import Prelude.

(** ** Numbers to strings *)

(** The digit of value [d], for radixes up to 16. *)
Definition digit_char (d : Z) : N :=
  Z.to_N (if d <? 10 then 48 + d else 87 + d).

Definition digit_val (c : N) : option Z :=
  let z := Z.of_N c in
  if (48 <=? z) && (z <=? 57) then Some (z - 48)
  else if (97 <=? z) && (z <=? 102) then Some (z - 87)
  else if (65 <=? z) && (z <=? 70) then Some (z - 55)
  else None.

(** Digits of [n >= 0] in radix [b], most significant first, in front of
    [acc]. One unit of fuel per digit. *)
Fixpoint digits (fuel : nat) (b n : Z) (acc : list Z) : list Z :=
  match fuel with
  | O => acc
  | S f => if n <? b then n :: acc else digits f b (n / b) (n mod b :: acc)
  end.

(** The binary length of [n] bounds its number of digits in any radix. *)
Definition digit_fuel (n : Z) : nat := S (Z.to_nat (Z.log2 n)).

(** [n.toString(b)] for an integer [n]. *)
Definition toString_radix (b n : Z) : jstr :=
  if n <? 0
  then 45%N :: (digit_char <$> digits (digit_fuel (- n)) b (- n) [])
  else digit_char <$> digits (digit_fuel n) b n [].

Definition dec (n : Z) : jstr := toString_radix 10 n.
Definition hex (n : Z) : jstr := toString_radix 16 n.

(** [s.padStart(n, c)] for a one-unit filler. *)
Definition padStart (n : nat) (c : N) (s : jstr) : jstr :=
  replicate (n - length s) c ++ s.

(** [s.slice(-n)] *)
Definition slice_last (n : nat) (s : jstr) : jstr := drop (length s - n) s.

(** [n >>> 0]: ToUint32. *)
Definition to_uint32 (n : Z) : Z := n mod 2 ^ 32.

(** ** White space, trimming, searching *)

Definition is_ws (c : N) : bool :=
  existsb (N.eqb c)
    [9; 10; 11; 12; 13; 32; 160; 5760; 8192; 8193; 8194; 8195; 8196; 8197; 8198;
     8199; 8200; 8201; 8202; 8232; 8233; 8239; 8287; 12288; 65279]%N.

Fixpoint trim_start (s : jstr) : jstr :=
  match s with
  | [] => []
  | c :: s' => if is_ws c then trim_start s' else s
  end.

Definition trim (s : jstr) : jstr := reverse (trim_start (reverse (trim_start s))).

Fixpoint is_prefix (p s : jstr) : bool :=
  match p, s with
  | [], _ => true
  | _, [] => false
  | c :: p', d :: s' => (c =? d)%N && is_prefix p' s'
  end.

(** [s.includes(p)]; [s.indexOf(p) !== -1] *)
Fixpoint includes (s p : jstr) : bool :=
  is_prefix p s || match s with [] => false | _ :: s' => includes s' p end.

(** ** parseInt *)

Fixpoint digit_prefix (b : Z) (s : jstr) : list Z :=
  match s with
  | [] => []
  | c :: s' => match digit_val c with
               | Some d => if d <? b then d :: digit_prefix b s' else []
               | None => []
               end
  end.

Definition from_digits (b : Z) (ds : list Z) : Z :=
  foldl (fun acc d => acc * b + d) 0 ds.

(** [parseInt(s, b)] for a given radix; [None] is [NaN]. *)
Definition parseInt_radix (b : Z) (s : jstr) : option Z :=
  let s := trim_start s in
  let '(neg, s) := match s with
                   | 45%N :: t => (true, t)
                   | 43%N :: t => (false, t)
                   | _ => (false, s)
                   end in
  match digit_prefix b s with
  | [] => None
  | ds => Some (if neg : bool then - from_digits b ds else from_digits b ds)
  end.

(** [parseInt(s, 10)]; on the decimal keys of [nodeDir], which have no [0x]
    prefix, also [parseInt(s)]. *)
Definition parseInt (s : jstr) : option Z := parseInt_radix 10 s.

(** ** Lemmas: digits *)

Lemma digits_acc f b n acc : digits f b n acc = digits f b n [] ++ acc.
Proof.
  revert n acc; induction f as [|f IH]; intros n acc; [done|]. cbn.
  case_if; [done|]. rewrite IH, (IH _ [_]), <- app_assoc. done.
Qed.

Lemma from_digits_app b ds1 ds2 :
  from_digits b (ds1 ++ ds2)
  = foldl (fun acc d => acc * b + d) (from_digits b ds1) ds2.
Proof. unfold from_digits. by rewrite foldl_app. Qed.

Lemma from_digits_snoc b ds d : from_digits b (ds ++ [d]) = from_digits b ds * b + d.
Proof. by rewrite from_digits_app. Qed.

Lemma digits_value f b n :
  2 <= b -> 0 <= n < b ^ Z.of_nat f -> from_digits b (digits f b n []) = n.
Proof.
  intros Hb. revert n; induction f as [|f IH]; intros n Hn.
  { cbn in *. lia. }
  cbn [digits]. destruct (Z.ltb_spec n b) as [|Hge]; [done|].
  rewrite digits_acc, from_digits_snoc, IH; [pose proof (Z.div_mod n b); lia|].
  split; [apply Z.div_pos; lia|]. apply Z.div_lt_upper_bound; [lia|].
  rewrite Nat2Z.inj_succ, Z.pow_succ_r in Hn; lia.
Qed.

Lemma digits_range f b n :
  2 <= b -> 0 <= n -> Forall (fun d => 0 <= d < b) (digits f b n []).
Proof.
  intros Hb. revert n; induction f as [|f IH]; intros n Hn; [constructor|].
  cbn [digits]. destruct (Z.ltb_spec n b); [by constructor|].
  rewrite digits_acc. apply Forall_app. split; [apply IH, Z.div_pos; lia|].
  constructor; [apply Z.mod_pos_bound; lia|constructor].
Qed.

Lemma digits_nonempty f b n acc : digits (S f) b n acc <> [].
Proof.
  revert n acc. induction f as [|f IH]; intros n acc; cbn; case_if; try done. apply IH.
Qed.

Lemma digits_length_le f b n k :
  2 <= b -> 0 <= n < b ^ Z.of_nat k -> (0 < k)%nat -> (length (digits f b n []) <= k)%nat.
Proof.
  intros Hb. revert n k; induction f as [|f IH]; intros n k Hn Hk; [cbn; lia|].
  cbn [digits]. destruct (Z.ltb_spec n b) as [|Hge]; [cbn; lia|].
  rewrite digits_acc, length_app. cbn.
  destruct k as [|[|k]]; [lia|rewrite Z.pow_1_r in Hn; lia|].
  assert (length (digits f b (n / b) []) <= S k)%nat; [|lia].
  apply IH; [|lia]. split; [apply Z.div_pos; lia|]. apply Z.div_lt_upper_bound; [lia|].
  rewrite (Nat2Z.inj_succ (S k)), Z.pow_succ_r in Hn; lia.
Qed.

Lemma digit_fuel_enough b n : 2 <= b -> 0 <= n -> n < b ^ Z.of_nat (digit_fuel n).
Proof.
  intros Hb Hn. unfold digit_fuel. rewrite Nat2Z.inj_succ, Z2Nat.id by apply Z.log2_nonneg.
  destruct (Z.eq_dec n 0) as [->|]; [change (Z.succ (Z.log2 0)) with 1; lia|].
  apply Z.lt_le_trans with (2 ^ Z.succ (Z.log2 n)).
  - apply Z.log2_spec. lia.
  - pose proof (Z.log2_nonneg n). apply Z.pow_le_mono_l. lia.
Qed.

Lemma digit_val_char d : 0 <= d < 16 -> digit_val (digit_char d) = Some d.
Proof.
  intros Hd.
  assert (d ∈ seqZ 0 16) as Hin by (apply elem_of_seqZ; lia).
  repeat (apply elem_of_cons in Hin as [->|Hin]; [done|]). by apply elem_of_nil in Hin.
Qed.

Lemma digit_prefix_chars b ds rest :
  b <= 16 -> Forall (fun d => 0 <= d < b) ds -> digit_prefix b rest = [] ->
  digit_prefix b ((digit_char <$> ds) ++ rest) = ds.
Proof.
  intros Hb Hds Hr. induction Hds as [|d ds Hd _ IH]; [done|].
  cbn. rewrite digit_val_char by lia. destruct (Z.ltb_spec d b); [by rewrite IH|lia].
Qed.

(** A digit is neither white space nor a sign. *)
Lemma digit_char_plain d :
  0 <= d < 16 -> is_ws (digit_char d) = false /\ digit_char d <> 45%N /\ digit_char d <> 43%N.
Proof.
  intros Hd.
  assert (d ∈ seqZ 0 16) as Hin by (apply elem_of_seqZ; lia).
  repeat (apply elem_of_cons in Hin as [->|Hin]; [by vm_compute|]).
  by apply elem_of_nil in Hin.
Qed.

(** [parseInt(n.toString(b), b) = n] *)
Lemma parseInt_toString b n :
  2 <= b <= 16 -> 0 <= n -> parseInt_radix b (toString_radix b n) = Some n.
Proof.
  intros Hb Hn. unfold toString_radix. destruct (Z.ltb_spec n 0); [lia|].
  pose proof (digits_range (digit_fuel n) b n ltac:(lia) Hn) as Hr.
  pose proof (digits_value (digit_fuel n) b n ltac:(lia)
                (conj Hn (digit_fuel_enough b n ltac:(lia) Hn))) as Hv.
  destruct (digits (digit_fuel n) b n []) as [|d ds] eqn:E;
    [by apply digits_nonempty in E|].
  pose proof Hr as [Hd0 _]%Forall_cons. destruct (digit_char_plain d) as (Hw & Hm & Hp); [lia|].
  unfold parseInt_radix. cbn [fmap list_fmap trim_start]. rewrite Hw.
  assert (digit_prefix b (digit_char <$> d :: ds) = d :: ds) as Hd.
  { rewrite <- (app_nil_r (_ <$> _)). apply digit_prefix_chars; [lia|done|done]. }
  cbn [fmap list_fmap] in Hd.
  destruct (digit_char d) as [|p] eqn:Ep; [by rewrite Hd, Hv|].
  do 6 (destruct p as [p|p|]; try (rewrite Hd, Hv; done)); done.
Qed.

Lemma toString_inj b n m :
  2 <= b <= 16 -> 0 <= n -> 0 <= m -> toString_radix b n = toString_radix b m -> n = m.
Proof.
  intros Hb Hn Hm E. apply (f_equal (parseInt_radix b)) in E.
  rewrite !parseInt_toString in E by lia. by injection E.
Qed.

Lemma parseInt_dec n : 0 <= n -> parseInt (dec n) = Some n.
Proof. intros. by apply parseInt_toString. Qed.

Lemma dec_inj n m : 0 <= n -> 0 <= m -> dec n = dec m -> n = m.
Proof. intros ??. by apply toString_inj. Qed.

Lemma dec_nonempty n : dec n <> [].
Proof.
  unfold dec, toString_radix. case_if; [done|].
  intros E%fmap_nil_inv. by apply digits_nonempty in E.
Qed.

Lemma to_uint32_small n : 0 <= n < 2 ^ 32 -> to_uint32 n = n.
Proof. apply Z.mod_small. Qed.

(** ** Lemmas: padding *)

Lemma padStart_length n c s : length (padStart n c s) = (n `max` length s)%nat.
Proof. unfold padStart. rewrite length_app, length_replicate. lia. Qed.

Lemma hex_length n k :
  0 <= n < 16 ^ Z.of_nat k -> (0 < k)%nat -> (length (hex n) <= k)%nat.
Proof.
  intros Hn Hk. unfold hex, toString_radix. destruct (Z.ltb_spec n 0); [lia|].
  rewrite length_fmap. apply digits_length_le; lia.
Qed.

Lemma digit_prefix_zeros b k s :
  0 < b -> digit_prefix b (replicate k 48%N ++ s) = replicate k 0 ++ digit_prefix b s.
Proof.
  intros Hb. induction k as [|k IH]; [done|]. cbn [replicate app digit_prefix].
  change (digit_val 48) with (Some 0). cbv iota.
  rewrite (proj2 (Z.ltb_lt 0 b) Hb). by rewrite IH.
Qed.

Lemma from_digits_zeros b k ds : from_digits b (replicate k 0 ++ ds) = from_digits b ds.
Proof.
  rewrite from_digits_app.
  assert (from_digits b (replicate k 0) = 0) as ->; [|done].
  induction k as [|k IH]; [done|]. rewrite replicate_S_end, from_digits_snoc, IH. lia.
Qed.

(** Zero padding does not change the number that is read back. *)
Lemma parse_padded_hex n k :
  0 <= n -> parseInt_radix 16 (padStart k 48%N (hex n)) = Some n.
Proof.
  intros Hn. unfold padStart. destruct (k - length (hex n))%nat as [|j] eqn:Ej.
  { by apply parseInt_toString. }
  unfold parseInt_radix. cbn [replicate app trim_start is_ws].
  change (is_ws 48) with false. cbv iota.
  change (48%N :: replicate j 48%N ++ hex n) with (replicate (S j) 48%N ++ hex n).
  rewrite digit_prefix_zeros by lia. cbn [replicate app].
  pose proof (parseInt_toString 16 n ltac:(lia) Hn) as Hp.
  unfold hex, toString_radix in *. destruct (Z.ltb_spec n 0); [lia|].
  assert (digit_prefix 16 (digit_char <$> digits (digit_fuel n) 16 n [])
          = digits (digit_fuel n) 16 n []) as Hd.
  { rewrite <- (app_nil_r (_ <$> _)).
    apply digit_prefix_chars; [lia|by apply digits_range|done]. }
  rewrite Hd. change (0 :: replicate j 0 ++ digits (digit_fuel n) 16 n [])
    with (replicate (S j) 0 ++ digits (digit_fuel n) 16 n []).
  rewrite from_digits_zeros. f_equal.
  apply digits_value; [lia|]. split; [done|]. apply digit_fuel_enough; lia.
Qed.

#[export] Hint Resolve parseInt_dec dec_nonempty : mesh.

(** ** Text without markup characters *)

(** Neither an ampersand nor an opening angle bracket. *)
Definition calm_char (c : N) : Prop := c <> 38%N /\ c <> 60%N.
Definition calm (s : jstr) : Prop := Forall calm_char s.

#[export] Instance calm_decision s : Decision (calm s).
Proof. unfold calm, calm_char. apply _. Defined.

Lemma calm_app s1 s2 : calm s1 -> calm s2 -> calm (s1 ++ s2).
Proof. intros. by apply Forall_app. Qed.

Lemma digit_char_calm d : 0 <= d < 16 -> calm_char (digit_char d).
Proof.
  intros Hd. assert (d ∈ seqZ 0 16) as Hin by (apply elem_of_seqZ; lia).
  repeat (apply elem_of_cons in Hin as [->|Hin]; [by vm_compute|]). by apply elem_of_nil in Hin.
Qed.

Lemma toString_calm b n : 2 <= b <= 16 -> calm (toString_radix b n).
Proof.
  intros Hb. unfold toString_radix.
  assert (forall m, 0 <= m -> calm (digit_char <$> digits (digit_fuel m) b m [])) as Hd.
  { intros m Hm. apply Forall_fmap. eapply Forall_impl; [apply (digits_range _ b); lia|].
    intros d [H0 H1]. apply digit_char_calm. lia. }
  destruct (Z.ltb_spec n 0); [constructor; [done|]|]; apply Hd; lia.
Qed.

Lemma dec_calm n : calm (dec n).
Proof. apply toString_calm. lia. Qed.

Lemma padStart_calm n c s : calm_char c -> calm s -> calm (padStart n c s).
Proof. intros Hc Hs. unfold padStart. apply calm_app; [by apply Forall_replicate|done]. Qed.

Lemma take_calm n s : calm s -> calm (take n s).
Proof. intros Hs. by apply Forall_take. Qed.
Lemma drop_calm n s : calm s -> calm (drop n s).
Proof. intros Hs. by apply Forall_drop. Qed.
