(* ===== verification/JsNumber.v ===== *)
(** * JavaScript numbers

    Integer-valued fields (node numbers, counters, RSSI, times) are [Z]. The
    fields the server declares as floating point are IEEE 754 binary64 values,
    computed exactly with [SpecFloat]. *)

From S2P Require Import Prelude JsString.
From Stdlib Require Export SpecFloat.

(** A JavaScript number: a binary64 value. *)
Definition num := spec_float.

Definition num_of_Z (z : Z) : num := binary_normalize 53 1024 z 0 false.
Definition num_add (a b : num) : num := SFadd 53 1024 a b.
Definition num_div (a b : num) : num := SFdiv 53 1024 a b.
Definition num_ltb (a b : num) : bool := SFltb a b.
Definition num_leb (a b : num) : bool := SFleb a b.

(** [a / b] of two integers. *)
Definition num_quot (a b : Z) : num := num_div (num_of_Z a) (num_of_Z b).

Definition num_is_nan (a : num) : bool := match a with S754_nan => true | _ => false end.

#[export] Instance truthy_num : Truthy num :=
  fun a => match a with S754_zero _ | S754_nan => false | _ => true end.

#[export] Instance num_eq_dec : EqDecision num.
Proof. unfold num. solve_decision. Defined.

(** [a === 0] *)
Definition num_is_zero (a : num) : bool := match a with S754_zero _ => true | _ => false end.

(** [Math.min] and [Math.max] of two numbers; [-0] is smaller than [+0]. *)
Definition math_min (a b : num) : num :=
  if num_is_nan a || num_is_nan b then S754_nan
  else if num_ltb a b then a
  else if num_ltb b a then b
  else match a, b with
       | S754_zero sa, S754_zero sb => S754_zero (sa || sb)
       | _, _ => a
       end.

Definition math_max (a b : num) : num :=
  if num_is_nan a || num_is_nan b then S754_nan
  else if num_ltb a b then b
  else if num_ltb b a then a
  else match a, b with
       | S754_zero sa, S754_zero sb => S754_zero (sa && sb)
       | _, _ => a
       end.

(** [Math.floor] of a finite number, as an integer. *)
Definition num_floor (a : num) : Z :=
  match a with
  | S754_finite s m e =>
      let z := if s then Z.neg m else Z.pos m in
      if 0 <=? e then z * 2 ^ e else z / 2 ^ (- e)
  | _ => 0
  end.

(** ** [Number.prototype.toFixed]

    For [|x| < 10^21], the digits of the integer [n] for which [n / 10^f - x]
    is closest to zero, the larger one of two. *)

Definition fixed_scaled (m : positive) (e : Z) (f : Z) : Z :=
  if 0 <=? e then Z.pos m * 2 ^ e * 10 ^ f
  else (2 * Z.pos m * 10 ^ f + 2 ^ (- e)) / 2 ^ (1 - e).

(** The integer [n] written with [f] decimals. *)
Definition fixed_digits (f : nat) (n : Z) : jstr :=
  let s := padStart (S f) 48%N (dec n) in
  match f with
  | O => s
  | _ => take (length s - f) s ++ 46%N :: drop (length s - f) s
  end.

Definition fixed_str (f : nat) (neg : bool) (m : positive) (e : Z) : jstr :=
  let d := fixed_digits f (fixed_scaled m e (Z.of_nat f)) in
  if neg then 45%N :: d else d.

Definition below_1e21 (m : positive) (e : Z) : bool :=
  if 0 <=? e then Z.pos m * 2 ^ e <? 10 ^ 21 else Z.pos m <? 10 ^ 21 * 2 ^ (- e).

(** [x.toFixed(f)]; [str] is [Number.prototype.toString], which is what the
    method returns outside that range. *)
Definition toFixed (str : num -> jstr) (x : num) (f : nat) : jstr :=
  match x with
  | S754_zero _ => fixed_digits f 0
  | S754_finite s m e => if below_1e21 m e then fixed_str f s m e else str x
  | _ => str x
  end.

(** ** Lemmas *)

Lemma SFcompare_refl_finite s m e : SFcompare (S754_finite s m e) (S754_finite s m e) = Some Eq.
Proof. cbn. rewrite Z.compare_refl. unfold Pos.compare. by destruct s; rewrite Pos.compare_cont_refl. Qed.

Lemma num_leb_refl a : num_is_nan a = false -> num_leb a a = true.
Proof.
  destruct a as [s|s| |s m e]; try done; intros _.
  - by destruct s.
  - unfold num_leb, SFleb. by rewrite SFcompare_refl_finite.
Qed.

Lemma num_ltb_leb a b : num_ltb a b = true -> num_leb a b = true.
Proof.
  unfold num_ltb, num_leb, SFltb, SFleb. by destruct (SFcompare a b) as [[]|].
Qed.

(** Clamping to an interval [[lo, hi]] whose bounds compare. *)
Definition clamp (lo hi x : num) : num := math_max lo (math_min hi x).

Lemma math_min_le_l a b :
  num_is_nan b = false -> num_is_nan a = false -> num_leb (math_min a b) a = true.
Proof.
  intros Hb Ha. unfold math_min. rewrite Ha, Hb. cbn.
  destruct (num_ltb a b); [by apply num_leb_refl|].
  destruct (num_ltb b a) eqn:E; [by apply num_ltb_leb|].
  destruct a as [sa|sa| |sa ma ea]; destruct b; try done; by apply num_leb_refl.
Qed.

Lemma math_min_not_nan a b :
  num_is_nan a = false -> num_is_nan b = false -> num_is_nan (math_min a b) = false.
Proof.
  intros Ha Hb. unfold math_min. rewrite Ha, Hb. cbn.
  destruct (num_ltb a b); [done|]. destruct (num_ltb b a); [done|].
  by destruct a, b.
Qed.

Lemma clamp_lower lo hi x :
  num_is_nan lo = false -> num_is_nan hi = false -> num_is_nan x = false ->
  num_leb lo (clamp lo hi x) = true.
Proof.
  intros Hl Hh Hx. unfold clamp, math_max. rewrite Hl, math_min_not_nan by done. cbn.
  destruct (num_ltb lo _) eqn:E; [by apply num_ltb_leb|].
  destruct (num_ltb _ lo); [by apply num_leb_refl|].
  destruct lo; destruct (math_min hi x); try done; by apply num_leb_refl.
Qed.

Lemma clamp_upper lo hi x :
  num_is_nan hi = false -> num_is_nan x = false ->
  num_is_nan lo = false -> num_leb lo hi = true -> num_is_zero hi = false ->
  num_leb (clamp lo hi x) hi = true.
Proof.
  intros Hh Hx Hl Hlh Hz. unfold clamp, math_max.
  rewrite Hl, math_min_not_nan by done. cbn.
  pose proof (math_min_le_l hi x Hx Hh) as Hm.
  destruct (num_ltb lo _); [done|]. destruct (num_ltb _ lo); [done|].
  destruct lo; try done; by destruct (math_min hi x).
Qed.

(** A finite number is not zero exactly when it is truthy. *)
Lemma num_truthy_zero a : num_is_nan a = false -> truthy a = negb (num_is_zero a).
Proof. by destruct a. Qed.

(** ** No operation used by the scripts makes a NaN of finite numbers *)

Lemma shr_1_nonneg r : 0 <= shr_m r -> 0 <= shr_m (shr_1 r).
Proof. destruct r as [[|[p|p|]|p] ? ?]; cbn; lia. Qed.

Lemma iter_shr_nonneg p r : 0 <= shr_m r -> 0 <= shr_m (iter_pos shr_1 p r).
Proof. revert r. induction p; intros r Hr; cbn; auto using shr_1_nonneg. Qed.

Lemma shr_fexp_nonneg m e l : 0 <= m -> 0 <= shr_m (fst (shr_fexp 53 1024 m e l)).
Proof.
  intros Hm. unfold shr_fexp, shr.
  assert (0 <= shr_m (shr_record_of_loc m l)) by (by destruct l as [|[]]).
  destruct (fexp _ _ _ - e); cbn; auto using iter_shr_nonneg.
Qed.

Lemma round_nonneg m l : 0 <= m -> 0 <= round_nearest_even m l.
Proof. intros Hm. destruct l as [|[]]; cbn; try lia. destruct (Z.even m); lia. Qed.

Lemma round_aux_not_nan s m e l :
  0 <= m -> num_is_nan (binary_round_aux 53 1024 s m e l) = false.
Proof.
  intros Hm. unfold binary_round_aux.
  pose proof (shr_fexp_nonneg m e l Hm) as H1.
  destruct (shr_fexp 53 1024 m e l) as [r1 e1]. cbn in H1.
  pose proof (shr_fexp_nonneg (round_nearest_even (shr_m r1) (loc_of_shr_record r1)) e1 loc_Exact
                (round_nonneg _ _ H1)) as H2.
  destruct (shr_fexp 53 1024 _ e1 loc_Exact) as [r2 e2]. cbn in H2.
  destruct (shr_m r2) as [|p|p]; [done| |lia]. by destruct (e2 <=? _).
Qed.

Lemma normalize_not_nan m e s : num_is_nan (binary_normalize 53 1024 m e s) = false.
Proof.
  destruct m as [|p|p]; [done| |]; cbn; unfold binary_round;
    destruct (shl_align _ _ _) as [mz ez]; by apply round_aux_not_nan.
Qed.

Lemma num_of_Z_not_nan z : num_is_nan (num_of_Z z) = false.
Proof. apply normalize_not_nan. Qed.

(** The values of JSON numbers. *)
Definition finite (a : num) : Prop :=
  match a with S754_zero _ | S754_finite _ _ _ => True | _ => False end.

Lemma finite_not_nan a : finite a -> num_is_nan a = false.
Proof. by destruct a. Qed.

Lemma num_add_not_nan a b :
  finite a -> num_is_nan b = false -> num_is_nan (num_add a b) = false.
Proof.
  intros Ha Hb. unfold num_add.
  destruct a as [sa| | |sa ma ea], b as [sb| | |sb mb eb]; try done; cbn [SFadd];
    [by destruct sa, sb|]. apply normalize_not_nan.
Qed.

Lemma num_div_not_nan a s m e :
  num_is_nan a = false -> num_is_nan (num_div a (S754_finite s m e)) = false.
Proof.
  intros Ha. unfold num_div. destruct a as [sa|sa| |sa ma ea]; try done.
  cbn [SFdiv]. unfold SFdiv_core_binary.
  match goal with |- context [Z.div_eucl ?x ?y] =>
    assert (0 <= x) as Hx; [|pose proof (Z.div_pos x y Hx ltac:(lia)) as Hq; unfold Z.div in Hq;
                             destruct (Z.div_eucl x y) as [q r]] end.
  { case_match; try lia. by apply Z.shiftl_nonneg. }
  by apply round_aux_not_nan.
Qed.

(** ** The order of numbers

    [SFcompare] compares sign, exponent and mantissa lexicographically. *)

Definition order_key (a : num) : Z * Z * Z :=
  match a with
  | S754_zero _ | S754_nan => (0, 0, 0)
  | S754_infinity s => (if s then -2 else 2, 0, 0)
  | S754_finite s m e => if s then (-1, - e, Z.neg m) else (1, e, Z.pos m)
  end.

Definition lex_lt (a b : Z * Z * Z) : Prop :=
  a.1.1 < b.1.1 \/ a.1.1 = b.1.1 /\ (a.1.2 < b.1.2 \/ a.1.2 = b.1.2 /\ a.2 < b.2).

Lemma num_ltb_lex a b :
  num_is_nan a = false -> num_is_nan b = false ->
  num_ltb a b = true <-> lex_lt (order_key a) (order_key b).
Proof.
  intros Ha Hb. unfold num_ltb, SFltb, lex_lt.
  destruct a as [sa|sa| |sa ma ea], b as [sb|sb| |sb mb eb]; try done;
    try destruct sa; try destruct sb; cbn; try (split; [lia|lia]); try (split; [done|lia]).
  - destruct (Z.compare_spec ea eb) as [->|E|E]; cbn; try (split; [done|lia]); try (split; [lia|done]).
    unfold Pos.compare. change (Pos.compare_cont Eq ma mb) with (ma ?= mb)%positive.
    destruct (Pos.compare_spec ma mb); cbn; split; (done || lia).
  - destruct (Z.compare_spec ea eb) as [->|E|E]; cbn; try (split; [done|lia]); try (split; [lia|done]).
    change (Pos.compare_cont Eq ma mb) with (ma ?= mb)%positive.
    destruct (Pos.compare_spec ma mb); cbn; split; (done || lia).
Qed.

Lemma lex_lt_dec a b : lex_lt a b \/ lex_lt b a \/ a = b.
Proof.
  destruct a as [[a1 a2] a3], b as [[b1 b2] b3]. unfold lex_lt. cbn.
  destruct (Z.lt_trichotomy a1 b1) as [|[->|]]; [auto| |auto 6].
  destruct (Z.lt_trichotomy a2 b2) as [|[->|]]; [auto 6| |auto 8].
  destruct (Z.lt_trichotomy a3 b3) as [|[->|]]; auto 10.
Qed.

