(* ===== verification/Platform.v ===== *)
(** * The browser's locale- and implementation-defined functions

    Functions of the JavaScript library whose result depends on the locale, the
    time zone, the Unicode tables or the engine's approximation of a
    transcendental function. They are the fields of a class: every component
    that uses them is verified against the class, and a reference instance shows
    that the laws can hold. *)

From S2P Require Import Prelude JsString JsNumber.

Definition ascii_lower (c : N) : N := (if (65 <=? c) && (c <=? 90) then c + 32 else c)%N.
Definition ascii_upper (c : N) : N := (if (97 <=? c) && (c <=? 122) then c - 32 else c)%N.
Definition is_ascii (s : jstr) : Prop := Forall (fun c => (c < 128)%N) s.

Class Platform := {
  (** [s.toLowerCase()], [s.toUpperCase()] *)
  toLowerCase : jstr -> jstr;
  toUpperCase : jstr -> jstr;
  (** [a.localeCompare(b)] *)
  localeCompare : jstr -> jstr -> Z;
  (** [new Date(ts).toLocaleTimeString([], {hour, minute, second})], without and
      with [fractionalSecondDigits: 3] *)
  localeTime : jstr -> jstr;
  localeTimeMs : jstr -> jstr;
  (** [getHours()], [getMinutes()], [getSeconds()] of [new Date(ts)];
      [None] when the date is invalid *)
  localHMS : jstr -> option (Z * Z * Z);
  (** [new Date(ms).toISOString()] *)
  toISOString : Z -> jstr;
  (** [Number.prototype.toString] of a number that is not an integer *)
  num_str : num -> jstr;
  (** [Math.pow], [Math.log] *)
  math_pow : num -> num -> num;
  math_log : num -> num;

  toLowerCase_ascii s : is_ascii s -> toLowerCase s = ascii_lower <$> s;
  toUpperCase_ascii s : is_ascii s -> toUpperCase s = ascii_upper <$> s;
  localeCompare_sym a b : Z.sgn (localeCompare a b) = - Z.sgn (localeCompare b a);
  localeCompare_trans a b c :
    localeCompare a b <= 0 -> localeCompare b c <= 0 -> localeCompare a c <= 0;
  (** Digits, a point, an exponent, a sign, [Infinity] or [NaN]. *)
  num_str_calm x : calm (num_str x);
  (** For a finite exponent: [Math.pow(1, Infinity)] is [NaN]. *)
  math_pow_unit x y :
    num_leb (num_of_Z 0) x = true -> num_leb x (num_of_Z 1) = true ->
    num_leb (num_of_Z 0) y = true -> finite y ->
    num_leb (num_of_Z 0) (math_pow x y) = true /\ num_leb (math_pow x y) (num_of_Z 1) = true;
}.

Lemma localeCompare_refl `{Platform} a : localeCompare a a = 0.
Proof. pose proof (localeCompare_sym a a). apply Z.sgn_null_iff. lia. Qed.

(** [x.toFixed(f)] *)
Definition fixed `{Platform} (x : num) (f : nat) : jstr := toFixed num_str x f.

Lemma fixed_digits_calm f n : calm (fixed_digits f n).
Proof.
  unfold fixed_digits. assert (calm (padStart (S f) 48%N (dec n))) as Hp
    by (apply padStart_calm; [done|apply dec_calm]).
  destruct f; [done|]. apply calm_app; [by apply take_calm|]. constructor; [done|by apply drop_calm].
Qed.

Lemma fixed_calm `{Platform} x f : calm (fixed x f).
Proof.
  unfold fixed, toFixed. destruct x as [s|s| |s m e]; try apply num_str_calm; [apply fixed_digits_calm|].
  case_if; [|apply num_str_calm]. unfold fixed_str.
  destruct s; [constructor; [done|]|]; apply fixed_digits_calm.
Qed.

(** ** A reference instance

    ASCII case mapping, code unit order, UTC times left as they are. *)
Module Reference.
Fixpoint compare (a b : jstr) : Z :=
  match a, b with
  | [], [] => 0
  | [], _ :: _ => -1
  | _ :: _, [] => 1
  | c :: a', d :: b' =>
      if (c <? d)%N then -1 else if (d <? c)%N then 1 else compare a' b'
  end.

Lemma compare_sym a b : Z.sgn (compare a b) = - Z.sgn (compare b a).
Proof.
  revert b; induction a as [|c a IH]; intros [|d b]; try done. cbn.
  destruct (N.ltb_spec c d), (N.ltb_spec d c); try done; try lia; apply IH.
Qed.

Lemma compare_trans a b c : compare a b <= 0 -> compare b c <= 0 -> compare a c <= 0.
Proof.
  revert b c; induction a as [|x a IH]; intros [|y b] [|z c]; cbn; try done.
  destruct (N.ltb_spec x y), (N.ltb_spec y z), (N.ltb_spec x z), (N.ltb_spec z x),
    (N.ltb_spec y x), (N.ltb_spec z y); try done; try lia; apply IH.
Qed.

#[refine] Instance platform : Platform := {|
  toLowerCase := fmap ascii_lower;
  toUpperCase := fmap ascii_upper;
  localeCompare := compare;
  localeTime := fun s => s;
  localeTimeMs := fun s => s;
  localHMS := fun _ => Some (1, 2, 3);
  toISOString := dec;
  num_str := fun _ => js "n";
  math_pow := fun x _ => x;
  math_log := fun x => x;
|}.
Proof.
  - done.
  - done.
  - exact compare_sym.
  - exact compare_trans.
  - intros _. by_decide.
  - done.
Defined.
End Reference.
