(* ===== verification/Html.v ===== *)
(** * HTML serialisation and tokenisation

    What the scripts use of the browser's HTML support: setting [textContent]
    and reading [innerHTML] back (escaping), and the parsing of a string that is
    assigned to [innerHTML]. The tokeniser follows the tokenisation states of the
    HTML standard for tags, attributes and character references; of the named
    references it knows the ones the scripts write. Comments, doctypes and raw
    text elements, which the scripts do not generate, are left out. *)

From S2P Require Import Prelude JsString.

(** ** Serialising a text node *)

Definition esc_char (c : N) : jstr :=
  if (c =? 38)%N then js "&amp;"
  else if (c =? 160)%N then js "&nbsp;"
  else if (c =? 60)%N then js "&lt;"
  else if (c =? 62)%N then js "&gt;"
  else [c].

(** [innerHTML] of an element whose [textContent] is [s]. *)
Definition html_escape (s : jstr) : jstr := s ≫= esc_char.

(** ** Tokens *)

Record tag := Tag { tag_end : bool; tag_name : jstr; tag_attrs : list (jstr * jstr) }.

#[export] Instance tag_eq_dec : EqDecision tag.
Proof. solve_decision. Defined.

Inductive token :=
| TChar (c : N)
| TTag (t : tag).

Inductive tok_state :=
| SData
| STagOpen
| SEndTagOpen
| SBogus
| STagName (t : tag)
| SBeforeAttrName (t : tag)
| SAttrName (t : tag) (name : jstr)
| SAfterAttrName (t : tag) (name : jstr)
| SBeforeAttrValue (t : tag) (name : jstr)
| SAttrValue (t : tag) (name : jstr) (quote : option N) (value : jstr)
| SAfterAttrValue (t : tag)
| SSelfClosing (t : tag).

Definition add_attr (t : tag) (name value : jstr) : tag :=
  Tag (tag_end t) (tag_name t) (tag_attrs t ++ [(name, value)]).

Definition ascii_alpha (c : N) : bool :=
  ((65 <=? c) && (c <=? 90) || (97 <=? c) && (c <=? 122))%N.
Definition tag_lower (c : N) : N := (if (65 <=? c) && (c <=? 90) then c + 32 else c)%N.
(** Tab, line feed, form feed, space. *)
Definition html_space (c : N) : bool := ((c =? 9) || (c =? 10) || (c =? 12) || (c =? 32))%N.

(** Character references, after the ampersand. *)
Definition named_refs : list (jstr * jstr) :=
  [ (js "amp;", [38%N]); (js "lt;", [60%N]); (js "gt;", [62%N]); (js "quot;", [34%N]);
    (js "nbsp;", [160%N]); (js "mdash;", [8212%N]); (js "deg;", [176%N]);
    (js "rarr;", [8594%N]); (js "larr;", [8592%N]); (js "#8942;", [8942%N]) ].

(** The reference at the start of [s]: its text and its length. *)
Definition char_ref (s : jstr) : option (jstr * nat) :=
  match filter (fun p => is_prefix p.1 s = true) named_refs with
  | (r, u) :: _ => Some (u, length r)
  | [] => None
  end.

(** One unit: emitted tokens, next state, units consumed after this one. *)
Definition step_result : Type := list token * tok_state * nat.

Definition data_step (c : N) (rest : jstr) : step_result :=
  if (c =? 60)%N then ([], STagOpen, 0%nat)
  else if (c =? 38)%N then
    match char_ref rest with
    | Some (u, k) => (TChar <$> u, SData, k)
    | None => ([TChar c], SData, 0%nat)
    end
  else if (c =? 0)%N then ([], SData, 0%nat)
  else ([TChar c], SData, 0%nat).

Definition before_attr_step (t : tag) (c : N) : step_result :=
  if html_space c then ([], SBeforeAttrName t, 0%nat)
  else if (c =? 47)%N then ([], SSelfClosing t, 0%nat)
  else if (c =? 62)%N then ([TTag t], SData, 0%nat)
  else ([], SAttrName t [tag_lower c], 0%nat).

Definition attr_value_step (t : tag) (name : jstr) (quote : option N) (value : jstr)
    (c : N) (rest : jstr) : step_result :=
  if decide (quote = Some c) then ([], SAfterAttrValue (add_attr t name value), 0%nat)
  else if (c =? 38)%N then
    match char_ref rest with
    | Some (u, k) => ([], SAttrValue t name quote (value ++ u), k)
    | None => ([], SAttrValue t name quote (value ++ [c]), 0%nat)
    end
  else if decide (quote = None) then
    if html_space c then ([], SBeforeAttrName (add_attr t name value), 0%nat)
    else if (c =? 62)%N then ([TTag (add_attr t name value)], SData, 0%nat)
    else ([], SAttrValue t name quote (value ++ [c]), 0%nat)
  else ([], SAttrValue t name quote (value ++ [if (c =? 0)%N then 65533%N else c]), 0%nat).

Definition tok_step (st : tok_state) (c : N) (rest : jstr) : step_result :=
  match st with
  | SData => data_step c rest
  | STagOpen =>
      if (c =? 47)%N then ([], SEndTagOpen, 0%nat)
      else if ascii_alpha c then ([], STagName (Tag false [tag_lower c] []), 0%nat)
      else if (c =? 33)%N || (c =? 63)%N then ([], SBogus, 0%nat)
      else let '(ts, st', k) := data_step c rest in (TChar 60%N :: ts, st', k)
  | SEndTagOpen =>
      if ascii_alpha c then ([], STagName (Tag true [tag_lower c] []), 0%nat)
      else if (c =? 62)%N then ([], SData, 0%nat)
      else ([], SBogus, 0%nat)
  | SBogus => if (c =? 62)%N then ([], SData, 0%nat) else ([], SBogus, 0%nat)
  | STagName t =>
      if html_space c then ([], SBeforeAttrName t, 0%nat)
      else if (c =? 47)%N then ([], SSelfClosing t, 0%nat)
      else if (c =? 62)%N then ([TTag t], SData, 0%nat)
      else ([], STagName (Tag (tag_end t) (tag_name t ++ [tag_lower c]) (tag_attrs t)), 0%nat)
  | SBeforeAttrName t => before_attr_step t c
  | SAttrName t name =>
      if html_space c then ([], SAfterAttrName t name, 0%nat)
      else if (c =? 47)%N then ([], SSelfClosing (add_attr t name []), 0%nat)
      else if (c =? 62)%N then ([TTag (add_attr t name [])], SData, 0%nat)
      else if (c =? 61)%N then ([], SBeforeAttrValue t name, 0%nat)
      else ([], SAttrName t (name ++ [tag_lower c]), 0%nat)
  | SAfterAttrName t name =>
      if html_space c then ([], st, 0%nat)
      else if (c =? 61)%N then ([], SBeforeAttrValue t name, 0%nat)
      else before_attr_step (add_attr t name []) c
  | SBeforeAttrValue t name =>
      if html_space c then ([], st, 0%nat)
      else if (c =? 34)%N || (c =? 39)%N then ([], SAttrValue t name (Some c) [], 0%nat)
      else if (c =? 62)%N then ([TTag (add_attr t name [])], SData, 0%nat)
      else attr_value_step t name None [] c rest
  | SAttrValue t name quote value => attr_value_step t name quote value c rest
  | SAfterAttrValue t => before_attr_step t c
  | SSelfClosing t =>
      if (c =? 62)%N then ([TTag t], SData, 0%nat) else before_attr_step t c
  end.

(** At the end of the input an unfinished tag is dropped. *)
Definition tok_eof (st : tok_state) : list token :=
  match st with
  | STagOpen => [TChar 60%N]
  | SEndTagOpen => [TChar 60%N; TChar 47%N]
  | _ => []
  end.

Fixpoint tokenize (st : tok_state) (skip : nat) (s : jstr) : list token :=
  match s with
  | [] => tok_eof st
  | c :: s' =>
      match skip with
      | S k => tokenize st k s'
      | O => let '(ts, st', k) := tok_step st c s' in ts ++ tokenize st' k s'
      end
  end.

(** Carriage returns are normalised before tokenisation. *)
Fixpoint normalize_newlines (s : jstr) : jstr :=
  match s with
  | [] => []
  | c :: s' =>
      if (c =? 13)%N then
        match s' with
        | d :: s'' => if (d =? 10)%N then 10%N :: normalize_newlines s''
                      else 10%N :: normalize_newlines s'
        | [] => [10%N]
        end
      else c :: normalize_newlines s'
  end.

(** The tokens of a string assigned to [innerHTML]. *)
Definition html_tokens (s : jstr) : list token := tokenize SData 0 (normalize_newlines s).

Definition token_char (t : token) : option N :=
  match t with TChar c => Some c | TTag _ => None end.
Definition token_tag (t : token) : option tag :=
  match t with TTag t => Some t | TChar _ => None end.

(** [textContent] of the parsed fragment, and its tags. *)
Definition html_text (s : jstr) : jstr := omap token_char (html_tokens s).
Definition html_tags (s : jstr) : list tag := omap token_tag (html_tokens s).

(** ** Escaped text is inert *)

(** Characters that the parser changes: null and carriage return. *)
Definition plain_char (c : N) : Prop := c <> 0%N /\ c <> 13%N.
Definition plain (s : jstr) : Prop := Forall plain_char s.

#[export] Instance plain_dec s : Decision (plain s).
Proof. unfold plain, plain_char. apply _. Defined.

Lemma html_escape_cons c s : html_escape (c :: s) = esc_char c ++ html_escape s.
Proof. done. Qed.

Lemma html_escape_app s1 s2 : html_escape (s1 ++ s2) = html_escape s1 ++ html_escape s2.
Proof. apply bind_app. Qed.

Lemma tokenize_skip st k s rest :
  length s = k -> tokenize st k (s ++ rest) = tokenize st 0 rest.
Proof.
  intros <-. induction s as [|c s IH]; [by destruct rest|]. cbn. apply IH.
Qed.

(** A literal without ampersands tokenises the same whatever follows it. *)
Fixpoint run_literal (st : tok_state) (l : jstr) : option (list token * tok_state) :=
  match l with
  | [] => Some ([], st)
  | c :: l' =>
      if (c =? 38)%N then None else
      match tok_step st c [] with
      | (ts, st', O) => '(ts', st'') ← run_literal st' l'; Some (ts ++ ts', st'')
      | _ => None
      end
  end.

Lemma tok_step_rest st c rest : (c =? 38)%N = false -> tok_step st c rest = tok_step st c [].
Proof.
  intros Hc. destruct st; cbn; unfold data_step, attr_value_step; rewrite ?Hc; done.
Qed.

Lemma tokenize_literal st l rest ts st' :
  run_literal st l = Some (ts, st') ->
  tokenize st 0 (l ++ rest) = ts ++ tokenize st' 0 rest.
Proof.
  revert st ts. induction l as [|c l IH]; intros st ts E; [by injection E as <- <-|].
  cbn in *. destruct (c =? 38)%N eqn:Hc; [done|].
  rewrite (tok_step_rest _ _ (l ++ rest) Hc).
  destruct (tok_step st c []) as [[ts1 st1] [|k]]; [|done].
  destruct (run_literal st1 l) as [[ts2 st2]|] eqn:E2; [|done].
  injection E as <- <-. by rewrite (IH _ _ E2), app_assoc.
Qed.

(** Tokenise the literal in front. *)
Ltac tok_literal :=
  erewrite tokenize_literal; [|vm_compute; reflexivity].

(** An escaped unit in the data state is that unit. *)
Lemma tokenize_esc_char c rest :
  plain_char c -> tokenize SData 0 (esc_char c ++ rest) = TChar c :: tokenize SData 0 rest.
Proof.
  intros [H0 _]. unfold esc_char.
  repeat (case_if; [match goal with H : (_ =? _)%N = true |- _ =>
                      apply N.eqb_eq in H; subst end; by destruct rest|]).
  cbn [app tokenize tok_step]. unfold data_step.
  repeat match goal with H : (_ =? _)%N = false |- _ => rewrite H; clear H end.
  destruct (N.eqb_spec c 0); [done|]. done.
Qed.

Lemma tokenize_escape s rest :
  plain s ->
  tokenize SData 0 (html_escape s ++ rest) = (TChar <$> s) ++ tokenize SData 0 rest.
Proof.
  induction 1 as [|c s Hc _ IH]; [done|].
  rewrite html_escape_cons, <- app_assoc, tokenize_esc_char, IH by done. done.
Qed.

(** An escaped unit other than the quote stays inside an attribute value. *)
Lemma attr_esc_char t name q v c rest :
  plain_char c -> c <> q -> (q = 34%N \/ q = 39%N) ->
  tokenize (SAttrValue t name (Some q) v) 0 (esc_char c ++ rest)
  = tokenize (SAttrValue t name (Some q) (v ++ [c])) 0 rest.
Proof.
  intros [H0 _] Hq Hqq. unfold esc_char.
  repeat (case_if; [match goal with H : (_ =? _)%N = true |- _ =>
                      apply N.eqb_eq in H; subst end; by destruct Hqq as [-> | ->]; destruct rest|]).
  cbn [app tokenize tok_step]. unfold attr_value_step.
  rewrite decide_False by congruence.
  match goal with H : (c =? 38)%N = false |- _ => rewrite H end.
  rewrite decide_False by done. destruct (N.eqb_spec c 0); [done|]. done.
Qed.

Lemma attr_escape t name q v s rest :
  plain s -> q ∉ s -> (q = 34%N \/ q = 39%N) ->
  tokenize (SAttrValue t name (Some q) v) 0 (html_escape s ++ rest)
  = tokenize (SAttrValue t name (Some q) (v ++ s)) 0 rest.
Proof.
  intros Hp Hq Hqq. revert v. induction Hp as [|c s Hc _ IH]; intros v.
  { by rewrite app_nil_r. }
  apply not_elem_of_cons in Hq as [Hcq Hq].
  rewrite html_escape_cons, <- app_assoc, attr_esc_char, IH by done.
  by rewrite <- app_assoc.
Qed.

(** Escaped text in the data state has no tags. *)
Lemma tags_escape s rest :
  omap token_tag (tokenize SData 0 (html_escape s ++ rest))
  = omap token_tag (tokenize SData 0 rest).
Proof.
  induction s as [|c s IH]; [done|]. rewrite html_escape_cons, <- app_assoc.
  destruct (N.eqb_spec c 0) as [->|H0]; [exact IH|].
  destruct (N.eqb_spec c 13) as [->|H13]; [exact IH|].
  rewrite tokenize_esc_char by done. exact IH.
Qed.

Lemma normalize_no_cr s : 13%N ∉ s -> normalize_newlines s = s.
Proof.
  induction s as [|c s IH]; [done|]. intros [Hc Hs]%not_elem_of_cons. cbn.
  destruct (N.eqb_spec c 13); [congruence|]. by rewrite IH.
Qed.

Lemma plain_no_cr s : plain s -> 13%N ∉ s.
Proof.
  induction 1 as [|c s [_ Hc] _ IH]; [apply not_elem_of_nil|].
  apply not_elem_of_cons. split; [congruence|done].
Qed.

Lemma esc_char_no_cr c : c <> 13%N -> 13%N ∉ esc_char c.
Proof.
  intros Hc. unfold esc_char. repeat (case_if; [by_decide|]).
  intros E%list_elem_of_singleton. congruence.
Qed.

Lemma html_escape_no_cr s : plain s -> 13%N ∉ html_escape s.
Proof.
  induction 1 as [|c s [_ Hc] _ IH]; [apply not_elem_of_nil|].
  rewrite html_escape_cons, not_elem_of_app. split; [by apply esc_char_no_cr|done].
Qed.

Lemma html_escape_no_cr' s : 13%N ∉ s -> 13%N ∉ html_escape s.
Proof.
  induction s as [|c s IH]; [done|]. intros [Hc Hs]%not_elem_of_cons.
  rewrite html_escape_cons, not_elem_of_app. auto using esc_char_no_cr.
Qed.

(** Escaping never produces an angle bracket. *)
Lemma esc_char_no_angle c q : q = 60%N \/ q = 62%N -> q ∉ esc_char c.
Proof.
  intros Hq. unfold esc_char.
  repeat (case_if; [destruct Hq as [-> | ->]; by_decide|]).
  intros E%list_elem_of_singleton. by destruct Hq as [-> | ->]; subst c.
Qed.

Lemma html_escape_no_angle s q : q = 60%N \/ q = 62%N -> q ∉ html_escape s.
Proof.
  intros Hq. induction s as [|c s IH]; [apply not_elem_of_nil|].
  rewrite html_escape_cons, not_elem_of_app. split; [by apply esc_char_no_angle|done].
Qed.

#[export] Hint Resolve plain_no_cr html_escape_no_cr : mesh.
