(* ===== verification/Markup.v ===== *)
(** * Markup whose tags are known

    A calculus to show that generated markup contains no tags but the ones its
    author wrote, whatever text was escaped into it. [safe ok s]: placed before any
    markup, [s] adds only tags that satisfy [ok]. *)

From S2P Require Import Prelude JsString Html.

(** The tags of markup met in the data state. *)
Definition tags (s : jstr) : list tag := omap token_tag (tokenize SData 0 (normalize_newlines s)).

(** A literal without carriage returns is not affected by what follows. *)
Lemma normalize_app l rest : 13%N ∉ l -> normalize_newlines (l ++ rest) = l ++ normalize_newlines rest.
Proof.
  induction l as [|c l IH]; [done|]. intros [Hc Hl]%not_elem_of_cons. cbn.
  destruct (N.eqb_spec c 13); [congruence|]. by rewrite IH.
Qed.

(** A character of the text does not change the tags. *)
Lemma tags_char c rest : c <> 38%N -> c <> 60%N -> tags (c :: rest) = tags rest.
Proof.
  intros Ha Hl. unfold tags. cbn [normalize_newlines].
  assert (forall d r, d <> 38%N -> d <> 60%N ->
    omap token_tag (tokenize SData 0 (d :: r)) = omap token_tag (tokenize SData 0 r)) as Hd.
  { intros d r H1 H2. cbn. unfold data_step.
    rewrite (proj2 (N.eqb_neq _ _) H1), (proj2 (N.eqb_neq _ _) H2). by destruct (d =? 0)%N. }
  destruct (N.eqb_spec c 13) as [->|]; [|by apply Hd].
  destruct rest as [|d rest]; [done|]. destruct (N.eqb_spec d 10) as [->|].
  - cbn [normalize_newlines]. destruct (N.eqb_spec 10 13); [done|]. done.
  - by apply Hd.
Qed.

Section safe.
Context (ok : tag -> bool).

Definition all_ok (ts : list tag) : Prop := Forall (fun t => ok t = true) ts.

Definition safe (s : jstr) : Prop :=
  forall rest, all_ok (tags rest) -> all_ok (tags (s ++ rest)).

(** What a complete piece of markup parses to. *)
Lemma safe_html s : safe s -> all_ok (html_tags s).
Proof. intros Hs. specialize (Hs []). rewrite app_nil_r in Hs. apply Hs. constructor. Qed.

Lemma safe_nil : safe [].
Proof. by intros rest. Qed.

Lemma safe_app s1 s2 : safe s1 -> safe s2 -> safe (s1 +++ s2).
Proof. intros H1 H2 rest Hr. unfold jcat. rewrite <- app_assoc. auto. Qed.

Lemma safe_if (b : bool) s1 s2 : safe s1 -> safe s2 -> safe (if b then s1 else s2).
Proof. by destruct b. Qed.

Lemma safe_mjoin l : Forall safe l -> safe (mjoin l).
Proof. induction 1 as [|s l Hs _ IH]; [apply safe_nil|]. by apply (safe_app s (mjoin l)). Qed.

(** Escaped text adds no tag, whatever it is. *)
Lemma safe_esc s : safe (html_escape s).
Proof.
  intros rest Hr. induction s as [|c s IH]; [done|].
  rewrite html_escape_cons, <- app_assoc. revert IH. generalize (html_escape s ++ rest). intros r IH.
  destruct (decide (c = 38 \/ c = 160 \/ c = 60 \/ c = 62)%N) as [Hc|Hc].
  - unfold tags in *. rewrite normalize_app; cycle 1.
    { apply esc_char_no_cr. by destruct Hc as [->|[->|[-> | ->]]]. }
    rewrite tokenize_esc_char; [done|]. by destruct Hc as [->|[->|[-> | ->]]].
  - assert (esc_char c = [c]) as ->.
    { unfold esc_char. destruct (N.eqb_spec c 38), (N.eqb_spec c 160), (N.eqb_spec c 60), (N.eqb_spec c 62); tauto. }
    cbn [app]. by rewrite tags_char by tauto.
Qed.

(** Text without angle brackets and ampersands adds no tag. *)
Lemma safe_text s : calm s -> safe s.
Proof.
  intros Hs rest Hr. induction Hs as [|c s [Ha Hl] _ IH]; [done|].
  cbn [app]. by rewrite tags_char.
Qed.

(** A literal that starts and ends outside tags. *)
Definition no_cr (l : jstr) : bool := forallb (fun c => negb (c =? 13)%N) l.
Definition lit_ok (l : jstr) : bool :=
  no_cr l
  && match run_literal SData l with
     | Some (ts, SData) => forallb ok (omap token_tag ts)
     | _ => false
     end.

Lemma no_cr_spec l : no_cr l = true -> 13%N ∉ l.
Proof.
  intros Hf Hin. unfold no_cr in Hf. rewrite forallb_forall in Hf.
  apply list_elem_of_In in Hin. apply Hf in Hin. done.
Qed.

Lemma all_ok_forallb ts : forallb ok ts = true -> all_ok ts.
Proof.
  intros Hl. rewrite forallb_forall in Hl. apply Forall_forall.
  intros x Hx. by apply Hl, list_elem_of_In.
Qed.

Lemma safe_lit l : lit_ok l = true -> safe l.
Proof.
  unfold lit_ok. rewrite andb_true_iff. intros [Hcr%no_cr_spec Hl].
  destruct (run_literal SData l) as [[ts []]|] eqn:E; try done.
  intros rest Hr. unfold tags in *. rewrite normalize_app by done.
  rewrite (tokenize_literal _ _ _ _ _ E), omap_app.
  apply Forall_app; split; [by apply all_ok_forallb|done].
Qed.

(** A tag with one attribute value that is inserted text: [pre] ends inside the
    double quotes, [post] starts with the closing quote. *)
Lemma safe_attr pre post value ts t name v :
  no_cr pre = true -> no_cr post = true -> plain value -> 34%N ∉ value ->
  run_literal SData pre = Some (ts, SAttrValue t name (Some 34%N) v) ->
  forallb ok (omap token_tag ts) = true ->
  (forall x, exists ts', run_literal (SAttrValue t name (Some 34%N) (v ++ x)) post = Some (ts', SData) /\
     forallb ok (omap token_tag ts') = true) ->
  safe (pre +++ html_escape value +++ post).
Proof.
  intros Hc1%no_cr_spec Hc2%no_cr_spec Hp Hq Hrun Hok Hpost rest Hr. unfold jcat, tags in *.
  rewrite <- !app_assoc, !normalize_app by auto using html_escape_no_cr.
  rewrite (tokenize_literal _ _ _ _ _ Hrun), attr_escape by auto.
  destruct (Hpost value) as (ts' & Hrun' & Hok').
  rewrite (tokenize_literal _ _ _ _ _ Hrun'), !omap_app.
  apply Forall_app; split; [by apply all_ok_forallb|].
  apply Forall_app; split; [by apply all_ok_forallb|done].
Qed.
End safe.

(** Solve [safe] goals built from literals, escaped text and conditionals. *)
Ltac safe_step :=
  lazymatch goal with
  | |- safe _ (_ +++ _) => apply safe_app
  | |- safe _ (if _ then _ else _) => apply safe_if
  | |- safe _ [] => apply safe_nil
  | |- safe _ (js _) => apply safe_lit; vm_compute; exact eq_refl
  | |- safe _ (html _) => apply safe_lit; vm_compute; exact eq_refl
  | |- safe _ (html_escape _) => apply safe_esc
  end.
Ltac safe_solve := repeat safe_step.
