(* ===== verification/NodeDir.v ===== *)
(** * The node directory

    [nodeDir] of the dashboard: an object whose keys are node numbers in decimal
    and whose values hold what is known of a node. The server omits zero fields
    ([omitempty]), so every field of an entry may be [undefined]. *)

From S2P Require Import Prelude JsString JsNumber.

(** ** Entries *)

Inductive sfield := short_name | long_name | user_id | hw_model | role.
Inductive bfield := is_licensed | via_mqtt | is_favorite | seen_realtime.
Inductive ifield :=
| last_heard | hops_away | channel | altitude | ground_speed | ground_track
| sats_in_view | position_time | battery_level | uptime_seconds | rx_rssi.
Inductive ffield :=
| snr | latitude | longitude | voltage | channel_utilization | air_util_tx
| temperature | relative_humidity | barometric_pressure | rx_snr.

#[export] Instance sfield_eq_dec : EqDecision sfield. Proof. solve_decision. Defined.
#[export] Instance bfield_eq_dec : EqDecision bfield. Proof. solve_decision. Defined.
#[export] Instance ifield_eq_dec : EqDecision ifield. Proof. solve_decision. Defined.
#[export] Instance ffield_eq_dec : EqDecision ffield. Proof. solve_decision. Defined.

Definition sfields := [short_name; long_name; user_id; hw_model; role].
Definition bfields := [is_licensed; via_mqtt; is_favorite; seen_realtime].
Definition ifields :=
  [last_heard; hops_away; channel; altitude; ground_speed; ground_track;
   sats_in_view; position_time; battery_level; uptime_seconds; rx_rssi].
Definition ffields :=
  [snr; latitude; longitude; voltage; channel_utilization; air_util_tx;
   temperature; relative_humidity; barometric_pressure; rx_snr].

(** Each field type is finite, hence countable. *)
#[export, refine] Instance sfield_finite : finite.Finite sfield := {| finite.enum := sfields |}.
Proof. 1: by_decide. intros []; by_decide. Defined.
#[export, refine] Instance bfield_finite : finite.Finite bfield := {| finite.enum := bfields |}.
Proof. 1: by_decide. intros []; by_decide. Defined.
#[export, refine] Instance ifield_finite : finite.Finite ifield := {| finite.enum := ifields |}.
Proof. 1: by_decide. intros []; by_decide. Defined.
#[export, refine] Instance ffield_finite : finite.Finite ffield := {| finite.enum := ffields |}.
Proof. 1: by_decide. intros []; by_decide. Defined.

(** An entry is a JavaScript object, its properties grouped by type; a property
    that is not in the map reads as [undefined]. *)
Record entry := Entry {
  e_str : gmap sfield jstr;
  e_bool : gmap bfield bool;
  e_int : gmap ifield Z;
  e_flt : gmap ffield num;
}.

Definition empty_entry : entry := Entry ∅ ∅ ∅ ∅.

Abbreviation directory := (gmap Z entry).

(** [e.f = v] *)
Definition put_str (f : sfield) (v : jstr) (e : entry) : entry :=
  Entry (<[f := v]> (e_str e)) (e_bool e) (e_int e) (e_flt e).
Definition put_bool (f : bfield) (v : bool) (e : entry) : entry :=
  Entry (e_str e) (<[f := v]> (e_bool e)) (e_int e) (e_flt e).
Definition put_int (f : ifield) (v : Z) (e : entry) : entry :=
  Entry (e_str e) (e_bool e) (<[f := v]> (e_int e)) (e_flt e).
Definition put_flt (f : ffield) (v : num) (e : entry) : entry :=
  Entry (e_str e) (e_bool e) (e_int e) (<[f := v]> (e_flt e)).

(** [if (o) e.f = o] *)
Definition put_if {A} `{Truthy A} (put : A -> entry -> entry) (o : option A) (e : entry) : entry :=
  match o with
  | Some v => if truthy v then put v e else e
  | None => e
  end.

(** Assignments in program order. *)
Definition assign (fs : list (entry -> entry)) (e : entry) : entry :=
  foldl (fun e f => f e) e fs.

(** [entry.latitude || entry.longitude] *)
Definition has_pos (e : entry) : bool :=
  truthy (e_flt e !! latitude) || truthy (e_flt e !! longitude).

(** ** Event payloads, as [JSON.parse] returns them *)

Record pos_update := PosUpdate {
  pu_node_num : Z; pu_short_name : jstr; pu_long_name : jstr;
  pu_latitude : num; pu_longitude : num; pu_altitude : Z;
  pu_ground_speed : option Z; pu_ground_track : option Z;
  pu_sats_in_view : option Z; pu_position_time : option Z;
}.

Record tel_update := TelUpdate {
  tu_node_num : Z; tu_short_name : jstr; tu_long_name : jstr;
  tu_battery_level : option Z; tu_voltage : option num;
  tu_channel_utilization : option num; tu_air_util_tx : option num;
  tu_uptime_seconds : option Z; tu_temperature : option num;
  tu_relative_humidity : option num; tu_barometric_pressure : option num;
}.

Record sig_update := SigUpdate {
  su_node_num : Z; su_short_name : jstr; su_long_name : jstr;
  su_rx_rssi : Z; su_rx_snr : num;
}.

Record info_update := InfoUpdate {
  iu_node_num : Z; iu_short_name : jstr; iu_long_name : jstr;
  iu_user_id : option jstr; iu_hw_model : option jstr; iu_role : option jstr;
  iu_is_licensed : option bool; iu_is_new : bool;
}.

(** ** The data part of the update handlers

    [now] is [Math.floor(Date.now() / 1000)]. *)

Definition position_existing (pos : pos_update) (now : Z) : entry -> entry :=
  assign [ put_flt latitude (pu_latitude pos);
           put_flt longitude (pu_longitude pos);
           put_int altitude (pu_altitude pos);
           put_if (put_int ground_speed) (pu_ground_speed pos);
           put_if (put_int ground_track) (pu_ground_track pos);
           put_if (put_int sats_in_view) (pu_sats_in_view pos);
           put_if (put_int position_time) (pu_position_time pos);
           put_bool seen_realtime true;
           put_int last_heard now ].

Definition position_new (pos : pos_update) (now : Z) : entry :=
  assign [ put_str short_name (pu_short_name pos);
           put_str long_name (pu_long_name pos);
           put_flt latitude (pu_latitude pos);
           put_flt longitude (pu_longitude pos);
           put_int altitude (pu_altitude pos);
           put_int ground_speed (or_else (pu_ground_speed pos) 0);
           put_int ground_track (or_else (pu_ground_track pos) 0);
           put_int sats_in_view (or_else (pu_sats_in_view pos) 0);
           put_int position_time (or_else (pu_position_time pos) 0);
           put_bool seen_realtime true;
           put_int last_heard now ] empty_entry.

(** [updateMapNode], first half: the entry of [pos.node_num]. *)
Definition dir_position (pos : pos_update) (now : Z) (dir : directory) : directory :=
  let n := pu_node_num pos in
  <[n := match dir !! n with
         | Some e => position_existing pos now e
         | None => position_new pos now
         end]> dir.

(** [if (!nodeDir[numStr]) nodeDir[numStr] = fresh] *)
Definition entry_or (fresh : entry) (dir : directory) (n : Z) : entry :=
  default fresh (dir !! n).

Definition named_entry (s l : jstr) : entry :=
  assign [put_str short_name s; put_str long_name l] empty_entry.

Definition telemetry_assign (tel : tel_update) (now : Z) : entry -> entry :=
  assign [ put_bool seen_realtime true;
           put_int last_heard now;
           put_if (put_int battery_level) (tu_battery_level tel);
           put_if (put_flt voltage) (tu_voltage tel);
           put_if (put_flt channel_utilization) (tu_channel_utilization tel);
           put_if (put_flt air_util_tx) (tu_air_util_tx tel);
           put_if (put_int uptime_seconds) (tu_uptime_seconds tel);
           put_if (put_flt temperature) (tu_temperature tel);
           put_if (put_flt relative_humidity) (tu_relative_humidity tel);
           put_if (put_flt barometric_pressure) (tu_barometric_pressure tel) ].

Definition dir_telemetry (tel : tel_update) (now : Z) (dir : directory) : directory :=
  let n := tu_node_num tel in
  <[n := telemetry_assign tel now
           (entry_or (named_entry (tu_short_name tel) (tu_long_name tel)) dir n)]> dir.

Definition signal_assign (sig : sig_update) (now : Z) : entry -> entry :=
  assign [ put_bool seen_realtime true;
           put_int last_heard now;
           put_if (put_int rx_rssi) (Some (su_rx_rssi sig));
           put_if (put_flt rx_snr) (Some (su_rx_snr sig)) ].

Definition dir_signal (sig : sig_update) (now : Z) (dir : directory) : directory :=
  let n := su_node_num sig in
  <[n := signal_assign sig now
           (entry_or (named_entry (su_short_name sig) (su_long_name sig)) dir n)]> dir.

Definition info_assign (info : info_update) (now : Z) : entry -> entry :=
  assign [ put_bool seen_realtime true;
           put_int last_heard now;
           put_if (put_str short_name) (Some (iu_short_name info));
           put_if (put_str long_name) (Some (iu_long_name info));
           put_if (put_str user_id) (iu_user_id info);
           put_if (put_str hw_model) (iu_hw_model info);
           put_if (put_str role) (iu_role info);
           put_bool is_licensed (or_else (iu_is_licensed info) false) ].

(** [updateNodeInfo], whose directory is created when it is [null]. *)
Definition dir_info (info : info_update) (now : Z) (dir : directory) : directory :=
  let n := iu_node_num info in
  <[n := info_assign info now (entry_or empty_entry dir n)]> dir.

(** The [node_favorite] event; a node that is not listed is left alone. *)
Definition dir_favorite (n : Z) (fav : bool) (dir : directory) : directory :=
  match dir !! n with
  | Some e => <[n := put_bool is_favorite fav e]> dir
  | None => dir
  end.

(** ** Enumeration

    [Object.entries] lists integer keys in ascending order. *)

Definition key_le (a b : Z * entry) : Prop := (a.1 <= b.1).
#[export] Instance key_le_dec : RelDecision key_le := fun a b => Z.le_dec a.1 b.1.

Definition dir_entries (dir : directory) : list (Z * entry) :=
  merge_sort key_le (map_to_list dir).

Lemma dir_entries_perm dir : dir_entries dir ≡ₚ map_to_list dir.
Proof. apply merge_sort_Permutation. Qed.

Lemma elem_of_dir_entries dir n e : (n, e) ∈ dir_entries dir <-> dir !! n = Some e.
Proof. by rewrite dir_entries_perm, elem_of_map_to_list. Qed.

Lemma dir_entries_NoDup dir : NoDup (dir_entries dir).*1.
Proof. rewrite dir_entries_perm. apply NoDup_fst_map_to_list. Qed.

Lemma dir_entries_NoDup' dir : NoDup (dir_entries dir).
Proof. eapply NoDup_fmap_1, dir_entries_NoDup. Qed.

Lemma dir_entries_length dir : length (dir_entries dir) = size dir.
Proof. by rewrite dir_entries_perm, length_map_to_list. Qed.

#[export] Instance key_le_total : Total key_le.
Proof. intros a b. unfold key_le. lia. Qed.
#[export] Instance key_le_trans : Transitive key_le.
Proof. intros a b c. unfold key_le. lia. Qed.

(** Ascending node numbers. *)
Lemma dir_entries_sorted dir : StronglySorted key_le (dir_entries dir).
Proof. apply Sorted_StronglySorted; [apply _|]. apply Sorted_merge_sort, _. Qed.

#[export] Hint Resolve dir_entries_NoDup' dir_entries_sorted : mesh.

(** ** The position of an entry under the updates *)

Definition pos_of (e : entry) : option num * option num := (e_flt e !! latitude, e_flt e !! longitude).

Lemma pos_put_flt f v e : f <> latitude -> f <> longitude -> pos_of (put_flt f v e) = pos_of e.
Proof. intros H1 H2. unfold pos_of. cbn. by rewrite !lookup_insert_ne. Qed.

Lemma pos_put_if {A} `{Truthy A} (put : A -> entry -> entry) o e :
  (forall a e, pos_of (put a e) = pos_of e) -> pos_of (put_if put o e) = pos_of e.
Proof. intros Hp. unfold put_if. destruct o as [a|]; [|done]. by destruct (truthy a). Qed.

Lemma telemetry_pos tel now e : pos_of (telemetry_assign tel now e) = pos_of e.
Proof.
  unfold telemetry_assign, assign. cbn [foldl].
  repeat (rewrite pos_put_if by (intros; first [done | by apply pos_put_flt])). done.
Qed.

Lemma signal_pos sig now e : pos_of (signal_assign sig now e) = pos_of e.
Proof.
  unfold signal_assign, assign. cbn [foldl].
  repeat (rewrite pos_put_if by (intros; first [done | by apply pos_put_flt])). done.
Qed.

Lemma info_pos info now e : pos_of (info_assign info now e) = pos_of e.
Proof.
  unfold info_assign, assign. cbn [foldl].
  match goal with |- pos_of (put_bool _ _ ?x) = _ => change (pos_of x = pos_of e) end.
  repeat (rewrite pos_put_if by (intros; first [done | by apply pos_put_flt])). done.
Qed.

Lemma position_pos pos now dir :
  pos_of (default empty_entry (dir_position pos now dir !! pu_node_num pos))
  = (Some (pu_latitude pos), Some (pu_longitude pos)).
Proof.
  unfold dir_position. rewrite lookup_insert_eq. cbn.
  destruct (dir !! pu_node_num pos) as [e|]; [|reflexivity].
  unfold position_existing, assign. cbn [foldl].
  match goal with |- pos_of (put_int _ _ (put_bool _ _ ?x)) = _ => change (pos_of x = (Some (pu_latitude pos), Some (pu_longitude pos))) end.
  repeat (rewrite pos_put_if by (by intros)). unfold pos_of. cbn.
  rewrite lookup_insert_ne, !lookup_insert_eq by done. done.
Qed.
