(* ===== verification/Mesh.v ===== *)
(** * utils.js: the [Mesh] namespace

    Escaping, node names, formatting and the event bus, shared by the scripts of
    the dashboard. [nodeDir] is the global directory of the page. *)

From S2P Require Import Prelude JsString JsNumber Platform Html Markup NodeDir.

(** ** Escaping and node names *)

Definition esc (s : jstr) : jstr := if truthy s then html_escape s else [].

Definition nodeHex (n : Z) : jstr :=
  if truthy n then js "!" +++ padStart 8 48%N (hex (to_uint32 n)) else [].

(** [nodeDir && nodeDir[key]] *)
Definition dir_get (nodeDir : option directory) (n : Z) : option entry :=
  d ← nodeDir; d !! n.

(** [nodeDir && nodeDir[key] && nodeDir[key].short_name], when truthy *)
Definition dir_short (nodeDir : option directory) (n : Z) : option (entry * jstr) :=
  e ← dir_get nodeDir n;
  s ← e_str e !! short_name;
  if truthy s then Some (e, s) else None.

Definition nodeName (nodeDir : option directory) (n : Z) : jstr :=
  if truthy n then
    let hex := nodeHex n in
    match dir_short nodeDir n with
    | Some (entry, short) =>
        html "<span title=`" +++ esc hex +++ js " ("
        +++ esc (or_else (A:=jstr) (e_str entry !! long_name) [])
        +++ html ")` class=`cursor-help`>" +++ esc short +++ js "</span>"
    | None => html "<code class=`font-mono text-xs text-gray-400`>" +++ esc hex +++ js "</code>"
    end
  else [].

Definition nodeNameText (nodeDir : option directory) (n : Z) : jstr :=
  if n =? 4294967295 then js "Broadcast"
  else match dir_short nodeDir n with
       | Some (_, short) => short
       | None => nodeHex n
       end.

Definition nodeHexName (nodeDir : option directory) (num : Z) : jstr :=
  if truthy num then
    match dir_short nodeDir num with
    | Some (_, short) => short
    | None => js "!" +++ padStart 8 48%N (hex num)
    end
  else js "?".

(** ** Formatting *)

(** [s.replace(/_/g, ' ')] *)
Definition spaces (s : jstr) : jstr := (fun c => if (c =? 95)%N then 32%N else c) <$> s.

(** [\w] *)
Definition word_char (c : N) : bool :=
  ((48 <=? c) && (c <=? 57) || (65 <=? c) && (c <=? 90)
   || (97 <=? c) && (c <=? 122) || (c =? 95))%N.

Section format.
Context `{Platform}.

Definition capitalize (t : jstr) : jstr :=
  match t with
  | [] => []
  | c :: t' => toUpperCase [c] +++ toLowerCase t'
  end.

(** [s.replace(/\w\S*/g, capitalize)]; [tok] is the match being read. *)
Fixpoint title_case (tok : option jstr) (s : jstr) : jstr :=
  match s with
  | [] => from_option capitalize [] tok
  | c :: s' =>
      match tok with
      | Some t => if is_ws c then capitalize t +++ c :: title_case None s'
                  else title_case (Some (t ++ [c])) s'
      | None => if word_char c then title_case (Some [c]) s'
                else c :: title_case None s'
      end
  end.

Definition formatHwModel (m : jstr) : jstr :=
  if truthy m then title_case None (spaces m) else [].

Definition formatRole (r : jstr) : jstr :=
  match r with
  | [] => []
  | c :: r' => toUpperCase [c] +++ spaces (toLowerCase r')
  end.
End format.

(** [now] is [Math.floor(Date.now() / 1000)]. *)
Definition formatUnixAge (now ts : Z) : jstr :=
  if truthy ts then
    let diff := now - ts in
    if diff <? 0 then js "just now"
    else if diff <? 60 then dec diff +++ js "s ago"
    else if diff <? 3600 then dec (diff / 60) +++ js "m ago"
    else if diff <? 86400 then dec (diff / 3600) +++ js "h ago"
    else dec (diff / 86400) +++ js "d ago"
  else [].

(** ** Icons *)

Definition SVG_TRACE : jstr :=
  html "<svg width=`12` height=`12` viewBox=`0 0 24 24` fill=`none` stroke=`currentColor` stroke-width=`2` stroke-linecap=`round` stroke-linejoin=`round` style=`vertical-align:-1px;margin-right:4px;`>"
  +++ html "<circle cx=`12` cy=`12` r=`10`/><line x1=`22` y1=`12` x2=`18` y2=`12`/><line x1=`6` y1=`12` x2=`2` y2=`12`/><line x1=`12` y1=`6` x2=`12` y2=`2`/><line x1=`12` y1=`22` x2=`12` y2=`18`/></svg>".

Definition SVG_TRACE_COMPACT : jstr :=
  html "<svg width=`14` height=`14` viewBox=`0 0 24 24` fill=`none` stroke=`currentColor` stroke-width=`2` stroke-linecap=`round` stroke-linejoin=`round`>"
  +++ html "<circle cx=`12` cy=`12` r=`10`/><line x1=`22` y1=`12` x2=`18` y2=`12`/><line x1=`6` y1=`12` x2=`2` y2=`12`/><line x1=`12` y1=`6` x2=`12` y2=`2`/><line x1=`12` y1=`22` x2=`12` y2=`18`/></svg>".

Definition SVG_ARROW_OUT : jstr :=
  html "<svg class=`w-3 h-3 text-indigo-500 flex-shrink-0` viewBox=`0 0 24 24` fill=`none` stroke=`currentColor` stroke-width=`2.5` stroke-linecap=`round` stroke-linejoin=`round`><polyline points=`9 18 15 12 9 6`/></svg>".

Definition SVG_ARROW_IN : jstr :=
  html "<svg class=`w-3 h-3 text-emerald-500 flex-shrink-0` viewBox=`0 0 24 24` fill=`none` stroke=`currentColor` stroke-width=`2.5` stroke-linecap=`round` stroke-linejoin=`round`><polyline points=`15 18 9 12 15 6`/></svg>".

Definition SVG_MAP_PIN : jstr :=
  html "<svg viewBox=`0 0 24 24` fill=`none` stroke=`currentColor` stroke-width=`2` stroke-linecap=`round` stroke-linejoin=`round`><path d=`M21 10c0 7-9 13-9 13s-9-6-9-13a9 9 0 0 1 18 0z`/><circle cx=`12` cy=`10` r=`3`/></svg>".

Definition SVG_USER : jstr :=
  html "<svg viewBox=`0 0 24 24` fill=`none` stroke=`currentColor` stroke-width=`2` stroke-linecap=`round` stroke-linejoin=`round`><path d=`M20 21v-2a4 4 0 0 0-4-4H8a4 4 0 0 0-4 4v2`/><circle cx=`12` cy=`7` r=`4`/></svg>".

Definition SVG_ARCHIVE : jstr :=
  html "<svg viewBox=`0 0 24 24` fill=`none` stroke=`currentColor` stroke-width=`2` stroke-linecap=`round` stroke-linejoin=`round`><polyline points=`21 8 21 21 3 21 3 8`/><rect x=`1` y=`3` width=`22` height=`5`/><line x1=`10` y1=`12` x2=`14` y2=`12`/></svg>".

(** ** Event bus

    A private event target: [on] appends a listener, [emit] runs the listeners of
    the event in registration order, each isolated from the exceptions of the
    others. *)

Abbreviation bus W D := (gmap jstr (list (D -> M W unit))).

Section bus.
Context {W D : Type}.

Definition bus_on (event : jstr) (fn : D -> M W unit) (b : bus W D) : bus W D :=
  <[event := default [] (b !! event) ++ [fn]]> b.

Definition bus_emit (b : bus W D) (event : jstr) (detail : D) : M W unit :=
  for_each (default [] (b !! event)) (fun fn => dispatch (fn detail)).
End bus.

(** ** Lemmas *)

Lemma truthy_Z_true n : n <> 0 -> truthy n = true.
Proof. intros Hn. unfold truthy, truthy_Z. by rewrite (proj2 (Z.eqb_neq _ _) Hn). Qed.

Lemma esc_html_escape s : esc s = html_escape s.
Proof. by destruct s. Qed.

Lemma nodeHex_eq n :
  0 < n < 2 ^ 32 -> nodeHex n = 33%N :: padStart 8 48%N (hex n).
Proof.
  intros Hn. unfold nodeHex. rewrite truthy_Z_true by lia.
  by rewrite to_uint32_small by lia.
Qed.

(** The characters of a hexadecimal id need no escaping. *)
Definition hex_char (c : N) : Prop := c = 33%N \/ exists d, 0 <= d < 16 /\ c = digit_char d.

Lemma hex_id_chars n : 0 <= n -> Forall hex_char (33%N :: padStart 8 48%N (hex n)).
Proof.
  intros Hn. apply Forall_cons; split; [by left|]. unfold padStart, hex, toString_radix.
  destruct (Z.ltb_spec n 0); [lia|]. apply Forall_app; split.
  - apply Forall_replicate. right. by exists 0.
  - apply Forall_fmap. eapply Forall_impl; [apply (digits_range _ 16); [lia|done]|].
    intros d Hd. right. by exists d.
Qed.

Lemma nodeHex_chars n : Forall hex_char (nodeHex n).
Proof.
  unfold nodeHex. case_if; [|constructor]. apply hex_id_chars.
  unfold to_uint32. apply Z.mod_pos_bound. lia.
Qed.

Lemma hex_char_plain c : hex_char c -> plain_char c /\ c <> 34%N.
Proof.
  intros [->|(d & Hd & ->)]; [done|].
  assert (d ∈ seqZ 0 16) as Hin by (apply elem_of_seqZ; lia).
  repeat (apply elem_of_cons in Hin as [->|Hin]; [by vm_compute|]).
  by apply elem_of_nil in Hin.
Qed.

Lemma hex_chars_plain s : Forall hex_char s -> plain s /\ 34%N ∉ s.
Proof.
  intros Hc. split.
  - eapply Forall_impl; [exact Hc|]. intros c ?. by apply hex_char_plain.
  - intros Hin. eapply Forall_forall in Hc; [|exact Hin]. by apply hex_char_plain in Hc as [_ []].
Qed.

Lemma hex_char_escape c : hex_char c -> esc_char c = [c].
Proof.
  intros [->|(d & Hd & ->)]; [done|].
  assert (d ∈ seqZ 0 16) as Hin by (apply elem_of_seqZ; lia).
  repeat (apply elem_of_cons in Hin as [->|Hin]; [by vm_compute|]).
  by apply elem_of_nil in Hin.
Qed.

Lemma nodeHex_escape n : html_escape (nodeHex n) = nodeHex n.
Proof.
  induction (nodeHex_chars n) as [|c s Hc _ IH]; [done|].
  by rewrite html_escape_cons, hex_char_escape, IH.
Qed.

Lemma nodeHex_plain n : plain (nodeHex n) /\ 34%N ∉ nodeHex n.
Proof. apply hex_chars_plain, nodeHex_chars. Qed.

Lemma dir_short_Some dir n e (short : jstr) :
  dir !! n = Some e -> e_str e !! short_name = Some short -> short <> [] ->
  dir_short (Some dir) n = Some (e, short).
Proof.
  intros He Hs Hne. unfold dir_short, dir_get, mbind, option_bind.
  rewrite He. cbv iota beta. rewrite Hs. by destruct short.
Qed.

(** ** Properties *)

(** C29. A non-zero 32-bit node number becomes an exclamation mark and eight hexadecimal digits
    that read back as the number: the id determines the node. *)
Theorem nodeHex_roundtrip n :
  0 < n < 2 ^ 32 ->
  exists s, nodeHex n = 33%N :: s /\ length s = 8%nat /\ parseInt_radix 16 s = Some n.
Proof.
  intros Hn. exists (padStart 8 48%N (hex n)). split; [by apply nodeHex_eq|]. split.
  - rewrite padStart_length. pose proof (hex_length n 8). lia.
  - apply parse_padded_hex. lia.
Qed.

Lemma nodeHex_roundtrip_witness :
  exists s, nodeHex 2882400001 = 33%N :: s /\ length s = 8%nat
            /\ parseInt_radix 16 s = Some 2882400001.
Proof. apply (nodeHex_roundtrip 2882400001). lia. Defined.

(** C30. Escaped text is inert in element content: whatever the string, the browser
    finds no tag in it; and a string without NUL and carriage return, which the
    parser replaces, is parsed to exactly its characters. *)
Theorem esc_inert s :
  html_tags (esc s) = [] /\ (plain s -> html_tokens (esc s) = TChar <$> s).
Proof.
  split.
  { assert (all_ok (fun _ => false) (html_tags (esc s))) as Hs by (rewrite esc_html_escape; apply safe_html, safe_esc).
    destruct (html_tags (esc s)); [done|by apply Forall_cons in Hs as [Hf _]]. }
  intros Hp. rewrite esc_html_escape. unfold html_tokens.
  rewrite normalize_no_cr by auto with mesh.
  rewrite <- (app_nil_r (html_escape s)), tokenize_escape by done. apply app_nil_r.
Qed.

Lemma esc_inert_witness :
  html_tokens (esc (html "<img src=`x` onerror=alert(1)> & co"))
  = TChar <$> html "<img src=`x` onerror=alert(1)> & co".
Proof. apply esc_inert. by_decide. Defined.

(** C31. For a listed node with a positive number, a non-empty short name and a
    long name, both without NUL and carriage return, and no double quote in the
    long one, [nodeName] is one [span] whose title is the id and the long name, and
    whose text is the short name. *)
Theorem nodeName_well_formed dir n e (short long : jstr) :
  0 < n -> dir !! n = Some e ->
  e_str e !! short_name = Some short -> short <> [] -> plain short ->
  e_str e !! long_name = Some long -> plain long -> 34%N ∉ long ->
  html_tokens (nodeName (Some dir) n)
  = TTag (Tag false (js "span")
           [(js "title", nodeHex n ++ js " (" ++ long ++ js ")"); (js "class", js "cursor-help")])
    :: (TChar <$> short) ++ [TTag (Tag true (js "span") [])].
Proof.
  intros Hn He Hs Hne Hps Hl Hpl Hq. unfold nodeName.
  rewrite truthy_Z_true, (dir_short_Some dir n e short) by (done || lia).
  cbv beta iota zeta. rewrite Hl. unfold or_else. replace (if truthy long then long else []) with long by (by destruct long).
  destruct (nodeHex_plain n) as [Hxp Hxq].
  rewrite !esc_html_escape. unfold jcat, html_tokens.
  rewrite normalize_no_cr; cycle 1.
  { rewrite !not_elem_of_app. split_and!; first [by apply html_escape_no_cr|by_decide]. }
  generalize dependent (nodeHex n). intros hex Hxp Hxq.
  tok_literal. rewrite attr_escape by auto.
  tok_literal. rewrite attr_escape by auto.
  tok_literal. rewrite tokenize_escape by done.
  replace (hex ++ js " (" ++ long ++ js ")")
    with ((((hex ++ [32%N]) ++ [40%N]) ++ long) ++ [41%N]) by (by rewrite <- !app_assoc).
  done.
Qed.

Definition example_dir : directory :=
  {[ 5 := named_entry (js "AB") (js "Alice & Bob") ]}.

Lemma nodeName_well_formed_witness :
  html_tokens (nodeName (Some example_dir) 5)
  = TTag (Tag false (js "span")
           [(js "title", nodeHex 5 ++ js " (" ++ js "Alice & Bob" ++ js ")");
            (js "class", js "cursor-help")])
    :: (TChar <$> js "AB") ++ [TTag (Tag true (js "span") [])].
Proof.
  apply (nodeName_well_formed example_dir 5 (named_entry (js "AB") (js "Alice & Bob")));
    try done; by_decide.
Defined.

(** C38. The escaping does not touch double quotes, so a long name can leave the
    [title] attribute it is written into: the span of a node whose long name is
    [" onmouseover="alert(1)] has an event handler attribute. *)
Theorem nodeName_attribute_injection :
  exists (dir : directory) (n : Z) (name handler : jstr),
    e_str (default empty_entry (dir !! n)) !! long_name = Some name /\
    esc name = name /\
    (js "onmouseover", handler)
      ∈ default [] (tag_attrs <$> head (html_tags (nodeName (Some dir) n))).
Proof.
  exists {[ 5 := named_entry (js "AB") (html "` onmouseover=`alert(1)") ]}, 5,
    (html "` onmouseover=`alert(1)"), (js "alert(1))").
  split; [by vm_compute|]. split; [by vm_compute|]. by_decide.
Qed.

(** The units of [formatUnixAge] in seconds, with the size of the next one. *)
Definition age_units : list (Z * Z * jstr) :=
  [(1, 60, js "s ago"); (60, 3600, js "m ago"); (3600, 86400, js "h ago")].

(** C32. The age of a past time is the number of whole units elapsed, in the
    largest unit of which at least one has elapsed (seconds below a minute). *)
Theorem formatUnixAge_spec now ts :
  0 < ts <= now ->
  (exists size next suffix,
     (size, next, suffix) ∈ age_units /\
     (size = 1 \/ size <= now - ts) /\ now - ts < next /\
     formatUnixAge now ts = dec ((now - ts) / size) +++ suffix)
  \/ (86400 <= now - ts /\ formatUnixAge now ts = dec ((now - ts) / 86400) +++ js "d ago").
Proof.
  intros Hts. unfold formatUnixAge. rewrite truthy_Z_true by lia.
  set (d := now - ts). assert (0 <= d) by lia.
  destruct (Z.ltb_spec d 0); [lia|].
  destruct (Z.ltb_spec d 60).
  { left. exists 1, 60, (js "s ago"). rewrite Z.div_1_r. split; [left|]. auto with lia. }
  destruct (Z.ltb_spec d 3600).
  { left. exists 60, 3600, (js "m ago"). split; [do 1 right; left|]. auto with lia. }
  destruct (Z.ltb_spec d 86400).
  { left. exists 3600, 86400, (js "h ago"). split; [do 2 right; left|]. auto with lia. }
  right. done.
Qed.

Lemma formatUnixAge_spec_witness :
  (exists size next suffix,
     (size, next, suffix) ∈ age_units /\
     (size = 1 \/ size <= 10000 - 1000) /\ 10000 - 1000 < next /\
     formatUnixAge 10000 1000 = dec ((10000 - 1000) / size) +++ suffix)
  \/ (86400 <= 10000 - 1000
      /\ formatUnixAge 10000 1000 = dec ((10000 - 1000) / 86400) +++ js "d ago").
Proof. apply (formatUnixAge_spec 10000 1000). lia. Defined.

(** C33. [emit] never throws and runs the listeners of the event in the order in
    which they were registered, each on the state its predecessors left, also
    when some of them throw. *)
Theorem bus_emit_order {W D} (b : bus W D) event fn d (w : W) :
  bus_emit (bus_on event fn b) event d w
  = (Ok tt, snd (fn d (snd (bus_emit b event d w)))) /\
  (forall event', event' <> event ->
     bus_emit (bus_on event fn b) event' d w = bus_emit b event' d w) /\
  fst (bus_emit b event d w) = Ok tt.
Proof.
  assert (forall (l : list (D -> M W unit)) w0,
    for_each l (fun fn => dispatch (fn d)) w0
    = (Ok tt, foldl (fun w fn => snd (fn d w)) w0 l)) as Hl.
  { induction l as [|h l IH]; intros w0; [done|]. cbn. unfold mbind', dispatch. apply IH. }
  unfold bus_emit, bus_on. rewrite lookup_insert_eq. cbn [default from_option id].
  rewrite !Hl, foldl_app. split; [done|]. split; [|done].
  intros event' Hne. by rewrite lookup_insert_ne by done.
Qed.
