(* ===== verification/World.v ===== *)
(** * The state of the page

    One record per script component, the part of the DOM the scripts read and
    write, the pending timers and requests, and the calls made to the server and
    to the map and chart libraries, in order. Every operation of the components
    is a statement over [world]. For a field [x], [on_x f] updates it with [f]. *)

From S2P Require Import Prelude JsString JsNumber Html NodeDir.

(** ** DOM *)

Record elem := Elem {
  el_content : jstr;       (** [innerHTML] *)
  el_class : list jstr;    (** [classList] *)
  el_display : jstr;       (** [style.display] *)
  el_style : jstr;         (** the other style property the scripts set *)
  el_disabled : bool;
  el_value : jstr;         (** [value] of an input *)
}.

Definition empty_elem : elem := Elem [] [] [] [] false [].

(** The elements of dashboard.html by id. Every id the scripts look up is in the
    page, so a lookup does not return [null]. *)
Definition dom := string -> elem.

(** A row of the message table; an entry of the chat log. *)
Record row := Row { row_html : jstr; row_display : jstr }.
Record chat_el := ChatEl { ce_channel : Z; ce_class : jstr; ce_html : jstr; ce_display : jstr }.

(** A button of the channel list: class, label, text of the badge. *)
Record chat_btn := ChatBtn { cn_channel : Z; cn_class : jstr; cn_label : jstr; cn_badge : jstr }.

(** A checkbox of a filter panel. *)
Record checkbox := Checkbox { cb_value : jstr; cb_checked : bool }.

(** A button with a [data-trace-target]; [bt_compact] for class [na-trace-btn]. *)
Record btn := Btn {
  bt_target : jstr; bt_compact : bool; bt_disabled : bool; bt_color : jstr; bt_html : jstr }.

(** ** Data received from the server *)

Record sample := Sample { s_ts : jstr; s_fi : Z; s_fo : Z }.

Record trace_entry := TraceEntry {
  te_from : Z; te_to : Z;
  te_route : option (list Z); te_route_back : option (list Z);
  te_snr_towards : option (list Z); te_snr_back : option (list Z);
  te_timeout : bool;
  te_timestamp : option jstr;
}.

Record chat_msg := ChatMsg {
  cm_timestamp : jstr; cm_from : Z; cm_to : Z; cm_channel : Z; cm_text : jstr;
  cm_from_name : jstr; cm_to_name : jstr; cm_direction : jstr;
  cm_via_mqtt : bool; cm_rx_rssi : Z; cm_rx_snr : num;
}.

Record chat_channel := ChatChannel { ch_index : Z; ch_name : jstr }.

(** ** Map objects *)

Record marker := Marker {
  mk_latlng : num * num;
  mk_icon : jstr;          (** HTML of the icon *)
  mk_popup : jstr;         (** HTML of the popup *)
  mk_btn : btn;            (** the trace button in that HTML *)
  mk_shown : bool;         (** [mapInstance.hasLayer(marker)] *)
  mk_open : bool;          (** [marker.isPopupOpen()] *)
}.

(** A hop marker of the traceroute layer: position, icon, tooltip. *)
Record hop_marker := HopMarker { hm_latlng : num * num; hm_icon : jstr; hm_tooltip : jstr }.
Record route_layer := RouteLayer {
  rl_line : list (num * num); rl_popup : jstr; rl_hops : list hop_marker }.

(** ** Timers and requests

    A callback is the closure it stands for: the code and its captured
    variables; [CbConnectSSE] captures none and carries the delay it was set
    with, which the other timers have fixed. *)

Inductive callback :=
| CbTraceTimeout (nodeNum : Z)
| CbCooldownTick (nodeNum remaining : Z)
| CbConnectSSE (delay : Z)
| CbArmDropdown
| CbRefreshDone.

Inductive fetch :=
| FTrace (nodeNum : Z)
| FAction (what : string)
| FFavorite (nodeNum : Z) (newFav : bool)
| FRefresh
| FChannels
| FChatSend.

Inductive jval := JNum (z : Z) | JBool (b : bool) | JStr (s : jstr).

(** Calls that leave the page. *)
Inductive effect :=
| Post (url : string) (body : list (string * jval))
| Get (url : string)
| ConsoleError (what : string)
| ChartUpdate (chart : string)
| FitBounds (points : list (num * num)) (maxZoom : Z)
| FlyTo (point : num * num) (zoom : Z)
| OpenEventSource.

(** ** Component states *)

Record charts := Charts {
  c_labels : list jstr;  (** trafficData.labels *)
  c_fi : list Z;  (** trafficData.datasets[0].data *)
  c_fo : list Z;  (** trafficData.datasets[1].data *)
  c_max : Z;  (** maxTrafficPoints *)
  c_type_labels : list jstr;  (** typesChart.data.labels *)
  c_type_values : list Z;
  c_type_colors : list jstr;
}.

Definition on_c_labels (f : (list jstr) -> (list jstr)) (x : charts) : charts :=
  Charts (f (c_labels x)) (c_fi x) (c_fo x) (c_max x) (c_type_labels x) (c_type_values x)
    (c_type_colors x).
Definition on_c_fi (f : (list Z) -> (list Z)) (x : charts) : charts :=
  Charts (c_labels x) (f (c_fi x)) (c_fo x) (c_max x) (c_type_labels x) (c_type_values x)
    (c_type_colors x).
Definition on_c_fo (f : (list Z) -> (list Z)) (x : charts) : charts :=
  Charts (c_labels x) (c_fi x) (f (c_fo x)) (c_max x) (c_type_labels x) (c_type_values x)
    (c_type_colors x).
Definition on_c_max (f : Z -> Z) (x : charts) : charts :=
  Charts (c_labels x) (c_fi x) (c_fo x) (f (c_max x)) (c_type_labels x) (c_type_values x)
    (c_type_colors x).
Definition on_c_type_labels (f : (list jstr) -> (list jstr)) (x : charts) : charts :=
  Charts (c_labels x) (c_fi x) (c_fo x) (c_max x) (f (c_type_labels x)) (c_type_values x)
    (c_type_colors x).
Definition on_c_type_values (f : (list Z) -> (list Z)) (x : charts) : charts :=
  Charts (c_labels x) (c_fi x) (c_fo x) (c_max x) (c_type_labels x) (f (c_type_values x))
    (c_type_colors x).
Definition on_c_type_colors (f : (list jstr) -> (list jstr)) (x : charts) : charts :=
  Charts (c_labels x) (c_fi x) (c_fo x) (c_max x) (c_type_labels x) (c_type_values x)
    (f (c_type_colors x)).

Record sse := Sse {
  x_delay : Z;  (** reconnectDelay *)
  x_paused : bool;
  x_open : bool;  (** an event source is open *)
}.

Definition on_x_delay (f : Z -> Z) (x : sse) : sse :=
  Sse (f (x_delay x)) (x_paused x) (x_open x).
Definition on_x_paused (f : bool -> bool) (x : sse) : sse :=
  Sse (x_delay x) (f (x_paused x)) (x_open x).
Definition on_x_open (f : bool -> bool) (x : sse) : sse :=
  Sse (x_delay x) (x_paused x) (f (x_open x)).

Record messages := Messages {
  g_rows : list row;  (** children of messages-tbody *)
  g_filterTerm : jstr;
}.

Definition on_g_rows (f : (list row) -> (list row)) (x : messages) : messages :=
  Messages (f (g_rows x)) (g_filterTerm x).
Definition on_g_filterTerm (f : jstr -> jstr) (x : messages) : messages :=
  Messages (g_rows x) (f (g_filterTerm x)).

Record mapview := MapView {
  v_instance : bool;  (** mapInstance is not null *)
  v_markers : gmap Z marker;  (** mapMarkers *)
  v_route : option route_layer;  (** traceRouteLayer *)
}.

Definition on_v_instance (f : bool -> bool) (x : mapview) : mapview :=
  MapView (f (v_instance x)) (v_markers x) (v_route x).
Definition on_v_markers (f : (gmap Z marker) -> (gmap Z marker)) (x : mapview) : mapview :=
  MapView (v_instance x) (f (v_markers x)) (v_route x).
Definition on_v_route (f : (option route_layer) -> (option route_layer)) (x : mapview) : mapview :=
  MapView (v_instance x) (v_markers x) (f (v_route x)).

Record filters := Filters {
  f_open : bool;  (** filtersOpen *)
  f_roles : option (gset jstr);  (** checkedRoles *)
  f_hw : option (gset jstr);  (** checkedHw *)
  f_role_boxes : list checkbox;  (** inputs named mf-role *)
  f_hw_boxes : list checkbox;  (** inputs named mf-hwm *)
  f_status : jstr;  (** checked value of mf-status *)
  f_battery : jstr;  (** of mf-battery *)
  f_mqtt : jstr;  (** of mf-mqtt *)
  f_heatmap : jstr;  (** of mf-heatmap *)
}.

Definition on_f_open (f : bool -> bool) (x : filters) : filters :=
  Filters (f (f_open x)) (f_roles x) (f_hw x) (f_role_boxes x) (f_hw_boxes x) (f_status x)
    (f_battery x) (f_mqtt x) (f_heatmap x).
Definition on_f_roles (f : (option (gset jstr)) -> (option (gset jstr))) (x : filters) : filters :=
  Filters (f_open x) (f (f_roles x)) (f_hw x) (f_role_boxes x) (f_hw_boxes x) (f_status x)
    (f_battery x) (f_mqtt x) (f_heatmap x).
Definition on_f_hw (f : (option (gset jstr)) -> (option (gset jstr))) (x : filters) : filters :=
  Filters (f_open x) (f_roles x) (f (f_hw x)) (f_role_boxes x) (f_hw_boxes x) (f_status x)
    (f_battery x) (f_mqtt x) (f_heatmap x).
Definition on_f_role_boxes (f : (list checkbox) -> (list checkbox)) (x : filters) : filters :=
  Filters (f_open x) (f_roles x) (f_hw x) (f (f_role_boxes x)) (f_hw_boxes x) (f_status x)
    (f_battery x) (f_mqtt x) (f_heatmap x).
Definition on_f_hw_boxes (f : (list checkbox) -> (list checkbox)) (x : filters) : filters :=
  Filters (f_open x) (f_roles x) (f_hw x) (f_role_boxes x) (f (f_hw_boxes x)) (f_status x)
    (f_battery x) (f_mqtt x) (f_heatmap x).
Definition on_f_status (f : jstr -> jstr) (x : filters) : filters :=
  Filters (f_open x) (f_roles x) (f_hw x) (f_role_boxes x) (f_hw_boxes x) (f (f_status x))
    (f_battery x) (f_mqtt x) (f_heatmap x).
Definition on_f_battery (f : jstr -> jstr) (x : filters) : filters :=
  Filters (f_open x) (f_roles x) (f_hw x) (f_role_boxes x) (f_hw_boxes x) (f_status x)
    (f (f_battery x)) (f_mqtt x) (f_heatmap x).
Definition on_f_mqtt (f : jstr -> jstr) (x : filters) : filters :=
  Filters (f_open x) (f_roles x) (f_hw x) (f_role_boxes x) (f_hw_boxes x) (f_status x)
    (f_battery x) (f (f_mqtt x)) (f_heatmap x).
Definition on_f_heatmap (f : jstr -> jstr) (x : filters) : filters :=
  Filters (f_open x) (f_roles x) (f_hw x) (f_role_boxes x) (f_hw_boxes x) (f_status x)
    (f_battery x) (f_mqtt x) (f (f_heatmap x)).

Definition heat_point : Type := option num * option num * num.

Record heatmap := Heatmap {
  h_mode : jstr;  (** heatmapMode *)
  h_layer : option (list heat_point * string);  (** heatmapLayer: points and gradient *)
  h_stray : list (list heat_point * string);  (** layers on the map that no variable holds *)
}.

Definition on_h_mode (f : jstr -> jstr) (x : heatmap) : heatmap :=
  Heatmap (f (h_mode x)) (h_layer x) (h_stray x).
Definition on_h_layer (f : (option (list heat_point * string)) -> (option (list heat_point * string)))
    (x : heatmap) : heatmap :=
  Heatmap (h_mode x) (f (h_layer x)) (h_stray x).
Definition on_h_stray (f : (list (list heat_point * string)) -> (list (list heat_point * string)))
    (x : heatmap) : heatmap :=
  Heatmap (h_mode x) (h_layer x) (f (h_stray x)).

Record pending := Pending { pt_target : Z; pt_timer : nat; pt_startedAt : Z }.
Record cooling := Cooling { cd_target : Z; cd_remaining : Z; cd_interval : nat }.

Record trace := Trace {
  t_pending : option pending;  (** pendingTraceroute *)
  t_cooldown : option cooling;  (** traceCooldown *)
}.

Definition on_t_pending (f : (option pending) -> (option pending)) (x : trace) : trace :=
  Trace (f (t_pending x)) (t_cooldown x).
Definition on_t_cooldown (f : (option cooling) -> (option cooling)) (x : trace) : trace :=
  Trace (t_pending x) (f (t_cooldown x)).

Record history := History {
  y_open : bool;  (** traceHistoryOpen *)
  y_data : list trace_entry;  (** traceHistoryData *)
}.

Definition on_y_open (f : bool -> bool) (x : history) : history :=
  History (f (y_open x)) (y_data x).
Definition on_y_data (f : (list trace_entry) -> (list trace_entry)) (x : history) : history :=
  History (y_open x) (f (y_data x)).

Record dropdown := Dropdown { dd_parent : jstr; dd_html : jstr }.

Record nodes := Nodes {
  n_initialized : bool;  (** nodesInitialized *)
  n_mode : jstr;  (** nodesFilterMode *)
  n_mqtt : jstr;  (** nodesFilterMqtt *)
  n_position : jstr;  (** nodesFilterPosition *)
  n_roles : gset jstr;  (** nodesFilterRoles *)
  n_open : bool;  (** nodesFiltersOpen *)
  n_sortKey : jstr;  (** nodesSortKey *)
  n_sortDir : jstr;  (** nodesSortDir *)
  n_role_boxes : list checkbox;  (** inputs of nf-role-checks *)
  n_dropdown : option dropdown;  (** activeDropdown *)
}.

Definition on_n_initialized (f : bool -> bool) (x : nodes) : nodes :=
  Nodes (f (n_initialized x)) (n_mode x) (n_mqtt x) (n_position x) (n_roles x) (n_open x)
    (n_sortKey x) (n_sortDir x) (n_role_boxes x) (n_dropdown x).
Definition on_n_mode (f : jstr -> jstr) (x : nodes) : nodes :=
  Nodes (n_initialized x) (f (n_mode x)) (n_mqtt x) (n_position x) (n_roles x) (n_open x)
    (n_sortKey x) (n_sortDir x) (n_role_boxes x) (n_dropdown x).
Definition on_n_mqtt (f : jstr -> jstr) (x : nodes) : nodes :=
  Nodes (n_initialized x) (n_mode x) (f (n_mqtt x)) (n_position x) (n_roles x) (n_open x)
    (n_sortKey x) (n_sortDir x) (n_role_boxes x) (n_dropdown x).
Definition on_n_position (f : jstr -> jstr) (x : nodes) : nodes :=
  Nodes (n_initialized x) (n_mode x) (n_mqtt x) (f (n_position x)) (n_roles x) (n_open x)
    (n_sortKey x) (n_sortDir x) (n_role_boxes x) (n_dropdown x).
Definition on_n_roles (f : (gset jstr) -> (gset jstr)) (x : nodes) : nodes :=
  Nodes (n_initialized x) (n_mode x) (n_mqtt x) (n_position x) (f (n_roles x)) (n_open x)
    (n_sortKey x) (n_sortDir x) (n_role_boxes x) (n_dropdown x).
Definition on_n_open (f : bool -> bool) (x : nodes) : nodes :=
  Nodes (n_initialized x) (n_mode x) (n_mqtt x) (n_position x) (n_roles x) (f (n_open x))
    (n_sortKey x) (n_sortDir x) (n_role_boxes x) (n_dropdown x).
Definition on_n_sortKey (f : jstr -> jstr) (x : nodes) : nodes :=
  Nodes (n_initialized x) (n_mode x) (n_mqtt x) (n_position x) (n_roles x) (n_open x)
    (f (n_sortKey x)) (n_sortDir x) (n_role_boxes x) (n_dropdown x).
Definition on_n_sortDir (f : jstr -> jstr) (x : nodes) : nodes :=
  Nodes (n_initialized x) (n_mode x) (n_mqtt x) (n_position x) (n_roles x) (n_open x)
    (n_sortKey x) (f (n_sortDir x)) (n_role_boxes x) (n_dropdown x).
Definition on_n_role_boxes (f : (list checkbox) -> (list checkbox)) (x : nodes) : nodes :=
  Nodes (n_initialized x) (n_mode x) (n_mqtt x) (n_position x) (n_roles x) (n_open x)
    (n_sortKey x) (n_sortDir x) (f (n_role_boxes x)) (n_dropdown x).
Definition on_n_dropdown (f : (option dropdown) -> (option dropdown)) (x : nodes) : nodes :=
  Nodes (n_initialized x) (n_mode x) (n_mqtt x) (n_position x) (n_roles x) (n_open x)
    (n_sortKey x) (n_sortDir x) (n_role_boxes x) (f (n_dropdown x)).

Record chat := Chat {
  k_initialized : bool;  (** chatInitialized *)
  k_all : list chat_msg;  (** allChatMessages *)
  k_channels : list chat_channel;  (** chatChannels *)
  k_els : list chat_el;  (** the .chat-msg elements *)
  k_buttons : list chat_btn;  (** the .chat-channel-btn elements *)
  k_autoScroll : bool;  (** chatAutoScroll *)
  k_active : Z;  (** activeChannel *)
  k_scrolled : bool;  (** scrolled to the bottom *)
}.

Definition on_k_initialized (f : bool -> bool) (x : chat) : chat :=
  Chat (f (k_initialized x)) (k_all x) (k_channels x) (k_els x) (k_buttons x) (k_autoScroll x)
    (k_active x) (k_scrolled x).
Definition on_k_all (f : (list chat_msg) -> (list chat_msg)) (x : chat) : chat :=
  Chat (k_initialized x) (f (k_all x)) (k_channels x) (k_els x) (k_buttons x) (k_autoScroll x)
    (k_active x) (k_scrolled x).
Definition on_k_channels (f : (list chat_channel) -> (list chat_channel)) (x : chat) : chat :=
  Chat (k_initialized x) (k_all x) (f (k_channels x)) (k_els x) (k_buttons x) (k_autoScroll x)
    (k_active x) (k_scrolled x).
Definition on_k_els (f : (list chat_el) -> (list chat_el)) (x : chat) : chat :=
  Chat (k_initialized x) (k_all x) (k_channels x) (f (k_els x)) (k_buttons x) (k_autoScroll x)
    (k_active x) (k_scrolled x).
Definition on_k_buttons (f : (list chat_btn) -> (list chat_btn)) (x : chat) : chat :=
  Chat (k_initialized x) (k_all x) (k_channels x) (k_els x) (f (k_buttons x)) (k_autoScroll x)
    (k_active x) (k_scrolled x).
Definition on_k_autoScroll (f : bool -> bool) (x : chat) : chat :=
  Chat (k_initialized x) (k_all x) (k_channels x) (k_els x) (k_buttons x) (f (k_autoScroll x))
    (k_active x) (k_scrolled x).
Definition on_k_active (f : Z -> Z) (x : chat) : chat :=
  Chat (k_initialized x) (k_all x) (k_channels x) (k_els x) (k_buttons x) (k_autoScroll x)
    (f (k_active x)) (k_scrolled x).
Definition on_k_scrolled (f : bool -> bool) (x : chat) : chat :=
  Chat (k_initialized x) (k_all x) (k_channels x) (k_els x) (k_buttons x) (k_autoScroll x)
    (k_active x) (f (k_scrolled x)).

(** ** The page *)

Record world := World {
  w_now : Z;  (** Date.now() *)
  w_dom : dom;
  w_nodeDir : option directory;
  w_charts : charts;
  w_sse : sse;
  w_messages : messages;
  w_map : mapview;
  w_filters : filters;
  w_heat : heatmap;
  w_trace : trace;
  w_history : history;
  w_nodes : nodes;
  w_chat : chat;
  w_btns : list btn;  (** trace buttons in the document *)
  w_timers : gmap nat callback;  (** pending timers *)
  w_fetches : gmap nat fetch;  (** pending requests *)
  w_next : nat;  (** next timer or request id *)
  w_log : list effect;  (** calls that left the page *)
}.

Definition on_w_now (f : Z -> Z) (x : world) : world :=
  World (f (w_now x)) (w_dom x) (w_nodeDir x) (w_charts x) (w_sse x) (w_messages x) (w_map x)
    (w_filters x) (w_heat x) (w_trace x) (w_history x) (w_nodes x) (w_chat x) (w_btns x)
    (w_timers x) (w_fetches x) (w_next x) (w_log x).
Definition on_w_dom (f : dom -> dom) (x : world) : world :=
  World (w_now x) (f (w_dom x)) (w_nodeDir x) (w_charts x) (w_sse x) (w_messages x) (w_map x)
    (w_filters x) (w_heat x) (w_trace x) (w_history x) (w_nodes x) (w_chat x) (w_btns x)
    (w_timers x) (w_fetches x) (w_next x) (w_log x).
Definition on_w_nodeDir (f : (option directory) -> (option directory)) (x : world) : world :=
  World (w_now x) (w_dom x) (f (w_nodeDir x)) (w_charts x) (w_sse x) (w_messages x) (w_map x)
    (w_filters x) (w_heat x) (w_trace x) (w_history x) (w_nodes x) (w_chat x) (w_btns x)
    (w_timers x) (w_fetches x) (w_next x) (w_log x).
Definition on_w_charts (f : charts -> charts) (x : world) : world :=
  World (w_now x) (w_dom x) (w_nodeDir x) (f (w_charts x)) (w_sse x) (w_messages x) (w_map x)
    (w_filters x) (w_heat x) (w_trace x) (w_history x) (w_nodes x) (w_chat x) (w_btns x)
    (w_timers x) (w_fetches x) (w_next x) (w_log x).
Definition on_w_sse (f : sse -> sse) (x : world) : world :=
  World (w_now x) (w_dom x) (w_nodeDir x) (w_charts x) (f (w_sse x)) (w_messages x) (w_map x)
    (w_filters x) (w_heat x) (w_trace x) (w_history x) (w_nodes x) (w_chat x) (w_btns x)
    (w_timers x) (w_fetches x) (w_next x) (w_log x).
Definition on_w_messages (f : messages -> messages) (x : world) : world :=
  World (w_now x) (w_dom x) (w_nodeDir x) (w_charts x) (w_sse x) (f (w_messages x)) (w_map x)
    (w_filters x) (w_heat x) (w_trace x) (w_history x) (w_nodes x) (w_chat x) (w_btns x)
    (w_timers x) (w_fetches x) (w_next x) (w_log x).
Definition on_w_map (f : mapview -> mapview) (x : world) : world :=
  World (w_now x) (w_dom x) (w_nodeDir x) (w_charts x) (w_sse x) (w_messages x) (f (w_map x))
    (w_filters x) (w_heat x) (w_trace x) (w_history x) (w_nodes x) (w_chat x) (w_btns x)
    (w_timers x) (w_fetches x) (w_next x) (w_log x).
Definition on_w_filters (f : filters -> filters) (x : world) : world :=
  World (w_now x) (w_dom x) (w_nodeDir x) (w_charts x) (w_sse x) (w_messages x) (w_map x)
    (f (w_filters x)) (w_heat x) (w_trace x) (w_history x) (w_nodes x) (w_chat x) (w_btns x)
    (w_timers x) (w_fetches x) (w_next x) (w_log x).
Definition on_w_heat (f : heatmap -> heatmap) (x : world) : world :=
  World (w_now x) (w_dom x) (w_nodeDir x) (w_charts x) (w_sse x) (w_messages x) (w_map x)
    (w_filters x) (f (w_heat x)) (w_trace x) (w_history x) (w_nodes x) (w_chat x) (w_btns x)
    (w_timers x) (w_fetches x) (w_next x) (w_log x).
Definition on_w_trace (f : trace -> trace) (x : world) : world :=
  World (w_now x) (w_dom x) (w_nodeDir x) (w_charts x) (w_sse x) (w_messages x) (w_map x)
    (w_filters x) (w_heat x) (f (w_trace x)) (w_history x) (w_nodes x) (w_chat x) (w_btns x)
    (w_timers x) (w_fetches x) (w_next x) (w_log x).
Definition on_w_history (f : history -> history) (x : world) : world :=
  World (w_now x) (w_dom x) (w_nodeDir x) (w_charts x) (w_sse x) (w_messages x) (w_map x)
    (w_filters x) (w_heat x) (w_trace x) (f (w_history x)) (w_nodes x) (w_chat x) (w_btns x)
    (w_timers x) (w_fetches x) (w_next x) (w_log x).
Definition on_w_nodes (f : nodes -> nodes) (x : world) : world :=
  World (w_now x) (w_dom x) (w_nodeDir x) (w_charts x) (w_sse x) (w_messages x) (w_map x)
    (w_filters x) (w_heat x) (w_trace x) (w_history x) (f (w_nodes x)) (w_chat x) (w_btns x)
    (w_timers x) (w_fetches x) (w_next x) (w_log x).
Definition on_w_chat (f : chat -> chat) (x : world) : world :=
  World (w_now x) (w_dom x) (w_nodeDir x) (w_charts x) (w_sse x) (w_messages x) (w_map x)
    (w_filters x) (w_heat x) (w_trace x) (w_history x) (w_nodes x) (f (w_chat x)) (w_btns x)
    (w_timers x) (w_fetches x) (w_next x) (w_log x).
Definition on_w_btns (f : (list btn) -> (list btn)) (x : world) : world :=
  World (w_now x) (w_dom x) (w_nodeDir x) (w_charts x) (w_sse x) (w_messages x) (w_map x)
    (w_filters x) (w_heat x) (w_trace x) (w_history x) (w_nodes x) (w_chat x) (f (w_btns x))
    (w_timers x) (w_fetches x) (w_next x) (w_log x).
Definition on_w_timers (f : (gmap nat callback) -> (gmap nat callback)) (x : world) : world :=
  World (w_now x) (w_dom x) (w_nodeDir x) (w_charts x) (w_sse x) (w_messages x) (w_map x)
    (w_filters x) (w_heat x) (w_trace x) (w_history x) (w_nodes x) (w_chat x) (w_btns x)
    (f (w_timers x)) (w_fetches x) (w_next x) (w_log x).
Definition on_w_fetches (f : (gmap nat fetch) -> (gmap nat fetch)) (x : world) : world :=
  World (w_now x) (w_dom x) (w_nodeDir x) (w_charts x) (w_sse x) (w_messages x) (w_map x)
    (w_filters x) (w_heat x) (w_trace x) (w_history x) (w_nodes x) (w_chat x) (w_btns x)
    (w_timers x) (f (w_fetches x)) (w_next x) (w_log x).
Definition on_w_next (f : nat -> nat) (x : world) : world :=
  World (w_now x) (w_dom x) (w_nodeDir x) (w_charts x) (w_sse x) (w_messages x) (w_map x)
    (w_filters x) (w_heat x) (w_trace x) (w_history x) (w_nodes x) (w_chat x) (w_btns x)
    (w_timers x) (w_fetches x) (f (w_next x)) (w_log x).
Definition on_w_log (f : (list effect) -> (list effect)) (x : world) : world :=
  World (w_now x) (w_dom x) (w_nodeDir x) (w_charts x) (w_sse x) (w_messages x) (w_map x)
    (w_filters x) (w_heat x) (w_trace x) (w_history x) (w_nodes x) (w_chat x) (w_btns x)
    (w_timers x) (w_fetches x) (w_next x) (f (w_log x)).

Abbreviation Page := (M world).

(** [Math.floor(Date.now() / 1000)] *)
Definition now_s (w : world) : Z := w_now w / 1000.

(** ** DOM statements *)

Definition on_elem (id : string) (f : elem -> elem) : Page unit :=
  modify (on_w_dom (fun d => <[id := f (d id)]> d)).

Lemma dom_eq (d : dom) id e : (<[id := e]> d) id = e.
Proof. apply (fn_lookup_insert (d : string -> elem)). Qed.
Lemma dom_ne (d : dom) id id' e : id <> id' -> (<[id := e]> d) id' = d id'.
Proof. apply (fn_lookup_insert_ne (d : string -> elem)). Qed.

(** Read an element after updates of elements with literal ids. *)
Ltac dom_lookup := repeat first [rewrite dom_eq | rewrite dom_ne by done].

(** Class names of a [className] string. *)
Fixpoint words_acc (cur : jstr) (s : jstr) : list jstr :=
  match s with
  | [] => match cur with [] => [] | _ => [cur] end
  | c :: s' => if (c =? 32)%N
               then match cur with [] => words_acc [] s' | _ => cur :: words_acc [] s' end
               else words_acc (cur ++ [c]) s'
  end.
Definition words (s : jstr) : list jstr := words_acc [] s.

Definition set_html (id : string) (h : jstr) : Page unit :=
  on_elem id (fun e => Elem h (el_class e) (el_display e) (el_style e) (el_disabled e) (el_value e)).
(** [el.textContent = s] *)
Definition set_text (id : string) (s : jstr) : Page unit := set_html id (html_escape s).
Definition set_classes (id : string) (f : list jstr -> list jstr) : Page unit :=
  on_elem id (fun e => Elem (el_content e) (f (el_class e)) (el_display e) (el_style e) (el_disabled e) (el_value e)).
Definition set_className (id : string) (s : jstr) : Page unit :=
  set_classes id (fun _ => words s).
Definition class_add (id : string) (c : jstr) : Page unit :=
  set_classes id (fun cs => if decide (c ∈ cs) then cs else cs ++ [c]).
Definition class_remove (id : string) (c : jstr) : Page unit :=
  set_classes id (filter (fun c' => c' <> c)).
Definition set_display (id : string) (s : jstr) : Page unit :=
  on_elem id (fun e => Elem (el_content e) (el_class e) s (el_style e) (el_disabled e) (el_value e)).
Definition set_style (id : string) (s : jstr) : Page unit :=
  on_elem id (fun e => Elem (el_content e) (el_class e) (el_display e) s (el_disabled e) (el_value e)).
Definition set_disabled (id : string) (b : bool) : Page unit :=
  on_elem id (fun e => Elem (el_content e) (el_class e) (el_display e) (el_style e) b (el_value e)).
Definition set_value (id : string) (s : jstr) : Page unit :=
  on_elem id (fun e => Elem (el_content e) (el_class e) (el_display e) (el_style e) (el_disabled e) s).

Definition has_class (w : world) (id : string) (c : jstr) : bool :=
  bool_decide (c ∈ el_class (w_dom w id)).

Lemma class_add_has id c w : has_class (snd (class_add id c w)) id c = true.
Proof.
  unfold has_class, class_add, set_classes, on_elem, modify. cbn. rewrite dom_eq. cbn.
  apply bool_decide_true. case_decide; set_solver.
Qed.

Lemma class_remove_has id c w : has_class (snd (class_remove id c w)) id c = false.
Proof.
  unfold has_class, class_remove, set_classes, on_elem, modify. cbn. rewrite dom_eq. cbn.
  apply bool_decide_false. rewrite list_elem_of_filter. by intros [].
Qed.

(** ** Timers, requests, log *)

Definition emit_effect (e : effect) : Page unit := modify (on_w_log (fun l => l ++ [e])).

Definition set_timer (cb : callback) : Page nat :=
  fun w => (Ok (w_next w), on_w_next S (on_w_timers (<[w_next w := cb]>) w)).
Definition clear_timer (id : nat) : Page unit := modify (on_w_timers (delete id)).
Definition start_fetch (f : fetch) : Page unit :=
  fun w => (Ok tt, on_w_next S (on_w_fetches (<[w_next w := f]>) w)).

(** ** The page as loaded *)

(** The elements of dashboard.html whose class, [disabled], [style.display] or
    text is not empty and is later read, tested or replaced by a script; classes
    that no script touches are left out, and so are the texts that the template
    computes from the server's data (cards, badges, the list of clients), which
    the scripts only overwrite. *)
Definition hidden_elem : elem := Elem [] [js "hidden"] [] [] false [].
Definition undisplayed_elem : elem := Elem [] [] (js "none") [] false [].
Definition text_elem (text classes : string) : elem := Elem (js text) (words (js classes)) [] [] false [].

Definition initial_dom (message_count : nat) : dom :=
  <["tab-map" := hidden_elem]> (<["tab-chat" := hidden_elem]> (<["tab-nodes" := hidden_elem]>
  (<["tab-btn-dashboard" := text_elem "Dashboard" "tab-btn bg-gray-800 text-gray-100"]>
  (<["tab-btn-map" := text_elem "Map" "tab-btn text-gray-400"]>
  (<["tab-btn-chat" := text_elem "Chat" "tab-btn text-gray-400"]>
  (<["tab-btn-nodes" := text_elem "Nodes" "tab-btn text-gray-400"]>
  (<["pause-btn" := text_elem "Live" "border-gray-700 text-gray-300"]>
  (<["sse-indicator" := text_elem "" "w-2 h-2 rounded-full bg-gray-600 hidden sm:inline-block"]>
  (<["sse-label" := text_elem "Connecting..." "text-xs text-gray-500 hidden sm:inline"]>
  (<["clients-section" := hidden_elem]>
  (<["msg-count" := Elem (dec (Z.of_nat message_count) +++ js " messages") [] [] [] false []]>
  (<["mf-body" := undisplayed_elem]> (<["hm-legend" := undisplayed_elem]>
  (<["hm-legend-title" := text_elem "RSSI" ""]> (<["hm-label-low" := text_elem "-120 dBm" ""]>
  (<["hm-label-high" := text_elem "-40 dBm" ""]>
  (<["map-no-nodes" := hidden_elem]>
  (<["chat-char-count" := text_elem "237" "text-gray-600"]>
  (<["chat-send-btn" := Elem [] [] [] [] true []]>
  (<["chat-channel-header" := text_elem "Primary" ""]> (<["nodes-count" := text_elem "0 nodes" ""]>
  (<["nodes-filter-all" := text_elem "All"
       "nodes-filter-btn text-[10px] font-semibold px-2.5 py-1 rounded-md transition-colors bg-gray-700 text-gray-100"]>
  (<["nodes-filter-realtime" := text_elem "Online"
       "nodes-filter-btn text-[10px] font-semibold px-2.5 py-1 rounded-md transition-colors text-gray-400 hover:text-gray-200"]>
  (<["nodes-filters-dot" := hidden_elem]> (<["nodes-filters-panel" := hidden_elem]>
  (<["trace-history-panel" := undisplayed_elem]> (<["nodes-empty" := hidden_elem]>
   (fun _ => empty_elem)))))))))))))))))))))))))))).
Arguments initial_dom : simpl never.

(** The initial values of the variables of the scripts, over the data the server
    wrote into the page: the directory and the rows of the message table; the
    charts are filled by [start_charts]. No client is connected. *)
Definition initial_page (nodeDir : option directory) (rows : list row) (now : Z) : world :=
  World now (initial_dom (length rows)) nodeDir
    (Charts [] [] [] 300 [] [] [])
    (Sse 1000 false false)
    (Messages rows [])
    (MapView false ∅ None)
    (Filters false None None [] [] (js "all") (js "all") (js "all") (js "off"))
    (Heatmap (js "off") None [])
    (Trace None None)
    (History false [])
    (Nodes false (js "all") (js "all") (js "all") ∅ false (js "short_name") (js "asc") [] None)
    (Chat false [] [] [] [] true 0 false)
    [] ∅ ∅ 0 [].

(** ** Frame reasoning

    [preserves m p]: the statement [m], whether it throws or not, leaves the part
    [p] of the page as it was. [total m]: [m] does not throw. *)

Definition preserves {A B} (m : Page A) (p : world -> B) : Prop :=
  forall w, p (snd (m w)) = p w.
Definition total {A} (m : Page A) : Prop := forall w, is_ok (fst (m w)) = true.

Lemma preserves_bind {A B C} (m : Page A) (k : A -> Page B) (p : world -> C) :
  preserves m p -> (forall a, preserves (k a) p) -> preserves (mbind' m k) p.
Proof.
  intros Hm Hk w. unfold mbind'. specialize (Hm w).
  destruct (m w) as [[a|e] w']; cbn in *; [|done]. by rewrite Hk.
Qed.

Lemma preserves_for_each {A C} (xs : list A) (body : A -> Page unit) (p : world -> C) :
  (forall x, preserves (body x) p) -> preserves (for_each xs body) p.
Proof.
  intros Hb. induction xs as [|x xs IH]; [by intros w|]. cbn.
  apply preserves_bind; [apply Hb|done].
Qed.

Lemma preserves_dispatch {C} (m : Page unit) (p : world -> C) :
  preserves m p -> preserves (dispatch m) p.
Proof. intros Hm w. unfold dispatch. apply Hm. Qed.

Lemma preserves_pair {A B C} (m : Page A) (p : world -> B) (q : world -> C) :
  preserves m p -> preserves m q -> preserves m (fun w => (p w, q w)).
Proof. intros Hp Hq w. by rewrite Hp, Hq. Qed.

Lemma total_bind {A B} (m : Page A) (k : A -> Page B) :
  total m -> (forall a, total (k a)) -> total (mbind' m k).
Proof.
  intros Hm Hk w. unfold mbind'. specialize (Hm w).
  destruct (m w) as [[a|e] w']; cbn in *; [apply Hk|done].
Qed.

Lemma total_for_each {A} (xs : list A) (body : A -> Page unit) :
  (forall x, total (body x)) -> total (for_each xs body).
Proof.
  intros Hb. induction xs as [|x xs IH]; [by intros w|]. cbn.
  apply total_bind; [apply Hb|done].
Qed.

Lemma total_run {A} (m : Page A) w : total m -> exists a, m w = (Ok a, snd (m w)).
Proof. intros Hm. specialize (Hm w). destruct (m w) as [[a|e] w']; [eauto|done]. Qed.

(** Running a total statement first. *)
Lemma run_seq {B} (m : Page unit) (k : Page B) w :
  total m -> (m ;;; k) w = k (snd (m w)).
Proof.
  intros Hm. unfold mbind'. specialize (Hm w). by destruct (m w) as [[[]|e] w'].
Qed.

(** Decompose a statement down to its primitive updates. *)
Ltac frame_step :=
  lazymatch goal with
  | |- preserves (mbind' _ _) _ => apply preserves_bind; [|intros ?]
  | |- preserves (for_each _ _) _ => apply preserves_for_each; intros ?
  | |- preserves (dispatch _) _ => apply preserves_dispatch
  | |- total (mbind' _ _) => apply total_bind; [|intros ?]
  | |- total (for_each _ _) => apply total_for_each; intros ?
  | |- context [match ?x with _ => _ end] => destruct x
  | |- context [if ?x then _ else _] => destruct x
  end.
Ltac frame_solve :=
  repeat (first [ solve [auto with mesh] | solve [intros ?; reflexivity] | frame_step ]).
