(* ===== verification/TraceHistory.v ===== *)
(** * nodes.js: the trace history panel

    The list of traceroute results, newest first, with the SNR of each hop; the
    panel opens by itself when a result arrives. *)

From S2P Require Import Prelude JsString JsNumber Platform Html NodeDir Mesh World.

(** [[t.to, ...t.route, t.from]], the forward chain of nodes. *)
Definition forward_hops (t : trace_entry) : list Z :=
  te_to t :: default [] (te_route t) ++ [te_from t].

(** [[t.from, ...t.route_back, t.to]] *)
Definition back_hops (t : trace_entry) : list Z :=
  te_from t :: default [] (te_route_back t) ++ [te_to t].

(** [t.route_back && t.route_back.length > 0] *)
Definition has_route_back (t : trace_entry) : bool :=
  match te_route_back t with Some (_ :: _) => true | _ => false end.

(** [i < snr.length && snr[i] !== 0], when so. *)
Definition snr_at (snr : option (list Z)) (i : nat) : option Z :=
  v ← default [] snr !! i;
  if truthy v then Some v else None.

Section history.
Context `{Platform}.

(** [(v / 4).toFixed(1)] *)
Definition snr_str (v : Z) : jstr := fixed (num_quot v 4) 1.

Definition snr_title (o : option Z) : jstr :=
  match o with
  | Some v => html " title=`SNR: " +++ snr_str v +++ html " dB`"
  | None => []
  end.

(** [cls]: the first displayed hop is the start, the last one the end. *)
Definition hop_class (first last : bool) : jstr :=
  if first then js "th-hop th-hop-start"
  else if last then js "th-hop th-hop-end" else js "th-hop".

Definition hop_span (nodeDir : option directory) (cls title : jstr) (n : Z) : jstr :=
  html "<span class=`" +++ cls +++ html "`" +++ title +++ js ">"
  +++ esc (nodeHexName nodeDir n) +++ js "</span>".

(** One step of the loop over [hops]. *)
Definition forward_hop (nodeDir : option directory) (t : trace_entry) (len : nat)
    (k : nat) (n : Z) : jstr :=
  (if (0 <? k)%nat then html "<span class=`th-arrow`>&rarr;</span>" else [])
  +++ hop_span nodeDir
        (hop_class (k =? 0)%nat (k =? len - 1)%nat)
        (if (0 <? k)%nat then snr_title (snr_at (te_snr_towards t) (k - 1)) else [])
        n.

Definition forward_html (nodeDir : option directory) (t : trace_entry) : jstr :=
  let hops := forward_hops t in
  let hopCount := Z.of_nat (length hops - 1) in
  mjoin (imap (forward_hop nodeDir t (length hops)) hops)
  +++ html "<span class=`th-hops-badge`>" +++ dec hopCount +++ js " hop"
  +++ (if hopCount =? 1 then [] else js "s") +++ js "</span>".

(** One step of the loop over [backHops], which runs from the last one down. *)
Definition back_hop (nodeDir : option directory) (t : trace_entry) (len : nat)
    (k : nat) (n : Z) : jstr :=
  (if (k <? len - 1)%nat then html "<span class=`th-arrow`>&larr;</span>" else [])
  +++ hop_span nodeDir
        (hop_class (k =? len - 1)%nat (k =? 0)%nat)
        (if (1 <=? k)%nat && (k <=? length (default [] (te_route_back t)))%nat
         then snr_title (snr_at (te_snr_back t) (k - 1)) else [])
        n.

Definition back_html (nodeDir : option directory) (t : trace_entry) : jstr :=
  let hops := back_hops t in
  mjoin (reverse (imap (back_hop nodeDir t (length hops)) hops))
  +++ html "<span class=`th-hops-badge` style=`color:#6b7280;border-color:rgba(107,114,128,0.2);background:rgba(107,114,128,0.1);`>return</span>".

(** The markup of entry [i]. *)
Definition history_entry (nodeDir : option directory) (now : Z) (i : nat) (t : trace_entry) : jstr :=
  let timeStr := localeTime (if truthy (te_timestamp t)
                             then default [] (te_timestamp t) else toISOString now) in
  if te_timeout t then
    html "<div class=`th-entry`>"
    +++ html "<span class=`th-time`>" +++ timeStr +++ js "</span>"
    +++ html "<span class=`th-route`>"
    +++ html "<span class=`th-hop th-hop-end`>" +++ esc (nodeHexName nodeDir (te_from t)) +++ js "</span>"
    +++ html "<span class=`th-hops-badge` style=`color:#f87171;border-color:rgba(248,113,113,0.3);background:rgba(248,113,113,0.08);`>No response</span>"
    +++ js "</span></div>"
  else
    html "<div class=`th-entry` onclick=`showTraceOnMap(" +++ dec (Z.of_nat i) +++ html ")`>"
    +++ html "<span class=`th-time`>" +++ timeStr +++ js "</span>"
    +++ html "<span class=`th-route`>" +++ forward_html nodeDir t +++ js "</span>"
    +++ js "</div>"
    +++ (if has_route_back t then
           html "<div class=`th-entry` onclick=`showTraceOnMap(" +++ dec (Z.of_nat i)
           +++ html ")` style=`padding-top:0;border-bottom-width:0;`>"
           +++ html "<span class=`th-time`></span>"
           +++ html "<span class=`th-route` style=`opacity:0.6;`>" +++ back_html nodeDir t +++ js "</span>"
           +++ js "</div>"
         else []).

Definition renderTraceHistory : Page unit :=
  data <-- gets (fun w => y_data (w_history w)) ;;
  nodeDir <-- gets w_nodeDir ;;
  now <-- gets w_now ;;
  match data with
  | [] =>
      set_html "trace-history-list" [] ;;;
      set_display "trace-history-empty" [] ;;;
      set_text "trace-history-count" []
  | _ =>
      set_display "trace-history-empty" (js "none") ;;;
      set_text "trace-history-count" (js "(" +++ dec (Z.of_nat (length data)) +++ js ")") ;;;
      set_html "trace-history-list"
        (mjoin (reverse (imap (history_entry nodeDir now) data)))
  end.

Definition open_panel (b : bool) : Page unit :=
  modify (on_w_history (on_y_open (fun _ => b))) ;;;
  if b then set_display "trace-history-panel" [] ;;; class_add "trace-history-btn" (js "active")
  else set_display "trace-history-panel" (js "none") ;;;
       class_remove "trace-history-btn" (js "active").

Definition toggleTraceHistory : Page unit :=
  isOpen <-- gets (fun w => y_open (w_history w)) ;;
  open_panel (negb isOpen).

(** [loadTraceHistory]; [None] when the payload is not an array. *)
Definition loadTraceHistory (data : option (list trace_entry)) : Page unit :=
  match data with
  | Some d => modify (on_w_history (on_y_data (fun _ => d))) ;;; renderTraceHistory
  | None => mret' tt
  end.

Definition appendTraceHistory (entry : trace_entry) : Page unit :=
  modify (on_w_history (on_y_data (fun d => d ++ [entry]))) ;;;
  renderTraceHistory ;;;
  isOpen <-- gets (fun w => y_open (w_history w)) ;;
  when (negb isOpen) (open_panel true).

(** The panel touches only the history and its own elements, and never throws. *)
Lemma renderTraceHistory_total : total renderTraceHistory.
Proof. unfold renderTraceHistory. frame_solve. Qed.

Lemma appendTraceHistory_total e : total (appendTraceHistory e).
Proof.
  unfold appendTraceHistory, renderTraceHistory, when, open_panel. frame_solve.
Qed.

(** What the panel leaves alone. *)
Definition outside_history (w : world) :=
  (w_now w, w_nodeDir w, w_map w, w_trace w, w_btns w, w_timers w, w_fetches w, w_next w).

Lemma appendTraceHistory_frame e : preserves (appendTraceHistory e) outside_history.
Proof.
  unfold appendTraceHistory, renderTraceHistory, when, open_panel. frame_solve.
Qed.

Lemma appendTraceHistory_data e w :
  y_data (w_history (snd (appendTraceHistory e w))) = y_data (w_history w) ++ [e].
Proof.
  unfold appendTraceHistory. rewrite run_seq by (by intros ?).
  rewrite run_seq by apply renderTraceHistory_total.
  assert (forall w, y_data (w_history (snd (renderTraceHistory w))) = y_data (w_history w)) as Hr.
  { change (preserves renderTraceHistory (fun w => y_data (w_history w))).
    unfold renderTraceHistory. frame_solve. }
  match goal with |- context [snd (renderTraceHistory ?x)] =>
    specialize (Hr x); generalize dependent (snd (renderTraceHistory x)) end.
  intros w1 Hw1. unfold when, open_panel, mbind', gets, modify.
  destruct (y_open (w_history w1)); exact Hw1.
Qed.
End history.

#[export] Hint Resolve renderTraceHistory_total appendTraceHistory_total : mesh.
