(* ===== verification/Route.v ===== *)
(** * app.js: drawing a traceroute on the map *)

From S2P Require Import Prelude JsString JsNumber Platform Html NodeDir Mesh World TraceHistory.

(** ** Leaflet's coordinates

    [L.latLng] rejects a coordinate that is not a number, [undefined] included. *)
Definition latLng (lat lon : option num) : result (num * num) :=
  match lat, lon with
  | Some a, Some b =>
      if num_is_nan a || num_is_nan b then Throw (LibError "Invalid LatLng object") else Ok (a, b)
  | _, _ => Throw (LibError "Invalid LatLng object")
  end.

Definition entry_latLng (e : entry) : result (num * num) :=
  latLng (e_flt e !! latitude) (e_flt e !! longitude).

Fixpoint latLngs (l : list (option num * option num)) : result (list (num * num)) :=
  match l with
  | [] => Ok []
  | (a, b) :: l' => p <-? latLng a b ;; ps <-? latLngs l' ;; Ok (p :: ps)
  end.

(** Coordinates and hop indices of the nodes whose position is known. *)
Definition hop_coords (dir : directory) (hopNums : list Z)
    : list ((option num * option num) * (Z * nat)) :=
  omap (fun '(i, n) =>
          match dir !! n with
          | Some e => if has_pos e
                      then Some ((e_flt e !! latitude, e_flt e !! longitude), (n, i))
                      else None
          | None => None
          end)
       (imap pair hopNums).

Section route.
Context `{Platform}.

Definition route_snr (tag : jstr) (o : option Z) : jstr :=
  match o with
  | Some v => tag +++ snr_str v +++ js "dB</span>"
  | None => []
  end.

Definition route_hop (nodeDir : option directory) (data : trace_entry) (len i : nat) (n : Z) : jstr :=
  (if (0 <? i)%nat then
     html " <span style=`color:#4b5563;`>→</span>"
     +++ route_snr (html " <span style=`color:#6b7280;font-size:10px;`>")
           (snr_at (te_snr_towards data) (i - 1))
     +++ js " "
   else [])
  +++ (if (i =? 0)%nat then html "<span style=`color:#34d399;`>"
       else if (i =? len - 1)%nat then html "<span style=`color:#f59e0b;`>"
       else html "<span style=`color:#e5e7eb;`>")
  +++ esc (nodeHexName nodeDir n) +++ js "</span>".

Definition route_return (nodeDir : option directory) (data : trace_entry) : jstr :=
  if has_route_back data then
    html "<div style=`color:#6b7280;font-size:11px;`>Return: "
    +++ esc (nodeHexName nodeDir (te_from data))
    +++ mjoin (imap (fun i n =>
          js " →" +++ route_snr (html " <span style=`font-size:9px;`>") (snr_at (te_snr_back data) i)
          +++ js " " +++ esc (nodeHexName nodeDir n)) (default [] (te_route_back data)))
    +++ js " → " +++ esc (nodeHexName nodeDir (te_to data))
    +++ js "</div>"
  else [].

Definition route_popup (nodeDir : option directory) (data : trace_entry) : jstr :=
  let hops := forward_hops data in
  let len := length hops in
  html "<div style=`font-size:12px;color:#e5e7eb;line-height:1.6;`>"
  +++ html "<div style=`font-weight:600;color:#06b6d4;margin-bottom:4px;`>Trace Route</div>"
  +++ mjoin (imap (route_hop nodeDir data len) hops)
  +++ html "<div style=`color:#6b7280;margin-top:4px;font-size:11px;`>"
  +++ dec (Z.of_nat len) +++ js " nodes, " +++ dec (Z.of_nat (len - 1)) +++ js " hop(s)</div>"
  +++ route_return nodeDir data
  +++ js "</div>".

Definition route_marker (nodeDir : option directory) (len : nat) (p : num * num)
    (hop : Z * nat) : hop_marker :=
  let '(n, index) := hop in
  let color := if (index =? 0)%nat then js "#34d399"
               else if (index =? len - 1)%nat then js "#f59e0b" else js "#06b6d4" in
  HopMarker p
    (html "<div class=`trace-hop-marker` style=`border-color:" +++ color +++ js ";color:" +++ color
     +++ html ";`>" +++ dec (Z.of_nat index) +++ js "</div>")
    (nodeHexName nodeDir n).

Definition clearTraceRoute : Page unit :=
  route <-- gets (fun w => v_route (w_map w)) ;;
  match route with
  | Some _ => modify (on_w_map (on_v_route (fun _ => None)))
  | None => mret' tt
  end.

Definition drawTraceroute (data : trace_entry) : Page unit :=
  mapInstance <-- gets (fun w => v_instance (w_map w)) ;;
  nodeDir <-- gets w_nodeDir ;;
  match mapInstance, nodeDir with
  | true, Some dir =>
      clearTraceRoute ;;;
      let hopNums := forward_hops data in
      let found := hop_coords dir hopNums in
      if (length found <? 2)%nat then mret' tt else
      line <-- lift (latLngs (found.*1)) ;;
      modify (on_w_map (on_v_route (fun _ =>
        Some (RouteLayer line (route_popup nodeDir data)
                (zip_with (route_marker nodeDir (length hopNums)) line (found.*2)))))) ;;;
      emit_effect (FitBounds line 15)
  | _, _ => mret' tt
  end.

(** [showTraceOnMap], from a click in the history panel. *)
Definition showTraceOnMap (idx : Z) : Page unit :=
  data <-- gets (fun w => y_data (w_history w)) ;;
  if (idx <? 0) || (Z.of_nat (length data) <=? idx) then mret' tt
  else match data !! Z.to_nat idx with
       | Some t => drawTraceroute t
       | None => mret' tt
       end.

(** Drawing changes only the map and the log, even when it throws. *)
Definition outside_map (w : world) :=
  (w_now w, w_nodeDir w, w_trace w, w_history w, w_btns w, w_timers w, w_fetches w, w_next w, w_dom w).

Lemma clearTraceRoute_frame : preserves clearTraceRoute outside_map.
Proof. unfold clearTraceRoute. frame_solve. Qed.

Lemma clearTraceRoute_total : total clearTraceRoute.
Proof. unfold clearTraceRoute. frame_solve. Qed.

Lemma drawTraceroute_frame data : preserves (drawTraceroute data) outside_map.
Proof.
  unfold drawTraceroute. pose proof clearTraceRoute_frame. frame_solve.
Qed.
End route.

#[export] Hint Resolve clearTraceRoute_total : mesh.
