(* ===== verification/Trace.v ===== *)
(** * app.js: the traceroute state machine

    At most one traceroute is in flight; after its result or its timeout the
    buttons cool down. The timers and the request are closures of [World];
    [trace_step] lists what can happen between two statements. *)

From S2P Require Import Prelude JsString JsNumber Platform Html NodeDir Mesh World.
From S2P Require Import TraceHistory Route.

(** ** State queries *)

Definition is_some {A} (o : option A) : bool := match o with Some _ => true | None => false end.

Definition isTraceActive (t : trace) : bool := is_some (t_pending t) || is_some (t_cooldown t).

Record trace_view := TraceView {
  tv_active : bool; tv_tracingThis : bool; tv_coolingThis : bool; tv_remaining : Z }.

Definition pending_on (t : trace) (num : option Z) : bool :=
  match t_pending t with Some p => bool_decide (num = Some (pt_target p)) | None => false end.
Definition cooling_on (t : trace) (num : option Z) : bool :=
  match t_cooldown t with Some c => bool_decide (num = Some (cd_target c)) | None => false end.

(** [getTraceState(nodeNum)] on a decimal key. *)
Definition getTraceState (t : trace) (nodeNum : jstr) : trace_view :=
  let num := parseInt nodeNum in
  let coolingThis := cooling_on t num in
  TraceView (isTraceActive t) (pending_on t num) coolingThis
    (match t_cooldown t with Some c => if coolingThis then cd_remaining c else 0 | None => 0 end).

(** ** Buttons *)

(** [findTraceBtns(nodeNum).forEach(f)] *)
Definition for_trace_btns (nodeNum : Z) (f : btn -> btn) : Page unit :=
  modify (on_w_btns (fmap (fun b => if decide (bt_target b = dec nodeNum) then f b else b))).

Definition btn_reset (b : btn) : btn :=
  Btn (bt_target b) (bt_compact b) false []
    (if bt_compact b then SVG_TRACE_COMPACT else SVG_TRACE +++ js "Trace Route").

Definition btn_cooling (remaining : Z) (b : btn) : btn :=
  Btn (bt_target b) (bt_compact b) true (js "#6b7280") (dec remaining +++ js "s").

Definition btn_label (s : jstr) (b : btn) : btn :=
  Btn (bt_target b) (bt_compact b) (bt_disabled b) (bt_color b) s.

(** [btn.querySelector('.spinner')] *)
Definition has_spinner (b : btn) : bool :=
  existsb (fun t => existsb (fun a => bool_decide (a.1 = js "class") && bool_decide (js "spinner" ∈ words a.2))
                     (tag_attrs t)) (html_tags (bt_html b)).

Definition btn_loading (b : btn) : btn :=
  Btn (bt_target b) (bt_compact b) true (bt_color b)
    (if has_spinner b then bt_html b else html "<span class=`spinner`></span>").

Definition resetTraceBtn (nodeNum : Z) : Page unit := for_trace_btns nodeNum btn_reset.

(** ** Operations *)

Definition set_pending (p : option pending) : Page unit :=
  modify (on_w_trace (on_t_pending (fun _ => p))).
Definition set_cooldown (c : option cooling) : Page unit :=
  modify (on_w_trace (on_t_cooldown (fun _ => c))).

Definition startCooldown (nodeNum : Z) (startedAt : option Z) : Page unit :=
  now <-- gets w_now ;;
  let elapsed := if truthy startedAt then (now - default 0 startedAt) / 1000 else 0 in
  let remaining := Z.max (30 - elapsed) 0 in
  if remaining <=? 0 then resetTraceBtn nodeNum else
  for_trace_btns nodeNum (btn_cooling remaining) ;;;
  interval <-- set_timer (CbCooldownTick nodeNum remaining) ;;
  set_cooldown (Some (Cooling nodeNum remaining interval)).

(** The body of the interval [id], whose captured [remaining] it decrements. *)
Definition cooldown_tick (id : nat) (nodeNum remaining : Z) : Page unit :=
  let remaining := remaining - 1 in
  modify (on_w_timers (<[id := CbCooldownTick nodeNum remaining]>)) ;;;
  cooldown <-- gets (fun w => t_cooldown (w_trace w)) ;;
  match cooldown with
  | None => mthrow (TypeError "traceCooldown is null")
  | Some c =>
      set_cooldown (Some (Cooling (cd_target c) remaining (cd_interval c))) ;;;
      for_trace_btns nodeNum (btn_label (dec remaining +++ js "s")) ;;;
      when (remaining <=? 0)
        (clear_timer (cd_interval c) ;;; set_cooldown None ;;; resetTraceBtn nodeNum)
  end.

Section trace.
Context `{Platform}.

(** The body of the 30 s timeout, which has fired and is no longer pending. *)
Definition trace_timeout (nodeNum : Z) : Page unit :=
  p <-- gets (fun w => t_pending (w_trace w)) ;;
  now <-- gets w_now ;;
  appendTraceHistory
    (TraceEntry (match p with Some p => pt_target p | None => nodeNum end) 0
       (Some []) None None None true (Some (toISOString now))) ;;;
  set_pending None ;;;
  startCooldown nodeNum (pt_startedAt <$> p).

Definition startTraceroute (nodeNum : Z) : Page unit :=
  t <-- gets w_trace ;;
  if is_some (t_pending t) then mret' tt else
  if is_some (t_cooldown t) then mret' tt else
  clearTraceRoute ;;;
  for_trace_btns nodeNum btn_loading ;;;
  timer <-- set_timer (CbTraceTimeout nodeNum) ;;
  now <-- gets w_now ;;
  set_pending (Some (Pending nodeNum timer now)) ;;;
  emit_effect (Post "/api/traceroute" [("target"%string, JNum nodeNum)]) ;;;
  start_fetch (FTrace nodeNum).

(** The [catch] of the request. *)
Definition trace_failed (nodeNum : Z) : Page unit :=
  emit_effect (ConsoleError "Traceroute request failed:") ;;;
  p <-- gets (fun w => t_pending (w_trace w)) ;;
  match p with
  | Some p => clear_timer (pt_timer p) ;;; set_pending None
  | None => mret' tt
  end ;;;
  resetTraceBtn nodeNum.

Definition handleTracerouteResult (data : trace_entry) : Page unit :=
  p <-- gets (fun w => t_pending (w_trace w)) ;;
  match p with
  | Some p =>
      if pt_target p =? te_from data then
        clear_timer (pt_timer p) ;;;
        set_pending None ;;;
        startCooldown (pt_target p) (Some (pt_startedAt p)) ;;;
        drawTraceroute data
      else mret' tt
  | None => mret' tt
  end.

(** The [traceroute_result] listener. *)
Definition on_traceroute_result (data : trace_entry) : Page unit :=
  handleTracerouteResult data ;;; appendTraceHistory data.
End trace.

(** ** What can happen *)

(** A timer of the traceroute machine. *)
Definition trace_cb (cb : callback) : Prop :=
  match cb with CbTraceTimeout _ | CbCooldownTick _ _ => True | _ => False end.

(** Anything else: other components, the passing of time. *)
Definition trace_frame (w w' : world) : Prop :=
  w_trace w' = w_trace w /\ (w_next w <= w_next w')%nat /\ w_now w <= w_now w' /\
  (forall id cb, trace_cb cb -> w_timers w' !! id = Some cb <-> w_timers w !! id = Some cb) /\
  (forall id, (w_next w' <= id)%nat -> w_timers w' !! id = None).

Inductive trace_step `{Platform} : world -> world -> Prop :=
| ts_click n w :
    trace_step w (snd (startTraceroute n w))
| ts_result data w :
    trace_step w (snd (on_traceroute_result data w))
| ts_timeout id n w :
    w_timers w !! id = Some (CbTraceTimeout n) ->
    trace_step w (snd (trace_timeout n (on_w_timers (delete id) w)))
| ts_tick id n r w :
    w_timers w !! id = Some (CbCooldownTick n r) ->
    trace_step w (snd (cooldown_tick id n r w))
| ts_failed id n w :
    w_fetches w !! id = Some (FTrace n) ->
    trace_step w (snd (trace_failed n (on_w_fetches (delete id) w)))
| ts_answered id n w :
    w_fetches w !! id = Some (FTrace n) ->
    trace_step w (on_w_fetches (delete id) w)
| ts_other w w' :
    trace_frame w w' -> trace_step w w'.

(** ** The invariant *)

(** Stated on the parts of the page it is about. *)
Record trace_ok (t : trace) (ts : gmap nat callback) (next : nat) (now : Z) : Prop := {
  ok_excl : t_pending t = None \/ t_cooldown t = None;
  ok_timeout id n :
    ts !! id = Some (CbTraceTimeout n) <->
    exists p, t_pending t = Some p /\ pt_timer p = id /\ pt_target p = n;
  ok_tick id n r :
    ts !! id = Some (CbCooldownTick n r) <-> t_cooldown t = Some (Cooling n r id);
  ok_remaining c : t_cooldown t = Some c -> 0 < cd_remaining c <= 30;
  ok_started p : t_pending t = Some p -> pt_startedAt p <= now;
  ok_fresh id : (next <= id)%nat -> ts !! id = None;
}.

Definition trace_inv (w : world) : Prop :=
  trace_ok (w_trace w) (w_timers w) (w_next w) (w_now w).

Section invariant.
Context (t : trace) (ts : gmap nat callback) (next : nat) (now : Z).
Context (OK : trace_ok t ts next now).

Lemma ok_start n :
  t_pending t = None -> t_cooldown t = None ->
  trace_ok (Trace (Some (Pending n next now)) None)
    (<[next := CbTraceTimeout n]> ts) (S next) now.
Proof.
  intros Hp Hc. destruct OK as [Hx Hto Htk Hr Hs Hf]. split; cbn.
  - by right.
  - intros id m. rewrite lookup_insert. case_decide as Hd.
    + split; [intros [= ->]; by eexists|]. intros (p & [= <-] & <- & <-). done.
    + rewrite Hto, Hp. split; [intros (p & ? & _); done|].
      intros (p & [= <-] & He & _). by destruct Hd.
  - intros id m r. rewrite lookup_insert. case_decide; [done|]. by rewrite Htk, Hc.
  - done.
  - by intros p [= <-].
  - intros id Hid. rewrite lookup_insert_ne by lia. apply Hf. lia.
Qed.

(** Dropping the pending traceroute and its timeout. *)
Lemma ok_cancel p :
  t_pending t = Some p -> trace_ok (Trace None None) (delete (pt_timer p) ts) next now.
Proof.
  intros Hp. destruct OK as [Hx Hto Htk Hr Hs Hf].
  assert (t_cooldown t = None) as Hc by (destruct Hx; congruence).
  split; cbn; try done.
  - by left.
  - intros id n. rewrite lookup_delete. case_decide as Hd.
    + split; [done|]. by intros (? & ? & _).
    + rewrite Hto, Hp. split; [|by intros (? & ? & _)].
      intros (q & [= <-] & He & _). by destruct Hd.
  - intros id n r. rewrite lookup_delete. case_decide; [done|]. by rewrite Htk, Hc.
  - intros id Hid. rewrite lookup_delete. case_decide; [done|]. by apply Hf.
Qed.

Lemma ok_cool n r :
  t_pending t = None -> t_cooldown t = None -> 0 < r <= 30 ->
  trace_ok (Trace None (Some (Cooling n r next)))
    (<[next := CbCooldownTick n r]> ts) (S next) now.
Proof.
  intros Hp Hc Hr30. destruct OK as [Hx Hto Htk Hr Hs Hf]. split; cbn; try done.
  - by left.
  - intros id m. rewrite lookup_insert. case_decide; [split; [done|by intros (? & ? & _)]|].
    rewrite Hto, Hp. split; by intros (? & ? & _).
  - intros id m s. rewrite lookup_insert. case_decide as Hd.
    + split; [intros [= -> ->]; by subst|]. by intros [= -> ->].
    + rewrite Htk, Hc. split; [done|]. intros [= _ _ He]. by destruct Hd.
  - by intros c [= <-].
  - intros id Hid. rewrite lookup_insert_ne by lia. apply Hf. lia.
Qed.

Lemma ok_tick_down id n r :
  t_cooldown t = Some (Cooling n r id) -> 0 < r - 1 ->
  trace_ok (Trace (t_pending t) (Some (Cooling n (r - 1) id)))
    (<[id := CbCooldownTick n (r - 1)]> ts) next now.
Proof.
  intros Hc Hr1. destruct OK as [Hx Hto Htk Hr Hs Hf].
  assert (t_pending t = None) as Hp by (destruct Hx; congruence).
  pose proof (Hr _ Hc) as Hrr. cbn in Hrr.
  rewrite Hp. split; cbn; try done.
  - by left.
  - intros id' m. rewrite lookup_insert. case_decide; [split; [done|by intros (? & ? & _)]|].
    rewrite Hto, Hp. split; by intros (? & ? & _).
  - intros id' m s. rewrite lookup_insert. case_decide as Hd.
    + split; [intros [= -> ->]; by subst|]. by intros [= -> ->].
    + rewrite Htk, Hc. split; intros [= <- <- He]; by destruct Hd.
  - intros c [= <-]. cbn. lia.
  - intros id' Hid. rewrite lookup_insert. case_decide as Hd; [|by apply Hf].
    subst id'. apply Hf in Hid. pose proof (proj2 (Htk _ _ _) Hc). congruence.
Qed.

Lemma ok_tick_end id n r :
  t_cooldown t = Some (Cooling n r id) -> trace_ok (Trace None None) (delete id ts) next now.
Proof.
  intros Hc. destruct OK as [Hx Hto Htk Hr Hs Hf].
  assert (t_pending t = None) as Hp by (destruct Hx; congruence).
  split; cbn; try done.
  - by left.
  - intros id' m. rewrite lookup_delete. case_decide; [split; [done|by intros (? & ? & _)]|].
    rewrite Hto, Hp. split; by intros (? & ? & _).
  - intros id' m s. rewrite lookup_delete. case_decide as Hd; [done|].
    rewrite Htk, Hc. split; [|done]. intros [= <- <- He]. by destruct Hd.
  - intros id' Hid. rewrite lookup_delete. case_decide; [done|]. by apply Hf.
Qed.

Lemma ok_later next' : (next <= next')%nat -> trace_ok t ts next' now.
Proof.
  intros Hn. destruct OK as [Hx Hto Htk Hr Hs Hf]. split; try done.
  intros id Hid. apply Hf. lia.
Qed.
End invariant.

(** The parts of the page the invariant reads. *)
Definition machine (w : world) := (w_trace w, w_timers w, w_next w, w_now w).

Lemma trace_inv_machine w w' : machine w' = machine w -> trace_inv w -> trace_inv w'.
Proof. unfold machine, trace_inv. by intros [= -> -> -> ->]. Qed.

Definition cooldown_secs (now : Z) (startedAt : option Z) : Z :=
  Z.max (30 - (if truthy startedAt then (now - default 0 startedAt) / 1000 else 0)) 0.

Lemma cooldown_secs_range now startedAt :
  (forall s, startedAt = Some s -> s <= now) -> 0 <= cooldown_secs now startedAt <= 30.
Proof.
  intros Hs. unfold cooldown_secs. destruct startedAt as [s|]; cbn; [|lia].
  specialize (Hs s eq_refl). case_if; [|lia].
  pose proof (Z.div_pos (now - s) 1000). lia.
Qed.

(** [startCooldown] is a reset, or a cooldown with its interval. *)
Lemma startCooldown_run n sa w :
  startCooldown n sa w =
  if cooldown_secs (w_now w) sa <=? 0 then resetTraceBtn n w
  else (for_trace_btns n (btn_cooling (cooldown_secs (w_now w) sa)) ;;;
        interval <-- set_timer (CbCooldownTick n (cooldown_secs (w_now w) sa)) ;;
        set_cooldown (Some (Cooling n (cooldown_secs (w_now w) sa) interval))) w.
Proof. unfold startCooldown, mbind' at 1, gets. fold (cooldown_secs (w_now w) sa). by case_if. Qed.

Lemma startCooldown_total n sa : total (startCooldown n sa).
Proof. intros w. rewrite startCooldown_run. by case_if. Qed.

Lemma startCooldown_inv n sa w :
  trace_inv w -> t_pending (w_trace w) = None -> t_cooldown (w_trace w) = None ->
  (forall s, sa = Some s -> s <= w_now w) ->
  trace_inv (snd (startCooldown n sa w)).
Proof.
  intros Hi Hp Hc Hs. rewrite startCooldown_run. destruct (Z.leb_spec (cooldown_secs (w_now w) sa) 0).
  - by apply (trace_inv_machine w).
  - unfold trace_inv. cbn. unfold on_t_cooldown. rewrite Hp.
    eapply ok_cool; [exact Hi|done|done|].
    pose proof (cooldown_secs_range _ _ Hs). lia.
Qed.

Section preservation.
Context `{Platform}.

Lemma append_machine e w : machine (snd (appendTraceHistory e w)) = machine w.
Proof.
  pose proof (appendTraceHistory_frame e w) as E. unfold outside_history in E.
  unfold machine. congruence.
Qed.
Lemma draw_machine d w : machine (snd (drawTraceroute d w)) = machine w.
Proof.
  pose proof (drawTraceroute_frame d w) as E. unfold outside_map in E.
  unfold machine. congruence.
Qed.
Lemma clear_machine w : machine (snd (clearTraceRoute w)) = machine w.
Proof.
  pose proof (clearTraceRoute_frame w) as E. unfold outside_map in E.
  unfold machine. congruence.
Qed.

(** The state of the machine after each operation. *)
Lemma start_inv n w : trace_inv w -> trace_inv (snd (startTraceroute n w)).
Proof.
  intros Hi. unfold startTraceroute. cbn [mbind' gets].
  destruct (t_pending (w_trace w)) eqn:Hp; [done|].
  destruct (t_cooldown (w_trace w)) eqn:Hc; [done|]. cbn [is_some].
  rewrite run_seq by auto with mesh.
  pose proof (clear_machine w) as Hm.
  generalize dependent (snd (clearTraceRoute w)). intros w1 Hm.
  apply (trace_inv_machine _ _ Hm) in Hi. unfold machine in Hm.
  unfold trace_inv in *. cbn. unfold on_t_pending.
  replace (t_cooldown (w_trace w1)) with (@None cooling) by congruence.
  eapply ok_later; [|apply Nat.le_succ_diag_r].
  eapply ok_start; [exact Hi|congruence|congruence].
Qed.

Lemma timeout_inv id n w :
  trace_inv w -> w_timers w !! id = Some (CbTraceTimeout n) ->
  trace_inv (snd (trace_timeout n (on_w_timers (delete id) w))).
Proof.
  intros Hi Hid. pose proof Hi as Hi'. destruct Hi' as [Hx Hto _ _ Hs _].
  apply Hto in Hid as (p & Hp & <- & <-).
  unfold trace_timeout. cbn [mbind' gets]. cbn [w_trace on_w_timers].
  rewrite Hp. rewrite run_seq by auto with mesh.
  match goal with |- context [snd (appendTraceHistory ?e ?w0)] =>
    pose proof (append_machine e w0) as Hm; generalize dependent (snd (appendTraceHistory e w0)) end.
  intros w1 Hm. unfold machine in Hm. cbn in Hm.
  assert (trace_inv (on_w_trace (on_t_pending (fun _ => None)) w1)) as Hi1.
  { unfold trace_inv. cbn. injection Hm as E1 E2 E3 E4. rewrite E1, E2, E3, E4.
    unfold on_t_pending. destruct Hx as [|Hc]; [congruence|]. rewrite Hc.
    by eapply ok_cancel. }
  rewrite run_seq by (by intros ?). injection Hm as E1 E2 E3 E4.
  apply startCooldown_inv; [done|done| |].
  - cbn. rewrite E1. destruct Hx; congruence.
  - cbn. rewrite E4. intros s [= <-]. by apply Hs.
Qed.

Lemma tick_inv id n r w :
  trace_inv w -> w_timers w !! id = Some (CbCooldownTick n r) ->
  trace_inv (snd (cooldown_tick id n r w)).
Proof.
  intros Hi Hid. pose proof Hi as Hi'. destruct Hi' as [_ _ Htk _ _ _].
  apply Htk in Hid. unfold cooldown_tick, trace_inv, mbind', modify, gets. cbn.
  rewrite Hid. cbn. destruct (Z.leb_spec (r - 1) 0); cbn; unfold on_t_cooldown; cbn.
  - rewrite delete_insert_eq. replace (t_pending (w_trace w)) with (@None pending).
    + by eapply ok_tick_end.
    + destruct (ok_excl _ _ _ _ Hi); congruence.
  - eapply ok_tick_down; [exact Hi|done|lia].
Qed.

Lemma failed_inv n w : trace_inv w -> trace_inv (snd (trace_failed n w)).
Proof.
  intros Hi. unfold trace_failed, trace_inv, mbind', modify, gets. cbn.
  destruct (t_pending (w_trace w)) as [p|] eqn:Hp; cbn; [|done].
  unfold on_t_pending. cbn.
  destruct (ok_excl _ _ _ _ Hi) as [|Hc]; [congruence|]. rewrite Hc.
  by eapply ok_cancel.
Qed.

Lemma handle_inv d w : trace_inv w -> trace_inv (snd (handleTracerouteResult d w)).
Proof.
  intros Hi. unfold handleTracerouteResult. cbn [mbind' gets].
  destruct (t_pending (w_trace w)) as [p|] eqn:Hp; [|done]. case_if; [|done].
  rewrite !run_seq by first [by intros ?|apply startCooldown_total].
  eapply trace_inv_machine; [apply draw_machine|].
  destruct (ok_excl _ _ _ _ Hi) as [|Hc]; [congruence|].
  apply startCooldown_inv; [|done|done|].
  - unfold trace_inv. cbn. unfold on_t_pending. rewrite Hc. by eapply ok_cancel.
  - intros s [= <-]. by apply (ok_started _ _ _ _ Hi).
Qed.

Lemma result_inv d w : trace_inv w -> trace_inv (snd (on_traceroute_result d w)).
Proof.
  intros Hi. apply (handle_inv d) in Hi. unfold on_traceroute_result, mbind'.
  destruct (handleTracerouteResult d w) as [[u|e] w']; [|done].
  eapply trace_inv_machine; [apply append_machine|done].
Qed.

Lemma frame_inv w w' : trace_frame w w' -> trace_inv w -> trace_inv w'.
Proof.
  intros (Et & Hn & Hnow & Hcb & Hfresh) [Hx Hto Htk Hr Hs Hf]. unfold trace_inv. rewrite Et.
  split; try done.
  - intros id n. rewrite (Hcb id (CbTraceTimeout n) I). apply Hto.
  - intros id n r. rewrite (Hcb id (CbCooldownTick n r) I). apply Htk.
  - intros p Hp. specialize (Hs p Hp). lia.
Qed.

Lemma trace_step_inv w w' : trace_step w w' -> trace_inv w -> trace_inv w'.
Proof.
  intros Hst Hi. destruct Hst.
  - by apply start_inv.
  - by apply result_inv.
  - by apply timeout_inv.
  - by apply tick_inv.
  - by apply failed_inv.
  - done.
  - by eapply frame_inv.
Qed.
End preservation.

(** ** Properties *)

(** A page on which no traceroute was started. *)
Definition trace_initial (w : world) : Prop :=
  w_trace w = Trace None None /\ w_timers w = ∅.

Lemma trace_initial_inv w : trace_initial w -> trace_inv w.
Proof.
  intros [Ht Hts]. unfold trace_inv. rewrite Ht, Hts. split; cbn; try done.
  - by left.
  - intros id n. split; [done|]. by intros (? & ? & _).
Qed.

(** A browser tick: the interval [id] runs if it is still set. *)
Definition fire_interval (id : nat) : Page unit := fun w =>
  match w_timers w !! id with
  | Some (CbCooldownTick n r) => cooldown_tick id n r w
  | _ => (Ok tt, w)
  end.

Fixpoint repeat_page (k : nat) (m : Page unit) : Page unit :=
  match k with O => mret' tt | S k => m ;;; repeat_page k m end.

(** Time passes. *)
Lemma trace_clock w t :
  trace_inv w -> w_now w <= t -> trace_frame w (on_w_now (fun _ => t) w).
Proof. intros Hi Ht. split; [done|]. split; [done|]. split; [done|]. split; [done|apply Hi]. Qed.

(** Every button for node [n] is enabled and carries its initial label. *)
Definition btns_ready (n : Z) (w : world) : Prop :=
  Forall (fun b => bt_target b = dec n -> b = btn_reset b) (w_btns w).

Lemma reset_ready n w : btns_ready n (snd (resetTraceBtn n w)).
Proof.
  unfold btns_ready. cbn. apply Forall_fmap, Forall_true. intros b. cbn. case_decide; done.
Qed.

Section properties.
Context `{Platform}.

(** C3. In every state that clicks, results, timer callbacks and request
    outcomes can lead to: a traceroute is never pending while another cools
    down, the timers that are set are exactly the timeout of the pending
    traceroute and the interval of the cooldown, and the remaining time of a
    cooldown is between 1 and 30 seconds. *)
Theorem trace_reachable_inv w0 w :
  trace_initial w0 -> rtc trace_step w0 w -> trace_inv w.
Proof.
  intros H0 Hr. apply trace_initial_inv in H0.
  induction Hr as [|w w1 w2 Hst _ IH]; [done|]. by apply IH, (trace_step_inv w).
Qed.

(** C18. A click is ignored, with no effect at all, while a traceroute is in
    flight or cooling down; otherwise it sends one request for the node, sets
    the 30 s timeout, and makes the node the pending target. *)
Theorem startTraceroute_spec n w :
  (isTraceActive (w_trace w) = true -> startTraceroute n w = (Ok tt, w)) /\
  (isTraceActive (w_trace w) = false ->
   exists w' timer, startTraceroute n w = (Ok tt, w') /\
     t_pending (w_trace w') = Some (Pending n timer (w_now w)) /\
     t_cooldown (w_trace w') = None /\
     w_timers w' = <[timer := CbTraceTimeout n]> (w_timers w) /\
     w_log w' = w_log w ++ [Post "/api/traceroute" [("target"%string, JNum n)]] /\
     v_route (w_map w') = None).
Proof.
  unfold isTraceActive, startTraceroute, clearTraceRoute, mbind', modify, gets. cbn.
  destruct (t_pending (w_trace w)) eqn:Hp, (t_cooldown (w_trace w)) eqn:Hc; cbn;
    (split; [done|]); try done. intros _.
  destruct (v_route (w_map w)) eqn:Hv; cbn; eexists _, _; (split; [reflexivity|]); cbn;
    rewrite ?Hc, ?Hv; done.
Qed.

Lemma fire_cooling w id n r :
  trace_inv w -> t_cooldown (w_trace w) = Some (Cooling n r id) ->
  fire_interval id w = (Ok tt, snd (cooldown_tick id n r w)) /\
  trace_inv (snd (cooldown_tick id n r w)) /\
  (0 < r - 1 -> t_cooldown (w_trace (snd (cooldown_tick id n r w))) = Some (Cooling n (r - 1) id)) /\
  (r - 1 <= 0 -> w_trace (snd (cooldown_tick id n r w)) = Trace None None /\
                 btns_ready n (snd (cooldown_tick id n r w))).
Proof.
  intros Hi Hc. pose proof (proj2 (ok_tick _ _ _ _ Hi id n r) Hc) as Hid.
  split; [|split; [by apply tick_inv|]].
  - unfold fire_interval. rewrite Hid. unfold cooldown_tick, mbind', modify, gets. cbn.
    rewrite Hc. cbn. unfold when. by case_if.
  - unfold cooldown_tick, mbind', modify, gets. cbn. rewrite Hc. cbn. unfold when.
    destruct (Z.leb_spec (r - 1) 0); split; try lia; cbn; try done.
    intros _. split; [|apply reset_ready].
    unfold on_t_cooldown. cbn. destruct (ok_excl _ _ _ _ Hi) as [->|]; congruence.
Qed.

Lemma cooldown_runs k w id n :
  trace_inv w -> t_cooldown (w_trace w) = Some (Cooling n (Z.of_nat (S k)) id) ->
  exists w', repeat_page (S k) (fire_interval id) w = (Ok tt, w') /\
    w_trace w' = Trace None None /\ btns_ready n w'.
Proof.
  revert w. induction k as [|k IH]; intros w Hi Hc;
    destruct (fire_cooling w id n _ Hi Hc) as (Hf & Hi' & Hgo & Hend);
    cbn [repeat_page]; unfold mbind' at 1; rewrite Hf.
  - eexists. split; [reflexivity|]. apply Hend. lia.
  - apply IH; [done|]. rewrite Hgo by lia. do 2 f_equal. lia.
Qed.

Lemma cooldown_waits k w id n r :
  trace_inv w -> t_cooldown (w_trace w) = Some (Cooling n r id) -> Z.of_nat k < r ->
  exists w', repeat_page k (fire_interval id) w = (Ok tt, w') /\
    t_cooldown (w_trace w') = Some (Cooling n (r - Z.of_nat k) id).
Proof.
  revert w r. induction k as [|k IH]; intros w r Hi Hc Hk.
  - exists w. split; [done|]. rewrite Hc. do 2 f_equal. cbn. lia.
  - destruct (fire_cooling w id n r Hi Hc) as (Hf & Hi' & Hgo & _).
    cbn [repeat_page]. unfold mbind' at 1. rewrite Hf.
    destruct (IH _ (r - 1) Hi') as (w' & E & Hw'); [apply Hgo; lia|lia|].
    exists w'. split; [exact E|]. rewrite Hw'. do 2 f_equal. lia.
Qed.

(** C20. A cooldown with [r] seconds left is over after exactly [r] ticks of its
    interval: after [k] ticks, [k < r], the same node still cools down, with
    [r - k] seconds left, and after [r] ticks the state is idle again and the
    buttons of the node are enabled with their initial label. *)
Theorem cooldown_ends w id n r :
  trace_inv w -> t_cooldown (w_trace w) = Some (Cooling n r id) ->
  (forall k, Z.of_nat k < r -> exists w', repeat_page k (fire_interval id) w = (Ok tt, w') /\
     t_cooldown (w_trace w') = Some (Cooling n (r - Z.of_nat k) id)) /\
  exists w', repeat_page (Z.to_nat r) (fire_interval id) w = (Ok tt, w') /\
    w_trace w' = Trace None None /\ btns_ready n w'.
Proof.
  intros Hi Hc. split; [intros k; by apply cooldown_waits|]. pose proof (ok_remaining _ _ _ _ Hi _ Hc) as Hr. cbn in Hr.
  destruct (Z.to_nat r) as [|k] eqn:Ek; [lia|].
  apply cooldown_runs; [done|]. rewrite Hc. do 2 f_equal. lia.
Qed.

(** C21. When no answer came for 30 s the timeout callback releases the machine:
    nothing is pending or cooling, the buttons of the target are enabled again
    and the history ends with a "no response" entry for the target. *)
Theorem timeout_releases w id n p :
  trace_inv w -> w_timers w !! id = Some (CbTraceTimeout n) ->
  t_pending (w_trace w) = Some p -> 0 < pt_startedAt p -> pt_startedAt p + 30000 <= w_now w ->
  let w' := snd (trace_timeout n (on_w_timers (delete id) w)) in
  w_trace w' = Trace None None /\ btns_ready n w' /\
  exists e, y_data (w_history w') = y_data (w_history w) ++ [e] /\
    te_from e = n /\ te_timeout e = true.
Proof.
  intros Hi Hid Hp H0 H30. cbv zeta.
  apply (ok_timeout _ _ _ _ Hi) in Hid as (p' & Hp' & <- & <-).
  rewrite Hp in Hp'. injection Hp' as <-.
  unfold trace_timeout. cbn [mbind' gets]. cbn [w_trace on_w_timers]. rewrite Hp.
  rewrite run_seq by auto with mesh.
  match goal with |- context [snd (appendTraceHistory ?e ?w0)] =>
    pose proof (append_machine e w0) as Hm; pose proof (appendTraceHistory_data e w0) as Hd;
    generalize dependent (snd (appendTraceHistory e w0)) end.
  intros w1 Hm Hd. injection Hm as E1 E2 E3 E4. cbn in E1, E4, Hd.
  rewrite run_seq by (by intros ?). rewrite startCooldown_run.
  replace (cooldown_secs _ _) with 0; cycle 1.
  { unfold cooldown_secs, truthy, truthy_option, truthy, truthy_Z. cbn [w_now on_w_trace fmap option_fmap option_map].
    cbn. rewrite E4. destruct (Z.eqb_spec (pt_startedAt p) 0); [lia|]. cbn [negb].
    assert (30 <= (w_now w - pt_startedAt p) / 1000); [apply Z.div_le_lower_bound; lia|].
    rewrite Z.max_r; lia. }
  split; [|split; [apply reset_ready|]].
  - cbn. unfold on_t_pending. rewrite E1.
    destruct (ok_excl _ _ _ _ Hi) as [| ->]; [congruence|done].
  - eexists. split; [exact Hd|]. done.
Qed.

(** C19. A traceroute result is matched against the pending target. One from
    another node, or with nothing pending, leaves the machine as it is. One
    from the target ends the pending traceroute, cancels its timeout and, if
    less than 30 s have passed since the click, starts a cooldown with the rest
    of the 30 s. *)
Theorem handle_result_spec d w :
  trace_inv w ->
  match t_pending (w_trace w) with
  | Some p =>
      if pt_target p =? te_from d then
        let w' := snd (handleTracerouteResult d w) in
        let secs := cooldown_secs (w_now w) (Some (pt_startedAt p)) in
        t_pending (w_trace w') = None /\ w_timers w' !! pt_timer p = None /\
        t_cooldown (w_trace w')
        = (if secs <=? 0 then None else Some (Cooling (te_from d) secs (w_next w)))
      else handleTracerouteResult d w = (Ok tt, w)
  | None => handleTracerouteResult d w = (Ok tt, w)
  end.
Proof.
  intros Hi. unfold handleTracerouteResult. cbn [mbind' gets].
  destruct (t_pending (w_trace w)) as [p|] eqn:Hp; [|done].
  destruct (Z.eqb_spec (pt_target p) (te_from d)) as [<-|]; [|done]. cbv zeta.
  rewrite !run_seq by first [by intros ?|apply startCooldown_total].
  assert (w_timers w !! pt_timer p = Some (CbTraceTimeout (pt_target p))) as Hid
    by (apply (ok_timeout _ _ _ _ Hi); eauto).
  assert (pt_timer p <> w_next w) as Hne.
  { intros E. pose proof (ok_fresh _ _ _ _ Hi (w_next w) ltac:(lia)). congruence. }
  match goal with |- context [snd (drawTraceroute d ?w0)] =>
    pose proof (draw_machine d w0) as Hm; generalize dependent (snd (drawTraceroute d w0)) end.
  intros w1 Hm. injection Hm as E1 E2 E3 E4. rewrite E1, E2. clear E1 E2 E3 E4.
  rewrite startCooldown_run. cbn [w_now on_w_trace set_pending clear_timer modify on_w_timers snd].
  destruct (_ <=? 0); cbn.
  - unfold on_t_pending. destruct (ok_excl _ _ _ _ Hi) as [| ->]; [congruence|].
    by rewrite lookup_delete_eq.
  - rewrite lookup_insert_ne, lookup_delete_eq by congruence. done.
Qed.
End properties.

(** C36. The failure of a request cancels whatever traceroute is pending, without
    comparing targets: after the timeout of a first traceroute a second one can
    be started, and the late failure of the first request then cancels the
    second, whose request is still in flight. *)
Theorem late_failure_cancels_next :
  exists w0 w1 w2 : world,
    trace_initial w0 /\
    rtc (@trace_step Reference.platform) w0 w1 /\
    pt_target <$> t_pending (w_trace w1) = Some 2 /\
    w_fetches w1 = {[ 1%nat := FTrace 1; 3%nat := FTrace 2 ]} /\
    w2 = snd (trace_failed 1 (on_w_fetches (delete 1%nat) w1)) /\
    t_pending (w_trace w2) = None /\
    w_fetches w2 = {[ 3%nat := FTrace 2 ]}.
Proof.
  set (P := Reference.platform).
  set (w0 := initial_page (Some ∅) [] 1000).
  set (wa := snd (startTraceroute 1 w0)).
  set (wb := on_w_now (fun _ => 31000) wa).
  set (wc := snd (trace_timeout 1 (on_w_timers (delete 0%nat) wb))).
  set (wd := snd (startTraceroute 2 wc)).
  exists w0, wd, (snd (trace_failed 1 (on_w_fetches (delete 1%nat) wd))).
  split; [by vm_compute|]. split.
  - apply rtc_l with wa; [exact (ts_click 1 w0)|].
    apply rtc_l with wb.
    { apply ts_other, trace_clock; [|by vm_compute].
      apply start_inv, trace_initial_inv. by vm_compute. }
    apply rtc_l with wc; [refine (ts_timeout 0%nat 1 wb _); by vm_compute|].
    exact (rtc_once _ _ (ts_click 2 wc)).
  - split; [by vm_compute|]. split; [by vm_compute|]. split; [done|]. by split; vm_compute.
Qed.

(** ** Witnesses *)

Definition page0 : world := initial_page (Some ∅) [] 1000.

Lemma trace_reachable_inv_witness :
  trace_inv (snd (startTraceroute 7 page0)).
Proof.
  apply (@trace_reachable_inv Reference.platform page0); [by vm_compute|].
  exact (rtc_once _ _ (@ts_click Reference.platform 7 page0)).
Defined.

(** One traceroute clicked at time 1000, seen 30 s and 5 s later. *)
Definition page1 : world := snd (startTraceroute 7 page0).

Lemma page1_inv now : 1000 <= now -> trace_inv (on_w_now (fun _ => now) page1).
Proof.
  intros Hn. assert (trace_inv page1) as Hi by (apply start_inv, trace_initial_inv; by vm_compute).
  eapply frame_inv; [|exact Hi]. by apply trace_clock.
Qed.

Lemma cooldown_ends_witness :
  (exists w', repeat_page 29 (fire_interval 0%nat) (snd (startCooldown 7 None page0)) = (Ok tt, w') /\
     t_cooldown (w_trace w') = Some (Cooling 7 1 0%nat)) /\
  exists w', repeat_page 30 (fire_interval 0%nat) (snd (startCooldown 7 None page0)) = (Ok tt, w') /\
    w_trace w' = Trace None None /\ btns_ready 7 w'.
Proof.
  destruct (cooldown_ends (snd (startCooldown 7 None page0)) 0%nat 7 30) as [Hw He]; [|by vm_compute|].
  - apply startCooldown_inv; [apply trace_initial_inv; by vm_compute|done|done|done].
  - split; [exact (Hw 29%nat eq_refl)|exact He].
Defined.

Lemma timeout_releases_witness :
  let w := on_w_now (fun _ => 31000) page1 in
  w_trace (snd (@trace_timeout Reference.platform 7 (on_w_timers (delete 0%nat) w))) = Trace None None.
Proof.
  intros w.
  apply (@timeout_releases Reference.platform w 0%nat 7 (Pending 7 0%nat 1000));
    [by apply page1_inv|by vm_compute|by vm_compute|done|done].
Defined.

Lemma handle_result_spec_witness :
  let w := on_w_now (fun _ => 6000) page1 in
  let d := TraceEntry 7 1 None None None None false None in
  t_cooldown (w_trace (snd (@handleTracerouteResult Reference.platform d w))) = Some (Cooling 7 25 2%nat).
Proof.
  intros w d. assert (trace_inv w) as Hi by (by apply page1_inv).
  apply (@handle_result_spec Reference.platform d w Hi).
Defined.
