(* ===== verification/Heatmap.v ===== *)
(** * app.js: the heatmap layer

    Each node with a position and a signal becomes a point whose intensity is the
    signal clamped to a fixed range and passed through a power curve. *)

From S2P Require Import Prelude JsString JsNumber Platform Html NodeDir Mesh World TraceHistory Route.

Definition num_0_6 : num := num_quot 6 10.

(** [entry.rx_snr || entry.snr] *)
Definition best_snr (e : entry) : option num :=
  if truthy (e_flt e !! rx_snr) then e_flt e !! rx_snr else e_flt e !! snr.

(** The value mapped to [0, 1] before the power curve; [None] when the node is
    skipped. *)
Definition heat_linear (mode : jstr) (e : entry) : option num :=
  if decide (mode = js "rssi") then
    match e_int e !! rx_rssi with
    | Some rssi => if truthy rssi
                   then Some (clamp (num_of_Z 0) (num_of_Z 1) (num_quot (rssi + 115) 40))
                   else None
    | None => None
    end
  else if decide (mode = js "snr") then
    match best_snr e with
    | Some v => if truthy v || num_is_zero v
                then Some (clamp (num_of_Z 0) (num_of_Z 1)
                             (num_div (num_add v (num_of_Z 15)) (num_of_Z 27)))
                else None
    | None => None
    end
  else None.

Section heatmap.
Context `{Platform}.

Definition heat_intensity (mode : jstr) (e : entry) : option num :=
  (fun linear => math_pow linear num_0_6) <$> heat_linear mode e.

(** One iteration of the loop of [getHeatmapPoints]. *)
Definition heat_point_of (mode : jstr) (e : entry) : option heat_point :=
  if negb (has_pos e) then None else
  (fun i => (e_flt e !! latitude, e_flt e !! longitude, i)) <$> heat_intensity mode e.

Definition getHeatmapPoints (nodeDir : option directory) (mode : jstr) : list heat_point :=
  match nodeDir with
  | None => []
  | Some dir => omap (fun p => heat_point_of mode p.2) (dir_entries dir)
  end.

Definition rssiGradient : string := "rssiGradient".
Definition snrGradient : string := "snrGradient".

(** The texts of the legend: gradient, title, low and high labels. *)
Definition set_legend (mode : jstr) : Page unit :=
  if decide (mode = js "rssi") then
    set_style "hm-legend-bar" (js "linear-gradient(to right, #1e3a5f, #2563eb, #22d3ee, #fbbf24, #ef4444)") ;;;
    set_text "hm-legend-title" (js "RSSI") ;;;
    set_text "hm-label-low" (js "-115 dBm") ;;;
    set_text "hm-label-high" (js "-75 dBm")
  else
    set_style "hm-legend-bar" (js "linear-gradient(to right, #1e3a5f, #ef4444, #fbbf24, #34d399, #10b981)") ;;;
    set_text "hm-legend-title" (js "SNR") ;;;
    set_text "hm-label-low" (js "-15 dB") ;;;
    set_text "hm-label-high" (js "+12 dB").

(** [L.heatLayer(points, opts).addTo(map)] draws the points at once and rejects an
    undefined coordinate; the layer is on the map then, but the assignment to
    [heatmapLayer] is not reached. A layer that exists is redrawn later, outside
    of this call. *)
Definition drawable (points : list heat_point) : bool := is_ok (latLngs points.*1).

Definition put_layer (layer : list heat_point * string) : Page unit :=
  current <-- gets (fun w => h_layer (w_heat w)) ;;
  match current with
  | Some _ => modify (on_w_heat (on_h_layer (fun _ => Some layer)))
  | None =>
      if drawable layer.1 then modify (on_w_heat (on_h_layer (fun _ => Some layer)))
      else modify (on_w_heat (on_h_stray (fun l => l ++ [layer]))) ;;;
           mthrow (LibError "Invalid LatLng object")
  end.

Definition updateHeatmap : Page unit :=
  mapInstance <-- gets (fun w => v_instance (w_map w)) ;;
  if negb mapInstance then mret' tt else
  mode <-- gets (fun w => h_mode (w_heat w)) ;;
  if decide (mode = js "off") then
    modify (on_w_heat (on_h_layer (fun _ => None))) ;;;
    set_display "hm-legend" (js "none")
  else
    nodeDir <-- gets w_nodeDir ;;
    let points := getHeatmapPoints nodeDir mode in
    let gradient := if decide (mode = js "rssi") then rssiGradient else snrGradient in
    put_layer (points, gradient) ;;;
    set_display "hm-legend" [] ;;;
    set_legend mode.

(** The heatmap radio buttons. *)
Definition on_heatmap_change (value : jstr) : Page unit :=
  modify (on_w_filters (on_f_heatmap (fun _ => value))) ;;;
  modify (on_w_heat (on_h_mode (fun _ => value))) ;;;
  updateHeatmap.

(** ** Lemmas *)

(** It throws at most when the points cannot be drawn. *)
Lemma updateHeatmap_ok w :
  drawable (getHeatmapPoints (w_nodeDir w) (h_mode (w_heat w))) = true -> fst (updateHeatmap w) = Ok tt.
Proof.
  intros Hd. unfold updateHeatmap. cbn [mbind' gets]. destruct (v_instance _); [|done].
  cbn [mbind' gets negb]. case_decide; [done|]. cbn [mbind' gets]. cbv zeta.
  match goal with |- context [put_layer ?l] => set (layer := l) end.
  assert (fst (put_layer layer w) = Ok tt) as Hp.
  { unfold put_layer. cbn [mbind' gets]. destruct (h_layer _); [done|]. subst layer. cbn [fst]. by rewrite Hd. }
  unfold mbind' at 1. destruct (put_layer layer w) as [r w1]. cbn in Hp. subst r.
  unfold set_legend. by case_decide.
Qed.

Lemma updateHeatmap_off w : h_mode (w_heat w) = js "off" -> fst (updateHeatmap w) = Ok tt.
Proof.
  intros Hm. unfold updateHeatmap. cbn [mbind' gets]. destruct (v_instance _); [|done].
  cbn [mbind' gets negb]. by rewrite Hm, decide_True.
Qed.

Definition outside_heat (w : world) :=
  (w_now w, w_nodeDir w, w_map w, w_filters w, w_trace w, w_history w, w_nodes w, w_btns w,
   w_timers w, w_fetches w, w_next w, w_log w, w_chat w).

Lemma updateHeatmap_frame : preserves updateHeatmap outside_heat.
Proof. unfold updateHeatmap, put_layer, set_legend. frame_solve. Qed.

Lemma clamp_unit x :
  num_is_nan x = false ->
  num_leb (num_of_Z 0) (clamp (num_of_Z 0) (num_of_Z 1) x) = true /\
  num_leb (clamp (num_of_Z 0) (num_of_Z 1) x) (num_of_Z 1) = true.
Proof.
  intros Hx. split; [by apply clamp_lower|]. by apply clamp_upper.
Qed.

#[export] Instance finite_dec a : Decision (finite a).
Proof. destruct a; apply _. Defined.

(** [JSON.parse] yields no infinite number and no NaN from the server's data. *)
Definition json_floats (e : entry) : Prop := map_Forall (fun _ v => finite v) (e_flt e).
#[export] Instance json_floats_dec e : Decision (json_floats e).
Proof. unfold json_floats. apply _. Defined.

Lemma best_snr_finite e v : json_floats e -> best_snr e = Some v -> finite v.
Proof. intros He. unfold best_snr. case_if; apply He. Qed.

Lemma num_div_27_not_nan a : num_is_nan a = false -> num_is_nan (num_div a (num_of_Z 27)) = false.
Proof. exact (num_div_not_nan a false 7599824371187712 (-48)). Qed.

Lemma heat_linear_unit mode e x :
  json_floats e -> heat_linear mode e = Some x ->
  num_leb (num_of_Z 0) x = true /\ num_leb x (num_of_Z 1) = true.
Proof.
  intros He. unfold heat_linear. case_decide.
  - destruct (e_int e !! rx_rssi) as [r|]; [|done]. case_if; [|done]. intros [= <-].
    apply clamp_unit. unfold num_quot. change (num_of_Z 40) with (S754_finite false 5629499534213120 (-47)).
    apply num_div_not_nan, num_of_Z_not_nan.
  - case_decide; [|done]. destruct (best_snr e) as [v|] eqn:Ev; [|done]. case_if; [|done].
    intros [= <-]. apply clamp_unit. apply num_div_27_not_nan, num_add_not_nan;
      [by eapply best_snr_finite|exact (num_of_Z_not_nan 15)].
Qed.

(** A node contributes to the layer of a mode. *)
Definition has_signal (mode : jstr) (e : entry) : bool :=
  has_pos e && (if decide (mode = js "rssi") then truthy (e_int e !! rx_rssi)
                else if decide (mode = js "snr") then bool_decide (is_Some (best_snr e)) else false).

Lemma heat_point_signal mode e :
  json_floats e -> bool_decide (is_Some (heat_point_of mode e)) = has_signal mode e.
Proof.
  intros He. unfold heat_point_of, has_signal, heat_intensity, heat_linear.
  destruct (has_pos e); [|done]. cbn [negb andb].
  case_decide.
  - destruct (e_int e !! rx_rssi) as [r|]; [|done].
    change (truthy (Some r)) with (truthy r). by destruct (truthy r).
  - case_decide; [|done]. destruct (best_snr e) as [v|] eqn:Ev; [|done].
    pose proof (best_snr_finite e v He Ev) as Hf. by destruct v.
Qed.

(** C26. For a directory whose floating point fields are finite, as JSON makes
    them, every point of the heatmap has an intensity between 0 and 1, whatever the
    signal, and is the position of a node of the directory that has a position
    and a signal for the mode; and every such node contributes exactly one
    point. *)
Theorem heat_points_spec dir mode :
  map_Forall (fun _ => json_floats) dir ->
  (forall lat lon i, (lat, lon, i) ∈ getHeatmapPoints (Some dir) mode ->
     num_leb (num_of_Z 0) i = true /\ num_leb i (num_of_Z 1) = true /\
     exists n e, dir !! n = Some e /\ has_signal mode e = true /\
       e_flt e !! latitude = lat /\ e_flt e !! longitude = lon) /\
  length (getHeatmapPoints (Some dir) mode)
  = length (filter (fun p => has_signal mode p.2 = true) (dir_entries dir)).
Proof.
  intros Hdir. split.
  - intros lat lon i Hin. cbn in Hin. apply list_elem_of_omap in Hin as ([n e] & Hin & Hp).
    apply elem_of_dir_entries in Hin. pose proof (Hdir _ _ Hin) as He.
    pose proof (heat_point_signal mode e He) as Hsig. cbn in Hp. rewrite Hp in Hsig.
    unfold heat_point_of in Hp. destruct (has_pos e) eqn:Hpos; [|done]. cbn in Hp.
    unfold heat_intensity in Hp. destruct (heat_linear mode e) as [x|] eqn:Hx; [|done].
    injection Hp as <- <- <-. destruct (heat_linear_unit _ _ _ He Hx) as [H0 H1].
    destruct (math_pow_unit x num_0_6 H0 H1) as [Hl Hu]; [done|done|].
    split; [done|]. split; [done|]. exists n, e. done.
  - cbn. assert (forall l, (forall n e, (n, e) ∈ l -> json_floats e) ->
      length (omap (fun p : Z * entry => heat_point_of mode p.2) l)
      = length (filter (fun p => has_signal mode p.2 = true) l)) as Hl.
    { induction l as [|[n e] l IH]; intros Hj; [done|].
      rewrite filter_cons. cbn. rewrite <- (heat_point_signal mode e) by (eapply Hj; left).
      assert (forall n e, (n, e) ∈ l -> json_floats e) as Hj' by (intros; eapply Hj; by right).
      destruct (heat_point_of mode e); cbn; by rewrite (IH Hj'). }
    apply Hl. intros n e Hin. apply elem_of_dir_entries in Hin. by eapply Hdir.
Qed.

End heatmap.

Definition heat_dir : directory :=
  {[ 1 := put_int rx_rssi (-200)
            (put_flt latitude (num_of_Z 50) (put_flt longitude (num_of_Z 8) empty_entry));
     2 := put_flt latitude (num_of_Z 51) empty_entry ]}.

Lemma heat_points_spec_witness :
  (forall lat lon i, (lat, lon, i) ∈ @getHeatmapPoints Reference.platform (Some heat_dir) (js "rssi") ->
     num_leb (num_of_Z 0) i = true /\ num_leb i (num_of_Z 1) = true /\
     exists n e, heat_dir !! n = Some e /\ has_signal (js "rssi") e = true /\
       e_flt e !! latitude = lat /\ e_flt e !! longitude = lon) /\
  length (@getHeatmapPoints Reference.platform (Some heat_dir) (js "rssi"))
  = length (filter (fun p => has_signal (js "rssi") p.2 = true) (dir_entries heat_dir)).
Proof.
  apply (@heat_points_spec Reference.platform heat_dir (js "rssi")).
  by_decide.
Defined.
