(* ===== verification/Filters.v ===== *)
(** * app.js: map search and filters

    Which nodes of the map pass the text search, the role and hardware
    checkboxes and the status, battery and source radio buttons. *)

From S2P Require Import Prelude JsString JsNumber Platform Html NodeDir Mesh World.
From S2P Require Import Route Heatmap.

(** ** The default order of [Array.prototype.sort] on strings: code units *)

Fixpoint jstr_leb (a b : jstr) : bool :=
  match a, b with
  | [], _ => true
  | _ :: _, [] => false
  | c :: a', d :: b' => (c <? d)%N || ((c =? d)%N && jstr_leb a' b')
  end.
Definition jstr_le (a b : jstr) : Prop := jstr_leb a b = true.
#[export] Instance jstr_le_dec : RelDecision jstr_le.
Proof. intros a b. unfold jstr_le. apply _. Defined.

Definition sorted_strings (s : gset jstr) : list jstr := merge_sort jstr_le (elements s).

(** ** Checkbox groups *)

(** Properties every object inherits: [val in {}] holds for them. *)
Definition object_props : list jstr :=
  js <$> ["constructor"; "toString"; "toLocaleString"; "valueOf"; "hasOwnProperty";
          "isPrototypeOf"; "propertyIsEnumerable"; "__proto__"; "__defineGetter__";
          "__defineSetter__"; "__lookupGetter__"; "__lookupSetter__"]%string.

(** [existing[val]], when [val in existing]; the last box of that value counts.
    An inherited property is an object or a function, hence truthy. *)
Definition existing_checked (boxes : list checkbox) (val : jstr) : option bool :=
  match last (filter (fun b => cb_value b = val) boxes) with
  | Some b => Some (cb_checked b)
  | None => if decide (val ∈ object_props) then Some true else None
  end.

Definition is_checked (checkedSet : option (gset jstr)) (boxes : list checkbox) (val : jstr) : bool :=
  match checkedSet with
  | Some s => bool_decide (val ∈ s)
  | None => default true (existing_checked boxes val)
  end.

(** The checkboxes of a parsed fragment. *)
Definition attr (name : jstr) (t : tag) : option jstr :=
  snd <$> head (filter (fun a => a.1 = name) (tag_attrs t)).

Definition parse_checkbox (t : tag) : option checkbox :=
  if negb (tag_end t) && bool_decide (tag_name t = js "input")
     && bool_decide (attr (js "type") t = Some (js "checkbox"))
  then Some (Checkbox (default [] (attr (js "value") t)) (bool_decide (is_Some (attr (js "checked") t))))
  else None.

Definition parse_checkboxes (h : jstr) : list checkbox := omap parse_checkbox (html_tags h).

Section filters.
Context `{Platform}.

(** The label of one option. *)
Definition group_label (namePrefix : string) (val : jstr) : jstr :=
  if decide (namePrefix = "mf-role"%string) then formatRole val else formatHwModel val.

Definition group_option (namePrefix : string) (checked : bool) (val : jstr) : jstr :=
  html "<label class=`mf-option`><input type=`checkbox` name=`" +++ js namePrefix
  +++ html "` value=`" +++ esc val +++ html "`"
  +++ (if checked then js " checked" else []) +++ js "> "
  +++ esc (group_label namePrefix val) +++ js "</label>".

Definition group_html (namePrefix : string) (checked : jstr -> bool) (sorted : list jstr) : jstr :=
  match sorted with
  | [] => html "<span style=`font-size:10px;color:#4b5563;`>No data</span>"
  | _ => mjoin ((fun val => group_option namePrefix (checked val) val) <$> sorted)
  end.

(** [rebuildCheckboxGroup] of the role and the hardware group: the new markup,
    and the checkboxes the browser makes of it. *)
Definition rebuildCheckboxGroup (containerId namePrefix : string) (values : gset jstr)
    (checkedSet : option (gset jstr)) (boxes : list checkbox)
    (put : list checkbox -> filters -> filters) : Page unit :=
  let markup := group_html namePrefix (is_checked checkedSet boxes) (sorted_strings values) in
  set_html containerId markup ;;;
  modify (on_w_filters (put (parse_checkboxes markup))).

(** The values of a string field over the directory, without the empty ones. *)
Definition field_values (f : sfield) (dir : directory) : gset jstr :=
  list_to_set (omap (fun p => v ← e_str p.2 !! f; if truthy v then Some v else None) (dir_entries dir)).

Definition rebuildFilterOptions : Page unit :=
  nodeDir <-- gets w_nodeDir ;;
  match nodeDir with
  | None => mret' tt
  | Some dir =>
      f <-- gets w_filters ;;
      rebuildCheckboxGroup "mf-roles" "mf-role" (field_values role dir) (f_roles f)
        (f_role_boxes f) (fun bs => on_f_role_boxes (fun _ => bs)) ;;;
      rebuildCheckboxGroup "mf-hw" "mf-hwm" (field_values hw_model dir) (f_hw f)
        (f_hw_boxes f) (fun bs => on_f_hw_boxes (fun _ => bs))
  end.

(** The set of values of the checked boxes. *)
Definition checked_values (boxes : list checkbox) : gset jstr :=
  list_to_set (cb_value <$> filter (fun b => cb_checked b = true) boxes).

Definition syncCheckedState : Page unit :=
  modify (on_w_filters (fun f =>
    on_f_hw (fun _ => Some (checked_values (f_hw_boxes f)))
      (on_f_roles (fun _ => Some (checked_values (f_role_boxes f))) f))).

(** ** Core filter logic *)

(** Role and hardware filter: [checked] the checked values, [total] the number of
    boxes in the document. *)
Definition group_passes (checked : option (gset jstr)) (total : nat) (value : option jstr) : bool :=
  match checked with
  | Some s =>
      if (0 <? size s)%nat then
        let v := or_else value [] in
        if truthy v && negb (bool_decide (v ∈ s)) then false
        else negb (negb (truthy v) && (size s <? total)%nat)
      else true
  | None => true
  end.

Definition haystack (n : Z) (e : entry) : jstr :=
  toLowerCase (or_else (A:=jstr) (e_str e !! short_name) [] +++ js " "
               +++ or_else (A:=jstr) (e_str e !! long_name) [] +++ js " "
               +++ (js "!" +++ padStart 8 48%N (hex n)) +++ js " "
               +++ or_else (A:=jstr) (e_str e !! user_id) []).

Definition search_passes (search : jstr) (n : Z) (e : entry) : bool :=
  let q := trim (toLowerCase search) in
  if truthy q then includes (haystack n e) q else true.

Definition online (now : Z) (last_heard : Z) : bool := now - last_heard <? 900.

Definition status_passes (status : jstr) (now : Z) (last_heard : option Z) : bool :=
  (if negb (bool_decide (status = js "all")) && truthy last_heard then
     let on := online now (default 0 last_heard) in
     negb (bool_decide (status = js "online") && negb on)
     && negb (bool_decide (status = js "offline") && on)
   else true)
  && negb (bool_decide (status = js "online") && negb (truthy last_heard)).

Definition battery_passes (battery : jstr) (level : option Z) : bool :=
  if decide (battery = js "low") then truthy level && (default 0 level <? 20)
  else if decide (battery = js "has") then truthy level
  else true.

Definition mqtt_passes (mqtt : jstr) (via : option bool) : bool :=
  negb (bool_decide (mqtt = js "direct") && truthy via)
  && negb (bool_decide (mqtt = js "mqtt") && negb (truthy via)).

(** [nodePassesFilters]; each conjunct is one early [return false]. *)
Definition nodePassesFilters (f : filters) (search : jstr) (now : Z) (n : Z) (e : entry) : bool :=
  search_passes search n e
  && group_passes (f_roles f) (length (f_role_boxes f)) (e_str e !! role)
  && group_passes (f_hw f) (length (f_hw_boxes f)) (e_str e !! hw_model)
  && status_passes (f_status f) now (e_int e !! last_heard)
  && battery_passes (f_battery f) (e_int e !! battery_level)
  && mqtt_passes (f_mqtt f) (e_bool e !! via_mqtt).

(** ** Applying the filters to the markers *)

(** [addTo(map)] and [remove()], which closes the popup. *)
Definition show_marker (m : marker) : marker :=
  Marker (mk_latlng m) (mk_icon m) (mk_popup m) (mk_btn m) true (mk_open m).
Definition hide_marker (m : marker) : marker :=
  if mk_shown m then Marker (mk_latlng m) (mk_icon m) (mk_popup m) (mk_btn m) false false else m.

(** [openPopup()]: the map keeps one popup open. *)
Definition open_popup (n : Z) (ms : gmap Z marker) : gmap Z marker :=
  map_imap (fun k m => Some (Marker (mk_latlng m) (mk_icon m) (mk_popup m) (mk_btn m) (mk_shown m)
                               (bool_decide (k = n)))) ms.

(** The popup that is open is part of the document, with its trace button; the
    other trace buttons are those of the table. *)
Definition show_popup_btn (b : btn) (bs : list btn) : list btn :=
  b :: filter (fun b => bt_compact b = true) bs.
Definition has_open (ms : gmap Z marker) (b : btn) : bool :=
  existsb (fun p => mk_open p.2 && bool_decide (dec p.1 = bt_target b)) (map_to_list ms).
Definition drop_closed (ms : gmap Z marker) (bs : list btn) : list btn :=
  filter (fun b => bt_compact b || has_open ms b = true) bs.

(** New states of the markers; the popups they close leave the document. *)
Definition put_markers (ms : gmap Z marker) : Page unit :=
  modify (on_w_map (on_v_markers (fun _ => ms))) ;;; modify (on_w_btns (drop_closed ms)).

(** [mapMarkers[n].openPopup()], as a click on the marker does: the popup is
    rendered from the content last set. *)
Definition openPopup (n : Z) : Page unit :=
  ms <-- gets (fun w => v_markers (w_map w)) ;;
  match ms !! n with
  | Some m => modify (on_w_map (on_v_markers (open_popup n))) ;;; modify (on_w_btns (show_popup_btn (mk_btn m)))
  | None => mret' tt
  end.

(** The user opens the popup of a marker of the map, or closes the open one. *)
Definition on_marker_click (n : Z) : Page unit :=
  marker <-- gets (fun w => v_markers (w_map w) !! n) ;;
  when (match marker with Some m => mk_shown m | None => false end) (openPopup n).
Definition close_popup (m : marker) : marker :=
  Marker (mk_latlng m) (mk_icon m) (mk_popup m) (mk_btn m) (mk_shown m) false.
Definition on_popup_close : Page unit :=
  ms <-- gets (fun w => v_markers (w_map w)) ;; put_markers (close_popup <$> ms).

Record sweep := Sweep { sw_visible : nat; sw_total : nat; sw_single : option Z; sw_markers : gmap Z marker }.

(** One iteration of the loop of [applyMapFilters]. *)
Definition sweep_step (passes : Z -> entry -> bool) (s : sweep) (p : Z * entry) : sweep :=
  let '(n, e) := p in
  if negb (has_pos e) then s
  else if passes n e then
    Sweep (S (sw_visible s)) (S (sw_total s)) (Some n) (alter show_marker n (sw_markers s))
  else
    Sweep (sw_visible s) (S (sw_total s)) (sw_single s) (alter hide_marker n (sw_markers s)).

Definition applyMapFilters : Page unit :=
  w <-- gets (fun w => w) ;;
  match v_instance (w_map w), w_nodeDir w with
  | true, Some dir =>
      let search := el_value (w_dom w "mf-search-input") in
      let s := foldl (sweep_step (nodePassesFilters (w_filters w) search (now_s w)))
                 (Sweep 0 0 None (v_markers (w_map w))) (dir_entries dir) in
      put_markers (sw_markers s) ;;;
      set_text "mf-node-count" (dec (Z.of_nat (sw_visible s)) +++ js " / " +++ dec (Z.of_nat (sw_total s))) ;;;
      match sw_single s with
      | Some n =>
          if truthy (trim search) && (sw_visible s =? 1)%nat && bool_decide (is_Some (sw_markers s !! n)) then
            p <-- lift (entry_latLng (default empty_entry (dir !! n))) ;;
            emit_effect (FlyTo p 14) ;;;
            openPopup n
          else mret' tt
      | None => mret' tt
      end
  | _, _ => mret' tt
  end.

(** ** Event listeners of the panel *)

Definition toggle_panel : Page unit :=
  modify (on_w_filters (on_f_open negb)) ;;;
  filtersOpen <-- gets (fun w => f_open (w_filters w)) ;;
  set_display "mf-body" (if filtersOpen then [] else js "none") ;;;
  (if filtersOpen then class_add "mf-chevron" (js "open") else class_remove "mf-chevron" (js "open")).

Definition on_search_input (value : jstr) : Page unit :=
  set_value "mf-search-input" value ;;; applyMapFilters.

(** A box of a group is (un)checked by the user, then its listener runs. *)
Definition set_box (val : jstr) (checked : bool) (bs : list checkbox) : list checkbox :=
  (fun b => if decide (cb_value b = val) then Checkbox val checked else b) <$> bs.
Definition on_role_change (val : jstr) (checked : bool) : Page unit :=
  modify (on_w_filters (on_f_role_boxes (set_box val checked))) ;;;
  syncCheckedState ;;; applyMapFilters.
Definition on_hw_change (val : jstr) (checked : bool) : Page unit :=
  modify (on_w_filters (on_f_hw_boxes (set_box val checked))) ;;;
  syncCheckedState ;;; applyMapFilters.

Definition on_radio_change (put : jstr -> filters -> filters) (value : jstr) : Page unit :=
  modify (on_w_filters (put value)) ;;; applyMapFilters.

Definition check_all (bs : list checkbox) : list checkbox :=
  (fun b => Checkbox (cb_value b) true) <$> bs.

(** The reset button. *)
Definition reset_filters : Page unit :=
  set_value "mf-search-input" [] ;;;
  modify (on_w_filters (fun f =>
    Filters (f_open f) (f_roles f) (f_hw f) (check_all (f_role_boxes f)) (check_all (f_hw_boxes f))
      (js "all") (js "all") (js "all") (js "off"))) ;;;
  modify (on_w_heat (on_h_mode (fun _ => js "off"))) ;;;
  modify (on_w_filters (on_f_roles (fun _ => None))) ;;;
  modify (on_w_filters (on_f_hw (fun _ => None))) ;;;
  applyMapFilters ;;;
  updateHeatmap.

End filters.

(** ** Lemmas: the sweep over the directory *)

(** What the sweep does to the marker of a node. *)
Definition swept (passes : Z -> entry -> bool) (n : Z) (oe : option entry) (m : marker) : marker :=
  match oe with
  | Some e => if has_pos e then if passes n e then show_marker m else hide_marker m else m
  | None => m
  end.

Definition positioned (dir : directory) : list (Z * entry) :=
  filter (fun p => has_pos p.2 = true) (dir_entries dir).

Lemma foldl_sweep passes l s :
  NoDup l.*1 ->
  let s' := foldl (sweep_step passes) s l in
  sw_visible s' = (sw_visible s
    + length (filter (fun p => has_pos p.2 && passes p.1 p.2 = true) l))%nat /\
  sw_total s' = (sw_total s + length (filter (fun p => has_pos p.2 = true) l))%nat /\
  forall k, sw_markers s' !! k
            = swept passes k ((list_to_map l : directory) !! k) <$> sw_markers s !! k.
Proof.
  revert s; induction l as [|[n e] l IH]; intros s; [intros _; cbn; rewrite !Nat.add_0_r|].
  { split; [done|]. split; [done|]. intros k. by destruct (sw_markers s !! k). }
  cbn [fmap list_fmap fst]. intros [Hn Hd]%NoDup_cons. cbn [foldl].
  destruct (IH (sweep_step passes s (n, e)) Hd) as (Hv & Ht & Hm). cbv zeta in *.
  rewrite Hv, Ht, (length_filter_cons (fun p => has_pos p.2 && passes p.1 p.2)),
    (length_filter_cons (fun p => has_pos p.2)). cbn [fst snd]. clear Hv Ht IH.
  unfold sweep_step in *. destruct (has_pos e) eqn:Hp; cbn [negb andb] in *.
  - destruct (passes n e) eqn:Hpass; cbn in *; (split; [lia|]); (split; [lia|]);
      intros k; rewrite Hm, lookup_insert, lookup_alter; case_decide as Hk; try done;
      subst k; rewrite (proj1 (not_elem_of_list_to_map _ _) Hn); unfold swept; rewrite Hp, Hpass;
      by destruct (sw_markers s !! n).
  - cbn in *. split; [done|]. split; [done|].
    intros k. rewrite Hm, lookup_insert. case_decide as Hk; [|done].
    subst k. rewrite (proj1 (not_elem_of_list_to_map _ _) Hn). unfold swept. rewrite Hp.
    by destruct (sw_markers s !! n).
Qed.

Lemma dir_entries_map (dir : directory) : (list_to_map (dir_entries dir) : directory) = dir.
Proof.
  rewrite (list_to_map_proper (dir_entries dir) (map_to_list dir)).
  - apply list_to_map_to_list.
  - apply dir_entries_NoDup.
  - apply dir_entries_perm.
Qed.

Lemma open_popup_lookup n ms k :
  open_popup n ms !! k
  = (fun m => Marker (mk_latlng m) (mk_icon m) (mk_popup m) (mk_btn m) (mk_shown m) (bool_decide (k = n)))
    <$> ms !! k.
Proof. unfold open_popup. rewrite map_lookup_imap. by destruct (ms !! k). Qed.

(** A marker without its popup state. *)
Definition closed (m : marker) := (mk_latlng m, mk_icon m, mk_popup m, mk_shown m).

Definition count_text (visible total : nat) : jstr :=
  dec (Z.of_nat visible) +++ js " / " +++ dec (Z.of_nat total).

Section properties.
Context `{Platform}.

(** The node filter of a page. *)
Definition page_passes (w : world) : Z -> entry -> bool :=
  nodePassesFilters (w_filters w) (el_value (w_dom w "mf-search-input")) (now_s w).

Lemma applyMapFilters_run w dir :
  v_instance (w_map w) = true -> w_nodeDir w = Some dir ->
  let w' := snd (applyMapFilters w) in
  (forall k, closed <$> v_markers (w_map w') !! k
             = closed ∘ swept (page_passes w) k (dir !! k) <$> v_markers (w_map w) !! k) /\
  el_content (w_dom w' "mf-node-count")
  = html_escape (count_text (length (filter (fun p => page_passes w p.1 p.2 = true) (positioned dir)))
                   (length (positioned dir))) /\
  w_nodeDir w' = w_nodeDir w /\ w_filters w' = w_filters w.
Proof.
  intros Hi Hd. cbv zeta.
  unfold applyMapFilters, openPopup, put_markers, mbind', gets, modify, set_text, set_html, on_elem, lift.
  rewrite Hi, Hd. fold (page_passes w). set (s := foldl _ _ _).
  destruct (foldl_sweep (page_passes w) (dir_entries dir) (Sweep 0 0 None (v_markers (w_map w)))
              (dir_entries_NoDup dir)) as (Hv & Ht & Hm).
  fold s in Hv, Ht, Hm. cbn in Hv, Ht. rewrite dir_entries_map in Hm.
  replace (length (filter (fun p => page_passes w p.1 p.2 = true) (positioned dir)))
    with (sw_visible s); cycle 1.
  { rewrite Hv. unfold positioned. rewrite list_filter_filter. f_equal. apply list_filter_iff.
    intros [n e]. cbn. rewrite andb_true_iff. tauto. }
  replace (length (positioned dir)) with (sw_total s) by done.
  assert (forall k, closed <$> sw_markers s !! k
    = closed ∘ swept (page_passes w) k (dir !! k) <$> v_markers (w_map w) !! k) as Hm'.
  { intros k. rewrite Hm. cbn. by rewrite option_fmap_compose. }
  clearbody s. clear Hm Hv Ht.
  destruct (sw_single s) as [n|]; [|by cbn; dom_lookup].
  case_if; [|by cbn; dom_lookup].
  destruct (entry_latLng _) as [p|err]; cbn; [|by dom_lookup].
  destruct (sw_markers s !! n); cbn; dom_lookup; [|done].
  split; [|done]. intros k. rewrite open_popup_lookup, <- (Hm' k).
  by destruct (sw_markers s !! k).
Qed.

(** C22. Applying the filters shows the marker of every positioned node that
    passes them and hides the marker of every one that does not, touches no
    other marker, and writes the number of nodes that pass over the number of
    positioned nodes into the counter, also when centring the map throws. *)
Theorem applyMapFilters_spec w dir :
  v_instance (w_map w) = true -> w_nodeDir w = Some dir ->
  let w' := snd (applyMapFilters w) in
  (forall n e m, dir !! n = Some e -> has_pos e = true -> v_markers (w_map w) !! n = Some m ->
     exists m', v_markers (w_map w') !! n = Some m' /\ mk_latlng m' = mk_latlng m /\
       mk_popup m' = mk_popup m /\ mk_shown m' = page_passes w n e) /\
  (forall n, (forall e, dir !! n = Some e -> has_pos e = false) ->
     closed <$> v_markers (w_map w') !! n = closed <$> v_markers (w_map w) !! n) /\
  el_content (w_dom w' "mf-node-count")
  = html_escape (count_text (length (filter (fun p => page_passes w p.1 p.2 = true) (positioned dir)))
                   (length (positioned dir))).
Proof.
  intros Hi Hd. cbv zeta. destruct (applyMapFilters_run w dir Hi Hd) as (Hm & Hc & _).
  split; [|split; [|exact Hc]].
  - intros n e m He Hp Hk. specialize (Hm n). rewrite He, Hk in Hm. cbn in Hm. rewrite Hp in Hm.
    destruct (v_markers (w_map (snd _)) !! n) as [m'|]; [|done]. injection Hm as E1 E2 E3 E4.
    exists m'. split; [done|]. rewrite E1, E3, E4.
    unfold show_marker, hide_marker. destruct (page_passes w n e); [done|].
    by destruct (mk_shown m) eqn:Hs.
  - intros n Hn. rewrite Hm. destruct (v_markers (w_map w) !! n) as [m|]; [|done]. cbn.
    destruct (dir !! n) as [e|] eqn:He; [|done]. cbn. by rewrite (Hn e eq_refl).
Qed.
(** With no search, no group selected and the radio buttons at "all", every node
    passes. *)
Lemma cleared_passes f now n e :
  f_roles f = None -> f_hw f = None -> f_status f = js "all" ->
  f_battery f = js "all" -> f_mqtt f = js "all" ->
  nodePassesFilters f [] now n e = true.
Proof.
  intros Hr Hh Hs Hb Hm. unfold nodePassesFilters. rewrite Hr, Hh, Hs, Hb, Hm.
  unfold search_passes. rewrite toLowerCase_ascii by constructor. by vm_compute.
Qed.

End properties.

(** ** The checkboxes and the nodes they select *)

Section boxes.
Context `{Platform}.

(** Values that survive being written into an attribute and read back, with a
    label that has no carriage return. *)
Definition box_value (prefix : string) (v : jstr) : Prop :=
  plain v /\ (34%N ∉ v) /\ 13%N ∉ group_label prefix v.

Lemma group_option_no_cr prefix checked v :
  prefix = "mf-role"%string \/ prefix = "mf-hwm"%string -> box_value prefix v ->
  13%N ∉ group_option prefix checked v.
Proof.
  intros Hpre (Hp & _ & Hl). unfold group_option, jcat. rewrite !esc_html_escape.
  revert Hl. generalize (group_label prefix v). intros label Hl.
  apply plain_no_cr, html_escape_no_cr' in Hp. apply html_escape_no_cr' in Hl.
  rewrite !not_elem_of_app.
  split_and!; [by_decide|destruct Hpre as [-> | ->]; by_decide|by_decide|exact Hp|by_decide
    |destruct checked; by_decide|by_decide|exact Hl|by_decide].
Qed.

(** One option is one checkbox. *)
Lemma group_option_parse prefix checked v rest :
  prefix = "mf-role"%string \/ prefix = "mf-hwm"%string -> box_value prefix v ->
  omap parse_checkbox (omap token_tag (tokenize SData 0 (group_option prefix checked v ++ rest)))
  = Checkbox v checked :: omap parse_checkbox (omap token_tag (tokenize SData 0 rest)).
Proof.
  intros Hpre (Hp & Hq & _). unfold group_option. rewrite !esc_html_escape. unfold jcat.
  generalize (group_label prefix v). intros label. rewrite <- !app_assoc.
  destruct Hpre as [-> | ->];
    (do 3 tok_literal); rewrite attr_escape by auto;
    destruct checked; (do 3 (try tok_literal)); rewrite !omap_app, tags_escape; tok_literal; done.
Qed.
Lemma group_html_cons prefix checked l :
  l <> [] ->
  group_html prefix checked l = mjoin ((fun v => group_option prefix (checked v) v) <$> l).
Proof. unfold group_html. by destruct l. Qed.

(** The checkboxes of a rebuilt group are its values with their states. *)
Lemma group_html_parse prefix checked l :
  prefix = "mf-role"%string \/ prefix = "mf-hwm"%string -> Forall (box_value prefix) l ->
  parse_checkboxes (group_html prefix checked l) = (fun v => Checkbox v (checked v)) <$> l.
Proof.
  intros Hpre Hl. destruct (decide (l = [])) as [->|Hne]; [by vm_compute|].
  rewrite group_html_cons by done. clear Hne.
  unfold parse_checkboxes, html_tags, html_tokens.
  rewrite normalize_no_cr; cycle 1.
  { intros (o & Ho & (v & -> & Hv)%list_elem_of_fmap)%list_elem_of_join.
    eapply Forall_forall in Hl; [|exact Hv]. by eapply group_option_no_cr in Ho. }
  induction Hl as [|v l Hv Hl IH]; [done|].
  cbn [fmap list_fmap mjoin list_join]. rewrite group_option_parse by done. by rewrite <- IH.
Qed.

Definition boxes_for (checkedSet : option (gset jstr)) (boxes : list checkbox) (values : gset jstr)
    : list checkbox :=
  (fun v => Checkbox v (is_checked checkedSet boxes v)) <$> sorted_strings values.

Lemma sorted_strings_elem s v : v ∈ sorted_strings s <-> v ∈ s.
Proof. unfold sorted_strings. by rewrite merge_sort_Permutation, elem_of_elements. Qed.

Lemma sorted_strings_NoDup s : NoDup (sorted_strings s).
Proof. unfold sorted_strings. rewrite merge_sort_Permutation. apply NoDup_elements. Qed.

(** C24. After the filter panel is rebuilt, the checkboxes the browser makes of the
    generated markup are exactly the roles and the hardware models that occur in
    the directory, in order, each in the state its selection, else its previous
    checkbox, gave it, and checked when it is new - provided that no role and no
    model contains a double quote, a NUL or a carriage return, in itself or in
    its label. *)
Theorem filter_boxes_mirror w dir :
  w_nodeDir w = Some dir ->
  set_Forall (box_value "mf-role") (field_values role dir) ->
  set_Forall (box_value "mf-hwm") (field_values hw_model dir) ->
  let f := w_filters w in
  let f' := w_filters (snd (rebuildFilterOptions w)) in
  f_role_boxes f' = boxes_for (f_roles f) (f_role_boxes f) (field_values role dir) /\
  f_hw_boxes f' = boxes_for (f_hw f) (f_hw_boxes f) (field_values hw_model dir) /\
  f_roles f' = f_roles f /\ f_hw f' = f_hw f.
Proof.
  intros Hd Hr Hh. unfold rebuildFilterOptions, rebuildCheckboxGroup, mbind', gets, modify.
  cbv beta iota. rewrite Hd. cbn.
  split; [|split; [|done]]; apply group_html_parse; auto; apply Forall_forall;
    intros v Hv%sorted_strings_elem; auto.
Qed.

(** C25. What a group of checkboxes with distinct values selects once the user has changed one: with
    every box unchecked it selects every node; otherwise a node whose value is
    set passes exactly when its box is checked, and a node without a value
    passes exactly when every box is checked. *)
Theorem group_selection boxes (value : option jstr) :
  NoDup (cb_value <$> boxes) ->
  group_passes (Some (checked_values boxes)) (length boxes) value = true <->
  (forall b, b ∈ boxes -> cb_checked b = false) \/
  (if truthy value then exists b, b ∈ boxes /\ Some (cb_value b) = value /\ cb_checked b = true
   else forall b, b ∈ boxes -> cb_checked b = true).
Proof.
  intros Hnd. set (on := filter (fun b => cb_checked b = true) boxes).
  assert (NoDup (cb_value <$> on)) as Hon.
  { eapply sublist_NoDup; [exact Hnd|]. apply fmap_sublist, sublist_filter. }
  assert (size (checked_values boxes) = length on) as Hsize.
  { unfold checked_values. rewrite size_list_to_set, length_fmap by done. done. }
  assert (forall v, v ∈ checked_values boxes <-> exists b, b ∈ boxes /\ cb_value b = v /\ cb_checked b = true) as Hin.
  { intros v. unfold checked_values. rewrite elem_of_list_to_set, list_elem_of_fmap.
    split; [intros (b & -> & [? ?]%list_elem_of_filter); eauto|].
    intros (b & ? & <- & ?). exists b. by rewrite list_elem_of_filter. }
  assert ((forall b, b ∈ boxes -> cb_checked b = false) <-> length on = 0%nat) as Hnone.
  { rewrite length_zero_iff_nil. unfold on. split.
    - intros Hb. apply filter_none. apply Forall_forall. intros b Hbx. by rewrite (Hb b Hbx).
    - intros E b Hb. destruct (cb_checked b) eqn:Hc; [|done].
      exfalso. apply (not_elem_of_nil b). rewrite <- E. by apply list_elem_of_filter. }
  assert ((forall b, b ∈ boxes -> cb_checked b = true) <-> ~ (length on < length boxes)%nat) as Hall.
  { unfold on. split.
    - intros Hb. rewrite filter_all by (by apply Forall_forall). lia.
    - intros Hl. apply Forall_forall. eapply filter_length_all. apply not_lt. exact Hl. }
  unfold group_passes. rewrite Hsize, Hnone.
  destruct (Nat.ltb_spec 0 (length on)) as [Hpos|Hz]; [|split; [intros _; left; lia|done]].
  destruct value as [[|c v]|]; cbn [or_else truthy truthy_option truthy_jstr andb negb].
  - rewrite Hall. destruct (Nat.ltb_spec (length on) (length boxes)); cbn; intuition lia.
  - change (truthy (Some (c :: v))) with true. cbv iota.
    case_bool_decide as Hv; cbn; rewrite Hin in Hv; split; try done.
    + intros _. right. destruct Hv as (b & ? & <- & ?). eauto.
    + intros [?|(b & ? & [= Hbv] & ?)]; [lia|]. destruct Hv. eauto.
  - rewrite Hall. destruct (Nat.ltb_spec (length on) (length boxes)); cbn; intuition lia.
Qed.
End boxes.


(** ** Witnesses *)

Definition filter_dir : directory :=
  {[ 5 := put_str role (js "ROUTER") (put_str hw_model (js "TBEAM")
            (put_flt latitude (num_of_Z 50) (put_flt longitude (num_of_Z 8) empty_entry)));
     6 := put_flt longitude (num_of_Z 3) (put_flt latitude (num_of_Z 3) empty_entry) ]}.

Definition trace_btn (n : Z) : btn := Btn (dec n) false false [] [].

Definition filter_page : world :=
  on_w_map (fun _ => MapView true {[ 5 := Marker (num_of_Z 50, num_of_Z 8) [] [] (trace_btn 5) true false;
                                     6 := Marker (num_of_Z 3, num_of_Z 3) [] [] (trace_btn 6) false true ]} None)
    (on_w_filters (on_f_roles (fun _ => Some {[ js "ROUTER" ]}))
       (initial_page (Some filter_dir) [] 1000)).

Lemma applyMapFilters_spec_witness :
  let P := Reference.platform in let w := filter_page in let w' := snd (applyMapFilters w) in
  (forall n e m, filter_dir !! n = Some e -> has_pos e = true -> v_markers (w_map w) !! n = Some m ->
     exists m', v_markers (w_map w') !! n = Some m' /\ mk_latlng m' = mk_latlng m /\
       mk_popup m' = mk_popup m /\ mk_shown m' = page_passes w n e) /\
  (forall n, (forall e, filter_dir !! n = Some e -> has_pos e = false) ->
     closed <$> v_markers (w_map w') !! n = closed <$> v_markers (w_map w) !! n) /\
  el_content (w_dom w' "mf-node-count")
  = html_escape (count_text
      (length (filter (fun p => page_passes w p.1 p.2 = true) (positioned filter_dir)))
      (length (positioned filter_dir))).
Proof. exact (@applyMapFilters_spec Reference.platform filter_page filter_dir eq_refl eq_refl). Defined.


#[export] Instance box_value_dec prefix v : Decision (@box_value Reference.platform prefix v).
Proof. unfold box_value. apply _. Defined.

Lemma filter_boxes_mirror_witness :
  let P := Reference.platform in
  let f := w_filters filter_page in
  let f' := w_filters (snd (rebuildFilterOptions filter_page)) in
  f_role_boxes f' = boxes_for (f_roles f) (f_role_boxes f) (field_values role filter_dir) /\
  f_hw_boxes f' = boxes_for (f_hw f) (f_hw_boxes f) (field_values hw_model filter_dir) /\
  f_roles f' = f_roles f /\ f_hw f' = f_hw f.
Proof.
  apply (@filter_boxes_mirror Reference.platform filter_page filter_dir eq_refl); by_decide.
Defined.

Lemma group_selection_witness :
  let boxes := [Checkbox (js "CLIENT") true; Checkbox (js "ROUTER") false] in
  group_passes (Some (checked_values boxes)) (length boxes) (Some (js "CLIENT")) = true <->
  (forall b, b ∈ boxes -> cb_checked b = false) \/
  (if truthy (Some (js "CLIENT"))
   then exists b, b ∈ boxes /\ Some (cb_value b) = Some (js "CLIENT") /\ cb_checked b = true
   else forall b, b ∈ boxes -> cb_checked b = true).
Proof. apply group_selection. by_decide. Defined.
