(* ===== verification/Popup.v ===== *)
(** * app.js: the icon and the popup of a map marker

    The HTML of a node's popup, section by section. The trace button of a popup
    or of a table row is the same function of the state of the traceroute
    machine, so both places agree. *)

From S2P Require Import Prelude JsString JsNumber Platform Html Markup NodeDir Mesh World.
From S2P Require Import TraceHistory Route Trace.

Section popup.
Context `{Platform}.

(** [createNodeIcon(shortName).options.html] *)
Definition createNodeIcon (shortName : option jstr) : jstr :=
  html "<div class=`node-marker-dot`></div>"
  +++ (if truthy shortName
       then html "<div class=`node-marker-label`>" +++ esc (default [] shortName) +++ js "</div>"
       else []).

Definition npRow (label value : jstr) : jstr :=
  html "<div class=`np-row`><span class=`np-label`>" +++ label
  +++ html "</span><span class=`np-value`>" +++ value +++ js "</span></div>".

Definition formatUptime (secs : Z) : jstr :=
  if negb (truthy secs) then [] else
  let d := secs / 86400 in
  let h := secs mod 86400 / 3600 in
  let m := secs mod 3600 / 60 in
  if 0 <? d then dec d +++ js "d " +++ dec h +++ js "h"
  else if 0 <? h then dec h +++ js "h " +++ dec m +++ js "m"
  else dec m +++ js "m".

(** [if (o) h += npRow(label, f(o))] *)
Definition row_if {A} `{Truthy A} (o : option A) (label : jstr) (f : A -> jstr) : jstr :=
  match o with
  | Some v => if truthy v then npRow label (f v) else []
  | None => []
  end.

(** [if (b) h += s] *)
Definition text_if (b : bool) (s : jstr) : jstr := if b then s else [].

(** [o.toFixed(f)], where [o] may be [undefined]. *)
Definition toFixed_of (o : option num) (f : nat) : result jstr :=
  match o with
  | Some x => Ok (fixed x f)
  | None => Throw (TypeError "cannot read properties of undefined (reading 'toFixed')")
  end.

Definition np_section (title body : jstr) : jstr :=
  html "<div class=`np-section`><div class=`np-section-title`>" +++ title +++ js "</div>"
  +++ body +++ js "</div>".

Definition popup_header (n : Z) (e : entry) : jstr :=
  let hex := js "!" +++ padStart 8 48%N (hex n) in
  html "<div class=`np-header`>"
  +++ text_if (truthy (e_str e !! short_name))
        (html "<span class=`np-name`>" +++ esc (default [] (e_str e !! short_name)) +++ js "</span>")
  +++ html "<span class=`np-hex`>" +++ esc hex +++ js "</span>"
  +++ text_if (truthy (e_bool e !! is_licensed)) (html " <span class=`np-badge np-badge-ham`>HAM</span>")
  +++ text_if (truthy (e_bool e !! via_mqtt)) (html " <span class=`np-badge np-badge-mqtt`>MQTT</span>")
  +++ text_if (truthy (e_bool e !! is_favorite)) (html " <span class=`np-badge np-badge-fav`>FAV</span>")
  +++ js "</div>"
  +++ text_if (truthy (e_str e !! long_name))
        (html "<div style=`font-size:12px;color:#9ca3af;margin-bottom:2px;`>"
         +++ esc (default [] (e_str e !! long_name)) +++ js "</div>").

(** The values of this section are inserted as they are, without [esc]. *)
Definition popup_identity (e : entry) : jstr :=
  text_if (truthy (e_str e !! hw_model) || truthy (e_str e !! role) || truthy (e_str e !! user_id))
    (np_section (js "Identity")
      (row_if (e_str e !! user_id) (js "ID") (fun s => s)
       +++ row_if (e_str e !! hw_model) (js "Hardware") formatHwModel
       +++ row_if (e_str e !! role) (js "Role") formatRole)).

Definition popup_radio (now : Z) (e : entry) : jstr :=
  text_if (truthy (e_flt e !! snr) || truthy (e_int e !! rx_rssi) || truthy (e_flt e !! rx_snr)
           || truthy (e_int e !! last_heard) || truthy (e_int e !! hops_away)
           || truthy (e_int e !! channel))
    (np_section (js "Radio")
      (row_if (e_int e !! rx_rssi) (js "RSSI") (fun v => dec v +++ js " dBm")
       +++ row_if (e_flt e !! rx_snr) (js "SNR (live)") (fun v => fixed v 1 +++ js " dB")
       +++ text_if (negb (truthy (e_flt e !! rx_snr)))
             (row_if (e_flt e !! snr) (js "SNR") (fun v => fixed v 1 +++ js " dB"))
       +++ text_if (0 <? default 0 (e_int e !! hops_away))
             (npRow (js "Hops") (dec (default 0 (e_int e !! hops_away))))
       +++ row_if (e_int e !! channel) (js "Channel") dec
       +++ row_if (e_int e !! last_heard) (js "Last heard") (formatUnixAge now))).

Definition popup_position (now : Z) (e : entry) : result jstr :=
  if has_pos e then
    lat <-? toFixed_of (e_flt e !! latitude) 6 ;;
    lon <-? toFixed_of (e_flt e !! longitude) 6 ;;
    Ok (np_section (js "Position")
      (npRow (js "Coords") (lat +++ js ", " +++ lon)
       +++ row_if (e_int e !! altitude) (js "Altitude") (fun v => dec v +++ js " m")
       +++ row_if (e_int e !! ground_speed) (js "Speed") (fun v => dec v +++ js " m/s")
       +++ row_if (e_int e !! ground_track) (js "Heading") (fun v => dec v +++ js "&deg;")
       +++ row_if (e_int e !! sats_in_view) (js "Satellites") dec
       +++ row_if (e_int e !! position_time) (js "Fix age") (formatUnixAge now)))
  else Ok [].

(** Green above 50 %, amber above 20 %, red below. *)
Definition battery_color (pct : Z) : jstr :=
  if 50 <? pct then js "#34d399" else if 20 <? pct then js "#fbbf24" else js "#f87171".

Definition battery_row (level : Z) : jstr :=
  let pct := Z.min level 100 in
  html "<div class=`np-row`><span class=`np-label`>Battery</span>"
  +++ html "<span class=`np-value`><span class=`np-bar`><span class=`np-bar-fill` style=`width:"
  +++ dec pct +++ js "%;background:" +++ battery_color pct +++ html "`></span></span>"
  +++ dec pct +++ js "%</span></div>".

Definition popup_device (e : entry) : jstr :=
  text_if (truthy (e_int e !! battery_level) || truthy (e_flt e !! voltage)
           || truthy (e_int e !! uptime_seconds) || truthy (e_flt e !! channel_utilization)
           || truthy (e_flt e !! air_util_tx))
    (np_section (js "Device")
      (text_if (truthy (e_int e !! battery_level)) (battery_row (default 0 (e_int e !! battery_level)))
       +++ row_if (e_flt e !! voltage) (js "Voltage") (fun v => fixed v 2 +++ js " V")
       +++ row_if (e_int e !! uptime_seconds) (js "Uptime") formatUptime
       +++ row_if (e_flt e !! channel_utilization) (js "Ch. util") (fun v => fixed v 1 +++ js "%")
       +++ row_if (e_flt e !! air_util_tx) (js "Air TX") (fun v => fixed v 1 +++ js "%"))).

Definition popup_environment (e : entry) : jstr :=
  text_if (truthy (e_flt e !! temperature) || truthy (e_flt e !! relative_humidity)
           || truthy (e_flt e !! barometric_pressure))
    (np_section (js "Environment")
      (row_if (e_flt e !! temperature) (js "Temp") (fun v => fixed v 1 +++ js " &deg;C")
       +++ row_if (e_flt e !! relative_humidity) (js "Humidity") (fun v => fixed v 1 +++ js "%")
       +++ row_if (e_flt e !! barometric_pressure) (js "Pressure") (fun v => fixed v 1 +++ js " hPa"))).

(** ** The trace button *)

Definition popup_trace_label (t : trace) (num : option Z) : jstr :=
  let tracing := is_some (t_pending t) in
  let cooling := is_some (t_cooldown t) in
  if cooling_on t num then
    dec (match t_cooldown t with Some c => cd_remaining c | None => 0 end) +++ js "s"
  else if pending_on t num then SVG_TRACE +++ html "Tracing…<span class=`spinner`></span>"
  else if tracing || cooling then SVG_TRACE +++ js "Trace busy"
  else SVG_TRACE +++ js "Trace Route".

Definition popup_button (t : trace) (n : Z) : jstr :=
  html "<div class=`np-section` style=`text-align:center;`>"
  +++ html "<button class=`np-trace-btn` data-trace-target=`" +++ dec n +++ html "`"
  +++ text_if (isTraceActive t) (js " disabled")
  +++ html " onclick=`startTraceroute(" +++ dec n +++ html ")`>"
  +++ popup_trace_label t (parseInt (dec n))
  +++ js "</button>" +++ js "</div>".

(** The button the browser makes of that markup. *)
Definition popup_btn (t : trace) (n : Z) : btn :=
  Btn (dec n) false (isTraceActive t) [] (popup_trace_label t (parseInt (dec n))).

Definition nodePopupHTML (t : trace) (now : Z) (n : Z) (e : entry) : result jstr :=
  position <-? popup_position now e ;;
  Ok (html "<div class=`np`>"
      +++ popup_header n e
      +++ popup_identity e
      +++ popup_radio now e
      +++ position
      +++ popup_device e
      +++ popup_environment e
      +++ popup_button t n
      +++ js "</div>").

(** ** Lemmas *)

(** Both coordinates are known as soon as one of them is not zero. *)
Definition coords_ok (e : entry) : Prop :=
  has_pos e = true ->
  exists a b, e_flt e !! latitude = Some a /\ e_flt e !! longitude = Some b /\
    num_is_nan a = false /\ num_is_nan b = false.

Lemma nodePopupHTML_ok t now n e :
  coords_ok e -> exists h, nodePopupHTML t now n e = Ok h.
Proof.
  intros Hc. unfold nodePopupHTML, popup_position.
  destruct (has_pos e) eqn:Hp; [|by eexists].
  destruct (Hc Hp) as (a & b & -> & -> & _). by eexists.
Qed.

Lemma entry_latLng_ok e :
  coords_ok e -> has_pos e = true -> exists p, entry_latLng e = Ok p.
Proof.
  intros Hc Hp. destruct (Hc Hp) as (a & b & E1 & E2 & Ha & Hb).
  unfold entry_latLng, latLng. rewrite E1, E2, Ha, Hb. by eexists.
Qed.

End popup.

(** C34. The uptime is shown in its two largest units: reading the printed
    numbers back as days and hours, or hours and minutes, loses less than one of
    the smaller unit, and each number is in the range of its unit. *)
Theorem formatUptime_spec secs :
  0 < secs ->
  exists d h m s, secs = 86400 * d + 3600 * h + 60 * m + s /\
    0 <= d /\ 0 <= h < 24 /\ 0 <= m < 60 /\ 0 <= s < 60 /\
    formatUptime secs =
    (if 0 <? d then dec d +++ js "d " +++ dec h +++ js "h"
     else if 0 <? h then dec h +++ js "h " +++ dec m +++ js "m"
     else dec m +++ js "m").
Proof.
  intros Hs. unfold formatUptime. rewrite truthy_Z_true by lia. cbn [negb].
  exists (secs / 86400), (secs mod 86400 / 3600), (secs mod 3600 / 60), (secs mod 60).
  split; [|split_and!; [..|done]]; Z.div_mod_to_equations; lia.
Qed.

Lemma formatUptime_spec_witness :
  exists d h m s, 90061 = 86400 * d + 3600 * h + 60 * m + s /\
    0 <= d /\ 0 <= h < 24 /\ 0 <= m < 60 /\ 0 <= s < 60 /\
    formatUptime 90061 =
    (if 0 <? d then dec d +++ js "d " +++ dec h +++ js "h"
     else if 0 <? h then dec h +++ js "h " +++ dec m +++ js "m"
     else dec m +++ js "m").
Proof. apply (formatUptime_spec 90061). lia. Defined.

(** ** What user-controlled text can do to the popup *)

(** A tag that runs nothing: a block or a span with a class or a style. *)
Definition inert_tag (t : tag) : bool :=
  bool_decide (tag_name t ∈ [js "div"; js "span"])
  && forallb (fun a => bool_decide (a.1 ∈ [js "class"; js "style"])) (tag_attrs t).

(** C35. The names of a node cannot change the structure of its popup's header:
    whatever they contain, the header parses to blocks and spans that carry only
    classes and styles. *)
Theorem popup_header_inert n e : all_ok inert_tag (html_tags (popup_header n e)).
Proof. apply safe_html. unfold popup_header, text_if. rewrite !esc_html_escape. safe_solve. Qed.

(** C39. The identity section inserts the user id as it is: a node whose user id is
    an image tag with an error handler puts that tag into the popup. *)
Theorem popup_user_id_injection :
  exists (e : entry) (h : jstr) (t : tag),
    @nodePopupHTML Reference.platform (Trace None None) 0 7 e = Ok h /\
    t ∈ html_tags h /\ tag_name t = js "img" /\ js "onerror" ∈ (tag_attrs t).*1.
Proof.
  exists (put_str user_id (html "<img src=x onerror=alert(1)>") empty_entry).
  eexists _, (Tag false (js "img") [(js "src", js "x"); (js "onerror", js "alert(1)")]).
  split; [reflexivity|]. split; [by_decide|]. split; by_decide.
Qed.
