(* ===== verification/MapView.v ===== *)
(** * app.js: the map and the updates of single nodes

    The markers of the map, and the five handlers through which the server's
    events reach the directory, the markers, the filters and the heatmap. The
    handlers end by emitting an event on the bus of [Mesh]; they are verified
    against the interface [Bus], which says what a subscriber may change. *)

From S2P Require Import Prelude JsString JsNumber Platform Html Markup NodeDir Mesh World.
From S2P Require Import TraceHistory Route Trace Heatmap Filters Popup.

(** ** The bus as the map sees it *)

(** What a subscriber leaves alone. *)
Definition outside_nodes (w : world) :=
  (w_now w, w_nodeDir w, w_map w, w_filters w, w_heat w, w_trace w, w_history w, w_chat w,
   w_timers w, w_fetches w, w_next w, w_log w, (w_charts w, w_sse w, w_messages w)).

Class Bus := {
  page_bus : bus world (option info_update);
  bus_frame ev fn d : fn ∈ default [] (page_bus !! ev) -> preserves (fn d) outside_nodes;
}.

Definition emit `{Bus} (ev : jstr) (d : option info_update) : Page unit := bus_emit page_bus ev d.

Lemma emit_frame `{Bus} ev d : preserves (emit ev d) outside_nodes.
Proof.
  unfold emit, bus_emit. pose proof (fun fn => bus_frame ev fn d) as Hb.
  induction (default [] (page_bus !! ev)) as [|fn l IH]; [by intros w|]. cbn.
  apply preserves_bind; [apply preserves_dispatch, Hb; left|]. intros _.
  apply IH. intros fn' Hin. apply Hb. by right.
Qed.

Lemma emit_total `{Bus} ev d : total (emit ev d).
Proof. unfold emit, bus_emit. apply total_for_each. by intros fn w. Qed.

(** ** Operations *)

Section mapview.
Context `{Platform} `{Bus}.

Definition on_markers (f : gmap Z marker -> gmap Z marker) : Page unit :=
  modify (on_w_map (on_v_markers f)).

Definition marker_at (p : num * num) (m : marker) : marker :=
  Marker p (mk_icon m) (mk_popup m) (mk_btn m) (mk_shown m) (mk_open m).
Definition marker_icon (icon : jstr) (m : marker) : marker :=
  Marker (mk_latlng m) icon (mk_popup m) (mk_btn m) (mk_shown m) (mk_open m).
Definition marker_popup (h : jstr) (b : btn) (m : marker) : marker :=
  Marker (mk_latlng m) (mk_icon m) h b (mk_shown m) (mk_open m).

(** [mapMarkers[n].setPopupContent(nodePopupHTML(n, entry))]; a popup that is open
    is rendered again. *)
Definition set_popup (n : Z) (e : entry) : Page unit :=
  w <-- gets (fun w => w) ;;
  h <-- lift (nodePopupHTML (w_trace w) (now_s w) n e) ;;
  on_markers (alter (marker_popup h (popup_btn (w_trace w) n)) n) ;;;
  match v_markers (w_map w) !! n with
  | Some m => when (mk_open m) (modify (on_w_btns (show_popup_btn (popup_btn (w_trace w) n))))
  | None => mret' tt
  end.

(** Add or update the marker of a node; [p] is where to put it. *)
Definition put_marker (n : Z) (e : entry) (p : result (num * num)) : Page unit :=
  w <-- gets (fun w => w) ;;
  match v_markers (w_map w) !! n with
  | Some _ =>
      p <-- lift p ;;
      on_markers (alter (marker_at p) n) ;;;
      on_markers (alter (marker_icon (createNodeIcon (e_str e !! short_name))) n) ;;;
      set_popup n e
  | None =>
      p <-- lift p ;;
      h <-- lift (nodePopupHTML (w_trace w) (now_s w) n e) ;;
      on_markers (<[n := Marker p (createNodeIcon (e_str e !! short_name)) h (popup_btn (w_trace w) n) true false]>)
  end.

(** One iteration of the first loop of [updateMapMarkers]. *)
Definition marker_step (p : Z * entry) : Page unit :=
  let '(n, e) := p in
  if negb (has_pos e) then mret' tt else put_marker n e (entry_latLng e).

(** The second loop: markers whose node is gone or has no position. *)
Definition keeps_marker (dir : directory) (p : Z * marker) : Prop :=
  has_pos (default empty_entry (dir !! p.1)) = true.
#[local] Instance keeps_marker_dec dir p : Decision (keeps_marker dir p).
Proof. unfold keeps_marker. apply _. Defined.

Definition remove_stale (dir : directory) : Page unit :=
  ms <-- gets (fun w => v_markers (w_map w)) ;; put_markers (filter (keeps_marker dir) ms).

Definition updateMapMarkers : Page unit :=
  mapInstance <-- gets (fun w => v_instance (w_map w)) ;;
  nodeDir <-- gets w_nodeDir ;;
  match mapInstance, nodeDir with
  | true, Some dir =>
      for_each (dir_entries dir) marker_step ;;;
      remove_stale dir ;;;
      (match positioned dir with
       | [] => class_remove "map-no-nodes" (js "hidden")
       | nodesWithPos =>
           points <-- lift (latLngs ((fun p => (e_flt p.2 !! latitude, e_flt p.2 !! longitude)) <$> nodesWithPos)) ;;
           emit_effect (FitBounds points 14) ;;;
           class_add "map-no-nodes" (js "hidden")
       end) ;;;
      rebuildFilterOptions ;;;
      applyMapFilters ;;;
      updateHeatmap ;;;
      emit (js "nodesChanged") None
  | _, _ => mret' tt
  end.

(** [window.initMap]; [mapInitialized] is [v_instance]. *)
Definition initMap : Page unit :=
  mapInitialized <-- gets (fun w => v_instance (w_map w)) ;;
  if mapInitialized then mret' tt else
  modify (on_w_map (on_v_instance (fun _ => true))) ;;;
  updateMapMarkers.

(** [nodeDir[numStr]] after a handler has set it. *)
Definition set_dir (dir : directory) : Page unit := modify (on_w_nodeDir (fun _ => Some dir)).

Definition updateMapNode (pos : pos_update) : Page unit :=
  nodeDir <-- gets w_nodeDir ;;
  match nodeDir with
  | None => mret' tt
  | Some dir =>
      now <-- gets now_s ;;
      let n := pu_node_num pos in
      let dir := dir_position pos now dir in
      set_dir dir ;;;
      mapInstance <-- gets (fun w => v_instance (w_map w)) ;;
      if negb mapInstance then mret' tt else
      known <-- gets (fun w => is_some (v_markers (w_map w) !! n)) ;;
      put_marker n (default empty_entry (dir !! n)) (latLng (Some (pu_latitude pos)) (Some (pu_longitude pos))) ;;;
      when (negb known) (class_add "map-no-nodes" (js "hidden")) ;;;
      applyMapFilters ;;;
      updateHeatmap ;;;
      emit (js "nodesChanged") None
  end.

(** Refresh the popup of a node if it is open. *)
Definition refresh_open_popup (n : Z) (e : entry) : Page unit :=
  w <-- gets (fun w => w) ;;
  match v_instance (w_map w), v_markers (w_map w) !! n with
  | true, Some m => when (mk_open m) (set_popup n e)
  | _, _ => mret' tt
  end.

Definition updateNodeTelemetry (tel : tel_update) : Page unit :=
  nodeDir <-- gets w_nodeDir ;;
  match nodeDir with
  | None => mret' tt
  | Some dir =>
      now <-- gets now_s ;;
      let n := tu_node_num tel in
      let dir := dir_telemetry tel now dir in
      set_dir dir ;;;
      refresh_open_popup n (default empty_entry (dir !! n)) ;;;
      applyMapFilters ;;;
      emit (js "nodesChanged") None
  end.

Definition updateNodeSignal (sig : sig_update) : Page unit :=
  nodeDir <-- gets w_nodeDir ;;
  match nodeDir with
  | None => mret' tt
  | Some dir =>
      now <-- gets now_s ;;
      let n := su_node_num sig in
      let dir := dir_signal sig now dir in
      set_dir dir ;;;
      refresh_open_popup n (default empty_entry (dir !! n)) ;;;
      updateHeatmap ;;;
      emit (js "nodesChanged") None
  end.

Definition updateNodeInfo (info : info_update) : Page unit :=
  nodeDir <-- gets w_nodeDir ;;
  now <-- gets now_s ;;
  let n := iu_node_num info in
  let dir := dir_info info now (default ∅ nodeDir) in
  set_dir dir ;;;
  let e := default empty_entry (dir !! n) in
  w <-- gets (fun w => w) ;;
  (match v_instance (w_map w), v_markers (w_map w) !! n with
   | true, Some m =>
       on_markers (alter (marker_icon (createNodeIcon (e_str e !! short_name))) n) ;;;
       when (mk_open m) (set_popup n e)
   | _, _ => mret' tt
   end) ;;;
  emit (js "nodeInfoChanged") (Some info).

(** The [node_directory] listener. *)
Definition on_node_directory (dir : option directory) : Page unit :=
  modify (on_w_nodeDir (fun _ => dir)) ;;; updateMapMarkers.

(** The [node_favorite] listener, without the table, which [NodesTable] renders. *)
Definition on_node_favorite (renderNodesTable : Page unit) (n : Z) (fav : bool) : Page unit :=
  nodeDir <-- gets w_nodeDir ;;
  match nodeDir with
  | Some dir =>
      if truthy n && is_some (dir !! n) then
        set_dir (dir_favorite n fav dir) ;;;
        renderNodesTable ;;;
        updateMapMarkers
      else mret' tt
  | None => mret' tt
  end.

(** ** Lemmas: one marker *)

(** The position and the popup of a node whose coordinates are known. *)
Definition coords (e : entry) : num * num :=
  (default (S754_zero false : num) (e_flt e !! latitude), default (S754_zero false : num) (e_flt e !! longitude)).
Definition popup_of (t : trace) (now n : Z) (e : entry) : jstr :=
  match nodePopupHTML t now n e with Ok h => h | Throw _ => [] end.

(** The marker of a node that had the marker [om] before, placed at [p]. *)
Definition fresh_marker (t : trace) (now n : Z) (e : entry) (p : num * num) (om : option marker) : marker :=
  Marker p (createNodeIcon (e_str e !! short_name)) (popup_of t now n e) (popup_btn t n)
    (match om with Some m => mk_shown m | None => true end)
    (match om with Some m => mk_open m | None => false end).

(** The page without the markers and the trace buttons. *)
Definition beside_markers (w : world) :=
  (w_now w, w_dom w, w_nodeDir w, w_filters w, w_heat w, w_trace w, w_history w, w_chat w,
   (w_timers w, w_fetches w, w_next w, w_log w), v_instance (w_map w)).

Lemma popup_of_ok t now n e :
  coords_ok e -> nodePopupHTML t now n e = Ok (popup_of t now n e).
Proof. intros Hc. unfold popup_of. by destruct (nodePopupHTML_ok t now n e Hc) as [h ->]. Qed.

Lemma coords_latLng e : coords_ok e -> has_pos e = true -> entry_latLng e = Ok (coords e).
Proof.
  intros Hc Hp. unfold coords. destruct (Hc Hp) as (a & b & E1 & E2 & Ha & Hb).
  unfold entry_latLng, latLng. by rewrite E1, E2, Ha, Hb.
Qed.

Lemma alter_known (f : marker -> marker) n (ms : gmap Z marker) m :
  ms !! n = Some m -> alter f n ms = <[n := f m]> ms.
Proof.
  intros Hm. apply map_eq. intros k. rewrite lookup_alter, lookup_insert.
  case_decide as Hk; [|done]. subst k. by rewrite Hm.
Qed.

Lemma set_popup_run n e w m :
  coords_ok e -> v_markers (w_map w) !! n = Some m ->
  exists w', set_popup n e w = (Ok tt, w') /\ beside_markers w' = beside_markers w /\
    v_markers (w_map w')
    = <[n := marker_popup (popup_of (w_trace w) (now_s w) n e) (popup_btn (w_trace w) n) m]>
        (v_markers (w_map w)).
Proof.
  intros Hc Hm. unfold set_popup, mbind', gets, lift, on_markers, modify, when.
  rewrite (popup_of_ok _ _ _ _ Hc), Hm. rewrite <- (alter_known _ _ _ _ Hm).
  destruct (mk_open m); eexists; (split; [reflexivity|]); done.
Qed.

Lemma put_marker_run n e p w :
  coords_ok e ->
  exists w', put_marker n e (Ok p) w = (Ok tt, w') /\ beside_markers w' = beside_markers w /\
    v_markers (w_map w')
    = <[n := fresh_marker (w_trace w) (now_s w) n e p (v_markers (w_map w) !! n)]> (v_markers (w_map w)).
Proof.
  intros Hc. unfold put_marker, mbind' at 1, gets.
  destruct (v_markers (w_map w) !! n) as [m|] eqn:Hm.
  - unfold mbind', lift, on_markers, modify.
    match goal with |- context [set_popup n e ?x] =>
      destruct (set_popup_run n e x (marker_icon (createNodeIcon (e_str e !! short_name)) (marker_at p m)))
        as (w' & -> & Hb & Hv); [done| |] end.
    + cbn. rewrite (alter_known _ _ _ _ Hm), lookup_alter_eq, lookup_insert_eq. done.
    + exists w'. split; [done|]. split; [exact Hb|]. rewrite Hv. cbn.
      rewrite (alter_known _ _ _ _ Hm), (alter_known _ n _ (marker_at p m)) by apply lookup_insert_eq.
      by rewrite !insert_insert_eq.
  - unfold mbind', lift, on_markers, modify. rewrite (popup_of_ok _ _ _ _ Hc).
    eexists. split; [reflexivity|]. done.
Qed.
(** ** Lemmas: the loop over the directory *)

Definition entries_ok (l : list (Z * entry)) : Prop := Forall (fun p => coords_ok p.2) l.
Definition dir_ok (dir : directory) : Prop := map_Forall (fun _ => coords_ok) dir.

Lemma dir_entries_ok dir : dir_ok dir -> entries_ok (dir_entries dir).
Proof.
  intros Hd. apply Forall_forall. intros [n e] Hin%elem_of_dir_entries. by apply (Hd n).
Qed.

(** What the loop does to the marker of a node. *)
Definition looped (t : trace) (now n : Z) (oe : option entry) (om : option marker) : option marker :=
  match oe with
  | Some e => if has_pos e then Some (fresh_marker t now n e (coords e) om) else om
  | None => om
  end.

Lemma marker_loop l w :
  NoDup l.*1 -> entries_ok l ->
  exists w', for_each l marker_step w = (Ok tt, w') /\ beside_markers w' = beside_markers w /\
    forall k, v_markers (w_map w') !! k
      = looped (w_trace w) (now_s w) k ((list_to_map l : directory) !! k) (v_markers (w_map w) !! k).
Proof.
  revert w; induction l as [|[n e] l IH]; intros w; [by exists w|].
  cbn [fmap list_fmap fst]. intros [Hn Hd]%NoDup_cons [He Hl]%Forall_cons.
  cbn [for_each]. unfold mbind' at 1.
  assert (exists w1, marker_step (n, e) w = (Ok tt, w1) /\ beside_markers w1 = beside_markers w /\
    forall k, v_markers (w_map w1) !! k =
      if decide (n = k) then looped (w_trace w) (now_s w) n (Some e) (v_markers (w_map w) !! n)
      else v_markers (w_map w) !! k) as (w1 & -> & Hb1 & Hm1).
  { cbn [marker_step looped]. destruct (has_pos e) eqn:Hp; cbn [negb].
    - rewrite coords_latLng by done. destruct (put_marker_run n e (coords e) w He) as (w1 & -> & Hb & Hv).
      exists w1. split; [done|]. split; [done|]. intros k. rewrite Hv, lookup_insert. done.
    - exists w. split; [done|]. split; [done|]. intros k. case_decide; [by subst k|done]. }
  destruct (IH w1 Hd Hl) as (w2 & -> & Hb2 & Hm2).
  exists w2. split; [done|]. split; [by rewrite Hb2|]. intros k. rewrite Hm2, Hm1.
  assert (w_trace w1 = w_trace w /\ now_s w1 = now_s w) as [-> ->].
  { unfold beside_markers, now_s in *. split; congruence. }
  cbn. rewrite lookup_insert. case_decide as Hk; [|done]. subst k.
  by rewrite (proj1 (not_elem_of_list_to_map _ _) Hn).
Qed.

Lemma sweep_single passes l s n :
  sw_single (foldl (sweep_step passes) s l) = Some n ->
  sw_single s = Some n \/ exists e, (n, e) ∈ l /\ has_pos e = true.
Proof.
  revert s; induction l as [|[k e] l IH]; intros s; [by left|]. cbn [foldl].
  intros [Hs|(e' & Hin & Hp)]%IH; [|right; exists e'; split; [by right|done]].
  unfold sweep_step in Hs. destruct (has_pos e) eqn:Hp; cbn in Hs; [|by left].
  destruct (passes k e); cbn in Hs; [|by left].
  injection Hs as <-. right. exists e. split; [left|done].
Qed.

(** Applying the filters does not throw when the coordinates are known. *)
Lemma applyMapFilters_ok w :
  (forall dir, w_nodeDir w = Some dir -> dir_ok dir) -> fst (applyMapFilters w) = Ok tt.
Proof.
  intros Hd.
  unfold applyMapFilters, openPopup, put_markers, mbind', gets, modify, set_text, set_html, on_elem, lift.
  destruct (v_instance _); [|done]. destruct (w_nodeDir w) as [dir|]; [|done].
  destruct (sw_single _) as [n|] eqn:Hs; [|done].
  apply sweep_single in Hs as [Hs|(e & He%elem_of_dir_entries & Hp)]; [done|].
  rewrite He. cbn. rewrite coords_latLng by (done || by apply (Hd _ eq_refl n)).
  case_if; [|done]. by case_match.
Qed.

(** Nor does the heatmap: its points are positions of nodes. *)
Lemma heat_points_drawable mode l :
  entries_ok l -> drawable (omap (fun p => heat_point_of mode p.2) l) = true.
Proof.
  unfold drawable. intros Hl. induction Hl as [|[n e] l He _ IH]; [done|]. cbn.
  destruct (heat_point_of mode e) as [[p i]|] eqn:Hp; [|exact IH].
  unfold heat_point_of in Hp. destruct (has_pos e) eqn:Hpos; [|done]. cbn in Hp, He.
  destruct (He Hpos) as (a & b & Ea & Eb & Ha & Hb). rewrite Ea, Eb in Hp.
  destruct (heat_intensity mode e); [|done]. injection Hp as <- <-.
  cbn. unfold latLng. rewrite Ha, Hb. cbn. by destruct (latLngs _).
Qed.

Lemma updateHeatmap_safe w :
  (forall dir, w_nodeDir w = Some dir -> dir_ok dir) -> fst (updateHeatmap w) = Ok tt.
Proof.
  intros Hd. apply updateHeatmap_ok. unfold getHeatmapPoints.
  destruct (w_nodeDir w) as [dir|]; [|done]. by apply heat_points_drawable, dir_entries_ok, Hd.
Qed.

Lemma applyMapFilters_frame :
  preserves applyMapFilters (fun w => (w_now w, w_nodeDir w, w_filters w, w_heat w, w_trace w,
    w_history w, w_chat w, (w_timers w, w_fetches w, w_next w), v_instance (w_map w))).
Proof. unfold applyMapFilters, openPopup, put_markers. frame_solve. Qed.

Lemma rebuildFilterOptions_frame :
  preserves rebuildFilterOptions (fun w => (w_now w, w_nodeDir w, w_map w, w_heat w, w_trace w,
    w_history w, w_chat w, (w_timers w, w_fetches w, w_next w, w_log w), w_btns w,
    el_value (w_dom w "mf-search-input"))).
Proof. unfold rebuildFilterOptions, rebuildCheckboxGroup. frame_solve. Qed.

Lemma rebuildFilterOptions_total : total rebuildFilterOptions.
Proof. unfold rebuildFilterOptions, rebuildCheckboxGroup. frame_solve. Qed.

Lemma latLngs_ok l :
  entries_ok l -> Forall (fun p => has_pos p.2 = true) l ->
  latLngs ((fun p : Z * entry => (e_flt p.2 !! latitude, e_flt p.2 !! longitude)) <$> l)
  = Ok ((fun p => coords p.2) <$> l).
Proof.
  intros Hl. induction Hl as [|[n e] l He Hl IH]; [done|]. intros [Hp Hps]%Forall_cons. cbn.
  pose proof (coords_latLng e He Hp) as E. unfold entry_latLng in E. cbn in *. rewrite E. cbn.
  by rewrite IH.
Qed.
(** ** Lemmas: the end of a handler *)

(** What a filter pass, the heatmap and the bus leave alone. *)
Definition beside_filtering (w : world) :=
  (w_now w, w_nodeDir w, w_filters w, w_trace w, w_history w, w_chat w,
   (w_timers w, w_fetches w, w_next w), v_instance (w_map w)).

Lemma apply_then_frame (m : Page unit) :
  (forall w, (forall dir, w_nodeDir w = Some dir -> dir_ok dir) -> fst (m w) = Ok tt) ->
  preserves m (fun w => (beside_filtering w, v_markers (w_map w))) ->
  forall w, (forall dir, w_nodeDir w = Some dir -> dir_ok dir) ->
  let w' := snd ((applyMapFilters ;;; m) w) in
  fst ((applyMapFilters ;;; m) w) = Ok tt /\ beside_filtering w' = beside_filtering w /\
  v_markers (w_map w') = v_markers (w_map (snd (applyMapFilters w))).
Proof.
  intros Ht Hm w Hd. cbv zeta. pose proof (applyMapFilters_ok w Hd) as Hok.
  pose proof (applyMapFilters_frame w) as Hf. unfold mbind'.
  destruct (applyMapFilters w) as [r w1]. cbn in Hok, Hf. subst r.
  assert (w_nodeDir w1 = w_nodeDir w) as Hd1 by congruence.
  pose proof (Hm w1) as E. rewrite (Ht w1) by (by rewrite Hd1).
  split; [done|]. injection E as E2 E3 E4 E5 E6 E7 E8 E9 E10 E11 E12.
  split; [|done]. unfold beside_filtering. injection Hf as F1 F2 F3 F4 F5 F6 F7 F8 F9 F10 F11.
  congruence.
Qed.

Lemma heat_emit_safe ev d w :
  (forall dir, w_nodeDir w = Some dir -> dir_ok dir) -> fst ((updateHeatmap ;;; emit ev d) w) = Ok tt.
Proof.
  intros Hd. unfold mbind'. pose proof (updateHeatmap_safe w Hd) as E. destruct (updateHeatmap w) as [r w1].
  cbn in E. subst r. by destruct (total_run (emit ev d) w1 (emit_total ev d)) as [[] ->].
Qed.

Lemma heat_emit_frame ev d :
  preserves (updateHeatmap ;;; emit ev d) (fun w => (beside_filtering w, v_markers (w_map w))).
Proof.
  apply preserves_bind; [|intros _]; intros w.
  - pose proof (updateHeatmap_frame w) as E. unfold outside_heat, beside_filtering in *. congruence.
  - pose proof (emit_frame ev d w) as E. unfold outside_nodes, beside_filtering in *. congruence.
Qed.

Lemma emit_only_frame ev d :
  preserves (emit ev d) (fun w => (beside_filtering w, v_markers (w_map w))).
Proof.
  intros w. pose proof (emit_frame ev d w) as E. unfold outside_nodes, beside_filtering in *. congruence.
Qed.

(** ** The whole refresh *)

(** [no_nodes] is the element shown when no node has a position. *)
Definition mark_no_nodes (dir : directory) : Page unit :=
  match positioned dir with
  | [] => class_remove "map-no-nodes" (js "hidden")
  | nodesWithPos =>
      points <-- lift (latLngs ((fun p => (e_flt p.2 !! latitude, e_flt p.2 !! longitude)) <$> nodesWithPos)) ;;
      emit_effect (FitBounds points 14) ;;;
      class_add "map-no-nodes" (js "hidden")
  end.

Lemma positioned_ok dir :
  dir_ok dir -> entries_ok (positioned dir) /\ Forall (fun p => has_pos p.2 = true) (positioned dir).
Proof.
  intros Hd. apply dir_entries_ok in Hd. unfold positioned. split; apply Forall_forall.
  - intros p [_ Hp]%list_elem_of_filter. unfold entries_ok in Hd. rewrite Forall_forall in Hd. auto.
  - by intros p [Hp _]%list_elem_of_filter.
Qed.

Lemma mark_no_nodes_run dir w :
  dir_ok dir ->
  exists w', mark_no_nodes dir w = (Ok tt, w') /\
    (beside_filtering w', w_map w', el_value (w_dom w' "mf-search-input"))
    = (beside_filtering w, w_map w, el_value (w_dom w "mf-search-input")).
Proof.
  intros Hd%positioned_ok. destruct Hd as [He Hp]. unfold mark_no_nodes.
  destruct (positioned dir) as [|p l] eqn:E; [eexists; split; [reflexivity|done]|]. rewrite <- E in *.
  rewrite (latLngs_ok _ He Hp). eexists; split; [reflexivity|done].
Qed.

Lemma filter_keeps_lookup dir (ms : gmap Z marker) k :
  filter (keeps_marker dir) ms !! k
  = if has_pos (default empty_entry (dir !! k)) then ms !! k else None.
Proof.
  rewrite map_lookup_filter. destruct (ms !! k) as [m|]; cbn; [|by case_if].
  destruct (has_pos (default empty_entry (dir !! k))) eqn:Hp.
  - by rewrite option_guard_True by exact Hp.
  - rewrite option_guard_False; [done|]. unfold keeps_marker. cbn. congruence.
Qed.

Lemma updateMapMarkers_run w dir :
  v_instance (w_map w) = true -> w_nodeDir w = Some dir -> dir_ok dir ->
  exists w1 w2, updateMapMarkers w = (applyMapFilters ;;; updateHeatmap ;;; emit (js "nodesChanged") None) w2 /\
    w2 = snd (rebuildFilterOptions w1) /\
    beside_filtering w1 = beside_filtering w /\
    el_value (w_dom w1 "mf-search-input") = el_value (w_dom w "mf-search-input") /\
    forall k, v_markers (w_map w1) !! k
      = if has_pos (default empty_entry (dir !! k))
        then looped (w_trace w) (now_s w) k (dir !! k) (v_markers (w_map w) !! k) else None.
Proof.
  intros Hi Hd Hok.
  destruct (marker_loop (dir_entries dir) w (dir_entries_NoDup dir) (dir_entries_ok dir Hok))
    as (wa & Ha & Hba & Hma). rewrite dir_entries_map in Hma.
  set (wb := snd (remove_stale dir wa)).
  destruct (mark_no_nodes_run dir wb Hok) as (w1 & H1 & E1).
  exists w1, (snd (rebuildFilterOptions w1)). split.
  - unfold updateMapMarkers, mbind' at 1 2, gets. rewrite Hi, Hd. unfold mbind' at 1. rewrite Ha.
    change (mbind' (remove_stale dir) ?k wa) with (k tt wb).
    fold (mark_no_nodes dir). unfold mbind' at 1. rewrite H1.
    by rewrite run_seq by apply rebuildFilterOptions_total.
  - split; [done|].
    pose proof (f_equal (fun x => x.1.1) E1) as E2. pose proof (f_equal (fun x => x.1.2) E1) as E3.
    apply (f_equal snd) in E1. subst wb. cbn in E1, E2, E3.
    unfold beside_filtering, beside_markers in *. cbn in E2.
    split; [congruence|]. split; [congruence|].
    intros k. rewrite E3. cbn. rewrite filter_keeps_lookup, Hma. done.
Qed.
Lemma closed_shown (b : bool) m0 m :
  closed m = closed (if b then show_marker m0 else hide_marker m0) ->
  mk_latlng m = mk_latlng m0 /\ mk_icon m = mk_icon m0 /\ mk_popup m = mk_popup m0 /\ mk_shown m = b.
Proof.
  unfold closed, hide_marker. destruct b; [|destruct (mk_shown m0) eqn:Hs]; cbn;
    intros [= -> -> -> ->]; by rewrite ?Hs.
Qed.

(** C5. For a directory in which every node with a position has both coordinates,
    as numbers, a refresh of the map makes it mirror the directory: the nodes with a
    marker are exactly the nodes with a position, each marker stands at its
    node's coordinates with the icon and the popup of its current data, and is
    shown exactly when the node passes the filters. *)
Theorem updateMapMarkers_spec w dir :
  v_instance (w_map w) = true -> w_nodeDir w = Some dir -> dir_ok dir ->
  let w' := snd (updateMapMarkers w) in
  fst (updateMapMarkers w) = Ok tt /\ w_nodeDir w' = Some dir /\
  (forall n, is_Some (v_markers (w_map w') !! n) <-> exists e, dir !! n = Some e /\ has_pos e = true) /\
  (forall n e m, dir !! n = Some e -> v_markers (w_map w') !! n = Some m ->
     entry_latLng e = Ok (mk_latlng m) /\
     mk_icon m = createNodeIcon (e_str e !! short_name) /\
     nodePopupHTML (w_trace w) (now_s w) n e = Ok (mk_popup m) /\
     mk_shown m = nodePassesFilters (w_filters w') (el_value (w_dom w "mf-search-input")) (now_s w) n e).
Proof.
  intros Hi Hd Hok. cbv zeta.
  destruct (updateMapMarkers_run w dir Hi Hd Hok) as (w1 & w2 & -> & Hw2 & Hb1 & Hs1 & Hm1).
  pose proof (rebuildFilterOptions_frame w1) as Hr. rewrite <- Hw2 in Hr. clear Hw2.
  unfold beside_filtering in Hb1. injection Hr as R1 R2 R3 R4 R5 R6 R7 R8 R9 R10 R11 R12 R13.
  injection Hb1 as B1 B2 B3 B4 B5 B6 B7 B8 B9 B10.
  destruct (apply_then_frame (updateHeatmap ;;; emit (js "nodesChanged") None)
              (heat_emit_safe _ _) (heat_emit_frame _ _) w2) as (Hf & Hb & Hv).
  { intros dir2. rewrite R2, B2, Hd. by intros [= <-]. }
  assert (w_nodeDir w2 = Some dir) as Hd2 by congruence.
  assert (v_instance (w_map w2) = true) as Hi2 by (rewrite R3; congruence).
  destruct (applyMapFilters_run w2 dir Hi2 Hd2) as (Hm & _ & _ & Hf2).
  assert (page_passes w2 = nodePassesFilters (w_filters w2) (el_value (w_dom w "mf-search-input")) (now_s w)) as Hp.
  { unfold page_passes, now_s. congruence. }
  set (w' := snd ((applyMapFilters ;;; _) w2)) in *.
  assert (w_filters w' = w_filters w2 /\ w_nodeDir w' = w_nodeDir w2) as [Hfw Hdw].
  { unfold beside_filtering in Hb. split; congruence. }
  split; [done|]. split; [congruence|]. rewrite Hv, Hfw, <- Hp. rewrite R3 in Hm.
  assert (forall k, closed <$> v_markers (w_map (snd (applyMapFilters w2))) !! k
    = (e ← dir !! k; if has_pos e then
         Some (closed (swept (page_passes w2) k (Some e)
                 (fresh_marker (w_trace w) (now_s w) k e (coords e) (v_markers (w_map w) !! k))))
       else None)) as Hk.
  { intros k. rewrite Hm, Hm1. destruct (dir !! k) as [e|]; [|done]. cbn.
    destruct (has_pos e) eqn:Hpe; [|done]. cbn. by rewrite Hpe. }
  split.
  - intros n. specialize (Hk n).
    destruct (v_markers (w_map (snd (applyMapFilters w2))) !! n) as [m|]; cbn in Hk.
    + split; [|done]. intros _. destruct (dir !! n) as [e|]; [|done]. exists e. cbn in Hk.
      by destruct (has_pos e).
    + split; [by intros []|]. intros (e & He & Hpos). rewrite He in Hk. cbn in Hk. by rewrite Hpos in Hk.
  - intros n e m He Hmk. specialize (Hk n). rewrite Hmk, He in Hk. cbn in Hk.
    destruct (has_pos e) eqn:Hpos; [|done].
    assert (coords_ok e) as Hc by exact (Hok n e He).
    rewrite (coords_latLng e), (popup_of_ok _ _ _ _ Hc) by done.
    apply (inj Some), closed_shown in Hk as (-> & -> & -> & ->). done.
Qed.
(** ** The invariant: the markers stand where the nodes are *)

Definition places (w : world) : gmap Z (num * num) := mk_latlng <$> v_markers (w_map w).

(** The parts of the page the invariant reads. *)
Definition geo (w : world) := (w_nodeDir w, v_instance (w_map w), places w).

Definition map_inv (w : world) : Prop :=
  forall dir, w_nodeDir w = Some dir -> dir_ok dir /\
    (v_instance (w_map w) = true ->
     forall n e, dir !! n = Some e -> has_pos e = true -> places w !! n = Some (coords e)).

Lemma map_inv_geo w w' : geo w' = geo w -> map_inv w -> map_inv w'.
Proof. unfold geo, map_inv. intros [= -> -> ->]. done. Qed.

(** Only the position of an entry matters. *)
Lemma pos_of_coords e e' :
  pos_of e' = pos_of e -> coords e' = coords e /\ has_pos e' = has_pos e /\ (coords_ok e -> coords_ok e').
Proof.
  unfold pos_of, coords, has_pos, coords_ok, has_pos. intros [= -> ->]. done.
Qed.

(** A handler that replaced one entry and at most the marker of its node. *)
Lemma inv_put w w' dir n e :
  map_inv w -> w_nodeDir w = Some dir -> w_nodeDir w' = Some (<[n := e]> dir) ->
  v_instance (w_map w') = v_instance (w_map w) -> coords_ok e ->
  (forall k, k <> n -> places w' !! k = places w !! k) ->
  (v_instance (w_map w) = true -> has_pos e = true -> places w' !! n = Some (coords e)) ->
  map_inv w'.
Proof.
  intros Hi Hd Hd' Hv Hc Hk Hn dir' E. rewrite Hd' in E. injection E as <-.
  destruct (Hi dir Hd) as [Hok Hm]. split; [by apply map_Forall_insert_2|].
  rewrite Hv. intros Hv' k e'. rewrite lookup_insert. case_decide as Hkn.
  - subst k. intros [= <-]. auto.
  - intros He Hp. rewrite Hk by done. auto.
Qed.

Lemma apply_geo : preserves applyMapFilters geo.
Proof.
  intros w. pose proof (applyMapFilters_frame w) as Hf.
  injection Hf as _ F2 _ _ _ _ _ _ _ _ F12. unfold geo. rewrite F2, F12. f_equal.
  unfold places. apply map_eq. intros k. rewrite !lookup_fmap.
  destruct (v_instance (w_map w)) eqn:Hi; cycle 1.
  { unfold applyMapFilters, mbind', gets. by rewrite Hi. }
  destruct (w_nodeDir w) as [dir|] eqn:Hd; cycle 1.
  { unfold applyMapFilters, mbind', gets. by rewrite Hi, Hd. }
  destruct (applyMapFilters_run w dir Hi Hd) as (Hm & _). specialize (Hm k).
  destruct (v_markers (w_map (snd (applyMapFilters w))) !! k) as [m'|], (v_markers (w_map w) !! k) as [m|];
    try done. apply (inj Some) in Hm. unfold closed in Hm. cbn. f_equal.
  apply (f_equal (fun x => x.1.1.1)) in Hm. cbn in Hm. rewrite Hm. unfold swept.
  destruct (dir !! k) as [e|]; [|done]. destruct (has_pos e); [|done].
  destruct (page_passes w k e); [done|]. unfold hide_marker. by destruct (mk_shown m).
Qed.

Lemma openPopup_geo n : preserves (openPopup n) geo.
Proof.
  intros w. unfold openPopup. cbn [mbind' gets]. destruct (_ !! n); [|done]. cbn. unfold geo, places. cbn.
  f_equal. apply map_eq. intros k. rewrite !lookup_fmap, open_popup_lookup. by destruct (_ !! k).
Qed.

Lemma marker_click_geo n : preserves (on_marker_click n) geo.
Proof.
  pose proof (openPopup_geo n). unfold on_marker_click, when. frame_solve.
Qed.

Lemma popup_close_geo : preserves on_popup_close geo.
Proof.
  intros w. unfold on_popup_close. cbn [mbind' gets]. cbn. unfold geo, places. cbn.
  f_equal. by rewrite <- map_fmap_compose.
Qed.

Lemma heat_geo : preserves updateHeatmap geo.
Proof.
  intros w. pose proof (updateHeatmap_frame w) as E. unfold outside_heat, geo, places in *. congruence.
Qed.

Lemma emit_geo ev d : preserves (emit ev d) geo.
Proof. intros w. pose proof (emit_frame ev d w) as E. unfold outside_nodes, geo, places in *. congruence. Qed.

(** The end of a handler keeps the invariant and does not throw. *)
Definition keeps_map (m : Page unit) (w : world) : Prop :=
  fst (m w) = Ok tt /\ map_inv (snd (m w)).

Lemma keeps_bind (m k : Page unit) w :
  keeps_map m w -> (forall w', map_inv w' -> keeps_map k w') -> keeps_map (m ;;; k) w.
Proof.
  intros [Hm Hi] Hk. unfold keeps_map, mbind' in *. destruct (m w) as [r w']. cbn in *. subst r.
  by apply Hk.
Qed.

Lemma keeps_gets {A} (f : world -> A) (k : A -> Page unit) w :
  keeps_map (k (f w)) w -> keeps_map (mbind' (gets f) k) w.
Proof. done. Qed.

Lemma keeps_set_dir d (k : Page unit) w :
  keeps_map k (on_w_nodeDir (fun _ => Some d) w) -> keeps_map (set_dir d ;;; k) w.
Proof. done. Qed.

(** Run reads of the page and assignments to the directory. *)
Ltac keeps_run := repeat first [apply keeps_gets | apply keeps_set_dir]; cbv beta.

(** Running a first statement whose outcome is known. *)
Lemma keeps_from (m k : Page unit) w w' : m w = (Ok tt, w') -> keeps_map k w' -> keeps_map (m ;;; k) w.
Proof. intros E. unfold keeps_map, mbind'. by rewrite E. Qed.

Lemma keeps_of (m : Page unit) w : total m -> preserves m geo -> map_inv w -> keeps_map m w.
Proof.
  intros Ht Hg Hi. destruct (total_run m w Ht) as [[] E]. split; [by rewrite E|].
  eapply map_inv_geo; [apply Hg|done].
Qed.

Lemma keeps_apply w : map_inv w -> keeps_map applyMapFilters w.
Proof.
  intros Hi. split; [|eapply map_inv_geo; [apply apply_geo|done]].
  apply applyMapFilters_ok. intros dir Hd. by destruct (Hi dir Hd).
Qed.

Lemma keeps_heat w : map_inv w -> keeps_map updateHeatmap w.
Proof.
  intros Hi. split; [|eapply map_inv_geo; [apply heat_geo|done]].
  apply updateHeatmap_safe. intros dir Hd. by destruct (Hi dir Hd).
Qed.

Lemma keeps_emit ev d w : map_inv w -> keeps_map (emit ev d) w.
Proof. apply keeps_of; [apply emit_total|apply emit_geo]. Qed.

#[local] Hint Resolve keeps_bind keeps_apply keeps_heat keeps_emit : mesh.

Lemma keeps_refresh w : map_inv w -> keeps_map updateMapMarkers w.
Proof.
  intros Hi. destruct (v_instance (w_map w)) eqn:Hv; cycle 1.
  { unfold keeps_map, updateMapMarkers, mbind', gets. by rewrite Hv. }
  destruct (w_nodeDir w) as [dir|] eqn:Hd; cycle 1.
  { unfold keeps_map, updateMapMarkers, mbind', gets. by rewrite Hv, Hd. }
  destruct (Hi dir Hd) as [Hok _].
  destruct (updateMapMarkers_run w dir Hv Hd Hok) as (w1 & w2 & E & -> & Hb & _ & Hm).
  unfold keeps_map. rewrite E. apply keeps_bind; [|auto with mesh]. apply keeps_apply.
  injection Hb as _ B2 _ _ _ _ _ _ _ B10.
  eapply (map_inv_geo w1).
  { pose proof (rebuildFilterOptions_frame w1) as R. unfold geo, places. congruence. }
  intros dir'. rewrite B2, Hd. intros [= <-]. split; [done|]. intros _ n e He Hp.
  unfold places. rewrite lookup_fmap, Hm, He. cbn. by rewrite Hp.
Qed.
(** A position update whose coordinates are numbers. *)
Definition pos_ok (pos : pos_update) : Prop :=
  num_is_nan (pu_latitude pos) = false /\ num_is_nan (pu_longitude pos) = false.

Lemma pos_known e a b :
  pos_of e = (Some a, Some b) -> num_is_nan a = false -> num_is_nan b = false ->
  coords_ok e /\ coords e = (a, b).
Proof.
  unfold pos_of, coords, coords_ok. intros [= -> ->] Ha Hb. split; [|done]. intros _. by exists a, b.
Qed.

Lemma keeps_position pos w : map_inv w -> pos_ok pos -> keeps_map (updateMapNode pos) w.
Proof.
  intros Hi [Ha Hb]. unfold updateMapNode. keeps_run.
  destruct (w_nodeDir w) as [dir|] eqn:Hd; [|done]. keeps_run. set (e := default empty_entry _).
  destruct (pos_known e _ _ (position_pos pos (now_s w) dir) Ha Hb) as [Hc He].
  assert (dir_position pos (now_s w) dir = <[pu_node_num pos := e]> dir) as Ed.
  { subst e. unfold dir_position. by rewrite lookup_insert_eq. }
  set (w0 := on_w_nodeDir _ w).
  change (v_instance (w_map w0)) with (v_instance (w_map w)).
  destruct (v_instance (w_map w)) eqn:Hv; cycle 1.
  { split; [done|]. eapply (inv_put w w0 dir (pu_node_num pos) e); try done; [subst w0; cbn; by rewrite Ed|].
    intros. congruence. }
  cbn [negb]. keeps_run. unfold latLng. rewrite Ha, Hb. cbn [orb].
  destruct (put_marker_run (pu_node_num pos) e (pu_latitude pos, pu_longitude pos) w0 Hc)
    as (w1 & E1 & Hb1 & Hm1).
  assert (map_inv w1) as Hi1.
  { injection Hb1 as B1 B2 B3 B4 B5 B6 B7 B8 B9 B10 B11 B12 B13.
    apply (inv_put w w1 dir (pu_node_num pos) e Hi Hd); [| |exact Hc| |].
    - rewrite B3. cbn. by rewrite Ed.
    - exact B13.
    - intros k Hk. unfold places. rewrite Hm1, !lookup_fmap, lookup_insert_ne by done. done.
    - intros _ _. unfold places. rewrite Hm1, lookup_fmap, lookup_insert_eq. cbn. by rewrite He. }
  apply (keeps_from _ _ _ _ E1). apply keeps_bind.
  - destruct (is_some (v_markers _ !! _)); cbn [negb when]; [done|]. apply keeps_of; [intros ?; done|intros ?; done|exact Hi1].
  - auto with mesh.
Qed.

(** Refreshing the popup of a node does not touch the positions. *)
Lemma set_popup_keeps n e w m :
  map_inv w -> coords_ok e -> v_markers (w_map w) !! n = Some m -> keeps_map (set_popup n e) w.
Proof.
  intros Hi Hc Hm. destruct (set_popup_run n e w m Hc Hm) as (w' & E & Hb & Hv).
  unfold keeps_map. rewrite E. split; [done|]. apply (map_inv_geo w w'); [|exact Hi].
  injection Hb as B1 B2 B3 B4 B5 B6 B7 B8 B9 B10 B11 B12 B13. unfold geo, places.
  rewrite B3, B13, Hv, fmap_insert. f_equal. cbn. apply insert_id. by rewrite lookup_fmap, Hm.
Qed.

Lemma keeps_popup n e w : map_inv w -> coords_ok e -> keeps_map (refresh_open_popup n e) w.
Proof.
  intros Hi Hc. unfold refresh_open_popup. keeps_run.
  destruct (v_instance _); [|done]. destruct (v_markers (w_map w) !! n) as [m|] eqn:Hm; [|done].
  unfold when. destruct (mk_open m); [|done]. by eapply set_popup_keeps.
Qed.

(** A handler that updates the fields of an entry other than its position. *)
Lemma inv_assign w dir n (f : entry -> entry) fresh :
  map_inv w -> w_nodeDir w = Some dir ->
  (forall e, pos_of (f e) = pos_of e) -> pos_of fresh = (None, None) ->
  let e := f (entry_or fresh dir n) in
  map_inv (on_w_nodeDir (fun _ => Some (<[n := e]> dir)) w) /\ coords_ok e.
Proof.
  intros Hi Hd Hf Hfresh. cbv zeta.
  destruct (pos_of_coords _ _ (Hf (entry_or fresh dir n))) as (Hc & Hp & Hok).
  destruct (Hi dir Hd) as [Hdir Hmk].
  assert (coords_ok (f (entry_or fresh dir n))) as Hce.
  { apply Hok. unfold entry_or. destruct (dir !! n) as [e|] eqn:He; cbn; [by apply (Hdir n)|].
    unfold coords_ok, has_pos. unfold pos_of in Hfresh. by injection Hfresh as -> ->. }
  split; [|done]. eapply inv_put; try done. cbn. intros Hv Hpos. rewrite Hc. rewrite Hp in Hpos.
  unfold entry_or in *. destruct (dir !! n) as [e|] eqn:He; cbn in *; [by apply Hmk|].
  exfalso. revert Hpos. unfold has_pos. unfold pos_of in Hfresh. by injection Hfresh as -> ->.
Qed.

Lemma named_pos s l : pos_of (named_entry s l) = (None, None).
Proof. reflexivity. Qed.

Lemma keeps_telemetry tel w : map_inv w -> keeps_map (updateNodeTelemetry tel) w.
Proof.
  intros Hi. unfold updateNodeTelemetry. keeps_run.
  destruct (w_nodeDir w) as [dir|] eqn:Hd; [|done]. keeps_run.
  unfold dir_telemetry. rewrite lookup_insert_eq. cbn [default].
  edestruct (inv_assign w dir (tu_node_num tel) (telemetry_assign tel (now_s w))) as [Hi1 Hc];
    [done|done|apply telemetry_pos|apply named_pos|].
  apply keeps_bind; [by apply keeps_popup|]. auto with mesh.
Qed.

Lemma keeps_signal sig w : map_inv w -> keeps_map (updateNodeSignal sig) w.
Proof.
  intros Hi. unfold updateNodeSignal. keeps_run.
  destruct (w_nodeDir w) as [dir|] eqn:Hd; [|done]. keeps_run.
  unfold dir_signal. rewrite lookup_insert_eq. cbn [default].
  edestruct (inv_assign w dir (su_node_num sig) (signal_assign sig (now_s w))) as [Hi1 Hc];
    [done|done|apply signal_pos|apply named_pos|].
  apply keeps_bind; [by apply keeps_popup|]. auto with mesh.
Qed.
Lemma keeps_icon n icon w m :
  map_inv w -> v_markers (w_map w) !! n = Some m ->
  exists w', on_markers (alter (marker_icon icon) n) w = (Ok tt, w') /\ map_inv w' /\
    v_markers (w_map w') !! n = Some (marker_icon icon m).
Proof.
  intros Hi Hm. eexists. split; [reflexivity|]. cbn [w_map on_w_map v_markers on_v_markers].
  rewrite lookup_alter_eq, Hm. split; [|done]. eapply map_inv_geo; [|exact Hi].
  unfold geo, places. cbn [w_nodeDir w_map on_w_map v_instance v_markers on_v_markers]. f_equal.
  apply map_eq. intros k. rewrite !lookup_fmap, lookup_alter. case_decide; [subst k; by rewrite Hm|done].
Qed.

(** The first entry of a directory, without a position. *)
Lemma inv_first n e w :
  coords_ok e -> has_pos e = false -> map_inv (on_w_nodeDir (fun _ => Some (<[n := e]> ∅)) w).
Proof.
  intros Hc Hp dir. cbn [w_nodeDir on_w_nodeDir]. intros [= <-]. split.
  - by apply map_Forall_insert_2; [|apply map_Forall_empty].
  - intros _ k e'. rewrite lookup_insert. case_decide; [|by rewrite lookup_empty].
    intros [= <-]. by rewrite Hp.
Qed.

Lemma keeps_info info w : map_inv w -> keeps_map (updateNodeInfo info) w.
Proof.
  intros Hi. unfold updateNodeInfo. keeps_run.
  set (dir := default ∅ (w_nodeDir w)). set (n := iu_node_num info).
  assert (dir_info info (now_s w) dir !! n = Some (info_assign info (now_s w) (entry_or empty_entry dir n))) as Hlook.
  { unfold dir_info. apply lookup_insert_eq. }
  rewrite Hlook. cbn [default from_option id].
  assert (map_inv (on_w_nodeDir (fun _ => Some (dir_info info (now_s w) dir)) w) /\
          coords_ok (info_assign info (now_s w) (entry_or empty_entry dir n))) as [Hi1 Hc].
  { destruct (w_nodeDir w) as [d|] eqn:Hd; [by apply (inv_assign w d n _ _ Hi Hd (info_pos info (now_s w)))|].
    subst dir. cbn [default from_option id]. unfold dir_info.
    destruct (pos_of_coords _ _ (info_pos info (now_s w) (entry_or empty_entry ∅ (iu_node_num info))))
      as (_ & Hp & Hc). split; [|by apply Hc]. apply inv_first; [by apply Hc|exact Hp]. }
  generalize dependent (info_assign info (now_s w) (entry_or empty_entry dir n)). intros e _ Hc.
  set (w1 := on_w_nodeDir _ w) in *. change (v_markers (w_map w)) with (v_markers (w_map w1)).
  apply keeps_bind; [|intros; apply keeps_emit; done].
  destruct (v_instance _); [|done]. destruct (v_markers (w_map w1) !! n) as [m|] eqn:Hm; [|done].
  destruct (keeps_icon n (createNodeIcon (e_str e !! short_name)) w1 m Hi1 Hm) as (w2 & E & Hi2 & Hm2).
  apply (keeps_from _ _ _ _ E). unfold when. destruct (mk_open m); [|done]. by eapply set_popup_keeps.
Qed.

Lemma keeps_directory dir w : dir_ok dir -> keeps_map (on_node_directory (Some dir)) w.
Proof.
  intros Hok. unfold on_node_directory.
  (* the old markers need not match the new directory: the refresh starts over *)
  set (w1 := on_w_nodeDir (fun _ => Some dir) w).
  apply (keeps_from _ _ w w1); [done|].
  destruct (v_instance (w_map w)) eqn:Hv; cycle 1.
  - apply keeps_refresh. intros dir'. cbn. intros [= <-]. split; [done|]. by rewrite Hv.
  - split; [by apply (updateMapMarkers_spec w1 dir)|].
    destruct (updateMapMarkers_spec w1 dir Hv eq_refl Hok) as (_ & Hd & Hdom & Hm).
    intros dir'. rewrite Hd. intros [= <-]. split; [done|]. intros _ n e He Hp.
    destruct (proj2 (Hdom n) (ex_intro _ e (conj He Hp))) as [m Hmk].
    destruct (Hm n e m He Hmk) as (Hll & _). unfold places. rewrite lookup_fmap, Hmk. cbn.
    rewrite coords_latLng in Hll by (done || by apply (Hok n)). by injection Hll as ->.
Qed.

Lemma keeps_init w : map_inv w -> keeps_map initMap w.
Proof.
  intros Hi. unfold initMap. keeps_run. destruct (v_instance (w_map w)) eqn:Hv; [done|].
  set (w1 := on_w_map (on_v_instance (fun _ => true)) w).
  apply (keeps_from _ _ w w1); [done|].
  destruct (w_nodeDir w) as [dir|] eqn:Hd.
  - destruct (Hi dir Hd) as [Hok _].
    pose proof (keeps_directory dir w1 Hok) as K. unfold on_node_directory in K.
    unfold keeps_map, mbind', modify in K.
    replace (on_w_nodeDir (fun _ => Some dir) w1) with w1 in K; [exact K|].
    subst w1. destruct w. cbn in *. by subst.
  - unfold updateMapMarkers. keeps_run. cbn. rewrite Hd. split; [done|]. intros dir'. cbn. congruence.
Qed.
Lemma favorite_inv render n fav w :
  preserves render geo -> map_inv w -> map_inv (snd (on_node_favorite render n fav w)).
Proof.
  intros Hr Hi. unfold on_node_favorite, mbind' at 1, gets.
  destruct (w_nodeDir w) as [dir|] eqn:Hd; [|done]. unfold dir_favorite.
  destruct (dir !! n) as [e|] eqn:He; cbn [is_some]; [|by rewrite andb_false_r].
  destruct (truthy n); [|done]. cbn [andb].
  set (w1 := on_w_nodeDir (fun _ => Some (<[n := put_bool is_favorite fav e]> dir)) w).
  assert (map_inv w1) as Hi1.
  { destruct (Hi dir Hd) as [Hok Hm]. pose proof (Hok n e He) as Hc.
    apply (inv_put w w1 dir n (put_bool is_favorite fav e)); try done.
    intros Hv Hp. exact (Hm Hv n e He Hp). }
  change (map_inv (snd ((render ;;; updateMapMarkers) w1))).
  unfold mbind'. pose proof (Hr w1) as Hg. destruct (render w1) as [[[]|err] w2]; cbn in *.
  - by apply keeps_refresh, (map_inv_geo w1).
  - by apply (map_inv_geo w1).
Qed.

(** The map leaves the components beside it alone. *)
Definition beside_map (w : world) := (w_charts w, w_sse w, w_messages w, w_history w, w_chat w, w_trace w).

Lemma emit_beside ev d : preserves (emit ev d) beside_map.
Proof.
  intros w. pose proof (emit_frame ev d w) as E. unfold outside_nodes, beside_map in *. congruence.
Qed.

Lemma updateMapMarkers_beside : preserves updateMapMarkers beside_map.
Proof.
  pose proof emit_beside. unfold updateMapMarkers, marker_step, put_marker, set_popup, on_markers,
    rebuildFilterOptions, rebuildCheckboxGroup, applyMapFilters, openPopup, remove_stale, put_markers,
    updateHeatmap, put_layer, set_legend, when.
  frame_solve.
Qed.

(** ** What can happen to the map *)

Inductive map_step : world -> world -> Prop :=
| ms_init w : map_step w (snd (initMap w))
| ms_directory dir w : dir_ok dir -> map_step w (snd (on_node_directory (Some dir) w))
| ms_position pos w : pos_ok pos -> map_step w (snd (updateMapNode pos w))
| ms_telemetry tel w : map_step w (snd (updateNodeTelemetry tel w))
| ms_signal sig w : map_step w (snd (updateNodeSignal sig w))
| ms_info info w : map_step w (snd (updateNodeInfo info w))
| ms_favorite render n fav w :
    preserves render geo -> map_step w (snd (on_node_favorite render n fav w))
| ms_filters w : map_step w (snd (applyMapFilters w))
| ms_other w w' : geo w' = geo w -> map_step w w'.

Lemma map_step_inv w w' : map_step w w' -> map_inv w -> map_inv w'.
Proof.
  intros Hst Hi. destruct Hst.
  - by apply keeps_init.
  - by apply keeps_directory.
  - by apply keeps_position.
  - by apply keeps_telemetry.
  - by apply keeps_signal.
  - by apply keeps_info.
  - by apply favorite_inv.
  - by apply keeps_apply.
  - by apply (map_inv_geo w).
Qed.

(** A page whose map was not opened yet. *)
Definition map_initial (w : world) : Prop :=
  w_map w = MapView false ∅ None /\ forall dir, w_nodeDir w = Some dir -> dir_ok dir.

(** C4. Provided that in every directory the server sends a node with a position
    has both coordinates, and that these and the coordinates of every position
    event are numbers: in every state that the server's events, the opening of
    the map and the filters can lead to, every node with a position has a marker
    at exactly its coordinates; and there no such position update and no
    telemetry, signal or identity update throws. *)
Theorem map_reachable_inv w0 w :
  map_initial w0 -> rtc map_step w0 w ->
  map_inv w /\
  (forall pos, pos_ok pos -> fst (updateMapNode pos w) = Ok tt) /\
  (forall tel, fst (updateNodeTelemetry tel w) = Ok tt) /\
  (forall sig, fst (updateNodeSignal sig w) = Ok tt) /\
  (forall info, fst (updateNodeInfo info w) = Ok tt).
Proof.
  intros [Hm Hd] Hr. assert (map_inv w) as Hi.
  { assert (map_inv w0) as Hi0 by (intros dir E; split; [by apply Hd|by rewrite Hm]).
    clear Hd Hm. induction Hr as [|w w1 w2 Hst _ IH]; [done|]. by apply IH, (map_step_inv w). }
  split; [done|]. split; [intros; by apply keeps_position|].
  split; [intros; by apply keeps_telemetry|].
  split; intros; [by apply keeps_signal|by apply keeps_info].
Qed.
End mapview.

(** C37. A node on the equator breaks the map: the server omits a latitude of
    zero, [L.marker] rejects the undefined coordinate, and the exception ends the
    refresh, so that a later node with both coordinates gets no marker. *)
Theorem equator_node_aborts `{Platform} `{Bus} :
  exists (w : world) (dir : directory) (e : entry),
    w_nodeDir w = Some dir /\ v_instance (w_map w) = true /\
    dir !! 2 = Some e /\ has_pos e = true /\ coords_ok e /\
    fst (updateMapMarkers w) = Throw (LibError "Invalid LatLng object") /\
    v_markers (w_map (snd (updateMapMarkers w))) !! 2 = None.
Proof.
  set (e := put_flt latitude (num_of_Z 1) (put_flt longitude (num_of_Z 1) empty_entry)).
  set (dir := {[ 1 := put_flt longitude (num_of_Z 10) empty_entry; 2 := e ]} : directory).
  exists (on_w_map (on_v_instance (fun _ => true)) (initial_page (Some dir) [] 0)), dir, e.
  split; [done|]. split; [done|]. split; [done|]. split; [by vm_compute|].
  split; [intros _; by exists (num_of_Z 1), (num_of_Z 1)|].
  assert (dir_entries dir = [(1, put_flt longitude (num_of_Z 10) empty_entry); (2, e)]) as E by (by vm_compute).
  unfold updateMapMarkers, mbind' at 1 2 4 5, gets. cbn [w_nodeDir w_map v_instance on_w_map on_v_instance initial_page].
  rewrite E. split; by vm_compute.
Qed.

(** A page without subscribers. *)
#[refine] Definition silent_bus : Bus := {| page_bus := ∅ |}.
Proof. intros ev fn d. rewrite lookup_empty. intros []%not_elem_of_nil. Defined.

(** ** Witnesses *)

Definition berlin : entry :=
  put_str short_name (js "BER") (put_flt latitude (num_quot 525 10) (put_flt longitude (num_quot 134 10) empty_entry)).
Definition map_dir : directory := {[ 5 := berlin ]}.
Definition map_page : world :=
  on_w_map (on_v_instance (fun _ => true)) (initial_page (Some map_dir) [] 1000).

Lemma map_dir_ok : dir_ok map_dir.
Proof.
  apply map_Forall_singleton. intros _. exists (num_quot 525 10), (num_quot 134 10).
  split; [by vm_compute|]. split; [by vm_compute|]. by split; vm_compute.
Qed.

Lemma updateMapMarkers_spec_witness :
  let P := Reference.platform in let B := silent_bus in
  let w' := snd (updateMapMarkers map_page) in
  fst (updateMapMarkers map_page) = Ok tt /\ w_nodeDir w' = Some map_dir /\
  (forall n, is_Some (v_markers (w_map w') !! n) <-> exists e, map_dir !! n = Some e /\ has_pos e = true) /\
  (forall n e m, map_dir !! n = Some e -> v_markers (w_map w') !! n = Some m ->
     entry_latLng e = Ok (mk_latlng m) /\
     mk_icon m = createNodeIcon (e_str e !! short_name) /\
     nodePopupHTML (w_trace map_page) (now_s map_page) n e = Ok (mk_popup m) /\
     mk_shown m = nodePassesFilters (w_filters w') (el_value (w_dom map_page "mf-search-input")) (now_s map_page) n e).
Proof. exact (@updateMapMarkers_spec Reference.platform silent_bus map_page map_dir eq_refl eq_refl map_dir_ok). Defined.

Lemma map_reachable_inv_witness :
  map_inv (snd (@initMap Reference.platform silent_bus (initial_page (Some map_dir) [] 1000))).
Proof.
  apply (@map_reachable_inv Reference.platform silent_bus (initial_page (Some map_dir) [] 1000)).
  - split; [done|]. intros dir [= <-]. exact map_dir_ok.
  - apply rtc_once. apply ms_init.
Defined.
