(* ===== verification/NodesTable.v ===== *)
(** * nodes.js: the nodes table

    Which nodes of the directory are listed, in which order, the markup of a row
    and the rendering of the table; the subscribers of the event bus. *)

From S2P Require Import Prelude Sort JsString JsNumber Platform Html Markup NodeDir Mesh World.
From S2P Require Import TraceHistory Route Trace Heatmap Filters Popup MapView.

Section table.
Context `{Platform}.

(** ['!' + ('00000000' + (num >>> 0).toString(16)).slice(-8)] *)
Definition row_hex (num : Z) : jstr := js "!" +++ slice_last 8 (js "00000000" +++ hex (to_uint32 num)).

(** [entry.f || ''] *)
Definition str_or (e : entry) (f : sfield) : jstr := or_else (A:=jstr) (e_str e !! f) [].

(** ** Filters *)

Definition table_haystack (num : Z) (e : entry) : jstr :=
  toLowerCase (str_or e short_name +++ js " " +++ str_or e long_name +++ js " " +++ row_hex num
    +++ js " " +++ str_or e user_id +++ js " " +++ str_or e hw_model +++ js " " +++ str_or e role).

Definition table_search (value : jstr) : jstr := trim (toLowerCase value).

(** Each conjunct is one [continue] of the loop of [renderNodesTable]. *)
Definition table_passes (s : nodes) (searchTerm : jstr) (num : Z) (e : entry) : bool :=
  negb (bool_decide (n_mode s = js "realtime") && negb (truthy (e_bool e !! seen_realtime)))
  && negb (bool_decide (n_mqtt s = js "direct") && truthy (e_bool e !! via_mqtt))
  && negb (bool_decide (n_mqtt s = js "mqtt") && negb (truthy (e_bool e !! via_mqtt)))
  && negb (bool_decide (n_position s = js "gps") && negb (has_pos e))
  && negb ((0 <? size (n_roles s))%nat && negb (bool_decide (str_or e role ∈ n_roles s)))
  && (if truthy searchTerm then includes (table_haystack num e) searchTerm else true).

(** ** Order *)

Inductive sort_value := SStr (s : jstr) | SInt (z : Z) | SFlt (x : num).

Definition int_or (e : entry) (f : ifield) (d : Z) : sort_value := SInt (or_else (e_int e !! f) d).

Definition getSortValue (e : entry) (num : Z) (key : jstr) : sort_value :=
  if decide (key = js "short_name") then
    let s := toLowerCase (str_or e short_name) in
    SStr (if truthy s then s else js "!" +++ hex num)
  else if decide (key = js "user_id") then SStr (or_else (A:=jstr) (e_str e !! user_id) (row_hex num))
  else if decide (key = js "hw_model") then SStr (toLowerCase (str_or e hw_model))
  else if decide (key = js "role") then SStr (toLowerCase (str_or e role))
  else if decide (key = js "last_heard") then int_or e last_heard 0
  else if decide (key = js "hops_away") then int_or e hops_away 9999
  else if decide (key = js "rx_rssi") then int_or e rx_rssi (-999)
  else if decide (key = js "rx_snr") then SFlt (or_else (best_snr e) (num_of_Z (-999)))
  else if decide (key = js "battery_level") then int_or e battery_level (-1)
  else SStr [].

(** The sign of [a - b] of two finite numbers. *)
Definition num_diff_sign (a b : num) : Z :=
  if num_ltb a b then -1 else if num_ltb b a then 1 else 0.

(** [String(va)] of a number is needed only if the values of one column had
    different types, which [getSortValue] rules out. *)
Definition sort_string (v : sort_value) : jstr :=
  match v with SStr s => s | SInt z => dec z | SFlt x => num_str x end.

Definition value_cmp (va vb : sort_value) : Z :=
  match va, vb with
  | SInt a, SInt b => a - b
  | SFlt a, SFlt b => num_diff_sign a b
  | _, _ => localeCompare (sort_string va) (sort_string vb)
  end.

Definition fav_rank (e : entry) : Z := if truthy (e_bool e !! is_favorite) then 0 else 1.

(** The comparison function. *)
Definition row_cmp (key dir : jstr) (a b : Z * entry) : Z :=
  let fa := fav_rank a.2 in
  let fb := fav_rank b.2 in
  if negb (fa =? fb) then fa - fb
  else let cmp := value_cmp (getSortValue a.2 a.1 key) (getSortValue b.2 b.1 key) in
       if decide (dir = js "desc") then - cmp else cmp.

(** The nodes that are listed, in order. *)
Definition table_entries (s : nodes) (searchTerm : jstr) (dir : directory) : list (Z * entry) :=
  sort (row_cmp (n_sortKey s) (n_sortDir s))
    (filter (fun p => table_passes s searchTerm p.1 p.2 = true) (dir_entries dir)).
(** ** The markup of a row *)

Definition dash_cell : jstr := html "<span class=`text-gray-600`>&mdash;</span>".

Definition name_cell (num : Z) (e : entry) : jstr :=
  let short := str_or e short_name in
  let long := str_or e long_name in
  text_if (truthy (e_bool e !! seen_realtime)) (html "<span class=`nodes-rt-dot` title=`Seen in real-time`></span>")
  +++ (if truthy short then
         html "<span class=`font-semibold text-gray-100` title=`" +++ esc long +++ html "`>" +++ esc short +++ js "</span>"
         +++ text_if (truthy long && negb (bool_decide (long = short)))
               (html " <span class=`text-gray-500 text-[11px]`>" +++ esc long +++ js "</span>")
       else html "<code class=`font-mono text-xs text-gray-400`>" +++ esc (row_hex num) +++ js "</code>")
  +++ text_if (truthy (e_bool e !! is_licensed))
        (html " <span class=`text-[9px] font-bold px-1 py-px rounded bg-amber-500/15 text-amber-400 border border-amber-500/30`>HAM</span>")
  +++ text_if (truthy (e_bool e !! via_mqtt))
        (html " <span class=`text-[9px] font-bold px-1 py-px rounded bg-purple-500/15 text-purple-400 border border-purple-500/30`>MQTT</span>")
  +++ text_if (truthy (e_bool e !! is_favorite))
        (html " <span class=`text-[9px] font-bold px-1 py-px rounded bg-pink-500/15 text-pink-400 border border-pink-500/30`>FAV</span>").

Definition id_cell (num : Z) (e : entry) : jstr :=
  html "<code class=`font-mono text-[11px] text-gray-400`>"
  +++ esc (or_else (A:=jstr) (e_str e !! user_id) (row_hex num)) +++ js "</code>".

Definition text_cell (o : option jstr) (f : jstr -> jstr) : jstr :=
  if truthy o then html "<span class=`text-gray-300`>" +++ esc (f (default [] o)) +++ js "</span>" else dash_cell.

Definition heard_cell (now : Z) (e : entry) : jstr :=
  if truthy (e_int e !! last_heard) then
    let t := default 0 (e_int e !! last_heard) in
    let age := now - t in
    let color := if age <? 900 then js "text-emerald-400"
                 else if age <? 3600 then js "text-gray-300" else js "text-gray-500" in
    html "<span class=`" +++ color +++ html " tabular-nums`>" +++ formatUnixAge now t +++ js "</span>"
  else dash_cell.

Definition hops_cell (e : entry) : jstr :=
  if 0 <? default 0 (e_int e !! hops_away) then
    html "<code class=`font-mono text-xs text-gray-300`>" +++ dec (default 0 (e_int e !! hops_away)) +++ js "</code>"
  else dash_cell.

Definition rssi_cell (e : entry) : jstr :=
  if truthy (e_int e !! rx_rssi) then
    let v := default 0 (e_int e !! rx_rssi) in
    let color := if -90 <? v then js "text-emerald-400"
                 else if -110 <? v then js "text-amber-400" else js "text-red-400" in
    html "<code class=`font-mono text-xs " +++ color +++ html "`>" +++ dec v +++ js "</code>"
  else dash_cell.

Definition snr_cell (e : entry) : jstr :=
  match best_snr e with
  | Some v =>
      if truthy v then
        let color := if num_ltb (num_of_Z 5) v then js "text-emerald-400"
                     else if num_ltb (num_of_Z 0) v then js "text-amber-400" else js "text-red-400" in
        html "<code class=`font-mono text-xs " +++ color +++ html "`>" +++ fixed v 1 +++ js "</code>"
      else dash_cell
  | None => dash_cell
  end.

Definition battery_cell (e : entry) : jstr :=
  if truthy (e_int e !! battery_level) then
    let pct := Z.min (default 0 (e_int e !! battery_level)) 100 in
    html "<span class=`nodes-battery-bar`><span class=`nodes-battery-fill` style=`width:"
    +++ dec pct +++ js "%;background:" +++ battery_color pct +++ html "`></span></span>"
    +++ html "<span class=`text-xs tabular-nums text-gray-300`>" +++ dec pct +++ js "%</span>"
    +++ match e_flt e !! voltage with
        | Some v => text_if (truthy v)
                      (html " <span class=`text-[10px] text-gray-500`>" +++ fixed v 1 +++ js "V</span>")
        | None => []
        end
  else dash_cell.

Definition coord_cell (e : entry) : result jstr :=
  if has_pos e then
    lat <-? toFixed_of (e_flt e !! latitude) 5 ;;
    lon <-? toFixed_of (e_flt e !! longitude) 5 ;;
    Ok (html "<code class=`font-mono text-[11px] text-gray-300`>" +++ lat +++ js ", " +++ lon +++ js "</code>"
        +++ text_if (truthy (e_int e !! altitude))
              (html " <span class=`text-[10px] text-gray-500`>"
               +++ dec (default 0 (e_int e !! altitude)) +++ js "m</span>"))
  else Ok dash_cell.

Definition trace_btn_content (v : trace_view) : jstr :=
  if tv_coolingThis v then dec (tv_remaining v) +++ js "s"
  else if tv_tracingThis v then html "<span class=`spinner`></span>"
  else SVG_TRACE_COMPACT.

Definition actions_cell (t : trace) (num : Z) : jstr :=
  let ts := getTraceState t (dec num) in
  html "<div style=`position:relative;display:flex;align-items:center;gap:2px;`>"
  +++ html "<button class=`na-trace-btn` data-trace-target=`" +++ dec num +++ html "`"
  +++ text_if (tv_active ts) (js " disabled")
  +++ html " onclick=`event.stopPropagation();startTraceroute(" +++ dec num +++ html ")` title=`Trace Route`>"
  +++ trace_btn_content ts +++ js "</button>"
  +++ html "<button class=`na-btn` onclick=`event.stopPropagation();toggleNodeActions('" +++ dec num
  +++ html "',this)` title=`Actions`>&#8942;</button>"
  +++ js "</div>".

Definition buildNodeRow (t : trace) (now num : Z) (e : entry) : result jstr :=
  coord <-? coord_cell e ;;
  Ok (html "<tr class=`hover:bg-gray-800/30 transition-colors` data-nodenum=`" +++ dec num +++ html "`>"
      +++ html "<td class=`nodes-td`>" +++ name_cell num e +++ js "</td>"
      +++ html "<td class=`nodes-td`>" +++ id_cell num e +++ js "</td>"
      +++ html "<td class=`nodes-td hidden sm:table-cell`>" +++ text_cell (e_str e !! hw_model) formatHwModel +++ js "</td>"
      +++ html "<td class=`nodes-td hidden sm:table-cell`>" +++ text_cell (e_str e !! role) formatRole +++ js "</td>"
      +++ html "<td class=`nodes-td`>" +++ heard_cell now e +++ js "</td>"
      +++ html "<td class=`nodes-td text-center hidden sm:table-cell`>" +++ hops_cell e +++ js "</td>"
      +++ html "<td class=`nodes-td text-right`>" +++ rssi_cell e +++ js "</td>"
      +++ html "<td class=`nodes-td text-right hidden sm:table-cell`>" +++ snr_cell e +++ js "</td>"
      +++ html "<td class=`nodes-td hidden sm:table-cell`>" +++ battery_cell e +++ js "</td>"
      +++ html "<td class=`nodes-td hidden sm:table-cell`>" +++ coord +++ js "</td>"
      +++ html "<td class=`nodes-td`>" +++ actions_cell t num +++ js "</td>"
      +++ js "</tr>").

(** The loop that builds the body of the table. *)
Fixpoint build_rows (t : trace) (now : Z) (l : list (Z * entry)) : result jstr :=
  match l with
  | [] => Ok []
  | (num, e) :: l' =>
      row <-? buildNodeRow t now num e ;;
      rows <-? build_rows t now l' ;;
      Ok (row +++ rows)
  end.

(** The trace button of a row, as the browser makes it of the markup. *)
Definition row_btn (t : trace) (num : Z) : btn :=
  let ts := getTraceState t (dec num) in
  Btn (dec num) true (tv_active ts) [] (trace_btn_content ts).

(** ** Rendering *)

Definition has_filters (s : nodes) (searchTerm : jstr) : bool :=
  negb (bool_decide (n_mode s = js "all")) || negb (bool_decide (n_mqtt s = js "all"))
  || negb (bool_decide (n_position s = js "all")) || (0 <? size (n_roles s))%nat || truthy searchTerm.

Definition nodes_count (s : nodes) (searchTerm : jstr) (shown total : nat) : jstr :=
  dec (Z.of_nat shown)
  +++ (if has_filters s searchTerm then js " / " +++ dec (Z.of_nat total) else [])
  +++ js " nodes" +++ (if decide (n_mode s = js "realtime") then js " realtime" else []).

Definition renderNodesTable : Page unit :=
  w <-- gets (fun w => w) ;;
  match w_nodeDir w with
  | None =>
      class_remove "nodes-empty" (js "hidden") ;;;
      set_text "nodes-count" (js "0 nodes")
  | Some dir =>
      let s := w_nodes w in
      let searchTerm := table_search (el_value (w_dom w "nodes-search")) in
      let entries := table_entries s searchTerm dir in
      rows <-- lift (build_rows (w_trace w) (now_s w) entries) ;;
      set_html "nodes-tbody" rows ;;;
      modify (on_w_btns (fun bs =>
        filter (fun b => bt_compact b = false) bs ++ ((fun p => row_btn (w_trace w) p.1) <$> entries))) ;;;
      set_text "nodes-count" (nodes_count s searchTerm (length entries) (size dir)) ;;;
      (match entries with
       | [] => class_remove "nodes-empty" (js "hidden")
       | _ => class_add "nodes-empty" (js "hidden")
       end)
  end.
(** ** The role checkboxes of the filter panel *)

(** [roles[r]]; a role named like a property of [Object.prototype], which the
    server does not send, is left out. *)
Definition role_count (dir : directory) (r : jstr) : nat :=
  length (filter (fun p => str_or p.2 role = r) (dir_entries dir)).

(** The role and its label are inserted without [esc]. *)
Definition role_option (checked : bool) (r : jstr) (count : nat) : jstr :=
  html "<label class=`nf-option`><input type=`checkbox` value=`" +++ r +++ html "`"
  +++ (if checked then js " checked" else [])
  +++ html " onchange=`handleNfRole(this)`> " +++ formatRole r
  +++ html " <span class=`text-[10px] text-gray-600`>(" +++ dec (Z.of_nat count) +++ js ")</span></label>".

Definition buildRoleCheckboxes : Page unit :=
  w <-- gets (fun w => w) ;;
  match w_nodeDir w with
  | None => mret' tt
  | Some dir =>
      let sortedRoles := sorted_strings (field_values role dir) in
      let markup := match sortedRoles with
                    | [] => html "<span class=`text-[10px] text-gray-600`>No roles</span>"
                    | _ => mjoin ((fun r => role_option (bool_decide (r ∈ n_roles (w_nodes w))) r (role_count dir r))
                                  <$> sortedRoles)
                    end in
      set_html "nf-role-checks" markup ;;;
      modify (on_w_nodes (on_n_role_boxes (fun _ => parse_checkboxes markup)))
  end.

(** ** Controls *)

Definition updateFiltersIndicator : Page unit :=
  s <-- gets w_nodes ;;
  if negb (bool_decide (n_mqtt s = js "all")) || negb (bool_decide (n_position s = js "all"))
     || (0 <? size (n_roles s))%nat
  then class_remove "nodes-filters-dot" (js "hidden")
  else class_add "nodes-filters-dot" (js "hidden").

Definition filter_btn_on : jstr :=
  js "nodes-filter-btn text-[10px] font-semibold px-2.5 py-1 rounded-md transition-colors bg-gray-700 text-gray-100".
Definition filter_btn_off : jstr :=
  js "nodes-filter-btn text-[10px] font-semibold px-2.5 py-1 rounded-md transition-colors text-gray-400 hover:text-gray-200".

Definition setNodesFilter (mode : jstr) : Page unit :=
  modify (on_w_nodes (on_n_mode (fun _ => mode))) ;;;
  (if decide (mode = js "all") then
     set_className "nodes-filter-all" filter_btn_on ;;; set_className "nodes-filter-realtime" filter_btn_off
   else
     set_className "nodes-filter-realtime" filter_btn_on ;;; set_className "nodes-filter-all" filter_btn_off) ;;;
  renderNodesTable.

Definition toggleNodesFilters : Page unit :=
  modify (on_w_nodes (on_n_open negb)) ;;;
  isOpen <-- gets (fun w => n_open (w_nodes w)) ;;
  if isOpen then
    class_remove "nodes-filters-panel" (js "hidden") ;;;
    class_add "nodes-filters-btn" (js "active") ;;;
    buildRoleCheckboxes
  else
    class_add "nodes-filters-panel" (js "hidden") ;;;
    class_remove "nodes-filters-btn" (js "active").

Definition setNodesFilterMqtt (val : jstr) : Page unit :=
  modify (on_w_nodes (on_n_mqtt (fun _ => val))) ;;; updateFiltersIndicator ;;; renderNodesTable.

Definition setNodesFilterPosition (val : jstr) : Page unit :=
  modify (on_w_nodes (on_n_position (fun _ => val))) ;;; updateFiltersIndicator ;;; renderNodesTable.

Definition handleRoleCheckbox (r : jstr) (checked : bool) : Page unit :=
  modify (on_w_nodes (on_n_roles (fun rs => if checked then {[ r ]} ∪ rs else rs ∖ {[ r ]}))) ;;;
  updateFiltersIndicator ;;; renderNodesTable.

(** The user (un)checks the box of [r]. *)
Definition handleNfRole (r : jstr) (checked : bool) : Page unit :=
  modify (on_w_nodes (on_n_role_boxes (set_box r checked))) ;;; handleRoleCheckbox r checked.

Definition resetNodesFilters : Page unit :=
  modify (on_w_nodes (fun s => on_n_roles (fun _ => ∅) (on_n_position (fun _ => js "all")
                                (on_n_mqtt (fun _ => js "all") s)))) ;;;
  modify (on_w_nodes (on_n_role_boxes (fmap (fun b => Checkbox (cb_value b) false)))) ;;;
  updateFiltersIndicator ;;; renderNodesTable.

(** The columns of the page that can be sorted; the icon of a column is the
    element [sort_icon key]. *)
Definition sort_keys : list string :=
  ["short_name"; "user_id"; "hw_model"; "role"; "last_heard"; "hops_away"; "rx_rssi"; "rx_snr";
   "battery_level"]%string.
Definition sort_icon (key : string) : string := String.append "nodes-sort-icon:" key.

Definition updateSortIcons : Page unit :=
  for_each sort_keys (fun key => set_className (sort_icon key) (js "nodes-sort-icon")) ;;;
  s <-- gets w_nodes ;;
  for_each (filter (fun key => js key = n_sortKey s) sort_keys)
    (fun key => class_add (sort_icon key) (n_sortDir s)).

(** The state after a click on the heading of column [key]. *)
Definition sort_click (key : jstr) (s : nodes) : nodes :=
  if decide (n_sortKey s = key)
  then on_n_sortDir (fun d => if decide (d = js "asc") then js "desc" else js "asc") s
  else on_n_sortDir (fun _ => js "asc") (on_n_sortKey (fun _ => key) s).

Definition on_sort_click (key : string) : Page unit :=
  modify (on_w_nodes (sort_click (js key))) ;;; updateSortIcons ;;; renderNodesTable.

Definition on_nodes_search (value : jstr) : Page unit :=
  set_value "nodes-search" value ;;; renderNodesTable.

Definition initNodesTab : Page unit :=
  s <-- gets w_nodes ;;
  if n_initialized s then renderNodesTable else
  modify (on_w_nodes (on_n_initialized (fun _ => true))) ;;;
  updateSortIcons ;;;
  when (n_open s) buildRoleCheckboxes ;;;
  renderNodesTable.

(** ** Subscriptions and the periodic refresh *)

Definition table_visible (w : world) : bool :=
  n_initialized (w_nodes w) && negb (has_class w "tab-nodes" (js "hidden")).

Definition on_nodes_changed (info : option info_update) : Page unit :=
  w <-- gets (fun w => w) ;;
  if table_visible w then
    when (n_open (w_nodes w)) buildRoleCheckboxes ;;; renderNodesTable
  else mret' tt.

Definition on_node_info_changed (info : option info_update) : Page unit :=
  w <-- gets (fun w => w) ;;
  if table_visible w then
    when (n_open (w_nodes w) && match info with Some i => truthy (iu_role i) | None => false end)
      buildRoleCheckboxes ;;;
    renderNodesTable
  else mret' tt.

(** The interval of 30 s. *)
Definition nodes_interval : Page unit :=
  w <-- gets (fun w => w) ;;
  if table_visible w then renderNodesTable else mret' tt.

(** ** The table keeps the promise of a subscriber *)

Lemma renderNodesTable_frame : preserves renderNodesTable outside_nodes.
Proof. unfold renderNodesTable. frame_solve. Qed.

Lemma buildRoleCheckboxes_frame : preserves buildRoleCheckboxes outside_nodes.
Proof. unfold buildRoleCheckboxes. frame_solve. Qed.

Definition table_bus : bus world (option info_update) :=
  bus_on (js "nodeInfoChanged") on_node_info_changed (bus_on (js "nodesChanged") on_nodes_changed ∅).

Lemma table_bus_fns ev fn :
  fn ∈ default [] (table_bus !! ev) -> fn = on_nodes_changed \/ fn = on_node_info_changed.
Proof.
  unfold table_bus, bus_on. rewrite !lookup_insert, lookup_empty.
  repeat case_decide; cbn; intros Hin;
    repeat (apply elem_of_cons in Hin as [->|Hin]; [by auto|]); by apply elem_of_nil in Hin.
Qed.

(** What rendering and rebuilding the boxes leave alone, a subscriber does. *)
Lemma table_bus_preserves {A} (p : world -> A) ev fn d :
  preserves renderNodesTable p -> preserves buildRoleCheckboxes p ->
  fn ∈ default [] (table_bus !! ev) -> preserves (fn d) p.
Proof.
  intros ? ? [-> | ->]%table_bus_fns; unfold on_nodes_changed, on_node_info_changed, when; frame_solve.
Qed.

Lemma table_bus_frame ev fn d : fn ∈ default [] (table_bus !! ev) -> preserves (fn d) outside_nodes.
Proof. apply table_bus_preserves; [apply renderNodesTable_frame|apply buildRoleCheckboxes_frame]. Qed.

#[export] Instance nodes_bus : Bus := {| page_bus := table_bus; bus_frame := table_bus_frame |}.

End table.

(** ** The order of the table *)

Section order.
Context `{Platform}.

Lemma num_diff_sign_le a b :
  num_is_nan a = false -> num_is_nan b = false ->
  num_diff_sign a b <= 0 <-> ~ lex_lt (order_key b) (order_key a).
Proof.
  intros Ha Hb. rewrite <- (num_ltb_lex b a) by done. unfold num_diff_sign.
  destruct (num_ltb a b) eqn:E1, (num_ltb b a) eqn:E2; try (split; [done|lia]); split; try done; try lia.
  exfalso. apply num_ltb_lex in E1, E2; try done. unfold lex_lt in *. lia.
Qed.

Lemma num_diff_sign_total a b : num_diff_sign a b <= 0 \/ num_diff_sign b a <= 0.
Proof. unfold num_diff_sign. destruct (num_ltb a b), (num_ltb b a); lia. Qed.

Lemma num_diff_sign_trans a b c :
  num_is_nan a = false -> num_is_nan b = false -> num_is_nan c = false ->
  num_diff_sign a b <= 0 -> num_diff_sign b c <= 0 -> num_diff_sign a c <= 0.
Proof.
  intros Ha Hb Hc. rewrite !num_diff_sign_le by done. unfold lex_lt. lia.
Qed.

(** The values of one column: all strings, all integers or all numbers. *)
Inductive same_kind : sort_value -> sort_value -> Prop :=
| sk_str a b : same_kind (SStr a) (SStr b)
| sk_int a b : same_kind (SInt a) (SInt b)
| sk_flt a b : same_kind (SFlt a) (SFlt b).

Definition value_ok (v : sort_value) : Prop := match v with SFlt x => num_is_nan x = false | _ => True end.

Lemma getSortValue_kind e n e' n' key : same_kind (getSortValue e n key) (getSortValue e' n' key).
Proof. unfold getSortValue, int_or. repeat case_decide; constructor. Qed.

Lemma getSortValue_ok e n key : json_floats e -> value_ok (getSortValue e n key).
Proof.
  intros He. unfold getSortValue, int_or. repeat case_decide; try done. cbn.
  destruct (best_snr e) as [v|] eqn:Ev; cbn; [|exact (num_of_Z_not_nan (-999))].
  pose proof (finite_not_nan v (best_snr_finite e v He Ev)).
  destruct (truthy v); [done|exact (num_of_Z_not_nan (-999))].
Qed.

Lemma value_cmp_total a b : same_kind a b -> value_cmp a b <= 0 \/ value_cmp b a <= 0.
Proof.
  destruct 1; cbn; [|lia|apply num_diff_sign_total].
  pose proof (localeCompare_sym a b). lia.
Qed.

Lemma value_cmp_trans a b c :
  same_kind a b -> same_kind b c -> value_ok a -> value_ok b -> value_ok c ->
  value_cmp a b <= 0 -> value_cmp b c <= 0 -> value_cmp a c <= 0.
Proof.
  intros Hab Hbc. destruct Hab; inversion Hbc; subst; cbn; intros Ha Hb Hc.
  - apply localeCompare_trans.
  - lia.
  - by apply num_diff_sign_trans.
Qed.

Lemma value_cmp_antisym a b : same_kind a b -> value_ok a -> value_ok b ->
  Z.sgn (value_cmp a b) = - Z.sgn (value_cmp b a).
Proof.
  destruct 1 as [a b|a b|a b]; cbn; intros Ha Hb; [apply localeCompare_sym|lia|].
  unfold num_diff_sign. destruct (num_ltb a b) eqn:E1, (num_ltb b a) eqn:E2; try done.
  exfalso. apply num_ltb_lex in E1, E2; try done. unfold lex_lt in *. lia.
Qed.

Definition row_ok (p : Z * entry) : Prop := json_floats p.2.

(** The comparison of two rows of the same rank. *)
Definition dir_cmp (key dir : jstr) (a b : Z * entry) : Z :=
  let cmp := value_cmp (getSortValue a.2 a.1 key) (getSortValue b.2 b.1 key) in
  if decide (dir = js "desc") then - cmp else cmp.

Lemma row_cmp_le key dir a b :
  row_cmp key dir a b <= 0 <->
  fav_rank a.2 < fav_rank b.2 \/ fav_rank a.2 = fav_rank b.2 /\ dir_cmp key dir a b <= 0.
Proof.
  unfold row_cmp, dir_cmp. destruct (Z.eqb_spec (fav_rank a.2) (fav_rank b.2)); cbn; lia.
Qed.

Lemma dir_cmp_total key dir a b : dir_cmp key dir a b <= 0 \/ dir_cmp key dir b a <= 0.
Proof.
  unfold dir_cmp. pose proof (getSortValue_kind a.2 a.1 b.2 b.1 key) as Hk.
  destruct Hk as [x y|x y|x y]; cbn; case_decide; try lia.
  - pose proof (localeCompare_sym x y). lia.
  - pose proof (localeCompare_sym x y). lia.
  - unfold num_diff_sign. destruct (num_ltb x y) eqn:E1, (num_ltb y x) eqn:E2; try lia.
    destruct (num_is_nan x) eqn:Ex, (num_is_nan y) eqn:Ey; [| | |].
    1-3: exfalso; revert E1; destruct x, y; done.
    exfalso. apply num_ltb_lex in E1, E2; try done. unfold lex_lt in *. lia.
  - apply num_diff_sign_total.
Qed.

Lemma row_cmp_total key dir a b : row_cmp key dir a b <= 0 \/ row_cmp key dir b a <= 0.
Proof. rewrite !row_cmp_le. destruct (dir_cmp_total key dir a b); lia. Qed.

Lemma dir_cmp_trans key dir a b c :
  row_ok a -> row_ok b -> row_ok c ->
  dir_cmp key dir a b <= 0 -> dir_cmp key dir b c <= 0 -> dir_cmp key dir a c <= 0.
Proof.
  intros Ha Hb Hc. unfold dir_cmp.
  pose proof (getSortValue_kind a.2 a.1 b.2 b.1 key) as Kab.
  pose proof (getSortValue_kind b.2 b.1 c.2 c.1 key) as Kbc.
  pose proof (getSortValue_kind a.2 a.1 c.2 c.1 key) as Kac.
  apply (getSortValue_ok _ a.1 key) in Ha. apply (getSortValue_ok _ b.1 key) in Hb.
  apply (getSortValue_ok _ c.1 key) in Hc.
  generalize dependent (getSortValue a.2 a.1 key). generalize dependent (getSortValue b.2 b.1 key).
  generalize dependent (getSortValue c.2 c.1 key). intros vc Hc' vb Hb' Kbc va Ha' Kab Kac.
  case_decide; [|by apply value_cmp_trans].
  pose proof (value_cmp_antisym _ _ Kab Ha' Hb'). pose proof (value_cmp_antisym _ _ Kbc Hb' Hc').
  pose proof (value_cmp_antisym _ _ Kac Ha' Hc').
  assert (same_kind vc vb /\ same_kind vb va) as [Kcb Kba]
    by (by destruct Kab; inversion Kbc; subst; repeat constructor).
  pose proof (value_cmp_trans vc vb va Kcb Kba Hc' Hb' Ha'). lia.
Qed.

Lemma row_cmp_trans key dir a b c :
  row_ok a -> row_ok b -> row_ok c ->
  row_cmp key dir a b <= 0 -> row_cmp key dir b c <= 0 -> row_cmp key dir a c <= 0.
Proof.
  intros Ha Hb Hc. rewrite !row_cmp_le. pose proof (dir_cmp_trans key dir a b c Ha Hb Hc). lia.
Qed.
Definition shown_rows (s : nodes) (searchTerm : jstr) (dir : directory) : list (Z * entry) :=
  filter (fun p => table_passes s searchTerm p.1 p.2 = true) (dir_entries dir).

Lemma shown_rows_ok s term dir : map_Forall (fun _ => json_floats) dir -> Forall row_ok (shown_rows s term dir).
Proof.
  intros Hd. apply Forall_forall. intros [n e] [_ Hin%elem_of_dir_entries]%list_elem_of_filter.
  by apply (Hd n).
Qed.

(** C12. For a directory whose floating point fields are finite, as JSON makes
    them, the table lists exactly the nodes of the directory that pass its filters,
    each once, favourites before the others whatever the direction of the sort,
    within each group ordered by the chosen column in the chosen direction, and
    nodes with equal values in the order of their numbers. *)
Theorem table_entries_spec s term dir :
  map_Forall (fun _ => json_floats) dir ->
  let l := table_entries s term dir in
  l ≡ₚ shown_rows s term dir /\ NoDup l.*1 /\
  StronglySorted (fun a b => fav_rank a.2 < fav_rank b.2 \/
    fav_rank a.2 = fav_rank b.2 /\ dir_cmp (n_sortKey s) (n_sortDir s) a b <= 0) l /\
  (forall a, a ∈ l -> StronglySorted key_le (filter (equal_to (row_cmp (n_sortKey s) (n_sortDir s)) a) l)).
Proof.
  intros Hd. cbv zeta. unfold table_entries. fold (shown_rows s term dir).
  pose proof (shown_rows_ok s term dir Hd) as Hok.
  set (cmp := row_cmp (n_sortKey s) (n_sortDir s)).
  pose proof (sort_perm cmp (shown_rows s term dir)) as Hperm.
  split; [done|]. split; [|split].
  - rewrite Hperm. eapply sublist_NoDup; [apply (dir_entries_NoDup dir)|].
    apply fmap_sublist, sublist_filter.
  - eapply StronglySorted_impl; [intros a b Hab; apply row_cmp_le; exact Hab|].
    apply (sort_ordered cmp row_ok); [apply row_cmp_total|apply row_cmp_trans|done].
  - intros a Ha. rewrite Hperm in Ha.
    assert (row_ok a) as Ra by (rewrite Forall_forall in Hok; auto).
    rewrite (sort_stable cmp row_ok) by
      (apply row_cmp_total || apply row_cmp_trans || assumption).
    do 2 apply StronglySorted_filter. apply dir_entries_sorted.
Qed.
End order.

(** ** Rendering *)

Section render.
Context `{Platform}.

(** Both coordinates are there, or the row does not show them. *)
Definition coords_given (e : entry) : bool :=
  negb (has_pos e) || is_some (e_flt e !! latitude) && is_some (e_flt e !! longitude).

Lemma buildNodeRow_ok t now num e :
  is_ok (buildNodeRow t now num e) = coords_given e.
Proof.
  unfold buildNodeRow, coord_cell, coords_given. destruct (has_pos e); [|done].
  by destruct (e_flt e !! latitude), (e_flt e !! longitude).
Qed.

Lemma build_rows_run t now l :
  match build_rows t now l with
  | Ok h => Forall (fun p => coords_given p.2 = true) l /\
            exists rows, Forall2 (fun p r => buildNodeRow t now p.1 p.2 = Ok r) l rows /\ h = mjoin rows
  | Throw _ => ~ Forall (fun p => coords_given p.2 = true) l
  end.
Proof.
  induction l as [|[num e] l IH]; [split; [constructor|]; exists []; by split; [constructor|]|].
  cbn [build_rows]. pose proof (buildNodeRow_ok t now num e) as Hr.
  destruct (buildNodeRow t now num e) as [r|err] eqn:E; cbn in Hr |- *; cycle 1.
  { intros [Hc _]%Forall_cons. cbn in Hc. congruence. }
  destruct (build_rows t now l) as [h|err]; cbn; [|by intros [_ Hl]%Forall_cons].
  destruct IH as [Hl (rows & Hrows & ->)]. split; [by constructor|].
  exists (r :: rows). split; [by constructor|done].
Qed.

(** The rows a rendering of page [w] shows. *)
Definition page_rows (w : world) (dir : directory) : list (Z * entry) :=
  table_entries (w_nodes w) (table_search (el_value (w_dom w "nodes-search"))) dir.

(** C13. Rendering the table writes one row per listed node, in order, replaces the
    trace buttons of the table by one per row in the state of the traceroute
    machine, writes the count and shows the empty hint exactly when no node is
    listed. It fails exactly when a listed node has a position with a missing
    coordinate, and then leaves the page untouched. *)
Theorem renderNodesTable_spec w dir :
  w_nodeDir w = Some dir ->
  let l := page_rows w dir in
  let w' := snd (renderNodesTable w) in
  (Forall (fun p => coords_given p.2 = true) l ->
   fst (renderNodesTable w) = Ok tt /\
   (exists rows, Forall2 (fun p r => buildNodeRow (w_trace w) (now_s w) p.1 p.2 = Ok r) l rows /\
      el_content (w_dom w' "nodes-tbody") = mjoin rows) /\
   filter (fun b => bt_compact b = true) (w_btns w') = (fun p => row_btn (w_trace w) p.1) <$> l /\
   el_content (w_dom w' "nodes-count")
   = html_escape (nodes_count (w_nodes w) (table_search (el_value (w_dom w "nodes-search")))
       (length l) (size dir)) /\
   has_class w' "nodes-empty" (js "hidden") = negb (bool_decide (l = []))) /\
  (~ Forall (fun p => coords_given p.2 = true) l ->
   exists err, renderNodesTable w = (Throw err, w)).
Proof.
  intros Hd. cbv zeta. unfold renderNodesTable, mbind', gets, lift. rewrite Hd.
  fold (page_rows w dir). pose proof (build_rows_run (w_trace w) (now_s w) (page_rows w dir)) as Hb.
  destruct (build_rows (w_trace w) (now_s w) (page_rows w dir)) as [h|err]; cycle 1.
  { split; [done|]. intros _. by exists err. }
  destruct Hb as [Hc (rows & Hrows & ->)]. split; [intros _|done].
  cbn [modify set_html set_text on_elem].
  assert (forall m : Page unit, m = class_remove "nodes-empty" (js "hidden") \/ m = class_add "nodes-empty" (js "hidden") ->
    forall w0, fst (m w0) = Ok tt /\
    el_content (w_dom (snd (m w0)) "nodes-tbody") = el_content (w_dom w0 "nodes-tbody") /\
    el_content (w_dom (snd (m w0)) "nodes-count") = el_content (w_dom w0 "nodes-count") /\
    w_btns (snd (m w0)) = w_btns w0) as Hm by (by intros m [-> | ->] w0).
  match goal with |- context [match page_rows w dir with [] => ?a | _ :: _ => ?b end ?w0] =>
    set (w1 := w0); set (m := match page_rows w dir with [] => a | _ :: _ => b end) end.
  destruct (Hm m) with (w0 := w1) as (E1 & E2 & E3 & E4); [subst m; destruct (page_rows w dir); auto|].
  split; [exact E1|]. rewrite E2, E3, E4. split; [exists rows; split; [done|]|split; [|split]].
  - subst w1. cbn. by dom_lookup.
  - subst w1. cbn. rewrite filter_app, (filter_none _ (filter _ _)), filter_all; [done| |].
    + by apply Forall_fmap, Forall_true.
    + apply Forall_forall. intros b [Hf _]%list_elem_of_filter. congruence.
  - subst w1. cbn. by dom_lookup.
  - subst m. destruct (page_rows w dir); [apply class_remove_has|apply class_add_has].
Qed.

Definition flip_dir (d : jstr) : jstr := if decide (d = js "asc") then js "desc" else js "asc".

Lemma sort_click_same key s : n_sortKey s = key -> sort_click key s = on_n_sortDir flip_dir s.
Proof. intros Hk. unfold sort_click. by rewrite decide_True. Qed.

Lemma flip_flip d : d = js "asc" \/ d = js "desc" -> flip_dir (flip_dir d) = d.
Proof. intros [-> | ->]; by_decide. Qed.

Lemma flip_range d : flip_dir d = js "asc" \/ flip_dir d = js "desc".
Proof. unfold flip_dir. case_decide; auto. Qed.

Lemma flip_ne d : flip_dir d <> d.
Proof. unfold flip_dir. case_decide as Hd; [rewrite Hd; by_decide|congruence]. Qed.

(** The two directions order the rows of equal rank in opposite ways. *)
Lemma flip_reverses key d a b :
  d = js "asc" \/ d = js "desc" ->
  row_cmp key (flip_dir d) a b =
  if fav_rank a.2 =? fav_rank b.2 then - row_cmp key d a b else row_cmp key d a b.
Proof.
  unfold row_cmp. intros Hd. cbv zeta. destruct (fav_rank a.2 =? fav_rank b.2); [|done]. cbn [negb].
  generalize (value_cmp (getSortValue a.2 a.1 key) (getSortValue b.2 b.1 key)). intros c.
  destruct Hd as [-> | ->]; cbn [flip_dir]; unfold flip_dir;
    repeat (case_decide; try congruence); try lia; by discriminate.
Qed.

(** C14. Clicking the heading of another column sorts by that column in ascending
    order. Clicking the heading of the current column reverses the order of the
    rows, favourites still first - the comparison of two favourites, and of two
    other nodes, changes its sign, that of a favourite with another node does
    not - and changes nothing else of the table's state. The direction stays one
    of "asc" and "desc", and two more clicks return to the state after the
    first. *)
Theorem sort_click_spec key s :
  let s1 := sort_click key s in
  (n_sortKey s <> key ->
   s1 = on_n_sortDir (fun _ => js "asc") (on_n_sortKey (fun _ => key) s)) /\
  (n_sortKey s = key -> n_sortDir s = js "asc" \/ n_sortDir s = js "desc" ->
   s1 = on_n_sortDir (fun _ => n_sortDir s1) s /\ n_sortDir s1 <> n_sortDir s /\
   forall a b, row_cmp key (n_sortDir s1) a b =
     if fav_rank a.2 =? fav_rank b.2 then - row_cmp key (n_sortDir s) a b else row_cmp key (n_sortDir s) a b) /\
  (n_sortDir s1 = js "asc" \/ n_sortDir s1 = js "desc") /\
  sort_click key (sort_click key s1) = s1.
Proof.
  assert (n_sortKey (sort_click key s) = key /\
          (n_sortDir (sort_click key s) = js "asc" \/ n_sortDir (sort_click key s) = js "desc")) as [Hk Hd].
  { unfold sort_click. case_decide; cbn; [split; [done|apply flip_range]|auto]. }
  cbv zeta. split; [|split; [|split; [exact Hd|]]].
  - intros Hne. unfold sort_click. by rewrite decide_False.
  - intros E Ha. rewrite sort_click_same by done. cbn [n_sortDir on_n_sortDir].
    split; [done|]. split; [apply flip_ne|]. intros a b. by apply flip_reverses.
  - rewrite (sort_click_same key (sort_click key s)) by done. rewrite sort_click_same by done.
    generalize dependent (sort_click key s). intros [] _. cbn. unfold on_n_sortDir. cbn.
    intros Hd. by rewrite flip_flip.
Qed.
End render.


(** ** Witnesses *)

Definition table_dir : directory :=
  {[ 5 := put_int last_heard 900 berlin;
     7 := put_bool is_favorite true (put_int last_heard 100 berlin);
     9 := put_int last_heard 500 (put_flt latitude (num_of_Z 1) empty_entry) ]}.
Definition table_state : nodes :=
  on_n_sortDir (fun _ => js "desc") (on_n_sortKey (fun _ => js "last_heard") (w_nodes map_page)).

Lemma table_entries_spec_witness :
  let P := Reference.platform in let s := table_state in
  let l := table_entries s [] table_dir in
  l ≡ₚ shown_rows s [] table_dir /\ NoDup l.*1 /\
  StronglySorted (fun a b => fav_rank a.2 < fav_rank b.2 \/
    fav_rank a.2 = fav_rank b.2 /\ dir_cmp (n_sortKey s) (n_sortDir s) a b <= 0) l /\
  (forall a, a ∈ l -> StronglySorted key_le (filter (equal_to (row_cmp (n_sortKey s) (n_sortDir s)) a) l)).
Proof. apply (@table_entries_spec Reference.platform table_state [] table_dir). by_decide. Defined.

(** The favourite comes first although it was heard least recently. *)
Example table_order :
  (@table_entries Reference.platform table_state [] table_dir).*1 = [7; 5; 9].
Proof. by vm_compute. Qed.

Definition table_page : world := on_w_nodeDir (fun _ => Some table_dir) map_page.

(** Node 9 has no longitude. *)
Lemma renderNodesTable_spec_witness :
  let P := Reference.platform in
  exists err, renderNodesTable table_page = (Throw err, table_page).
Proof.
  intros P. destruct (@renderNodesTable_spec Reference.platform table_page table_dir eq_refl) as [_ Hfail].
  apply Hfail. by_decide.
Defined.
