(* ===== verification/NodeActions.v ===== *)
(** * nodes.js: the actions menu of a node

    The dropdown of a row, the requests it sends and the optimistic update of a
    favourite, which runs when the server has accepted the request. *)

From S2P Require Import Prelude Sort JsString JsNumber Platform Html Markup NodeDir Mesh World.
From S2P Require Import TraceHistory Route Trace Heatmap Filters Popup MapView NodesTable.

Section actions.
Context `{Platform}.

(** [nodeDir && nodeDir[numStr] && nodeDir[numStr].is_favorite] *)
Definition is_fav (nodeDir : option directory) (num : Z) : bool :=
  match dir_get nodeDir num with Some e => truthy (e_bool e !! is_favorite) | None => false end.

Definition action_item (action : string) (num : Z) (icon label : jstr) : jstr :=
  html "<div class=`na-item` onclick=`nodeAction('" +++ js action +++ js "'," +++ dec num +++ html ")`>"
  +++ icon +++ label +++ js "</div>".

Definition dropdown_html (fav : bool) (num : Z) : jstr :=
  let favLabel := if fav then js "Remove Favorite" else js "Add Favorite" in
  let favIcon := html "<svg viewBox=`0 0 24 24` fill=`" +++ (if fav then js "currentColor" else js "none")
    +++ html "` stroke=`currentColor` stroke-width=`2`><path d=`M20.84 4.61a5.5 5.5 0 0 0-7.78 0L12 5.67l-1.06-1.06a5.5 5.5 0 0 0-7.78 7.78l1.06 1.06L12 21.23l7.78-7.78 1.06-1.06a5.5 5.5 0 0 0 0-7.78z`/></svg>" in
  action_item "position" num SVG_MAP_PIN (js "Request Position")
  +++ action_item "nodeinfo" num SVG_USER (js "Request NodeInfo")
  +++ action_item "storeforward" num SVG_ARCHIVE (js "Store &amp; Forward")
  +++ html "<div class=`na-sep`></div>"
  +++ html "<div class=`na-item na-fav` onclick=`nodeAction('favorite'," +++ dec num +++ html ")`>"
  +++ favIcon +++ favLabel +++ js "</div>".

Definition closeNodeActions : Page unit := modify (on_w_nodes (on_n_dropdown (fun _ => None))).

(** The dropdown is appended next to the button of row [numStr]; the timer of 0 ms
    arms the listener for the next click. *)
Definition toggleNodeActions (numStr : jstr) : Page unit :=
  closeNodeActions ;;;
  nodeDir <-- gets w_nodeDir ;;
  let num := default 0 (parseInt numStr) in
  modify (on_w_nodes (on_n_dropdown (fun _ => Some (Dropdown numStr (dropdown_html (is_fav nodeDir num) num))))) ;;;
  _ <-- set_timer CbArmDropdown ;;
  mret' tt.

(** A request that only reports its failure. *)
Definition request (url what : string) (body : list (string * jval)) : Page unit :=
  emit_effect (Post url body) ;;; start_fetch (FAction what).

Definition nodeAction (action : string) (nodeNum : Z) : Page unit :=
  closeNodeActions ;;;
  nodeDir <-- gets w_nodeDir ;;
  if decide (action = "position"%string) then
    request "/api/request-position" "Position request failed:" [("target"%string, JNum nodeNum)]
  else if decide (action = "nodeinfo"%string) then
    request "/api/request-nodeinfo" "NodeInfo request failed:" [("target"%string, JNum nodeNum)]
  else if decide (action = "storeforward"%string) then
    request "/api/store-forward" "Store & Forward request failed:" [("target"%string, JNum nodeNum)]
  else if decide (action = "favorite"%string) then
    let newFav := negb (is_fav nodeDir nodeNum) in
    emit_effect (Post "/api/favorite" [("node_num"%string, JNum nodeNum); ("is_favorite"%string, JBool newFav)]) ;;;
    start_fetch (FFavorite nodeNum newFav)
  else mret' tt.

(** The outcome of a request: [ok] is [r.ok], false also when it was rejected. *)
Definition action_done (what : string) (ok : bool) : Page unit :=
  when (negb ok) (emit_effect (ConsoleError what)).

(** The [then] of the favourite request; its [catch] reports what [then] throws. *)
Definition favorite_done (nodeNum : Z) (newFav ok : bool) : Page unit := fun w =>
  let report := emit_effect (ConsoleError "Favorite toggle failed:") in
  let body :=
    nodeDir <-- gets w_nodeDir ;;
    match nodeDir with
    | Some dir => if is_some (dir !! nodeNum)
                  then set_dir (dir_favorite nodeNum newFav dir) ;;; renderNodesTable
                  else mret' tt
    | None => mret' tt
    end in
  if ok then match body w with
             | (Ok _, w') => (Ok tt, w')
             | (Throw _, w') => report w'
             end
  else report w.

(** C15. Marking a favourite is a toggle of what the page shows: the request asks
    for the opposite of the current mark, and once the server has accepted it,
    exactly that node has exactly that mark, whether or not the table could be
    rendered; a refusal changes nothing on the page but adds a message to the
    console. *)
Theorem favorite_roundtrip w dir n :
  w_nodeDir w = Some dir ->
  let newFav := negb (is_fav (Some dir) n) in
  let w1 := snd (nodeAction "favorite" n w) in
  w_fetches w1 = <[w_next w := FFavorite n newFav]> (w_fetches w) /\
  w_log w1 = w_log w ++ [Post "/api/favorite" [("node_num"%string, JNum n); ("is_favorite"%string, JBool newFav)]] /\
  w_nodeDir w1 = Some dir /\
  (let w2 := snd (favorite_done n newFav true w1) in
   fst (favorite_done n newFav true w1) = Ok tt /\
   w_nodeDir w2 = Some (dir_favorite n newFav dir) /\
   (is_Some (dir !! n) -> is_fav (w_nodeDir w2) n = newFav) /\
   (forall k, k <> n -> dir_get (w_nodeDir w2) k = dir !! k)) /\
  favorite_done n newFav false w1
  = (Ok tt, on_w_log (fun l => l ++ [ConsoleError "Favorite toggle failed:"]) w1).
Proof.
  intros Hd. cbv zeta. unfold nodeAction, mbind', gets, closeNodeActions, modify.
  cbn [w_nodeDir on_w_nodes]. rewrite Hd. rewrite 3!decide_False by done.
  rewrite decide_True by done. cbn [emit_effect start_fetch modify snd].
  set (newFav := negb _). set (w1 := on_w_next S _).
  assert (w_nodeDir w1 = Some dir) as Hd1 by done.
  split; [done|]. split; [done|]. split; [done|]. split; [|done].
  assert (fst (favorite_done n newFav true w1) = Ok tt /\
          w_nodeDir (snd (favorite_done n newFav true w1)) = Some (dir_favorite n newFav dir)) as [E1 E2].
  { unfold favorite_done, mbind', gets. rewrite Hd1. unfold dir_favorite.
    destruct (dir !! n) as [e|] eqn:He; cbn [is_some]; [|done].
    set (w2 := on_w_nodeDir (fun _ => Some (<[n := put_bool is_favorite newFav e]> dir)) w1).
    change (set_dir (<[n := put_bool is_favorite newFav e]> dir) w1) with (@Ok unit tt, w2).
    cbv beta iota. pose proof (renderNodesTable_frame w2) as Hf.
    injection Hf as _ Hf _. destruct (renderNodesTable w2) as [[[]|err] w3]; by split; [|exact Hf]. }
  split; [exact E1|]. split; [exact E2|]. rewrite E2. unfold dir_favorite. split.
  - intros [e He]. unfold is_fav, dir_get. cbn. rewrite He, lookup_insert_eq. cbn.
    by rewrite lookup_insert_eq; destruct newFav.
  - intros k Hk. unfold dir_get. cbn. destruct (dir !! n); [|done]. by rewrite lookup_insert_ne.
Qed.
End actions.

Lemma favorite_roundtrip_witness :
  let P := Reference.platform in
  is_fav (w_nodeDir (snd (favorite_done 5 true true (snd (nodeAction "favorite" 5 map_page))))) 5 = true.
Proof.
  intros P. destruct (@favorite_roundtrip Reference.platform map_page map_dir 5 eq_refl) as (_ & _ & _ & (_ & _ & Hf & _) & _).
  apply Hf. by exists berlin.
Defined.
