(* ===== verification/Chat.v ===== *)
(** * chat.js: the chat tab

    Messages, their elements, the channel list and the input. The elements and
    the messages run in parallel: [chat_sync] says how. *)

From S2P Require Import Prelude JsString JsNumber Platform Html Markup NodeDir Mesh World.

Definition broadcast : Z := 4294967295.

Definition on_chat (f : chat -> chat) : Page unit := modify (on_w_chat f).

Section chat.
Context `{Platform}.

(** ** One message *)

(** [formatTime(ts)]; the parts of an invalid date are [NaN]. *)
Definition formatTime (ts : jstr) : jstr :=
  let part v := padStart 2 48%N (match v with Some z => dec z | None => js "NaN" end) in
  let '(h, m, s) := match localHMS ts with
                    | Some (h, m, s) => (Some h, Some m, Some s)
                    | None => (None, None, None)
                    end in
  part h +++ js ":" +++ part m +++ js ":" +++ part s.

Definition msg_class (borderColor : jstr) : jstr :=
  js "chat-msg flex items-baseline gap-2 py-1 px-2 border-l-2 " +++ borderColor
  +++ js " hover:bg-gray-800/30 rounded-r-sm transition-colors".

Definition meta_badges (msg : chat_msg) (isDM : bool) : jstr :=
  (if cm_via_mqtt msg then html "<span class=`text-[9px] font-bold uppercase px-1.5 py-px rounded bg-purple-500/15 text-purple-400 border border-purple-500/30`>MQTT</span>" else [])
  +++ (if isDM then html "<span class=`text-[9px] font-bold uppercase px-1.5 py-px rounded bg-amber-500/15 text-amber-400 border border-amber-500/30`>DM</span>" else []).

Definition signal_info (msg : chat_msg) : jstr :=
  if truthy (cm_rx_rssi msg) then
    html "<span class=`text-[10px] text-gray-600 tabular-nums`>" +++ dec (cm_rx_rssi msg) +++ js "dBm"
    +++ (if truthy (cm_rx_snr msg) then js " " +++ fixed (cm_rx_snr msg) 1 +++ js "dB" else [])
    +++ js "</span>"
  else [].

(** [title="..."] of a name. *)
Definition name_span (cls : jstr) (num : Z) (name : jstr) : jstr :=
  html "<span class=`" +++ cls +++ html "` title=`" +++ nodeHex num +++ html "`>" +++ esc name +++ js "</span>".

Definition message_html (nodeDir : option directory) (msg : chat_msg) : jstr :=
  let isOutgoing := bool_decide (cm_direction msg = js "outgoing") in
  let isDM := negb (cm_to msg =? broadcast) in
  let fromDisplay := or_else (A:=jstr) (Some (cm_from_name msg)) (nodeNameText nodeDir (cm_from msg)) in
  let toDisplay := or_else (A:=jstr) (Some (cm_to_name msg)) (nodeNameText nodeDir (cm_to msg)) in
  let nameColor := if isOutgoing then js "text-indigo-400"
                   else if isDM then js "text-amber-400" else js "text-blue-400" in
  let metaBadges := meta_badges msg isDM in
  let signalInfo := signal_info msg in
  html "<span class=`text-gray-600 text-[10px] w-[3.2rem] flex-shrink-0 text-right tabular-nums`>"
  +++ formatTime (cm_timestamp msg) +++ js "</span>"
  +++ (if isOutgoing then SVG_ARROW_OUT else SVG_ARROW_IN)
  +++ name_span (nameColor +++ js " font-semibold flex-shrink-0") (cm_from msg) fromDisplay
  +++ (if isDM then html "<span class=`text-gray-600 flex-shrink-0 text-[10px]`>→</span>"
                    +++ name_span (js "text-amber-300 flex-shrink-0") (cm_to msg) toDisplay
       else [])
  +++ html "<span class=`text-gray-300 break-all`>" +++ esc (cm_text msg) +++ js "</span>"
  +++ (if truthy metaBadges || truthy signalInfo then
         html "<span class=`flex items-center gap-1 flex-shrink-0 ml-auto`>" +++ metaBadges +++ signalInfo +++ js "</span>"
       else []).

Definition createMessageEl (nodeDir : option directory) (msg : chat_msg) : chat_el :=
  let isOutgoing := bool_decide (cm_direction msg = js "outgoing") in
  let isDM := negb (cm_to msg =? broadcast) in
  let borderColor := if isOutgoing then js "border-l-indigo-500/40"
                     else if isDM then js "border-l-amber-500/40" else js "border-l-blue-500/40" in
  ChatEl (cm_channel msg) (msg_class borderColor) (message_html nodeDir msg) [].

(** ** Channels *)

Definition chat_display (active : Z) (e : chat_el) : chat_el :=
  ChatEl (ce_channel e) (ce_class e) (ce_html e)
    (if ce_channel e =? active then [] else js "none").

Definition applyChatFilter : Page unit :=
  k <-- gets w_chat ;;
  let visible := length (filter (fun e => ce_channel e = k_active k) (k_els k)) in
  on_chat (on_k_els (fmap (chat_display (k_active k)))) ;;;
  set_display "chat-empty" (if (visible =? 0)%nat then [] else js "none").

(** [counts[ch]], from the messages. *)
Definition channel_count (ms : list chat_msg) (ch : Z) : nat :=
  length (filter (fun m => cm_channel m = ch) ms).

Definition badge_text (count : nat) : jstr := if (0 <? count)%nat then dec (Z.of_nat count) else [].

Definition updateBadges : Page unit :=
  k <-- gets w_chat ;;
  on_chat (on_k_buttons (fmap (fun b =>
    ChatBtn (cn_channel b) (cn_class b) (cn_label b)
      (badge_text (channel_count (k_all k) (cn_channel b)))))).

Definition btn_class (active : bool) : jstr :=
  if active then js "chat-channel-btn w-full flex items-center gap-2 px-3 py-1.5 text-xs rounded-md transition-colors bg-gray-800 text-gray-100"
  else js "chat-channel-btn w-full flex items-center gap-2 px-3 py-1.5 text-xs rounded-md transition-colors text-gray-400 hover:bg-gray-800/50 hover:text-gray-200".

(** [ch.name || ('Ch ' + ch.index)] *)
Definition channel_name (name : jstr) (index : Z) : jstr :=
  if truthy name then name else js "Ch " +++ dec index.

Definition renderSidebar (channels : list chat_channel) : Page unit :=
  on_chat (on_k_buttons (fun _ =>
    (fun ch => ChatBtn (ch_index ch) (btn_class false)
       (html "<span class=`text-gray-600 text-[11px]`>#</span><span class=`truncate flex-1 text-left`>"
        +++ esc (channel_name (ch_name ch) (ch_index ch))
        +++ html "</span><span class=`chat-channel-badge text-[10px] font-mono tabular-nums text-gray-600 flex-shrink-0`></span>")
       []) <$> channels)).

Definition selectChannel (index : Z) : Page unit :=
  on_chat (on_k_active (fun _ => index)) ;;;
  on_chat (on_k_buttons (fmap (fun b =>
    ChatBtn (cn_channel b) (btn_class (cn_channel b =? index)) (cn_label b) (cn_badge b)))) ;;;
  k <-- gets w_chat ;;
  set_text "chat-channel-header"
    (match head (filter (fun c => ch_index c = index) (k_channels k)) with
     | Some ch => channel_name (ch_name ch) index
     | None => js "Ch " +++ dec index
     end) ;;;
  applyChatFilter.

Definition initChat : Page unit :=
  k <-- gets w_chat ;;
  if k_initialized k then mret' tt else
  on_chat (on_k_initialized (fun _ => true)) ;;;
  emit_effect (Get "/api/chat/channels") ;;;
  start_fetch FChannels.

(** The answer of [loadChannels]: the request fails or its body is no JSON, the
    body is [null], or it is an array. The server always encodes an array. *)
Inductive channels_answer := NoAnswer | NullAnswer | ChannelList (channels : list chat_channel).

(** [null] is stored and empties the sidebar before [forEach] throws. Then
    [chatChannels] is read by no one, since [selectChannel] runs only from a button
    of the sidebar; the empty list stands for it. *)
Definition channels_loaded (answer : channels_answer) : Page unit :=
  match answer with
  | NoAnswer => emit_effect (ConsoleError "Failed to load channels:")
  | NullAnswer =>
      on_chat (on_k_channels (fun _ => [])) ;;;
      renderSidebar [] ;;;
      emit_effect (ConsoleError "Failed to load channels:")
  | ChannelList channels =>
      on_chat (on_k_channels (fun _ => channels)) ;;;
      renderSidebar channels ;;;
      match channels with
      | ch :: _ => selectChannel (ch_index ch)
      | [] => mret' tt
      end
  end.

(** ** Messages *)

Definition scrollChatToBottom : Page unit := on_chat (on_k_scrolled (fun _ => true)).

(** The user scrolled: [near] when less than 40 px from the bottom. *)
Definition on_chat_scroll (near : bool) : Page unit :=
  on_chat (on_k_scrolled (fun _ => false)) ;;; on_chat (on_k_autoScroll (fun _ => near)).

(** [None] and [[]] are the payloads [null] and [[]]. *)
Definition loadChatHistory (messages : option (list chat_msg)) : Page unit :=
  match messages with
  | None | Some [] => mret' tt
  | Some ms =>
      on_chat (on_k_all (fun _ => ms)) ;;;
      nodeDir <-- gets w_nodeDir ;;
      on_chat (on_k_els (fun _ => createMessageEl nodeDir <$> ms)) ;;;
      set_display "chat-empty" (js "none") ;;;
      updateBadges ;;;
      applyChatFilter ;;;
      scrollChatToBottom
  end.

Definition appendChatMessage (msg : chat_msg) : Page unit :=
  on_chat (on_k_all (fun ms => ms ++ [msg])) ;;;
  k <-- gets w_chat ;;
  when (500 <? length (k_all k))%nat
    (on_chat (on_k_all (drop 1)) ;;; on_chat (on_k_els (drop 1))) ;;;
  nodeDir <-- gets w_nodeDir ;;
  let el := createMessageEl nodeDir msg in
  set_display "chat-empty" (js "none") ;;;
  on_chat (on_k_els (fun els => els ++ [chat_display (k_active k) el])) ;;;
  updateBadges ;;;
  when (k_autoScroll k && (cm_channel msg =? k_active k)) scrollChatToBottom.

(** ** Sending *)

(** The counter and the send button; the height of the text area, which
    [autoResizeTextarea] sets from the layout, is not part of the page state. *)
Definition updateSendButton : Page unit :=
  value <-- gets (fun w => el_value (w_dom w "chat-input")) ;;
  let len := Z.of_nat (length value) in
  set_disabled "chat-send-btn" (length (trim value) =? 0)%nat ;;;
  set_text "chat-char-count" (dec (237 - len)) ;;;
  set_className "chat-char-count"
    (js "absolute right-3 bottom-2 text-[10px] font-mono tabular-nums pointer-events-none select-none "
     +++ (if 237 <=? len then js "text-red-400"
          else if 200 <? len then js "text-amber-400" else js "text-gray-600")).

Definition on_chat_input (value : jstr) : Page unit :=
  set_value "chat-input" value ;;; updateSendButton.

Definition sendMessage : Page unit :=
  w <-- gets (fun w => w) ;;
  let text := trim (el_value (w_dom w "chat-input")) in
  if negb (truthy text) then mret' tt else
  let channel := k_active (w_chat w) in
  set_disabled "chat-send-btn" true ;;;
  set_disabled "chat-input" true ;;;
  emit_effect (Post "/api/chat/send" [("text"%string, JStr text); ("to"%string, JNum broadcast);
                                      ("channel"%string, JNum channel)]) ;;;
  start_fetch FChatSend.

(** [then], [catch] and [finally]; [ok] is [r.ok], false when rejected. *)
Definition send_done (ok : bool) : Page unit :=
  (if ok then set_value "chat-input" [] ;;; updateSendButton
   else emit_effect (ConsoleError "Send failed:")) ;;;
  set_disabled "chat-send-btn" false ;;;
  set_disabled "chat-input" false ;;;
  updateSendButton.

(** Enter without shift; a disabled input receives no keys. *)
Definition on_chat_enter : Page unit :=
  w <-- gets (fun w => w) ;;
  when (truthy (trim (el_value (w_dom w "chat-input")))) sendMessage.

End chat.

(** ** The invariant *)

(** An element and its message: same channel, visible exactly on the active one. *)
Definition el_matches (active : Z) (e : chat_el) (m : chat_msg) : Prop :=
  ce_channel e = cm_channel m /\ (ce_display e = [] <-> cm_channel m = active).

Definition chat_sync (k : chat) : Prop :=
  Forall2 (el_matches (k_active k)) (k_els k) (k_all k) /\ (length (k_all k) <= 500)%nat.

Definition badges_ok (k : chat) : Prop :=
  Forall (fun b => cn_badge b = badge_text (channel_count (k_all k) (cn_channel b))) (k_buttons k).

Section sync.
Context `{Platform}.

Lemma el_display_matches active e m :
  ce_channel e = cm_channel m -> el_matches active (chat_display active e) m.
Proof.
  intros Hc. split; [done|]. unfold chat_display. cbn. rewrite Hc.
  by destruct (Z.eqb_spec (cm_channel m) active).
Qed.

Lemma create_channel nodeDir m : ce_channel (createMessageEl nodeDir m) = cm_channel m.
Proof. done. Qed.

Lemma refilter active active' els ms :
  Forall2 (el_matches active) els ms -> Forall2 (el_matches active') (chat_display active' <$> els) ms.
Proof.
  induction 1 as [|e m els ms [Hc _] _ IH]; [constructor|]. constructor; [|done].
  by apply el_display_matches.
Qed.

Lemma load_matches active nodeDir ms :
  Forall2 (el_matches active) (chat_display active <$> (createMessageEl nodeDir <$> ms)) ms.
Proof.
  induction ms as [|m ms IH]; [constructor|]. constructor; [|done]. by apply el_display_matches.
Qed.

Definition set_badges (k : chat) : chat :=
  on_k_buttons (fmap (fun b => ChatBtn (cn_channel b) (cn_class b) (cn_label b)
    (badge_text (channel_count (k_all k) (cn_channel b))))) k.

Lemma set_badges_ok k : badges_ok (set_badges k).
Proof. unfold badges_ok, set_badges. cbn. by apply Forall_fmap, Forall_true. Qed.

(** The chat state after each operation. *)
Lemma select_run index w :
  let k := w_chat w in let k' := w_chat (snd (selectChannel index w)) in
  k_all k' = k_all k /\ k_active k' = index /\ k_els k' = chat_display index <$> k_els k.
Proof. done. Qed.

Lemma append_run msg w :
  let k := w_chat w in let k' := w_chat (snd (appendChatMessage msg w)) in
  let full := (500 <? length (k_all k ++ [msg]))%nat in
  fst (appendChatMessage msg w) = Ok tt /\ badges_ok k' /\ k_active k' = k_active k /\
  k_all k' = (if full then drop 1 (k_all k ++ [msg]) else k_all k ++ [msg]) /\
  k_els k' = (if full then drop 1 (k_els k) else k_els k)
             ++ [chat_display (k_active k) (createMessageEl (w_nodeDir w) msg)].
Proof.
  cbv zeta. unfold appendChatMessage, mbind', gets, modify, on_chat, set_display, on_elem, when,
    updateBadges, scrollChatToBottom, on_chat, modify. cbn [w_chat on_w_chat k_all on_k_all fst snd].
  destruct (500 <? length (k_all (w_chat w) ++ [msg]))%nat;
    cbn [fst snd w_chat on_w_chat on_w_dom w_nodeDir];
    (destruct (k_autoScroll _ && _); (split; [done|]); (split; [apply set_badges_ok|]); done).
Qed.

Lemma append_sync msg w : chat_sync (w_chat w) -> chat_sync (w_chat (snd (appendChatMessage msg w))).
Proof.
  intros [Hs Hl]. destruct (append_run msg w) as (_ & _ & Ha & Hall & Hels). cbv zeta in *.
  unfold chat_sync. rewrite Ha, Hall, Hels. clear Ha Hall Hels.
  assert (el_matches (k_active (w_chat w)) (chat_display (k_active (w_chat w)) (createMessageEl (w_nodeDir w) msg)) msg)
    as Hm by by apply el_display_matches.
  destruct (Nat.ltb_spec 500 (length (k_all (w_chat w) ++ [msg]))) as [Hf|Hf];
    rewrite length_app in Hf; cbn in Hf.
  - rewrite drop_app_le by lia. split; [|rewrite length_app, length_drop; cbn; lia].
    apply Forall2_app; [by apply Forall2_drop|by constructor].
  - split; [|rewrite length_app; cbn; lia]. apply Forall2_app; [done|by constructor].
Qed.

Lemma load_sync messages w :
  match messages with Some ms => (length ms <= 500)%nat | None => True end ->
  chat_sync (w_chat w) -> chat_sync (w_chat (snd (loadChatHistory messages w))).
Proof.
  intros Hl Hs. destruct messages as [[|m ms]|]; try done. split; [|exact Hl].
  exact (load_matches (k_active (w_chat w)) (w_nodeDir w) (m :: ms)).
Qed.

Lemma select_sync index w : chat_sync (w_chat w) -> chat_sync (w_chat (snd (selectChannel index w))).
Proof.
  intros [Hs Hl]. destruct (select_run index w) as (E1 & E2 & E3). cbv zeta in *.
  unfold chat_sync. rewrite E1, E2, E3. split; [|done]. by eapply refilter.
Qed.

Lemma channels_sync answer w :
  chat_sync (w_chat w) -> chat_sync (w_chat (snd (channels_loaded answer w))).
Proof.
  intros Hs. destruct answer as [| |[|ch chs]]; try done.
  unfold channels_loaded, mbind', on_chat, renderSidebar, on_chat, modify. by apply select_sync.
Qed.

(** What can happen to the chat: its events, and whatever leaves its messages,
    elements and active channel alone. *)
Inductive chat_step : world -> world -> Prop :=
| cs_history messages w :
    match messages with Some ms => (length ms <= 500)%nat | None => True end ->
    chat_step w (snd (loadChatHistory messages w))
| cs_message msg w : chat_step w (snd (appendChatMessage msg w))
| cs_select index w : chat_step w (snd (selectChannel index w))
| cs_channels answer w : chat_step w (snd (channels_loaded answer w))
| cs_init w : chat_step w (snd (initChat w))
| cs_send w : chat_step w (snd (sendMessage w))
| cs_sent ok w : chat_step w (snd (send_done ok w))
| cs_other w w' :
    k_all (w_chat w') = k_all (w_chat w) -> k_els (w_chat w') = k_els (w_chat w) ->
    k_active (w_chat w') = k_active (w_chat w) -> chat_step w w'.

Lemma sync_frame w w' :
  k_all (w_chat w') = k_all (w_chat w) -> k_els (w_chat w') = k_els (w_chat w) ->
  k_active (w_chat w') = k_active (w_chat w) -> chat_sync (w_chat w) -> chat_sync (w_chat w').
Proof. unfold chat_sync. by intros -> -> ->. Qed.

Lemma chat_step_sync w w' : chat_step w w' -> chat_sync (w_chat w) -> chat_sync (w_chat w').
Proof.
  intros Hst Hs. destruct Hst as [messages w Hm|msg w|index w|answer w|w|w|ok w|w w'].
  - by apply load_sync.
  - by apply append_sync.
  - by apply select_sync.
  - by apply channels_sync.
  - apply (sync_frame w); try done; unfold initChat, mbind', gets; by destruct (k_initialized _).
  - apply (sync_frame w); try done; unfold sendMessage, mbind', gets; by destruct (negb _).
  - apply (sync_frame w); try done; by destruct ok.
  - by apply (sync_frame w).
Qed.

(** C8. In every state of the chat, the log holds at most 500 messages and its
    elements are in step with them: the elements are those of the messages, in
    order, and an element is visible exactly when its message belongs to the
    active channel. *)
Theorem chat_reachable_sync w0 w :
  k_all (w_chat w0) = [] -> k_els (w_chat w0) = [] -> rtc chat_step w0 w -> chat_sync (w_chat w).
Proof.
  intros Ha He Hr. assert (chat_sync (w_chat w0)) as Hs.
  { unfold chat_sync. rewrite Ha, He. split; [constructor|cbn; lia]. }
  clear Ha He. induction Hr as [|w w1 w2 Hst _ IH]; [done|]. by apply IH, (chat_step_sync w).
Qed.

(** C9. A message that arrives is stored last, the oldest one is dropped when
    there are more than 500, every badge then shows the number of stored messages
    of its channel, and the log scrolls down exactly if the user is at the bottom
    of the channel the message is for. *)
Theorem appendChatMessage_spec msg w :
  let k := w_chat w in let k' := w_chat (snd (appendChatMessage msg w)) in
  k_all k' = (if (500 <=? length (k_all k))%nat then drop 1 (k_all k ++ [msg]) else k_all k ++ [msg]) /\
  badges_ok k' /\
  k_scrolled k' = (if k_autoScroll k && (cm_channel msg =? k_active k) then true else k_scrolled k).
Proof.
  destruct (append_run msg w) as (_ & Hb & _ & Hall & _). cbv zeta in *.
  split; [|split; [done|]].
  - rewrite Hall, length_app. cbn [length].
    destruct (Nat.ltb_spec 500 (length (k_all (w_chat w)) + 1)), (Nat.leb_spec 500 (length (k_all (w_chat w)))); (done || lia).
  - unfold appendChatMessage, mbind', gets, modify, on_chat, set_display, on_elem, when,
      updateBadges, scrollChatToBottom, on_chat, modify. cbn [w_chat on_w_chat k_all on_k_all fst snd].
    destruct (500 <? _)%nat; cbn; by destruct (k_autoScroll (w_chat w) && _).
Qed.
End sync.

(** ** The markup of a message *)

Section markup.
Context `{Platform}.

(** The tags a message may consist of: text, an icon, no event handler. *)
Definition chat_tag (t : tag) : bool :=
  bool_decide (tag_name t ∈ [js "span"; js "svg"; js "polyline"])
  && forallb (fun a => bool_decide (a.1 ∈ js <$> ["class"; "title"; "viewbox"; "fill"; "stroke";
       "stroke-width"; "stroke-linecap"; "stroke-linejoin"; "points"]%string)) (tag_attrs t).

Lemma name_span_safe cls num name :
  cls ∈ [js "text-amber-300 flex-shrink-0"; js "text-indigo-400 font-semibold flex-shrink-0";
         js "text-amber-400 font-semibold flex-shrink-0"; js "text-blue-400 font-semibold flex-shrink-0"] ->
  safe chat_tag (name_span cls num name).
Proof.
  intros Hcls. unfold name_span.
  replace (html "<span class=`" +++ cls +++ html "` title=`" +++ nodeHex num +++ html "`>" +++ esc name +++ js "</span>")
    with (((html "<span class=`" +++ cls +++ html "` title=`") +++ html_escape (nodeHex num) +++ html "`>")
          +++ (html_escape name +++ js "</span>"))
    by (rewrite nodeHex_escape, esc_html_escape; unfold jcat; by rewrite <- !app_assoc).
  apply safe_app; [|safe_solve; apply safe_esc].
  repeat (apply elem_of_cons in Hcls as [->|Hcls]; [
    eapply safe_attr; [by vm_compute|by vm_compute|apply nodeHex_plain|apply nodeHex_plain
      |vm_compute; reflexivity|by vm_compute|intros x; eexists; split; [vm_compute; reflexivity|by vm_compute]]|]).
  by apply elem_of_nil in Hcls.
Qed.

Lemma formatTime_calm ts : calm (formatTime ts).
Proof.
  unfold formatTime. destruct (localHMS ts) as [[[h m] s]|]; [|by_decide].
  repeat (apply calm_app; [first [apply padStart_calm; [done|apply dec_calm]|by_decide]|]).
  apply padStart_calm; [done|apply dec_calm].
Qed.

(** C10. No message can inject markup into the chat: whatever its text and the
    names of its sender and receiver are, its element parses to text, spans and
    the direction icon, without event handlers. *)
Theorem message_inert nodeDir msg : all_ok chat_tag (html_tags (message_html nodeDir msg)).
Proof.
  apply safe_html. unfold message_html, meta_badges, signal_info.
  generalize (or_else (A:=jstr) (Some (cm_from_name msg)) (nodeNameText nodeDir (cm_from msg))).
  generalize (or_else (A:=jstr) (Some (cm_to_name msg)) (nodeNameText nodeDir (cm_to msg))).
  intros toDisplay fromDisplay. rewrite esc_html_escape. unfold SVG_ARROW_IN, SVG_ARROW_OUT.
  repeat lazymatch goal with
  | |- safe _ (name_span _ _ _) =>
      apply name_span_safe; repeat case_if; by_decide
  | |- safe _ (formatTime _) => apply safe_text, formatTime_calm
  | |- safe _ (dec _) => apply safe_text, dec_calm
  | |- safe _ (fixed _ _) => apply safe_text, fixed_calm
  | |- safe _ (html_escape _) => apply safe_esc
  | |- _ => safe_step
  end.
Qed.
End markup.

(** ** Sending *)

Section sending.
Context `{Platform}.

Lemma updateSendButton_run w :
  let w' := snd (updateSendButton w) in
  let value := el_value (w_dom w "chat-input") in
  fst (updateSendButton w) = Ok tt /\
  el_value (w_dom w' "chat-input") = value /\
  el_disabled (w_dom w' "chat-input") = el_disabled (w_dom w "chat-input") /\
  el_disabled (w_dom w' "chat-send-btn") = (length (trim value) =? 0)%nat /\
  el_content (w_dom w' "chat-char-count") = html_escape (dec (237 - Z.of_nat (length value))).
Proof.
  cbv zeta. unfold updateSendButton. cbn [mbind' gets].
  set (value := el_value (w_dom w "chat-input")).
  unfold set_disabled, set_text, set_html, set_className, set_classes, on_elem, mbind', modify.
  cbn [fst snd w_dom on_w_dom]. dom_lookup. done.
Qed.

(** C11. Sending posts the trimmed text to everyone on the active channel and locks
    the input until the answer; blank text sends nothing. A success clears the
    input, a failure keeps it, and both unlock it with the button and the counter
    showing the state of the text. *)
Theorem sendMessage_spec w ok :
  let text := trim (el_value (w_dom w "chat-input")) in
  (text = [] -> sendMessage w = (Ok tt, w)) /\
  (text <> [] ->
   let w1 := snd (sendMessage w) in let w2 := snd (send_done ok w1) in
   let left := if ok then [] else el_value (w_dom w "chat-input") in
   w_log w1 = w_log w ++ [Post "/api/chat/send" [("text"%string, JStr text);
     ("to"%string, JNum broadcast); ("channel"%string, JNum (k_active (w_chat w)))]] /\
   el_disabled (w_dom w1 "chat-input") = true /\ el_disabled (w_dom w1 "chat-send-btn") = true /\
   el_disabled (w_dom w2 "chat-input") = false /\ el_value (w_dom w2 "chat-input") = left /\
   el_disabled (w_dom w2 "chat-send-btn") = (length (trim left) =? 0)%nat /\
   el_content (w_dom w2 "chat-char-count") = html_escape (dec (237 - Z.of_nat (length left)))).
Proof.
  cbv zeta. unfold sendMessage. cbn [mbind' gets].
  destruct (trim (el_value (w_dom w "chat-input"))) as [|c text] eqn:Ht; cbn [truthy truthy_jstr negb].
  { split; [done|congruence]. }
  split; [congruence|]. intros _. split; [done|].
  cbn.
  split; [by dom_lookup|]. split; [by dom_lookup|].
  set (w1 := on_w_next S _).
  assert (el_value (w_dom w1 "chat-input") = el_value (w_dom w "chat-input")) as Hv
    by (unfold w1; cbn; by dom_lookup).
  clearbody w1. rewrite <- Hv. clear Hv Ht w. rename w1 into w.
  unfold send_done. set (m := if ok then _ else _).
  assert (fst (m w) = Ok tt /\ el_value (w_dom (snd (m w)) "chat-input")
          = if ok then [] else el_value (w_dom w "chat-input")) as [Hm Hv].
  { subst m. destruct ok; [|done].
    assert (forall w0, snd ((set_value "chat-input" [] ;;; updateSendButton) w0)
      = snd (updateSendButton (snd (set_value "chat-input" [] w0)))) as E by done.
    rewrite E. destruct (updateSendButton_run (snd (set_value "chat-input" [] w))) as (E1 & E2 & _).
    split; [exact E1|]. rewrite E2. cbn. by dom_lookup. }
  match goal with |- context [trim ?l] =>
    replace l with (el_value (w_dom (snd (m w)) "chat-input")) by exact Hv end.
  clearbody m. clear Hv.
  unfold mbind'. destruct (m w) as [r w2]. cbn [fst snd] in Hm |- *. subst r. cbv beta iota.
  set (w3 := snd (set_disabled "chat-input" false (snd (set_disabled "chat-send-btn" false w2)))).
  assert (el_value (w_dom w3 "chat-input") = el_value (w_dom w2 "chat-input") /\
          el_disabled (w_dom w3 "chat-input") = false) as [Hv Hd] by (unfold w3; cbn; by dom_lookup).
  change (set_disabled "chat-send-btn" false w2)
    with (@Ok unit tt, snd (set_disabled "chat-send-btn" false w2)). cbv beta iota.
  change (set_disabled "chat-input" false (snd (set_disabled "chat-send-btn" false w2)))
    with (@Ok unit tt, w3). cbv beta iota.
  destruct (updateSendButton_run w3) as (_ & E2 & E3 & E4 & E5). rewrite E2, E3, E4, E5, Hv, Hd. done.
Qed.
End sending.

(** The UTF-8 length, which the server limits to 237. *)
Fixpoint utf8_length (s : jstr) : Z :=
  match s with
  | [] => 0
  | c :: s' => (if (c <? 128)%N then 1 else if (c <? 2048)%N then 2
                else if ((55296 <=? c) && (c <? 57344))%N then 2 else 3) + utf8_length s'
  end.

(** ** What the chat tab gets wrong *)

Definition chat_page : world := initial_page (Some ∅) [] 0.
Definition hello (channel : Z) : chat_msg :=
  ChatMsg (js "t") 7 broadcast channel (js "hello") (js "A") [] (js "incoming") false 0 (S754_zero false).

(** The hint of an empty channel is hidden by a message for another channel:
    afterwards the active channel shows neither a message nor the hint. *)
Theorem empty_hint_lost :
  exists w : world,
    rtc (@chat_step Reference.platform) chat_page w /\
    k_active (w_chat w) = 0 /\ length (k_els (w_chat w)) = 1%nat /\
    Forall (fun e => ce_display e = js "none") (k_els (w_chat w)) /\
    el_display (w_dom w "chat-empty") = js "none".
Proof.
  set (P := Reference.platform).
  set (w0 := snd (selectChannel 0 chat_page)).
  exists (snd (appendChatMessage (hello 1) w0)). split.
  - apply rtc_l with w0; [exact (cs_select 0 chat_page)|]. exact (rtc_once _ _ (cs_message (hello 1) w0)).
  - split; [by vm_compute|]. split; [by vm_compute|]. split; [by_decide|]. by vm_compute.
Qed.

(** C40. The badges are blank after the channel list has arrived, however many
    messages are stored: the list is rebuilt without counting. *)
Theorem badges_blank :
  exists w : world,
    rtc (@chat_step Reference.platform) chat_page w /\
    channel_count (k_all (w_chat w)) 0 = 2%nat /\
    Forall (fun b => cn_channel b = 0 /\ cn_badge b = []) (k_buttons (w_chat w)) /\
    length (k_buttons (w_chat w)) = 1%nat.
Proof.
  set (P := Reference.platform).
  set (w0 := snd (loadChatHistory (Some [hello 0; hello 0]) chat_page)).
  set (w1 := snd (channels_loaded (ChannelList [ChatChannel 0 (js "Main")]) w0)).
  exists w1. split.
  - apply rtc_l with w0; [refine (cs_history (Some [hello 0; hello 0]) chat_page _); cbn; lia|].
    exact (rtc_once _ _ (cs_channels _ w0)).
  - split; [by vm_compute|]. split; [by_decide|]. by vm_compute.
Qed.

(** The counter counts UTF-16 units, the server counts bytes: a text that the
    counter finds 37 units short of the limit, with the button enabled, is longer
    than the 237 bytes the server accepts. *)
Theorem counter_not_bytes :
  exists (value : jstr) (w : world),
    w = snd (on_chat_input value chat_page) /\
    el_disabled (w_dom w "chat-send-btn") = false /\
    el_content (w_dom w "chat-char-count") = js "37" /\
    237 < utf8_length (trim value).
Proof.
  exists (replicate 200 233%N), (snd (on_chat_input (replicate 200 233%N) chat_page)).
  split; [done|]. split; [by vm_compute|]. split; [by vm_compute|]. by vm_compute.
Qed.

(** ** Witnesses *)

Lemma chat_reachable_sync_witness :
  chat_sync (w_chat (snd (@appendChatMessage Reference.platform (hello 1) chat_page))).
Proof.
  apply (@chat_reachable_sync Reference.platform chat_page); [done|done|].
  exact (rtc_once _ _ (@cs_message Reference.platform (hello 1) chat_page)).
Defined.
