(* ===== verification/Charts.v ===== *)
(** * app.js: the charts and the cards of the overview

    The traffic line chart, the doughnut of message types with its legend, and
    the cards, all fed by the [metrics] event: a full snapshot replaces the series,
    a delta appends one sample. *)

From S2P Require Import Prelude Sort JsString JsNumber Platform Html Markup NodeDir Mesh World.
From S2P Require Import TraceHistory Route Trace Heatmap Filters Popup MapView.

(** The payload of a [metrics] event. A delta has [latest_sample] and lacks the
    series, the limit and the directory. The counts of message types are listed as
    [Object.keys] enumerates them. *)
Record snapshot := Snapshot {
  sn_node_connected : bool; sn_node_address : jstr; sn_active_clients : Z; sn_uptime_str : jstr;
  sn_node_reconnects : Z; sn_config_cache_frames : Z; sn_config_cache_age : jstr;
  sn_frames_from_node : Z; sn_bytes_from_node : Z; sn_frames_to_node : Z; sn_bytes_to_node : Z;
  sn_traffic_series : option (list sample); sn_max_traffic_samples : option Z;
  sn_latest_sample : option sample;
  sn_message_type_counts : option (list (jstr * Z));
  sn_node_dir : option directory;
}.

(** ** Colours *)

Definition palette : list jstr :=
  js <$> ["#60a5fa"; "#f472b6"; "#34d399"; "#fbbf24"; "#a78bfa";
          "#fb923c"; "#22d3ee"; "#e879f9"; "#4ade80"; "#f87171";
          "#818cf8"; "#2dd4bf"; "#facc15"; "#c084fc"; "#fb7185"]%string.

Definition generateColors (n : nat) : list jstr :=
  (fun i => default [] (palette !! (i mod length palette)%nat)) <$> seq 0 n.

Definition legend_row (color label : jstr) : jstr :=
  html "<div class=`flex items-center gap-2 py-0.5`>"
  +++ html "<span class=`flex-shrink-0 w-2.5 h-2.5 rounded-sm` style=`background:" +++ color +++ html "`></span>"
  +++ html "<span class=`text-gray-300 truncate text-[11px] leading-tight` title=`" +++ label +++ html "`>"
  +++ label +++ js "</span>"
  +++ js "</div>".

(** [colors[i] || '#6b7280'] *)
Definition legend_color (colors : list jstr) (i : nat) : jstr :=
  or_else (A:=jstr) (colors !! i) (js "#6b7280").

Definition updateTypesLegend : Page unit :=
  c <-- gets w_charts ;;
  set_html "types-legend"
    (mjoin (imap (fun i label => legend_row (legend_color (c_type_colors c) i) label) (c_type_labels c))).

Section charts.
Context `{Platform} `{Bus}.

(** [Math.log] and [Math.pow] are the engine's. *)
Definition bytes_unit (bytes : Z) : Z :=
  Z.min (num_floor (num_div (math_log (num_of_Z bytes)) (math_log (num_of_Z 1024)))) 3.

Definition byte_units : list jstr := js <$> ["B"; "KB"; "MB"; "GB"]%string.

(** [bytes] counts bytes: an integer from 0 on, so [val] is one when [i] is 0. *)
Definition formatBytes (bytes : Z) : jstr :=
  if bytes =? 0 then js "0 B" else
  let i := bytes_unit bytes in
  let val := num_div (num_of_Z bytes) (math_pow (num_of_Z 1024) (num_of_Z i)) in
  (if i =? 0 then dec bytes else fixed val 1) +++ js " "
  +++ default (js "undefined") (if i <? 0 then None else byte_units !! Z.to_nat i).

(** [new Date(s.ts).toLocaleTimeString(...)] *)
Definition sample_label (s : sample) : jstr := localeTime (s_ts s).

Definition on_charts (f : charts -> charts) : Page unit := modify (on_w_charts f).

(** [trafficData] of a list of samples. *)
Definition set_series (l : list sample) (c : charts) : charts :=
  on_c_fo (fun _ => s_fo <$> l) (on_c_fi (fun _ => s_fi <$> l) (on_c_labels (fun _ => sample_label <$> l) c)).

Definition set_types (counts : list (jstr * Z)) (c : charts) : charts :=
  on_c_type_colors (fun _ => generateColors (length counts))
    (on_c_type_values (fun _ => counts.*2) (on_c_type_labels (fun _ => counts.*1) c)).

(** The top-level statements that create the charts from the data in the page. *)
Definition start_charts (initialTrafficSeries : list sample) (initialTypeCounts : list (jstr * Z)) : Page unit :=
  on_charts (on_c_max (fun _ => or_else (Some (Z.of_nat (length initialTrafficSeries))) 300)) ;;;
  on_charts (set_series initialTrafficSeries) ;;;
  on_charts (set_types initialTypeCounts) ;;;
  updateTypesLegend.

(** The [while] loop shifts the three arrays together. It ends for a limit of at
    least 0; the server's limit, and the 300 that stands in for it, are at least
    1 (config.go). *)
Definition trim_series (c : charts) : charts :=
  let n := (length (c_labels c) - Z.to_nat (c_max c))%nat in
  on_c_fo (drop n) (on_c_fi (drop n) (on_c_labels (drop n) c)).

Definition push_sample (s : sample) (c : charts) : charts :=
  on_c_fo (fun l => l ++ [s_fo s]) (on_c_fi (fun l => l ++ [s_fi s])
    (on_c_labels (fun l => l ++ [sample_label s]) c)).

(** The traffic part of [updateMetricsUI]. *)
Definition update_traffic (snap : snapshot) : Page unit :=
  match sn_traffic_series snap, sn_latest_sample snap with
  | Some ((_ :: _) as l), _ =>
      when (truthy (sn_max_traffic_samples snap))
        (on_charts (on_c_max (fun _ => default 0 (sn_max_traffic_samples snap)))) ;;;
      on_charts (set_series l) ;;;
      emit_effect (ChartUpdate "traffic")
  | _, Some s =>
      on_charts (push_sample s) ;;;
      on_charts trim_series ;;;
      emit_effect (ChartUpdate "traffic")
  | _, None => mret' tt
  end.

Definition badge_on : jstr := js "text-xs font-semibold px-3 py-1 rounded-full uppercase tracking-wider bg-emerald-500/15 text-emerald-400 border border-emerald-500/30".
Definition badge_off : jstr := js "text-xs font-semibold px-3 py-1 rounded-full uppercase tracking-wider bg-red-500/15 text-red-400 border border-red-500/30".

(** The badge and the cards. *)
Definition update_cards (snap : snapshot) : Page unit :=
  (if sn_node_connected snap then
     set_text "node-badge" (js "Connected") ;;; set_className "node-badge" badge_on
   else
     set_text "node-badge" (js "Disconnected") ;;; set_className "node-badge" badge_off) ;;;
  set_text "card-node" (sn_node_address snap) ;;;
  (if sn_node_connected snap then
     set_html "card-node-status" (html "<span class=`w-2 h-2 rounded-full bg-emerald-400 shadow-[0_0_6px] shadow-emerald-400 inline-block`></span> Connected")
   else
     set_html "card-node-status" (html "<span class=`w-2 h-2 rounded-full bg-red-400 shadow-[0_0_6px] shadow-red-400 inline-block`></span> Disconnected")) ;;;
  set_text "card-clients" (dec (sn_active_clients snap)) ;;;
  set_text "card-uptime" (sn_uptime_str snap) ;;;
  set_text "card-reconnects" (dec (sn_node_reconnects snap) +++ js " reconnects") ;;;
  set_text "card-cache-frames" (dec (sn_config_cache_frames snap) +++ js " frames") ;;;
  set_text "card-cache-age" (if truthy (sn_config_cache_age snap)
                             then js "updated " +++ sn_config_cache_age snap +++ js " ago"
                             else js "not cached") ;;;
  set_text "card-frames-in" (dec (sn_frames_from_node snap)) ;;;
  set_text "card-bytes-in" (formatBytes (sn_bytes_from_node snap)) ;;;
  set_text "card-frames-out" (dec (sn_frames_to_node snap)) ;;;
  set_text "card-bytes-out" (formatBytes (sn_bytes_to_node snap)).

Definition update_types (snap : snapshot) : Page unit :=
  match sn_message_type_counts snap with
  | Some counts =>
      on_charts (set_types counts) ;;;
      emit_effect (ChartUpdate "types") ;;;
      updateTypesLegend
  | None => mret' tt
  end.

Definition updateMetricsUI (snap : snapshot) : Page unit :=
  update_cards snap ;;;
  update_traffic snap ;;;
  update_types snap ;;;
  match sn_node_dir snap with
  | Some dir => set_dir dir ;;; updateMapMarkers
  | None => mret' tt
  end.

(** ** What the chart shows *)

(** The chart shows the samples [l]. *)
Definition shows (c : charts) (l : list sample) : Prop :=
  c_labels c = sample_label <$> l /\ c_fi c = s_fi <$> l /\ c_fo c = s_fo <$> l.

(** The abstract series: what a [metrics] event makes of the samples and of the
    limit. *)
Definition next_limit (max : Z) (snap : snapshot) : Z :=
  match sn_traffic_series snap with
  | Some (_ :: _) => or_else (sn_max_traffic_samples snap) max
  | _ => max
  end.
Definition next_series (max : Z) (l : list sample) (snap : snapshot) : list sample :=
  match sn_traffic_series snap with
  | Some ((_ :: _) as full) => full
  | _ => match sn_latest_sample snap with
         | Some s => keep_last (Z.to_nat max) (l ++ [s])
         | None => l
         end
  end.

Lemma push_trim_shows s c l :
  shows c l -> shows (trim_series (push_sample s c)) (keep_last (Z.to_nat (c_max c)) (l ++ [s])).
Proof.
  intros (E1 & E2 & E3). unfold shows, trim_series, push_sample, keep_last.
  cbn. rewrite E1, E2, E3, !length_app, !length_fmap. cbn. rewrite !fmap_drop, !fmap_app. done.
Qed.

Lemma update_traffic_run snap w l :
  shows (w_charts w) l ->
  let w' := snd (update_traffic snap w) in
  fst (update_traffic snap w) = Ok tt /\
  c_max (w_charts w') = next_limit (c_max (w_charts w)) snap /\
  shows (w_charts w') (next_series (c_max (w_charts w)) l snap).
Proof.
  intros Hs. unfold update_traffic, next_limit, next_series.
  destruct (sn_traffic_series snap) as [[|s0 l0]|]; destruct (sn_latest_sample snap) as [s|];
    try done; try (split; [done|]; split; [done|]; by apply push_trim_shows);
    unfold when, or_else; destruct (sn_max_traffic_samples snap) as [m|]; cbn;
    try (destruct (truthy m) eqn:Hm; unfold truthy, truthy_option; rewrite ?Hm); done.
Qed.
(** The traffic part of the chart. *)
Definition traffic (w : world) := (c_labels (w_charts w), c_fi (w_charts w), c_fo (w_charts w), c_max (w_charts w)).

Lemma update_cards_frame snap : preserves (update_cards snap) (fun w => (traffic w, beside_map w)).
Proof. unfold update_cards. frame_solve. Qed.
Lemma update_cards_total snap : total (update_cards snap).
Proof. unfold update_cards. frame_solve. Qed.
Lemma update_types_frame snap : preserves (update_types snap) traffic.
Proof. unfold update_types, updateTypesLegend. frame_solve. Qed.

Lemma shows_traffic w w' l : traffic w' = traffic w -> shows (w_charts w) l -> shows (w_charts w') l.
Proof. unfold traffic, shows. intros [= -> -> -> _]. done. Qed.

(** One [metrics] event, whose listener may throw at the map. *)
Lemma metrics_run snap w l :
  shows (w_charts w) l ->
  let w' := snd (updateMetricsUI snap w) in
  c_max (w_charts w') = next_limit (c_max (w_charts w)) snap /\
  shows (w_charts w') (next_series (c_max (w_charts w)) l snap).
Proof.
  intros Hs. cbv zeta. unfold updateMetricsUI. rewrite run_seq by apply update_cards_total.
  pose proof (update_cards_frame snap w) as Hf.
  set (w1 := snd (update_cards snap w)) in *.
  apply (f_equal fst) in Hf. cbn in Hf.
  assert (c_max (w_charts w1) = c_max (w_charts w)) as Hmax by (unfold traffic in Hf; congruence).
  destruct (update_traffic_run snap w1 l (shows_traffic _ _ _ Hf Hs)) as (Hok & Hm & Hsh).
  rewrite Hmax in Hm, Hsh. destruct (update_traffic snap w1) as [r w2] eqn:E.
  cbn in Hok, Hm, Hsh. subst r. rewrite (bind_ok _ _ _ _ _ E). clear E.
  assert (preserves (update_types snap ;;; match sn_node_dir snap with
      | Some dir => set_dir dir ;;; updateMapMarkers | None => mret' tt end) traffic) as Hp.
  { apply preserves_bind; [apply update_types_frame|]. intros _.
    destruct (sn_node_dir snap); [|by intros ?]. apply preserves_bind; [by intros ?|]. intros _ w3.
    pose proof (updateMapMarkers_beside w3) as E. unfold beside_map, traffic in *. congruence. }
  specialize (Hp w2). split; [unfold traffic in Hp; congruence|]. by eapply shows_traffic.
Qed.

Definition next_state (st : Z * list sample) (snap : snapshot) : Z * list sample :=
  (next_limit st.1 snap, next_series st.1 st.2 snap).

(** The listener of [metrics] events, run on a sequence of them. *)
Definition feed (snaps : list snapshot) : Page unit :=
  for_each snaps (fun snap => dispatch (updateMetricsUI snap)).

Lemma feed_run snaps w l :
  shows (w_charts w) l ->
  let st := foldl next_state (c_max (w_charts w), l) snaps in
  c_max (w_charts (snd (feed snaps w))) = st.1 /\ shows (w_charts (snd (feed snaps w))) st.2.
Proof.
  revert w l; induction snaps as [|snap snaps IH]; intros w l Hs; [done|].
  destruct (metrics_run snap w l Hs) as [Hm Hsh]. cbn [foldl].
  change (snd (feed (snap :: snaps) w)) with (snd (feed snaps (snd (updateMetricsUI snap w)))).
  unfold next_state at 2 4. cbn [fst snd]. rewrite <- Hm. by apply IH.
Qed.

(** C6. The traffic chart refines the series of samples: over any sequence of
    metrics events, also when a refresh of the map throws on the way, its labels
    and its two curves stay aligned and show exactly the abstract series, which a
    full snapshot replaces and a delta extends by one sample. *)
Theorem traffic_refinement series counts snaps w :
  let w1 := snd (start_charts series counts w) in
  let st := foldl next_state (c_max (w_charts w1), series) snaps in
  shows (w_charts (snd (feed snaps w1))) st.2 /\
  c_max (w_charts (snd (feed snaps w1))) = st.1.
Proof.
  cbv zeta. assert (shows (w_charts (snd (start_charts series counts w))) series) as Hs by done.
  destruct (feed_run snaps _ _ Hs) as [Hm Hsh]. done.
Qed.

Definition is_delta (snap : snapshot) (s : sample) : Prop :=
  (sn_traffic_series snap = None \/ sn_traffic_series snap = Some []) /\ sn_latest_sample snap = Some s.

Lemma deltas_window snaps ss max l :
  Forall2 is_delta snaps ss -> ss <> [] ->
  foldl next_state (max, l) snaps = (max, keep_last (Z.to_nat max) (l ++ ss)).
Proof.
  intros Hd. revert l. induction Hd as [|snap s snaps ss [Hf Hs] Hd IH]; intros l Hne; [done|].
  cbn [foldl]. unfold next_state at 2, next_limit, next_series. cbn [fst snd].
  rewrite Hs. replace (match sn_traffic_series snap with Some (_ :: _) => or_else (sn_max_traffic_samples snap) max | _ => max end)
    with max by (by destruct Hf as [-> | ->]).
  replace (match sn_traffic_series snap with Some ((_ :: _) as full) => full | _ => keep_last (Z.to_nat max) (l ++ [s]) end)
    with (keep_last (Z.to_nat max) (l ++ [s])) by (by destruct Hf as [-> | ->]).
  destruct ss as [|s' ss].
  - inversion Hd. subst. done.
  - rewrite IH by done. f_equal. rewrite keep_last_app. by rewrite <- app_assoc.
Qed.

(** C7. After deltas the chart shows a sliding window: the last samples received,
    at most as many as the limit, in order. *)
Theorem traffic_window snaps ss w l :
  shows (w_charts w) l -> Forall2 is_delta snaps ss -> ss <> [] ->
  let w' := snd (feed snaps w) in
  let window := keep_last (Z.to_nat (c_max (w_charts w))) (l ++ ss) in
  shows (w_charts w') window /\
  length (c_labels (w_charts w')) = length window /\
  (length window <= Z.to_nat (c_max (w_charts w)))%nat /\ (exists old, l ++ ss = old ++ window).
Proof.
  intros Hs Hd Hne. cbv zeta. destruct (feed_run snaps w l Hs) as [Hm Hsh].
  rewrite (deltas_window snaps ss) in Hsh by done. cbn [snd] in Hsh.
  split; [done|]. split; [destruct Hsh as (-> & _); by rewrite length_fmap|].
  split; [rewrite keep_last_length; lia|apply keep_last_suffix].
Qed.

(** The legend has one entry per message type, in order, and as long as there
    are no more types than colours in the palette, different types have different
    colours. *)
Theorem legend_colors counts i j :
  let c := set_types counts (Charts [] [] [] 300 [] [] []) in
  length (c_type_colors c) = length (c_type_labels c) /\
  ((i < j < length counts)%nat -> (length counts <= length palette)%nat ->
   legend_color (c_type_colors c) i <> legend_color (c_type_colors c) j).
Proof.
  cbn. split; [unfold generateColors; by rewrite !length_fmap, length_seq|].
  intros Hij Hlen. change (length palette) with 15%nat in Hlen.
  assert (forall k, (k < length counts)%nat ->
    legend_color (generateColors (length counts)) k = default [] (palette !! k)) as Hk.
  { intros k Hk. unfold legend_color, generateColors. rewrite list_lookup_fmap, lookup_seq_lt by done.
    cbn [fmap option_fmap option_map]. rewrite Nat.add_0_l, Nat.mod_small by (change (length palette) with 15%nat; lia).
    destruct (palette !! k) as [c|] eqn:E; [|apply lookup_ge_None in E; change (length palette) with 15%nat in E; lia].
    cbn [default from_option id]. assert (forallb truthy palette = true) as Hall by (by vm_compute).
    rewrite forallb_forall in Hall. unfold or_else.
    by rewrite (Hall c (proj1 (list_elem_of_In _ _) (list_elem_of_lookup_2 _ _ _ E))). }
  rewrite !Hk by lia.
  destruct (palette !! i) as [ci|] eqn:Ei, (palette !! j) as [cj|] eqn:Ej;
    try (apply lookup_ge_None in Ei || apply lookup_ge_None in Ej; change (length palette) with 15%nat in *; lia).
  cbn. intros <-. assert (NoDup palette) as Hnd by by_decide.
  pose proof (NoDup_lookup _ _ _ _ Hnd Ei Ej). lia.
Qed.
End charts.

(** ** Witnesses *)

Definition delta (s : sample) : snapshot :=
  Snapshot true [] 0 [] 0 0 [] 0 0 0 0 None None (Some s) None None.

Lemma traffic_window_witness :
  let P := Reference.platform in let B := silent_bus in
  let a := Sample (js "a") 1 2 in let b := Sample (js "b") 3 4 in let c := Sample (js "c") 5 6 in
  let w := snd (start_charts [a; b] [] (initial_page None [] 0)) in
  shows (w_charts (snd (feed [delta c; delta a] w))) [c; a].
Proof.
  intros P B a b c w.
  apply (@traffic_window Reference.platform silent_bus [delta c; delta a] [c; a] w [a; b]); [by vm_compute| |done].
  repeat constructor.
Defined.
