(* ===== verification/Messages.v ===== *)
(** * app.js: the message table and the client list

    New messages are prepended to a table of at most 200 rows, and a filter hides
    the rows whose text does not contain a term. *)

From S2P Require Import Prelude JsString JsNumber Platform Html Markup NodeDir Mesh World.

(** The payload of a [message] event. *)
Record message := Message {
  m_timestamp : jstr; m_direction : jstr; m_type : jstr; m_size : Z; m_port_num : jstr;
  m_from : Z; m_to : Z; m_hop_limit : Z; m_hop_start : Z; m_rx_rssi : Z; m_rx_snr : num;
  m_via_mqtt : bool; m_relay_node : Z; m_payload : jstr;
}.

Definition mdash : jstr := js "&mdash;".

Definition relayNameJS (relayNode : Z) : jstr :=
  if negb (truthy relayNode) then [] else
  let lastByte := Z.land relayNode 255 in
  html "<span class=`font-mono text-xs text-cyan-400`>!" +++ padStart 2 48%N (hex lastByte) +++ js "</span>".

(** A cell starts on a line of its own in the template. *)
Definition cell (attrs body : jstr) : jstr :=
  10%N :: replicate 12 32%N +++ js "<td " +++ attrs +++ js ">" +++ body +++ js "</td>".

(** The class of a cell; the columns a narrow screen hides start with [hidden]. *)
Definition cell_class (hidden right nowrap : bool) : jstr :=
  html "class=`" +++ (if hidden then js "hidden sm:table-cell " else [])
  +++ js "px-3 py-1.5 border-b border-gray-800/50"
  +++ (if right then js " text-right tabular-nums" else [])
  +++ (if nowrap then js " whitespace-nowrap" else []) +++ html "`".

Definition code (cls body : jstr) : jstr := html "<code class=`" +++ cls +++ html "`>" +++ body +++ js "</code>".
Definition mono : jstr := js "font-mono text-xs".

Section messages.
Context `{Platform}.

Definition dir_tag (direction : jstr) : jstr :=
  if decide (direction = js "from_node")
  then html "<span class=`inline-block text-[10px] font-bold px-2 py-0.5 rounded bg-blue-500/15 text-blue-400 border border-blue-500/30 font-mono uppercase`>IN</span>"
  else html "<span class=`inline-block text-[10px] font-bold px-2 py-0.5 rounded bg-amber-500/15 text-amber-400 border border-amber-500/30 font-mono uppercase`>OUT</span>".

Definition relay_badges (msg : message) : jstr :=
  let badges :=
    (if m_via_mqtt msg then html "<span class=`inline-block text-[10px] font-bold px-1.5 py-0.5 rounded bg-purple-500/15 text-purple-400 border border-purple-500/30 font-mono`>MQTT</span> " else [])
    +++ (if truthy (m_relay_node msg) then relayNameJS (m_relay_node msg) else []) in
  if truthy badges then badges else html "<span class=`text-gray-600`>&mdash;</span>".

(** [tr.innerHTML] of a new row. *)
Definition message_row (nodeDir : option directory) (msg : message) : jstr :=
  let hopsStr := if truthy (m_hop_limit msg) || truthy (m_hop_start msg)
                 then dec (m_hop_limit msg) +++ js "/" +++ dec (m_hop_start msg) else mdash in
  let rssiStr := if truthy (m_rx_rssi msg) then dec (m_rx_rssi msg) else mdash in
  let snrStr := if truthy (m_rx_snr msg) then fixed (m_rx_snr msg) 1 else mdash in
  cell (cell_class false false true) (code mono (localeTimeMs (m_timestamp msg)))
  +++ cell (cell_class false false true) (dir_tag (m_direction msg))
  +++ cell (cell_class false false true) (code mono (esc (m_type msg)))
  +++ cell (cell_class true false true) (code (mono +++ js " text-gray-400") (esc (m_port_num msg)))
  +++ cell (cell_class false false true) (nodeName nodeDir (m_from msg))
  +++ cell (cell_class false false true) (nodeName nodeDir (m_to msg))
  +++ cell (cell_class true false true) (code mono hopsStr)
  +++ cell (cell_class false true true) (code mono rssiStr)
  +++ cell (cell_class false true true) (code mono snrStr)
  +++ cell (cell_class true false true) (relay_badges msg)
  +++ cell (cell_class true true true) (dec (m_size msg) +++ js "B")
  +++ cell (html "class=`px-3 py-1.5 border-b border-gray-800/50 max-w-xs truncate` title=`"
            +++ esc (m_payload msg) +++ html "`")
        (html "<span class=`text-xs text-gray-300`>" +++ esc (m_payload msg) +++ js "</span>")
  +++ 10%N :: replicate 8 32%N.

(** [!filterTerm || row.textContent.toLowerCase().includes(filterTerm)] *)
Definition row_matches (filterTerm : jstr) (markup : jstr) : bool :=
  negb (truthy filterTerm) || includes (toLowerCase (html_text markup)) filterTerm.

Definition filter_row (filterTerm : jstr) (r : row) : row :=
  Row (row_html r) (if row_matches filterTerm (row_html r) then [] else js "none").

Definition on_messages (f : messages -> messages) : Page unit := modify (on_w_messages f).

Definition count_messages (filterTerm : jstr) (visible : nat) : jstr :=
  dec (Z.of_nat visible) +++ js " messages" +++ (if truthy filterTerm then js " (filtered)" else []).

Definition applyMessageFilter : Page unit :=
  g <-- gets w_messages ;;
  let term := g_filterTerm g in
  on_messages (on_g_rows (fmap (filter_row term))) ;;;
  set_text "msg-count"
    (count_messages term (length (filter (fun r => row_matches term (row_html r) = true) (g_rows g)))).

(** [insertBefore] at the front, the filter on the new row, at most 200 rows, the
    filter on all rows. *)
Definition prependMessage (msg : message) : Page unit :=
  nodeDir <-- gets w_nodeDir ;;
  let markup := message_row nodeDir msg in
  on_messages (on_g_rows (fun rows => Row markup [] :: rows)) ;;;
  g <-- gets w_messages ;;
  when (truthy (g_filterTerm g) && negb (row_matches (g_filterTerm g) markup))
    (on_messages (on_g_rows (fun rows => match rows with
                                         | r :: rows => Row (row_html r) (js "none") :: rows
                                         | [] => [] end))) ;;;
  on_messages (on_g_rows (take 200)) ;;;
  applyMessageFilter.

(** The filter input. *)
Definition on_msg_filter (value : jstr) : Page unit :=
  on_messages (on_g_filterTerm (fun _ => toLowerCase value)) ;;; applyMessageFilter.

(** ** The client list *)

Definition client_row (i : nat) (addr : jstr) : jstr :=
  html "<tr class=`hover:bg-gray-800/50`>"
  +++ 10%N :: replicate 20 32%N +++ html "<td class=`px-3 py-2 border-b border-gray-800/50`>" +++ dec (Z.of_nat i) +++ js "</td>"
  +++ 10%N :: replicate 20 32%N +++ html "<td class=`px-3 py-2 border-b border-gray-800/50`>"
  +++ code mono (esc addr) +++ js "</td>"
  +++ 10%N :: replicate 16 32%N +++ js "</tr>".

(** [None] is the payload [null]. *)
Definition updateClientsUI (clients : option (list jstr)) : Page unit :=
  match clients with
  | Some ((_ :: _) as l) =>
      class_remove "clients-section" (js "hidden") ;;;
      set_html "clients-tbody" (mjoin (imap client_row l))
  | _ => class_add "clients-section" (js "hidden")
  end.

(** ** The table *)

(** The rows in step with the filter, and the count that goes with them. *)
Definition rows_filtered (g : messages) : Prop :=
  Forall (fun r => row_display r = [] <-> row_matches (g_filterTerm g) (row_html r) = true) (g_rows g).

Definition visible_rows (g : messages) : nat :=
  length (filter (fun r => row_display r = []) (g_rows g)).

Lemma filter_rows_ok term rows :
  Forall (fun r => row_display r = [] <-> row_matches term (row_html r) = true) (filter_row term <$> rows) /\
  length (filter (fun r => row_display r = []) (filter_row term <$> rows))
  = length (filter (fun r => row_matches term (row_html r) = true) rows).
Proof.
  induction rows as [|r rows [IH1 IH2]]; [done|]. cbn [fmap list_fmap]. split.
  - constructor; [|done]. cbn. destruct (row_matches term (row_html r)); done.
  - rewrite (length_filter_cons (fun r => row_matches term (row_html r))), filter_cons, <- IH2. cbn.
    by destruct (row_matches term (row_html r)).
Qed.

(** What the end of both operations establishes. *)
Lemma applyMessageFilter_run w :
  let w' := snd (applyMessageFilter w) in
  rows_filtered (w_messages w') /\
  g_filterTerm (w_messages w') = g_filterTerm (w_messages w) /\
  row_html <$> g_rows (w_messages w') = row_html <$> g_rows (w_messages w) /\
  el_content (w_dom w' "msg-count")
  = html_escape (count_messages (g_filterTerm (w_messages w)) (visible_rows (w_messages w'))).
Proof.
  cbv zeta. unfold applyMessageFilter. cbn. rewrite dom_eq. cbn.
  destruct (filter_rows_ok (g_filterTerm (w_messages w)) (g_rows (w_messages w))) as [H1 H2].
  split; [exact H1|]. split; [done|]. split.
  - rewrite <- list_fmap_compose. done.
  - unfold visible_rows. cbn. by rewrite H2.
Qed.

(** C27. A new message becomes the first row of the table, which keeps the newest
    200; then, as after every change of the filter, exactly the rows whose text
    contains the term are visible and the count is their number. *)
Theorem prependMessage_spec msg w :
  let w' := snd (prependMessage msg w) in
  fst (prependMessage msg w) = Ok tt /\
  row_html <$> g_rows (w_messages w')
  = take 200 (message_row (w_nodeDir w) msg :: (row_html <$> g_rows (w_messages w))) /\
  (length (g_rows (w_messages w')) <= 200)%nat /\
  rows_filtered (w_messages w') /\
  el_content (w_dom w' "msg-count")
  = html_escape (count_messages (g_filterTerm (w_messages w)) (visible_rows (w_messages w'))).
Proof.
  cbv zeta. unfold prependMessage. cbn [mbind' gets on_messages modify].
  set (w1 := on_w_messages _ w).
  assert (exists w2, when (truthy (g_filterTerm (w_messages w1)) && negb (row_matches (g_filterTerm (w_messages w1)) (message_row (w_nodeDir w) msg)))
      (on_messages (on_g_rows (fun rows => match rows with
         | r :: rows => Row (row_html r) (js "none") :: rows | [] => [] end))) w1 = (Ok tt, w2) /\
      g_filterTerm (w_messages w2) = g_filterTerm (w_messages w) /\
      row_html <$> g_rows (w_messages w2)
      = message_row (w_nodeDir w) msg :: (row_html <$> g_rows (w_messages w))) as (w2 & E & Ht & Hr).
  { unfold when. case_if; eexists; (split; [reflexivity|]); done. }
  rewrite (bind_ok _ _ _ _ _ E). clear E.
  set (w3 := on_w_messages (on_g_rows (take 200)) w2).
  change (mbind' (on_messages (on_g_rows (take 200))) (fun _ => applyMessageFilter) w2)
    with (applyMessageFilter w3).
  destruct (applyMessageFilter_run w3) as (H1 & H2 & H3 & H4).
  split; [done|]. split; [|split; [|split; [done|]]].
  - rewrite H3. cbn. by rewrite fmap_take, Hr.
  - rewrite <- (length_fmap row_html), H3, length_fmap. cbn. rewrite length_take. lia.
  - rewrite H4. cbn. by rewrite Ht.
Qed.

(** C28. Changing the filter never loses a row: the rows and their order stay, the
    ones that match the lower-cased term are visible, and clearing the filter
    shows all of them again. *)
Theorem msg_filter_spec value w :
  let w' := snd (on_msg_filter value w) in
  row_html <$> g_rows (w_messages w') = row_html <$> g_rows (w_messages w) /\
  g_filterTerm (w_messages w') = toLowerCase value /\
  rows_filtered (w_messages w') /\
  (toLowerCase value = [] -> Forall (fun r => row_display r = []) (g_rows (w_messages w')) /\
     visible_rows (w_messages w') = length (g_rows (w_messages w))).
Proof.
  cbv zeta. unfold on_msg_filter. cbn [mbind' on_messages modify].
  destruct (applyMessageFilter_run (on_w_messages (on_g_filterTerm (fun _ => toLowerCase value)) w))
    as (H1 & H2 & H3 & _).
  set (w' := snd (applyMessageFilter _)) in *.
  split; [done|]. split; [done|]. split; [done|]. intros Hv.
  assert (Forall (fun r => row_display r = []) (g_rows (w_messages w'))) as Hall.
  { eapply Forall_impl; [exact H1|]. intros r Hr. apply Hr. by rewrite H2, Hv. }
  split; [done|]. unfold visible_rows. rewrite filter_all by done.
  by rewrite <- (length_fmap row_html), H3, length_fmap.
Qed.
End messages.
