(* ===== verification/Sse.v ===== *)
(** * app.js: the event stream

    The connection to [/api/events] with its exponential reconnect delay, the
    pause button, the dispatch of the server's events to the components, and the
    button that refreshes the configuration cache. *)

From S2P Require Import Prelude Sort JsString JsNumber Platform Html Markup NodeDir Mesh World.
From S2P Require Import TraceHistory Route Trace Heatmap Filters Popup MapView NodesTable.
From S2P Require Import Chat Charts Messages.

(** The events of the stream with their decoded payloads. *)
Inductive server_event :=
| EvMetrics (snap : snapshot)
| EvMessage (msg : message)
| EvClients (clients : option (list jstr))
| EvNodeDirectory (dir : option directory)
| EvPosition (pos : pos_update)
| EvTelemetry (tel : tel_update)
| EvSignal (sig : sig_update)
| EvNodeUpdate (info : info_update)
| EvTraceResult (data : trace_entry)
| EvTraceHistory (data : option (list trace_entry))
| EvFavorite (node_num : Z) (fav : bool)
| EvChatHistory (messages : option (list chat_msg))
| EvChatMessage (msg : chat_msg).

Definition on_sse (f : sse -> sse) : Page unit := modify (on_w_sse f).

(** ** The pause button *)

Definition pause_click : Page unit :=
  on_sse (on_x_paused negb) ;;;
  paused <-- gets (fun w => x_paused (w_sse w)) ;;
  if paused then
    set_text "pause-btn" (js "Paused") ;;;
    class_add "pause-btn" (js "border-amber-500/50") ;;; class_add "pause-btn" (js "text-amber-400") ;;;
    class_remove "pause-btn" (js "border-gray-700") ;;; class_remove "pause-btn" (js "text-gray-300")
  else
    set_text "pause-btn" (js "Live") ;;;
    class_remove "pause-btn" (js "border-amber-500/50") ;;; class_remove "pause-btn" (js "text-amber-400") ;;;
    class_add "pause-btn" (js "border-gray-700") ;;; class_add "pause-btn" (js "text-gray-300").

(** ** The connection *)

Definition sse_open : Page unit :=
  set_className "sse-indicator" (js "w-2 h-2 rounded-full bg-emerald-400 shadow-[0_0_6px] shadow-emerald-400") ;;;
  set_text "sse-label" (js "Live") ;;;
  set_className "sse-label" (js "text-xs text-emerald-400") ;;;
  on_sse (on_x_delay (fun _ => 1000)).

(** [new EventSource]; the listeners of the source are [sse_open], [on_event] and
    [sse_error]. *)
Definition connectSSE : Page unit :=
  emit_effect OpenEventSource ;;; on_sse (on_x_open (fun _ => true)).

Definition sse_error : Page unit :=
  set_className "sse-indicator" (js "w-2 h-2 rounded-full bg-red-400") ;;;
  set_text "sse-label" (js "Reconnecting...") ;;;
  set_className "sse-label" (js "text-xs text-red-400") ;;;
  on_sse (on_x_open (fun _ => false)) ;;;
  delay <-- gets (fun w => x_delay (w_sse w)) ;;
  _ <-- set_timer (CbConnectSSE delay) ;;
  on_sse (on_x_delay (fun d => Z.min (d * 2) 30000)).

(** ** The refresh button *)

Definition refresh_click : Page unit :=
  set_disabled "btn-refresh-config" true ;;;
  class_add "btn-refresh-config" (js "animate-spin") ;;;
  emit_effect (Post "/api/config/refresh" []) ;;;
  start_fetch FRefresh.

(** [then], [catch] and [finally]; [ok] is [r.ok], false when rejected. *)
Definition refresh_answered (ok : bool) : Page unit :=
  when (negb ok) (emit_effect (ConsoleError "config refresh error:")) ;;;
  _ <-- set_timer CbRefreshDone ;;
  mret' tt.

Definition refresh_done : Page unit :=
  set_disabled "btn-refresh-config" false ;;;
  class_remove "btn-refresh-config" (js "animate-spin").

(** ** The dispatch *)

(** [if (paused) return] *)
Definition unless_paused (m : Page unit) : Page unit :=
  paused <-- gets (fun w => x_paused (w_sse w)) ;;
  if paused then mret' tt else m.

Section dispatch.
Context `{Platform}.

Definition on_event (ev : server_event) : Page unit :=
  match ev with
  | EvMetrics snap => unless_paused (updateMetricsUI snap)
  | EvMessage msg => unless_paused (prependMessage msg)
  | EvClients clients => updateClientsUI clients
  | EvNodeDirectory dir => on_node_directory dir
  | EvPosition pos => unless_paused (updateMapNode pos)
  | EvTelemetry tel => unless_paused (updateNodeTelemetry tel)
  | EvSignal sig => unless_paused (updateNodeSignal sig)
  | EvNodeUpdate info => unless_paused (updateNodeInfo info)
  | EvTraceResult data => on_traceroute_result data
  | EvTraceHistory data => loadTraceHistory data
  | EvFavorite node_num fav => on_node_favorite renderNodesTable node_num fav
  | EvChatHistory messages => loadChatHistory messages
  | EvChatMessage msg => unless_paused (appendChatMessage msg)
  end.
End dispatch.

(** ** The reconnect delay *)

(** A lost connection, the wait, the next attempt. *)
Definition retry : Page unit := fun w =>
  (sse_error ;;; clear_timer (w_next w) ;;; connectSSE) w.

Lemma retry_delay w :
  x_delay (w_sse (snd (retry w))) = Z.min (x_delay (w_sse w) * 2) 30000.
Proof. done. Qed.

Lemma retries_delay k w :
  x_delay (w_sse w) = 1000 ->
  x_delay (w_sse (snd (repeat_page k retry w))) = Z.min (1000 * 2 ^ Z.of_nat k) 30000.
Proof.
  intros H0. assert (forall k w d, x_delay (w_sse w) = Z.min d 30000 -> 0 <= d ->
    x_delay (w_sse (snd (repeat_page k retry w))) = Z.min (d * 2 ^ Z.of_nat k) 30000) as Hk.
  { clear. intros k. induction k as [|k IH]; intros w d Hd Hpos; [cbn; by rewrite Z.mul_1_r|].
    cbn [repeat_page]. rewrite run_seq by (by intros ?).
    rewrite (IH _ (d * 2)); [|rewrite retry_delay, Hd; lia|lia].
    rewrite Nat2Z.inj_succ, Z.pow_succ_r by lia. f_equal. lia. }
  apply Hk; lia.
Qed.

(** C16. The waits between attempts double from one second up to 30 seconds: the
    error after [k] failed attempts sets exactly one timer, of
    min(1000 * 2^k, 30000) ms, and closes the source; a connection that opens
    starts over at one second. *)
Theorem backoff_spec k w :
  x_delay (w_sse w) = 1000 ->
  let w' := snd (repeat_page k retry w) in
  let lost := snd (sse_error w') in
  w_timers lost = <[w_next w' := CbConnectSSE (Z.min (1000 * 2 ^ Z.of_nat k) 30000)]> (w_timers w') /\
  x_open (w_sse lost) = false /\
  x_open (w_sse (snd (connectSSE lost))) = true /\
  x_delay (w_sse (snd (sse_open w'))) = 1000.
Proof.
  intros Hd. cbv zeta. rewrite <- (retries_delay k w Hd).
  generalize (snd (repeat_page k retry w)). intros w'. done.
Qed.

Lemma backoff_spec_witness :
  let w := initial_page None [] 0 in
  exists id, w_timers (snd (sse_error (snd (repeat_page 6 retry w)))) !! id = Some (CbConnectSSE 30000).
Proof.
  intros w. exists (w_next (snd (repeat_page 6 retry w))).
  destruct (backoff_spec 6 w eq_refl) as [-> _]. by rewrite lookup_insert_eq.
Defined.

(** ** Pausing *)

(** The events that a paused page drops. *)
Definition live (ev : server_event) : bool :=
  match ev with
  | EvMetrics _ | EvMessage _ | EvPosition _ | EvTelemetry _ | EvSignal _
  | EvNodeUpdate _ | EvChatMessage _ => true
  | _ => false
  end.

(** The events that replace the directory or a mark in it. *)
Definition directory_event (ev : server_event) : bool :=
  match ev with EvNodeDirectory _ | EvFavorite _ _ => true | _ => false end.

Definition chat_event (ev : server_event) : bool :=
  match ev with EvChatHistory _ => true | _ => false end.

Definition stream (evs : list server_event) `{Platform} : Page unit :=
  for_each evs (fun ev => dispatch (on_event ev)).

Section pausing.
Context `{Platform}.

Definition shown (w : world) := (w_charts w, w_messages w, w_sse w).

Lemma shown_updateMapMarkers : preserves updateMapMarkers shown.
Proof.
  intros w. pose proof (updateMapMarkers_beside w) as E. unfold beside_map, shown in *. congruence.
Qed.
Lemma shown_renderNodesTable : preserves renderNodesTable shown.
Proof.
  intros w. pose proof (renderNodesTable_frame w) as E. unfold outside_nodes, shown in *. congruence.
Qed.

Lemma unpaused_shown ev : live ev = false -> preserves (on_event ev) shown.
Proof.
  pose proof shown_updateMapMarkers. pose proof shown_renderNodesTable.
  destruct ev; try done; intros _; cbn [on_event];
    unfold updateClientsUI, on_node_directory, on_node_favorite, set_dir, loadTraceHistory, renderTraceHistory,
      on_traceroute_result, handleTracerouteResult, startCooldown, resetTraceBtn, for_trace_btns, set_pending,
      set_cooldown, drawTraceroute, clearTraceRoute, appendTraceHistory, renderTraceHistory, open_panel,
      loadChatHistory, updateBadges, applyChatFilter, scrollChatToBottom, on_chat, when;
    frame_solve.
Qed.

Lemma drops_live ev w : live ev = true -> x_paused (w_sse w) = true -> on_event ev w = (Ok tt, w).
Proof. intros Hl Hp. destruct ev; try done; cbn; unfold unless_paused, mbind', gets; by rewrite Hp. Qed.

Lemma drops_frame ev {C} (p : world -> C) w :
  live ev = true -> x_paused (w_sse w) = true -> p (snd (on_event ev w)) = p w.
Proof. intros Hl Hp. by rewrite drops_live. Qed.

Lemma unpaused_directory ev :
  live ev = false -> directory_event ev = false -> preserves (on_event ev) w_nodeDir.
Proof.
  destruct ev; try done; intros _ _; cbn [on_event];
    unfold updateClientsUI, loadTraceHistory, renderTraceHistory,
      on_traceroute_result, handleTracerouteResult, startCooldown, resetTraceBtn, for_trace_btns, set_pending,
      set_cooldown, drawTraceroute, clearTraceRoute, appendTraceHistory, renderTraceHistory, open_panel,
      loadChatHistory, updateBadges, applyChatFilter, scrollChatToBottom, on_chat, when;
    frame_solve.
Qed.

Lemma outside_nodes_chat w w' : outside_nodes w' = outside_nodes w -> w_chat w' = w_chat w.
Proof. unfold outside_nodes. congruence. Qed.
Lemma beside_map_chat w w' : beside_map w' = beside_map w -> w_chat w' = w_chat w.
Proof. unfold beside_map. congruence. Qed.

Lemma unpaused_chat ev :
  live ev = false -> chat_event ev = false -> preserves (on_event ev) (fun w => k_all (w_chat w)).
Proof.
  assert (preserves updateMapMarkers (fun w => k_all (w_chat w))) as H1.
  { intros w. by rewrite (beside_map_chat _ _ (updateMapMarkers_beside w)). }
  assert (preserves renderNodesTable (fun w => k_all (w_chat w))) as H2.
  { intros w. by rewrite (outside_nodes_chat _ _ (renderNodesTable_frame w)). }
  destruct ev; try done; intros _ _; cbn [on_event];
    unfold updateClientsUI, on_node_directory, on_node_favorite, set_dir, loadTraceHistory, renderTraceHistory,
      on_traceroute_result, handleTracerouteResult, startCooldown, resetTraceBtn, for_trace_btns, set_pending,
      set_cooldown, drawTraceroute, clearTraceRoute, appendTraceHistory, renderTraceHistory, open_panel, when;
    frame_solve.
Qed.

(** A property of single events holds along a stream of them. *)
Lemma stream_frame {C} (ok : server_event -> bool) (p : world -> C) evs w :
  x_paused (w_sse w) = true ->
  (forall ev, live ev = false -> ok ev = true -> preserves (on_event ev) p) ->
  Forall (fun ev => ok ev = true) evs ->
  p (snd (stream evs w)) = p w /\ x_paused (w_sse (snd (stream evs w))) = true.
Proof.
  intros Hp Hf Hev. revert w Hp. induction Hev as [|ev evs Hok _ IH]; intros w Hp; [done|].
  unfold stream. cbn [for_each]. rewrite run_seq by (by intros ?). cbn [dispatch snd].
  assert (p (snd (on_event ev w)) = p w /\ x_paused (w_sse (snd (on_event ev w))) = true) as [E1 E2].
  { destruct (live ev) eqn:Hl; [by rewrite drops_live|]. split; [by apply Hf|].
    pose proof (unpaused_shown ev Hl w) as E. unfold shown in E. congruence. }
  rewrite <- E1. by apply IH.
Qed.

(** C17. What a pause freezes: while the page is paused, whatever events the
    server sends, the charts, the message table and the state of the stream, the
    pause included, stay as they are; the directory changes only with an event
    that replaces it or marks a favourite, and the stored chat messages only with
    a history; and each event that a pause drops changes nothing at all. The
    parts not named - the map, the list of clients, the traceroute and its
    history - are not frozen. *)
Theorem paused_frozen evs w :
  x_paused (w_sse w) = true ->
  let w' := snd (stream evs w) in
  w_charts w' = w_charts w /\ w_messages w' = w_messages w /\ w_sse w' = w_sse w /\
  (existsb directory_event evs = false -> w_nodeDir w' = w_nodeDir w) /\
  (existsb chat_event evs = false -> k_all (w_chat w') = k_all (w_chat w)) /\
  (forall ev, live ev = true -> on_event ev w' = (Ok tt, w')).
Proof.
  intros Hp. cbv zeta.
  assert (forall f, existsb f evs = false -> Forall (fun ev => negb (f ev) = true) evs) as Hex.
  { intros f Hf. apply Forall_forall. intros ev Hin. apply negb_true_iff, not_true_iff_false. intros Ht.
    assert (existsb f evs = true) as Hc by (apply existsb_exists; exists ev; by rewrite <- list_elem_of_In).
    congruence. }
  destruct (stream_frame (fun _ => true) shown evs w Hp) as [E Hp'].
  { intros ev Hl _. by apply unpaused_shown. }
  { by apply Forall_true. }
  unfold shown in E. injection E as E1 E2 E3.
  split; [done|]. split; [done|]. split; [done|].
  split; [|split].
  - intros Hd%Hex. eapply (stream_frame (fun ev => negb (directory_event ev))); [done| |done].
    intros ev Hl Hok%negb_true_iff. by apply unpaused_directory.
  - intros Hd%Hex. eapply (stream_frame (fun ev => negb (chat_event ev)) (fun w => k_all (w_chat w))); [done| |done].
    intros ev Hl Hok%negb_true_iff. by apply unpaused_chat.
  - intros ev Hl. by apply drops_live.
Qed.
End pausing.

Lemma paused_frozen_witness :
  let w := snd (pause_click (initial_page (Some ∅) [] 0)) in
  let P := Reference.platform in
  let evs := [EvClients (Some [js "1.2.3.4"]); EvMessage (Message [] [] [] 0 [] 1 2 0 0 0 (num_of_Z 0) false 0 [])] in
  w_messages (snd (stream evs w)) = w_messages w /\ w_nodeDir (snd (stream evs w)) = Some ∅.
Proof.
  intros w P evs. destruct (@paused_frozen Reference.platform evs w eq_refl) as (_ & Hm & _ & Hd & _).
  split; [exact Hm|by apply Hd].
Defined.
