(* ===== verification/Page.v ===== *)
(** * The whole page

    The tabs of dashboard.html, and the dispatch of everything the browser
    delivers to the scripts: events of the stream, timers, answers of requests,
    clicks and inputs. [handle] is the program: a run of the page is a sequence
    of inputs. *)

From S2P Require Import Prelude Sort JsString JsNumber Platform Html Markup NodeDir Mesh World.
From S2P Require Import TraceHistory Route Trace Heatmap Filters Popup MapView NodesTable NodeActions.
From S2P Require Import Chat Charts Messages Sse.

Inductive tab := TabDashboard | TabMap | TabChat | TabNodes.

Definition tab_name (t : tab) : string :=
  match t with TabDashboard => "dashboard" | TabMap => "map" | TabChat => "chat" | TabNodes => "nodes" end.
Definition tabs : list tab := [TabDashboard; TabMap; TabChat; TabNodes].
Definition tab_id (t : tab) : string := String.append "tab-" (tab_name t).
Definition tab_btn (t : tab) : string := String.append "tab-btn-" (tab_name t).

Section page.
Context `{Platform}.

(** Hide all tabs, then show [t] and mark its button. *)
Definition show_tab (t : tab) : Page unit :=
  for_each tabs (fun t => class_add (tab_id t) (js "hidden")) ;;;
  for_each tabs (fun t =>
    class_remove (tab_btn t) (js "bg-gray-800") ;;; class_remove (tab_btn t) (js "text-gray-100") ;;;
    class_add (tab_btn t) (js "text-gray-400")) ;;;
  class_remove (tab_id t) (js "hidden") ;;;
  class_add (tab_btn t) (js "bg-gray-800") ;;; class_add (tab_btn t) (js "text-gray-100") ;;;
  class_remove (tab_btn t) (js "text-gray-400").

Definition switchTab (t : tab) : Page unit :=
  show_tab t ;;;
  match t with
  | TabMap => initMap
  | TabChat => initChat ;;; scrollChatToBottom
  | TabNodes => initNodesTab
  | TabDashboard => mret' tt
  end.

(** ** Inputs *)

(** The outcome of a request: [ok] is [r.ok], false also for a rejection; the
    channels are what the body of its answer says. *)
Record answer := Answer { an_ok : bool; an_channels : channels_answer }.

Inductive input :=
| IStreamOpen | IStreamError | IEvent (ev : server_event)
| IClock (now : Z) | ITimer (id : nat) | IAnswer (id : nat) (a : answer)
| IPause | IRefresh | ITab (t : tab)
| ITrace (n : Z) | IShowTrace (idx : Z) | IHistory
| IMarkerClick (n : Z) | IPopupClose
| IFilterPanel | ISearch (value : jstr) | IRole (val : jstr) (checked : bool) | IHw (val : jstr) (checked : bool)
| IStatus (value : jstr) | IBattery (value : jstr) | IMqtt (value : jstr) | IHeatmap (value : jstr)
| IResetFilters
| INodesMode (mode : jstr) | INodesPanel | INodesMqtt (val : jstr) | INodesPosition (val : jstr)
| INodesRole (r : jstr) (checked : bool) | INodesReset | INodesSort (key : string) | INodesSearch (value : jstr)
| INodesInterval
| IActions (numStr : jstr) | IOutsideClick | INodeAction (action : string) (n : Z)
| IMsgFilter (value : jstr)
| IChannel (index : Z) | IChatInput (value : jstr) | IChatSend | IChatEnter | IChatScroll (near : bool).

(** A timeout is gone when it fires, an interval stays until it is cleared. The
    listener that [CbArmDropdown] installs is the input [IOutsideClick]. *)
Definition run_callback (id : nat) (cb : callback) : Page unit :=
  match cb with
  | CbTraceTimeout n => clear_timer id ;;; trace_timeout n
  | CbCooldownTick n remaining => cooldown_tick id n remaining
  | CbConnectSSE _ => clear_timer id ;;; connectSSE
  | CbArmDropdown => clear_timer id
  | CbRefreshDone => clear_timer id ;;; refresh_done
  end.

Definition fire (id : nat) : Page unit := fun w =>
  match w_timers w !! id with Some cb => run_callback id cb w | None => (Ok tt, w) end.

Definition end_fetch (id : nat) : Page unit := modify (on_w_fetches (delete id)).

Definition run_answer (f : fetch) (a : answer) : Page unit :=
  match f with
  | FTrace n => when (negb (an_ok a)) (trace_failed n)
  | FAction what => action_done what (an_ok a)
  | FFavorite n newFav => favorite_done n newFav (an_ok a)
  | FRefresh => refresh_answered (an_ok a)
  | FChannels => channels_loaded (an_channels a)
  | FChatSend => send_done (an_ok a)
  end.

Definition answered (id : nat) (a : answer) : Page unit := fun w =>
  match w_fetches w !! id with
  | Some f => (end_fetch id ;;; run_answer f a) w
  | None => (Ok tt, w)
  end.

(** A closed source delivers nothing, a disabled button no click. *)
Definition if_open (m : Page unit) : Page unit :=
  isOpen <-- gets (fun w => x_open (w_sse w)) ;; when isOpen m.
Definition if_enabled (id : string) (m : Page unit) : Page unit :=
  disabled <-- gets (fun w => el_disabled (w_dom w id)) ;; when (negb disabled) m.

(** A click needs the button of the channel. *)
Definition if_channel (index : Z) (m : Page unit) : Page unit :=
  k <-- gets w_chat ;; when (existsb (fun b => cn_channel b =? index) (k_buttons k)) m.

(** [IClock]: the clock of the browser never goes back, as [Date.now()] does not
    unless the user resets the time. *)
Definition handle (i : input) : Page unit :=
  match i with
  | IStreamOpen => if_open sse_open
  | IStreamError => if_open sse_error
  | IEvent ev => if_open (on_event ev)
  | IClock now => modify (on_w_now (fun t => Z.max t now))
  | ITimer id => fire id
  | IAnswer id a => answered id a
  | IPause => pause_click
  | IRefresh => if_enabled "btn-refresh-config" refresh_click
  | ITab t => switchTab t
  | ITrace n => startTraceroute n
  | IShowTrace idx => showTraceOnMap idx
  | IHistory => toggleTraceHistory
  | IMarkerClick n => on_marker_click n
  | IPopupClose => on_popup_close
  | IFilterPanel => toggle_panel
  | ISearch value => on_search_input value
  | IRole val checked => on_role_change val checked
  | IHw val checked => on_hw_change val checked
  | IStatus value => on_radio_change (fun v => on_f_status (fun _ => v)) value
  | IBattery value => on_radio_change (fun v => on_f_battery (fun _ => v)) value
  | IMqtt value => on_radio_change (fun v => on_f_mqtt (fun _ => v)) value
  | IHeatmap value => on_heatmap_change value
  | IResetFilters => reset_filters
  | INodesMode mode => setNodesFilter mode
  | INodesPanel => toggleNodesFilters
  | INodesMqtt val => setNodesFilterMqtt val
  | INodesPosition val => setNodesFilterPosition val
  | INodesRole r checked => handleNfRole r checked
  | INodesReset => resetNodesFilters
  | INodesSort key => on_sort_click key
  | INodesSearch value => on_nodes_search value
  | INodesInterval => nodes_interval
  | IActions numStr => toggleNodeActions numStr
  | IOutsideClick => closeNodeActions
  | INodeAction action n => nodeAction action n
  | IMsgFilter value => on_msg_filter value
  | IChannel index => if_channel index (selectChannel index)
  | IChatInput value => if_enabled "chat-input" (on_chat_input value)
  | IChatSend => if_enabled "chat-send-btn" sendMessage
  | IChatEnter => if_enabled "chat-input" on_chat_enter
  | IChatScroll near => on_chat_scroll near
  end.

(** A run: an exception that a listener throws is reported, and the page goes on. *)
Definition run (inputs : list input) : Page unit := for_each inputs (fun i => dispatch (handle i)).

(** The page after its scripts were loaded: the charts are drawn and the stream
    is being opened. *)
Definition boot (nodeDir : option directory) (rows : list row) (now : Z)
    (initialTrafficSeries : list sample) (initialTypeCounts : list (jstr * Z)) : world :=
  snd ((start_charts initialTrafficSeries initialTypeCounts ;;; connectSSE) (initial_page nodeDir rows now)).
End page.
