(* ===== verification/PageFrame.v ===== *)
(** * What the operations of the page leave alone

    [base]: the state of the machines that own timers, requests and buttons.
    The operations of the map, the tables and the panels preserve it. *)

From S2P Require Import Prelude Sort JsString JsNumber Platform Html Markup NodeDir Mesh World.
From S2P Require Import TraceHistory Route Trace Heatmap Filters Popup MapView NodesTable NodeActions.
From S2P Require Import Chat Charts Messages Sse Page.

Definition refresh_btn (w : world) : bool := el_disabled (w_dom w "btn-refresh-config").
Definition chat_input (w : world) : bool := el_disabled (w_dom w "chat-input").
Definition send_btn (w : world) : bool := el_disabled (w_dom w "chat-send-btn").
Definition chat_log (w : world) := (k_all (w_chat w), k_els (w_chat w), k_active (w_chat w)).
Definition link (w : world) := (x_delay (w_sse w), x_open (w_sse w)).

Definition base (w : world) :=
  (machine w, w_fetches w, link w, (refresh_btn w, chat_input w, send_btn w), chat_log w).

Section frames.
Context `{Platform}.

Lemma render_base : preserves renderNodesTable base.
Proof. unfold renderNodesTable. frame_solve. Qed.
Lemma roles_base : preserves buildRoleCheckboxes base.
Proof. unfold buildRoleCheckboxes. frame_solve. Qed.

Lemma emit_base ev d : preserves (emit ev d) base.
Proof.
  unfold emit, bus_emit. change page_bus with table_bus.
  pose proof (fun fn => table_bus_preserves base ev fn d render_base roles_base) as Hb.
  induction (default [] (table_bus !! ev)) as [|fn l IH]; [by intros w|]. cbn.
  apply preserves_bind; [apply preserves_dispatch, Hb; left|]. intros _.
  apply IH. intros fn' Hin. apply Hb. by right.
Qed.

Lemma heat_base : preserves updateHeatmap base.
Proof. unfold updateHeatmap, put_layer, set_legend. frame_solve. Qed.
Lemma apply_base : preserves applyMapFilters base.
Proof. unfold applyMapFilters, openPopup, put_markers. frame_solve. Qed.
Lemma markers_base : preserves updateMapMarkers base.
Proof.
  pose proof emit_base. pose proof heat_base. pose proof apply_base.
  unfold updateMapMarkers, marker_step, put_marker, set_popup, remove_stale, put_markers,
    on_markers, rebuildFilterOptions, rebuildCheckboxGroup, when.
  frame_solve.
Qed.

#[local] Hint Resolve render_base roles_base emit_base heat_base apply_base markers_base : mesh.

(** The listeners of the stream that own no timers and no chat. *)
Definition quiet_event (ev : server_event) : bool :=
  match ev with EvTraceResult _ | EvChatHistory _ | EvChatMessage _ => false | _ => true end.

Lemma event_base ev : quiet_event ev = true -> preserves (on_event ev) base.
Proof.
  destruct ev; try done; intros _; cbn [on_event];
    unfold unless_paused, updateMetricsUI, update_cards, update_traffic, update_types, updateTypesLegend, set_dir,
      on_charts, prependMessage, applyMessageFilter, on_messages, updateClientsUI, on_node_directory,
      updateMapNode, put_marker, set_popup, on_markers, updateNodeTelemetry, updateNodeSignal,
      updateNodeInfo, refresh_open_popup, set_popup, loadTraceHistory, renderTraceHistory, on_node_favorite, when;
    frame_solve.
Qed.

(** The inputs that only show something else. *)
Definition quiet_input (i : input) : bool :=
  match i with
  | IPause | IMarkerClick _ | IPopupClose | ITab TabMap | ITab TabNodes | ITab TabDashboard | IShowTrace _ | IHistory
  | IFilterPanel | ISearch _ | IRole _ _ | IHw _ _ | IStatus _ | IBattery _ | IMqtt _ | IHeatmap _ | IResetFilters
  | INodesMode _ | INodesPanel | INodesMqtt _ | INodesPosition _ | INodesRole _ _ | INodesReset
  | INodesSort _ | INodesSearch _ | INodesInterval | IOutsideClick | IMsgFilter _ | IChatScroll _ => true
  | _ => false
  end.

Lemma tab_base t : preserves (show_tab t) base.
Proof. unfold show_tab. destruct t; frame_solve; match goal with t : tab |- _ => by destruct t end. Qed.

Lemma input_base i : quiet_input i = true -> preserves (handle i) base.
Proof.
  destruct i; try done;
    intros Hq; cbn [handle];
    unfold pause_click, on_marker_click, openPopup, on_popup_close, put_markers, on_sse, switchTab, initMap, initNodesTab, on_sort_click, updateSortIcons, showTraceOnMap, drawTraceroute,
      clearTraceRoute, toggleTraceHistory, open_panel, toggle_panel, on_search_input, on_role_change, on_hw_change,
      on_radio_change, on_heatmap_change, syncCheckedState, reset_filters, setNodesFilter, toggleNodesFilters,
      setNodesFilterMqtt, setNodesFilterPosition, handleNfRole, handleRoleCheckbox, resetNodesFilters, on_sort_click,
      on_nodes_search, nodes_interval, closeNodeActions, updateFiltersIndicator, on_msg_filter,
      applyMessageFilter, on_messages, on_chat_scroll, on_chat, when;
    try match goal with |- context [show_tab ?t] => destruct t; try done end.
  all: pose proof tab_base; frame_solve.
Qed.

Lemma favorite_base n newFav ok : preserves (favorite_done n newFav ok) base.
Proof.
  intros w. unfold favorite_done. destruct ok; [|done]. set (body := mbind' _ _).
  assert (preserves body base) as Hb by (subst body; unfold set_dir; frame_solve).
  pose proof (Hb w) as E. by destruct (body w) as [[[]|err] w2].
Qed.

(** What is left to show that an input leaves a part [p] of the base alone. *)
Definition other_frame {A} (p : world -> A) (i : input) (w : world) : Prop :=
  match i with
  | IEvent ev => quiet_event ev = false -> preserves (on_event ev) p
  | ITimer id => forall cb, w_timers w !! id = Some cb -> preserves (run_callback id cb) p
  | IAnswer id a => forall f, w_fetches w !! id = Some f -> preserves (run_answer f a) p
  | _ => quiet_input i = false -> preserves (handle i) p
  end.

Lemma handle_frame {A} (p : world -> A) i w :
  (forall w1 w2, base w2 = base w1 -> p w2 = p w1) ->
  (forall id w1, p (snd (end_fetch id w1)) = p w1) ->
  other_frame p i w -> p (snd (handle i w)) = p w.
Proof.
  intros Hb He Ho. destruct (quiet_input i) eqn:Hq; [by apply Hb, input_base|].
  destruct i; try done; try (by apply Ho).
  - cbn [handle]. unfold if_open, when. cbn [mbind' gets]. destruct (x_open _); [|done].
    destruct (quiet_event ev) eqn:Hv; [by apply Hb, event_base|by apply Ho].
  - cbn [handle]. unfold fire. destruct (w_timers w !! id) as [cb|] eqn:E; [|done]. by apply (Ho cb).
  - cbn [handle]. unfold answered. destruct (w_fetches w !! id) as [f|] eqn:E; [|done].
    rewrite run_seq by (by intros ?). rewrite (Ho f E), He. done.
Qed.
End frames.
