(* ===== verification/PageSafe.v ===== *)
(** * No listener of the page throws

    Every input, in a state where the map agrees with the directory, runs to its
    end and keeps that agreement: [keeps_map], statement by statement. *)

From S2P Require Import Prelude Sort JsString JsNumber Platform Html Markup NodeDir Mesh World.
From S2P Require Import TraceHistory Route Trace Heatmap Filters Popup MapView NodesTable NodeActions.
From S2P Require Import Chat Charts Messages Sse Page PageFrame.

Section safe.
Context `{Platform}.

(** ** The table and the route *)

Lemma render_geo : preserves renderNodesTable geo.
Proof. intros w. pose proof (renderNodesTable_frame w) as E. unfold outside_nodes, geo, places in *. congruence. Qed.

Lemma roles_geo : preserves buildRoleCheckboxes geo.
Proof. intros w. pose proof (buildRoleCheckboxes_frame w) as E. unfold outside_nodes, geo, places in *. congruence. Qed.

Lemma page_rows_given w dir :
  dir_ok dir -> Forall (fun p => coords_given p.2 = true) (page_rows w dir).
Proof.
  intros Hd. apply Forall_forall. intros [n e] Hin. unfold page_rows, table_entries in Hin.
  rewrite sort_perm in Hin. apply list_elem_of_filter in Hin as [_ Hin%elem_of_dir_entries].
  unfold coords_given. cbn. destruct (has_pos e) eqn:Hp; [|done].
  by destruct (Hd n e Hin Hp) as (a & b & -> & -> & _).
Qed.

Lemma keeps_render w : map_inv w -> keeps_map renderNodesTable w.
Proof.
  intros Hi. split; [|eapply map_inv_geo; [apply render_geo|done]].
  unfold renderNodesTable. cbn [mbind' gets]. destruct (w_nodeDir w) as [dir|] eqn:Hd; [|done].
  fold (page_rows w dir). unfold mbind' at 1, lift.
  pose proof (build_rows_run (w_trace w) (now_s w) (page_rows w dir)) as Hb.
  destruct (build_rows _ _ _) as [h|err]; [|by destruct Hb; apply page_rows_given, Hi].
  by destruct (page_rows w dir).
Qed.

Lemma hop_coords_ok dir hops : dir_ok dir -> is_ok (latLngs (hop_coords dir hops).*1) = true.
Proof.
  intros Hd. unfold hop_coords. generalize (imap pair hops). intros l.
  induction l as [|[i n] l IH]; [done|]. cbn. destruct (dir !! n) as [e|] eqn:He; [|exact IH].
  destruct (has_pos e) eqn:Hp; [|exact IH]. destruct (Hd n e He Hp) as (a & b & Ea & Eb & Ha & Hb).
  cbn. rewrite Ea, Eb. unfold latLng. rewrite Ha, Hb. cbn. by destruct (latLngs _).
Qed.

Lemma draw_geo data : preserves (drawTraceroute data) geo.
Proof. unfold drawTraceroute, clearTraceRoute. frame_solve. Qed.

Lemma clear_geo : preserves clearTraceRoute geo.
Proof. unfold clearTraceRoute. frame_solve. Qed.

Lemma keeps_draw data w : map_inv w -> keeps_map (drawTraceroute data) w.
Proof.
  intros Hi. split; [|eapply map_inv_geo; [apply draw_geo|done]].
  unfold drawTraceroute. cbn [mbind' gets]. destruct (v_instance _); [|done].
  destruct (w_nodeDir w) as [dir|] eqn:Hd; [|done]. rewrite run_seq by auto with mesh.
  destruct (length _ <? 2)%nat; [done|]. unfold mbind' at 1, lift.
  pose proof (hop_coords_ok dir (forward_hops data) (proj1 (Hi dir Hd))) as Hok.
  by destruct (latLngs _).
Qed.

(** ** Composition *)

Definition steady {A} (m : Page A) : Prop :=
  forall w, map_inv w -> is_ok (fst (m w)) = true /\ map_inv (snd (m w)).

Lemma steady_keeps (m : Page unit) : steady m <-> forall w, map_inv w -> keeps_map m w.
Proof.
  unfold steady, keeps_map. split; intros Hm w Hi; destruct (Hm w Hi) as [Ho Hi']; (split; [|done]).
  - by destruct (fst (m w)) as [[]|].
  - by rewrite Ho.
Qed.

Lemma steady_bind {A B} (m : Page A) (k : A -> Page B) :
  steady m -> (forall a, steady (k a)) -> steady (mbind' m k).
Proof.
  intros Hm Hk w Hi. destruct (Hm w Hi) as [Ho Hi']. unfold mbind'.
  destruct (m w) as [[a|e] w']; [by apply Hk|done].
Qed.

Lemma steady_of {A} (m : Page A) : total m -> preserves m geo -> steady m.
Proof. intros Ht Hg w Hi. split; [apply Ht|eapply map_inv_geo; [apply Hg|done]]. Qed.

Lemma steady_for_each {A} (xs : list A) (body : A -> Page unit) :
  (forall x, steady (body x)) -> steady (for_each xs body).
Proof.
  intros Hb. induction xs as [|x xs IH]; [by intros w|]. cbn. apply steady_bind; [apply Hb|done].
Qed.

Lemma steady_render : steady renderNodesTable.
Proof. apply steady_keeps, keeps_render. Qed.
Lemma steady_draw data : steady (drawTraceroute data).
Proof. apply steady_keeps, keeps_draw. Qed.
Lemma steady_apply : steady applyMapFilters.
Proof. apply steady_keeps, keeps_apply. Qed.
Lemma steady_heat : steady updateHeatmap.
Proof. apply steady_keeps, keeps_heat. Qed.
Lemma steady_markers : steady updateMapMarkers.
Proof. apply steady_keeps, keeps_refresh. Qed.
Lemma steady_init : steady initMap.
Proof. apply steady_keeps, keeps_init. Qed.
Lemma steady_marker_click n : steady (on_marker_click n).
Proof. apply steady_of; [unfold on_marker_click, openPopup, when; frame_solve|apply marker_click_geo]. Qed.
Lemma steady_popup_close : steady on_popup_close.
Proof. apply steady_of; [unfold on_popup_close, put_markers; frame_solve|apply popup_close_geo]. Qed.
End safe.

#[export] Hint Resolve steady_render steady_draw steady_apply steady_heat steady_markers steady_init
  steady_marker_click steady_popup_close : mesh.

(** Decompose a statement; its primitives are total and do not touch the map. *)
Ltac steady_step :=
  lazymatch goal with
  | |- steady (mbind' _ _) => apply steady_bind; [|intros ?]
  | |- steady (for_each _ _) => apply steady_for_each; intros ?
  | |- context [match ?x with _ => _ end] => destruct x
  | |- context [if ?x then _ else _] => destruct x
  end.
Ltac steady_solve :=
  repeat (first [ solve [auto with mesh]
                | solve [apply steady_of; intros ?; reflexivity]
                | steady_step ]).

Section inputs.
Context `{Platform}.

(** The payloads that the theorems assume: coordinates come in pairs, and are
    numbers. *)
Definition event_ok (ev : server_event) : Prop :=
  match ev with
  | EvNodeDirectory (Some dir) => dir_ok dir
  | EvMetrics snap => match sn_node_dir snap with Some dir => dir_ok dir | None => True end
  | EvPosition pos => pos_ok pos
  | _ => True
  end.

Lemma steady_directory dir : match dir with Some d => dir_ok d | None => True end -> steady (on_node_directory dir).
Proof.
  intros Hd. apply steady_keeps. intros w Hi. destruct dir as [d|]; [by apply keeps_directory|].
  unfold on_node_directory. eapply keeps_from; [reflexivity|]. by apply keeps_refresh.
Qed.

Lemma steady_metrics snap : event_ok (EvMetrics snap) -> steady (updateMetricsUI snap).
Proof.
  cbn. intros Hd. unfold updateMetricsUI.
  assert (steady (match sn_node_dir snap with Some dir => set_dir dir ;;; updateMapMarkers | None => mret' tt end)).
  { destruct (sn_node_dir snap) as [dir|]; [|steady_solve]. exact (steady_directory (Some dir) Hd). }
  unfold update_cards, update_traffic, update_types, updateTypesLegend, on_charts, when. steady_solve.
Qed.

Lemma steady_favorite n fav : steady (on_node_favorite renderNodesTable n fav).
Proof.
  intros w Hi. split; [|by apply favorite_inv; [apply render_geo|]].
  unfold on_node_favorite. cbn [mbind' gets]. destruct (w_nodeDir w) as [dir|] eqn:Hd; [|done].
  destruct (dir !! n) as [e|] eqn:He; cbn [is_some]; [|by rewrite andb_false_r].
  destruct (truthy n); [|done]. cbn [andb]. rewrite run_seq by (by intros ?).
  assert (map_inv (snd (set_dir (dir_favorite n fav dir) w))) as Hi1.
  { cbn. unfold dir_favorite. rewrite He. destruct (Hi dir Hd) as [Hok Hm].
    pose proof (Hok n e He) as Hc. apply (inv_put w _ dir n (put_bool is_favorite fav e)); try done.
    intros Hv Hp. exact (Hm Hv n e He Hp). }
  revert Hi1. generalize (snd (set_dir (dir_favorite n fav dir) w)). intros w1 Hi1.
  assert (steady (renderNodesTable ;;; updateMapMarkers)) as Hs by steady_solve.
  by apply Hs.
Qed.

Lemma steady_unless (m : Page unit) : steady m -> steady (unless_paused m).
Proof. intros Hm. unfold unless_paused. steady_solve. Qed.

Lemma steady_startCooldown n sa : steady (startCooldown n sa).
Proof. unfold startCooldown, resetTraceBtn, for_trace_btns, set_cooldown. steady_solve. Qed.

Lemma steady_appendHistory data : steady (appendTraceHistory data).
Proof. unfold appendTraceHistory, renderTraceHistory, open_panel, when. steady_solve. Qed.

Lemma steady_result data : steady (on_traceroute_result data).
Proof.
  pose proof steady_startCooldown. pose proof steady_appendHistory.
  unfold on_traceroute_result, handleTracerouteResult, set_pending. steady_solve.
Qed.

Lemma steady_event ev : event_ok ev -> steady (on_event ev).
Proof.
  intros Hok. destruct ev; cbn [on_event];
    try apply steady_unless; cbn in Hok;
    [by apply steady_metrics|..]; cycle 2.
  - by apply steady_directory.
  - apply steady_keeps. intros. by apply keeps_position.
  - apply steady_keeps. intros. by apply keeps_telemetry.
  - apply steady_keeps. intros. by apply keeps_signal.
  - apply steady_keeps. intros. by apply keeps_info.
  - apply steady_result.
  - unfold loadTraceHistory, renderTraceHistory. steady_solve.
  - apply steady_favorite.
  - unfold loadChatHistory, updateBadges, applyChatFilter, scrollChatToBottom, on_chat. steady_solve.
  - unfold appendChatMessage, updateBadges, scrollChatToBottom, on_chat, when. steady_solve.
  - unfold prependMessage, applyMessageFilter, on_messages, when. steady_solve.
  - unfold updateClientsUI. steady_solve.
Qed.

Definition input_ok (i : input) : Prop :=
  match i with IEvent ev => event_ok ev | _ => True end.

Lemma steady_roles : steady buildRoleCheckboxes.
Proof. apply steady_of; [unfold buildRoleCheckboxes; frame_solve|apply roles_geo]. Qed.

Lemma steady_tab t : steady (show_tab t).
Proof.
  unfold show_tab. destruct t; steady_solve.
Qed.

#[local] Hint Resolve steady_roles steady_tab steady_startCooldown steady_appendHistory : mesh.

Lemma steady_favorite_done n newFav ok : steady (favorite_done n newFav ok).
Proof.
  assert (steady (emit_effect (ConsoleError "Favorite toggle failed:"))) as Hr by steady_solve.
  intros w Hi. unfold favorite_done. destruct ok; [|by apply Hr]. cbn [mbind' gets].
  destruct (w_nodeDir w) as [dir|] eqn:Hd; [|done].
  destruct (dir !! n) as [e|] eqn:He; cbn [is_some]; [|done].
  rewrite run_seq by (by intros ?).
  assert (map_inv (snd (set_dir (dir_favorite n newFav dir) w))) as Hi1.
  { cbn. unfold dir_favorite. rewrite He. destruct (Hi dir Hd) as [Hok Hm].
    pose proof (Hok n e He) as Hc. apply (inv_put w _ dir n (put_bool is_favorite newFav e)); try done.
    intros Hv Hp. exact (Hm Hv n e He Hp). }
  destruct (keeps_render _ Hi1) as [Ho Hi2].
  by destruct (renderNodesTable (snd (set_dir (dir_favorite n newFav dir) w))) as [[[]|err] w2].
Qed.

Lemma steady_answered id a : steady (answered id a).
Proof.
  intros w Hi. unfold answered. destruct (w_fetches w !! id) as [f|]; [|done].
  assert (steady (run_answer f a)) as Hs.
  { destruct f; cbn [run_answer]; [| |apply steady_favorite_done|..];
      unfold trace_failed, set_pending, resetTraceBtn, for_trace_btns, action_done, refresh_answered,
        channels_loaded, renderSidebar, selectChannel, applyChatFilter, on_chat, send_done, updateSendButton, when;
      steady_solve. }
  apply (steady_bind (end_fetch id)); [|done|done]. unfold end_fetch. steady_solve.
Qed.

Lemma steady_map_input i :
  match i with
  | ISearch _ | IRole _ _ | IHw _ _ | IStatus _ | IBattery _ | IMqtt _ | IHeatmap _ | IResetFilters
  | INodesMode _ | INodesPanel | INodesMqtt _ | INodesPosition _ | INodesRole _ _ | INodesReset
  | INodesSort _ | INodesSearch _ | INodesInterval => True
  | _ => False
  end -> steady (handle i).
Proof.
  destruct i; try done; intros _; cbn [handle];
    unfold on_search_input, on_role_change, on_hw_change,
      on_radio_change, on_heatmap_change, syncCheckedState, reset_filters, setNodesFilter, toggleNodesFilters,
      setNodesFilterMqtt, setNodesFilterPosition, handleNfRole, handleRoleCheckbox, resetNodesFilters, on_sort_click,
      updateSortIcons, on_nodes_search, nodes_interval, updateFiltersIndicator, when; steady_solve.
Qed.

Lemma steady_if_event ev : event_ok ev -> steady (if_open (on_event ev)).
Proof. intros Hok. pose proof (steady_event ev Hok). unfold if_open, when. steady_solve. Qed.

(** Every input but a timer, which needs more than the map. *)
Lemma steady_input i :
  input_ok i -> match i with ITimer _ => False | _ => True end -> steady (handle i).
Proof.
  intros Hok Ht. destruct i; try (by apply steady_map_input); try (by apply steady_answered);
    try (by apply steady_if_event); try done; cbn [handle]; unfold if_open, if_enabled, if_channel.
  all: unfold on_chat_enter, sse_open, sse_error, on_sse, pause_click, refresh_click, switchTab, initChat, scrollChatToBottom,
      initNodesTab, updateSortIcons, startTraceroute, set_pending, for_trace_btns, showTraceOnMap, toggleTraceHistory,
      open_panel, toggle_panel, toggleNodeActions, closeNodeActions, nodeAction, request, on_msg_filter,
      applyMessageFilter, on_messages, selectChannel, applyChatFilter, on_chat_input, sendMessage, updateSendButton,
      on_chat_scroll, on_chat, clearTraceRoute, when; steady_solve.
Qed.
End inputs.
