(* ===== verification/Lanes.v ===== *)
(** * Who owns which timer

    Timers and requests are shared: several components set and clear them. The
    [lane] of a component holds its timers and its requests; an operation
    [avoids] the lanes of the others. *)

From S2P Require Import Prelude Sort JsString JsNumber Platform Html Markup NodeDir Mesh World.
From S2P Require Import TraceHistory Route Trace Heatmap Filters Popup MapView NodesTable NodeActions.
From S2P Require Import Chat Charts Messages Sse Page PageFrame PageSafe.

(** ** Lanes *)

Inductive owner := OTrace | OStream | ORefresh | OSend | OOther.
#[export] Instance owner_eq_dec : EqDecision owner.
Proof. solve_decision. Defined.

Definition cb_owner (cb : callback) : owner :=
  match cb with
  | CbTraceTimeout _ | CbCooldownTick _ _ => OTrace
  | CbConnectSSE _ => OStream
  | CbRefreshDone => ORefresh
  | CbArmDropdown => OOther
  end.
Definition fetch_owner (f : fetch) : owner :=
  match f with
  | FTrace _ => OTrace
  | FRefresh => ORefresh
  | FChatSend => OSend
  | FAction _ | FFavorite _ _ | FChannels => OOther
  end.

Definition lane_timers (o : owner) (w : world) : gmap nat callback :=
  filter (fun p => cb_owner p.2 = o) (w_timers w).
Definition lane_fetches (o : owner) (w : world) : gmap nat fetch :=
  filter (fun p => fetch_owner p.2 = o) (w_fetches w).
Definition lane (o : owner) (w : world) := (lane_timers o w, lane_fetches o w).

(** Identifiers are not reused. *)
Definition fresh (w : world) : Prop :=
  forall id, (w_next w <= id)%nat -> w_timers w !! id = None /\ w_fetches w !! id = None.

(** From [w] to [w'], identifiers stay fresh and the lane of [o] is untouched. *)
Definition spares (o : owner) (w w' : world) : Prop :=
  fresh w' /\ lane o w' = lane o w /\ (w_next w <= w_next w')%nat.
Definition avoids {A} (o : owner) (m : Page A) : Prop := forall w, fresh w -> spares o w (snd (m w)).

Definition agenda (w : world) := (w_timers w, w_fetches w, w_next w).

Lemma spares_agenda o w w' : agenda w' = agenda w -> fresh w -> spares o w w'.
Proof.
  unfold agenda. intros E Hf. injection E as E1 E2 E3.
  unfold spares, fresh, lane, lane_timers, lane_fetches. by rewrite E1, E2, E3.
Qed.

Lemma spares_trans o w w1 w2 : spares o w w1 -> spares o w1 w2 -> spares o w w2.
Proof. intros (_ & L1 & N1) (F2 & L2 & N2). split; [done|]. split; [congruence|lia]. Qed.

Lemma avoids_of {A} o (m : Page A) : preserves m agenda -> avoids o m.
Proof. intros Hp w. apply spares_agenda, Hp. Qed.

Lemma avoids_base {A} o (m : Page A) : preserves m base -> avoids o m.
Proof.
  intros Hp. apply avoids_of. intros w. specialize (Hp w). unfold base, machine, agenda in *. congruence.
Qed.

Lemma avoids_bind {A B} o (m : Page A) (k : A -> Page B) :
  avoids o m -> (forall a, avoids o (k a)) -> avoids o (mbind' m k).
Proof.
  intros Hm Hk w Hf. pose proof (Hm w Hf) as Hs. unfold mbind'.
  destruct (m w) as [[a|e] w']; cbn in *; [|done]. eapply spares_trans; [done|]. by apply Hk, Hs.
Qed.

Lemma avoids_timer o cb : cb_owner cb <> o -> avoids o (set_timer cb).
Proof.
  intros Ho w Hf. cbn. split; [|split; [|cbn; lia]].
  - intros id Hid. destruct (Hf id) as [E1 E2]; [cbn in Hid; lia|]. cbn in *.
    split; [|done]. by rewrite lookup_insert_ne by lia.
  - unfold lane, lane_timers, lane_fetches. cbn. f_equal. rewrite map_filter_insert_not'; [done|done|].
    intros y. by rewrite (proj1 (Hf (w_next w) (Nat.le_refl _))).
Qed.

Lemma avoids_fetch o f : fetch_owner f <> o -> avoids o (start_fetch f).
Proof.
  intros Ho w Hf. cbn. split; [|split; [|cbn; lia]].
  - intros id Hid. destruct (Hf id) as [E1 E2]; [cbn in Hid; lia|]. cbn in *.
    split; [done|]. by rewrite lookup_insert_ne by lia.
  - unfold lane, lane_timers, lane_fetches. cbn. f_equal. rewrite map_filter_insert_not'; [done|done|].
    intros y. by rewrite (proj2 (Hf (w_next w) (Nat.le_refl _))).
Qed.

(** Removing, and replacing, a timer or a request of another lane. *)
Lemma spares_clear o w id cb :
  w_timers w !! id = Some cb -> cb_owner cb <> o -> fresh w -> spares o w (snd (clear_timer id w)).
Proof.
  intros Hid Ho Hf. cbn. split; [|split; [|done]].
  - intros id' Hid'. destruct (Hf id' Hid') as [E1 E2]. cbn. split; [|done].
    rewrite lookup_delete. by case_decide.
  - unfold lane, lane_timers, lane_fetches. cbn. f_equal. rewrite map_filter_delete_not; [done|].
    intros y Hy. cbn. congruence.
Qed.

Lemma spares_answer o w id f :
  w_fetches w !! id = Some f -> fetch_owner f <> o -> fresh w -> spares o w (snd (end_fetch id w)).
Proof.
  intros Hid Ho Hf. cbn. split; [|split; [|done]].
  - intros id' Hid'. destruct (Hf id' Hid') as [E1 E2]. cbn. split; [done|].
    rewrite lookup_delete. by case_decide.
  - unfold lane, lane_timers, lane_fetches. cbn. f_equal. rewrite map_filter_delete_not; [done|].
    intros y Hy. cbn. congruence.
Qed.

Lemma spares_replace o w id cb cb' :
  w_timers w !! id = Some cb -> cb_owner cb <> o -> cb_owner cb' <> o -> fresh w ->
  spares o w (on_w_timers (<[id := cb']>) w).
Proof.
  intros Hid Ho Ho' Hf. split; [|split; [|done]].
  - intros id' Hid'. destruct (Hf id' Hid') as [E1 E2]. cbn. split; [|done].
    rewrite lookup_insert. case_decide; [congruence|done].
  - unfold lane, lane_timers, lane_fetches. cbn. f_equal. rewrite map_filter_insert_not'; [done|done|].
    intros y Hy. cbn. congruence.
Qed.

Lemma spares_then {A} o w (m : Page unit) (k : Page A) :
  total m -> spares o w (snd (m w)) -> avoids o k -> spares o w (snd ((m ;;; k) w)).
Proof. intros Ht Hs Hk. rewrite run_seq by done. eapply spares_trans; [done|]. by apply Hk, Hs. Qed.

Ltac avoid_step :=
  lazymatch goal with
  | |- avoids _ (mbind' _ _) => apply avoids_bind; [|intros ?]
  | |- avoids _ (set_timer _) => apply avoids_timer; done
  | |- avoids _ (start_fetch _) => apply avoids_fetch; done
  | |- context [match ?x with _ => _ end] => destruct x
  | |- context [if ?x then _ else _] => destruct x
  end.
Ltac avoid_solve :=
  repeat (first [ solve [auto with mesh] | solve [apply avoids_of; intros ?; reflexivity] | avoid_step ]).

(** ** The lanes an input can touch *)

Definition input_owner (w : world) (i : input) : option owner :=
  match i with
  | IStreamError => Some OStream
  | IEvent (EvTraceResult _) | ITrace _ => Some OTrace
  | ITimer id => cb_owner <$> w_timers w !! id
  | IAnswer id _ => fetch_owner <$> w_fetches w !! id
  | IRefresh => Some ORefresh
  | IChatSend | IChatEnter => Some OSend
  | ITab TabChat | IActions _ | INodeAction _ _ => Some OOther
  | _ => None
  end.

Section lanes.
Context `{Platform}.

Lemma history_avoids o data : avoids o (appendTraceHistory data).
Proof.
  apply avoids_of. intros w. pose proof (append_machine data w) as E.
  pose proof (appendTraceHistory_frame data w) as F. unfold machine, agenda, outside_history in *. congruence.
Qed.
Lemma draw_avoids o data : avoids o (drawTraceroute data).
Proof.
  apply avoids_of. intros w. pose proof (drawTraceroute_frame data w) as F. unfold agenda, outside_map in *. congruence.
Qed.
Lemma cooldown_avoids o n sa : o <> OTrace -> avoids o (startCooldown n sa).
Proof. intros Ho. unfold startCooldown, resetTraceBtn, for_trace_btns, set_cooldown. avoid_solve. Qed.

#[local] Hint Resolve history_avoids draw_avoids cooldown_avoids : mesh.

(** The timeout of a pending traceroute is set. *)
Lemma pending_timer w p :
  trace_inv w -> t_pending (w_trace w) = Some p -> w_timers w !! pt_timer p = Some (CbTraceTimeout (pt_target p)).
Proof. intros Hi Hp. apply (ok_timeout _ _ _ _ Hi). by exists p. Qed.

Lemma result_spares o data w :
  o <> OTrace -> trace_inv w -> fresh w -> spares o w (snd (on_traceroute_result data w)).
Proof.
  intros Ho Hi Hf. assert (avoids o (appendTraceHistory data)) as Ha by auto with mesh.
  unfold on_traceroute_result. destruct (handleTracerouteResult data w) as [r w1] eqn:E.
  assert (spares o w w1) as Hs.
  { change w1 with (snd (r, w1)). rewrite <- E. clear E. unfold handleTracerouteResult. cbn [mbind' gets].
    destruct (t_pending (w_trace w)) as [p|] eqn:Hp; [|by apply spares_agenda].
    case_if; [|by apply spares_agenda]. apply spares_then; [by intros ?| |].
    - eapply spares_clear; [by apply pending_timer|cbn; congruence|done].
    - unfold set_pending. avoid_solve. }
  unfold mbind'. rewrite E. destruct r as [u|e]; [|done]. eapply spares_trans; [done|]. by apply Ha, Hs.
Qed.

Lemma tick_spares o id n r w :
  o <> OTrace -> trace_inv w -> fresh w -> w_timers w !! id = Some (CbCooldownTick n r) ->
  spares o w (snd (cooldown_tick id n r w)).
Proof.
  intros Ho Hi Hf Hid. pose proof (proj1 (ok_tick _ _ _ _ Hi id n r) Hid) as Hc.
  unfold cooldown_tick. set (w1 := on_w_timers (<[id := CbCooldownTick n (r - 1)]>) w).
  assert (spares o w w1) as Hs
    by (eapply spares_replace; [exact Hid|cbn; congruence|cbn; congruence|exact Hf]).
  change (spares o w (snd ((cooldown <-- gets (fun w => t_cooldown (w_trace w)) ;;
    match cooldown with
    | None => mthrow (TypeError "traceCooldown is null")
    | Some c =>
        set_cooldown (Some (Cooling (cd_target c) (r - 1) (cd_interval c))) ;;;
        for_trace_btns n (btn_label (dec (r - 1) +++ js "s")) ;;;
        when (r - 1 <=? 0) (clear_timer (cd_interval c) ;;; set_cooldown None ;;; resetTraceBtn n)
    end) w1))).
  cbn [mbind' gets]. change (w_trace w1) with (w_trace w). rewrite Hc. cbn [cd_target cd_interval].
  rewrite !run_seq by (by intros ?).
  set (w2 := snd (for_trace_btns n _ (snd (set_cooldown _ w1)))).
  assert (spares o w w2) as Hs2.
  { eapply spares_trans; [exact Hs|]. apply spares_agenda; [done|apply Hs]. }
  unfold when. case_if; [|exact Hs2]. eapply spares_trans; [exact Hs2|]. apply spares_then; [by intros ?| |].
  - eapply (spares_clear _ _ _ (CbCooldownTick n (r - 1))); [|by cbn; congruence|apply Hs2].
    subst w2 w1. cbn. apply lookup_insert_eq.
  - unfold set_cooldown, resetTraceBtn, for_trace_btns. avoid_solve.
Qed.

Lemma timeout_avoids o n : o <> OTrace -> avoids o (trace_timeout n).
Proof. intros Ho. unfold trace_timeout, set_pending. avoid_solve. Qed.

Lemma failed_spares o n w : o <> OTrace -> trace_inv w -> fresh w -> spares o w (snd (trace_failed n w)).
Proof.
  intros Ho Hi Hf. unfold trace_failed. rewrite run_seq by (by intros ?).
  set (w1 := snd (emit_effect _ w)).
  assert (spares o w w1) as Hs by (apply spares_agenda; done).
  assert (trace_inv w1) as Hi1 by done. cbn [mbind' gets].
  assert (avoids o (resetTraceBtn n)) as Hr by (unfold resetTraceBtn, for_trace_btns; avoid_solve).
  destruct (t_pending (w_trace w1)) as [p|] eqn:Hp.
  - eapply spares_trans; [exact Hs|]. apply spares_then; [by intros ?| |exact Hr].
    apply spares_then; [by intros ?| |unfold set_pending; avoid_solve].
    eapply spares_clear; [by apply pending_timer|cbn; congruence|apply Hs].
  - eapply spares_trans; [exact Hs|]. apply spares_then; [by intros ?| |exact Hr].
    apply spares_agenda; [done|apply Hs].
Qed.

Lemma fire_spares o id w :
  trace_inv w -> fresh w -> input_owner w (ITimer id) <> Some o -> spares o w (snd (fire id w)).
Proof.
  intros Hi Hf Ho. unfold fire, input_owner in *. destruct (w_timers w !! id) as [cb|] eqn:Hid; [|by apply spares_agenda].
  assert (cb_owner cb <> o) as Ho' by (intros E; apply Ho; cbn; by rewrite E).
  pose proof (spares_clear o w id cb Hid Ho' Hf) as Hc.
  destruct cb; cbn in Ho'; cbn [run_callback]; try (by apply tick_spares); try done;
    (apply spares_then; [by intros ?|done|]); try (by apply timeout_avoids);
    unfold connectSSE, on_sse, refresh_done; avoid_solve.
Qed.

Lemma answered_spares o id a w :
  trace_inv w -> fresh w -> input_owner w (IAnswer id a) <> Some o -> spares o w (snd (answered id a w)).
Proof.
  intros Hi Hf Ho. unfold answered, input_owner in *. destruct (w_fetches w !! id) as [f|] eqn:Hid; [|by apply spares_agenda].
  assert (fetch_owner f <> o) as Ho' by (intros E; apply Ho; cbn; by rewrite E).
  pose proof (spares_answer o w id f Hid Ho' Hf) as Hc. rewrite run_seq by (by intros ?).
  eapply spares_trans; [exact Hc|]. destruct Hc as (Hf1 & _ & _).
  assert (trace_inv (snd (end_fetch id w))) as Hi1 by done.
  revert Hf1 Hi1. generalize (snd (end_fetch id w)). intros w1 Hf1 Hi1.
  assert (forall m : Page unit, avoids o m -> spares o w1 (snd (m w1))) as Ha by auto.
  destruct f; cbn [run_answer].
  - unfold when. destruct (an_ok a); [by apply spares_agenda|]. by apply failed_spares.
  - apply Ha. unfold action_done, when. avoid_solve.
  - apply Ha. apply avoids_base, favorite_base.
  - apply Ha. unfold refresh_answered, when. avoid_solve.
  - apply Ha. unfold channels_loaded, renderSidebar, selectChannel, applyChatFilter, on_chat. avoid_solve.
  - apply Ha. unfold send_done, updateSendButton. avoid_solve.
Qed.

Lemma if_open_avoids o m : avoids o m -> avoids o (if_open m).
Proof. intros Hm. unfold if_open, when. avoid_solve. Qed.

Lemma event_spares o ev w :
  trace_inv w -> fresh w -> input_owner w (IEvent ev) <> Some o -> spares o w (snd (on_event ev w)).
Proof.
  intros Hi Hf Ho. destruct (quiet_event ev) eqn:Hq; [by apply avoids_base; [apply event_base|]|].
  destruct ev; try done; cbn [on_event].
  - apply result_spares; [|done|done]. intros ->. by apply Ho.
  - revert w Hi Hf Ho. intros w _ Hf _. revert w Hf. change (avoids o (loadChatHistory messages)).
    unfold loadChatHistory, updateBadges, applyChatFilter, scrollChatToBottom, on_chat. avoid_solve.
  - revert w Hi Hf Ho. intros w _ Hf _. revert w Hf. change (avoids o (unless_paused (appendChatMessage msg))).
    unfold unless_paused, appendChatMessage, updateBadges, scrollChatToBottom, on_chat, when. avoid_solve.
Qed.

(** An input touches at most the lane of one component. *)
Lemma input_spares o i w :
  trace_inv w -> fresh w -> input_owner w i <> Some o -> spares o w (snd (handle i w)).
Proof.
  intros Hi Hf Ho. destruct (quiet_input i) eqn:Hq; [by apply avoids_base; [apply input_base|]|].
  assert (forall m : Page unit, avoids o m -> spares o w (snd (m w))) as Ha by auto.
  assert (forall o', input_owner w i = Some o' -> o' <> o) as Hne by (intros o' E ->; by apply Ho).
  destruct i; try done; cbn [handle]; cbn [input_owner] in Hne;
    try (specialize (Hne _ eq_refl)).
  - apply Ha, if_open_avoids. unfold sse_open, on_sse. avoid_solve.
  - apply Ha, if_open_avoids. unfold sse_error, on_sse. avoid_solve.
  - unfold if_open. cbn [mbind' gets]. destruct (x_open _); [|by apply spares_agenda].
    by apply event_spares.
  - by apply fire_spares.
  - by apply answered_spares.
  - apply Ha. unfold if_enabled, refresh_click, when. avoid_solve.
  - destruct t; try done. specialize (Hne _ eq_refl). apply Ha. unfold switchTab. apply avoids_bind; [apply avoids_base, tab_base|].
    intros _. unfold initChat, scrollChatToBottom, on_chat. avoid_solve.
  - apply Ha. unfold startTraceroute, clearTraceRoute, set_pending, for_trace_btns. avoid_solve.
  - apply Ha. unfold toggleNodeActions, closeNodeActions. avoid_solve.
  - apply Ha. unfold nodeAction, closeNodeActions, request. avoid_solve.
  - apply Ha. unfold if_channel, selectChannel, applyChatFilter, on_chat, when. avoid_solve.
  - apply Ha. unfold if_enabled, on_chat_input, updateSendButton, when. avoid_solve.
  - apply Ha. unfold if_enabled, sendMessage, when. avoid_solve.
  - apply Ha. unfold if_enabled, on_chat_enter, sendMessage, when. avoid_solve.
Qed.
End lanes.
