(* ===== verification/PageInv.v ===== *)
(** * The invariant of the page

    What holds in every state the page can reach, whatever the server sends, the
    user does and the requests answer, and that no listener throws there. *)

From S2P Require Import Prelude Sort JsString JsNumber Platform Html Markup NodeDir Mesh World.
From S2P Require Import TraceHistory Route Trace Heatmap Filters Popup MapView NodesTable NodeActions.
From S2P Require Import Chat Charts Messages Sse Page PageFrame PageSafe Lanes.

(** ** The components *)

(** Either a source is open, or exactly one timer waits to open one. *)
Definition stream_ok (d : Z) (isOpen : bool) (ts : gmap nat callback) : Prop :=
  1000 <= d <= 30000 /\
  if isOpen then ts = ∅
  else exists id d', ts = {[ id := CbConnectSSE d' ]} /\ 1000 <= d' <= 30000.

(** The refresh button is disabled exactly while its request or the timer after
    it is under way. *)
Definition refresh_ok (disabled : bool) (l : gmap nat callback * gmap nat fetch) : Prop :=
  if disabled
  then (exists id, l = ({[ id := CbRefreshDone ]}, ∅)) \/ (exists id, l = (∅, {[ id := FRefresh ]}))
  else l = (∅, ∅).

(** The text area is disabled exactly while a message is being sent, and then
    nothing can send another one. *)
Definition send_ok (input_off btn_off : bool) (fs : gmap nat fetch) : Prop :=
  if input_off then btn_off = true /\ exists id, fs = {[ id := FChatSend ]} else fs = ∅.

Record page_inv (w : world) : Prop := {
  pi_fresh : fresh w;
  pi_map : map_inv w;
  pi_trace : trace_inv w;
  pi_stream : stream_ok (x_delay (w_sse w)) (x_open (w_sse w)) (lane_timers OStream w);
  pi_refresh : refresh_ok (refresh_btn w) (lane ORefresh w);
  pi_send : send_ok (chat_input w) (send_btn w) (lane_fetches OSend w);
  pi_chat : chat_sync (w_chat w);
}.

(** ** Each component is left alone by the inputs of the others *)

Section steps.
Context `{Platform}.

Lemma trace_inv_lane w w' :
  trace_inv w -> w_trace w' = w_trace w -> w_now w <= w_now w' -> spares OTrace w w' -> trace_inv w'.
Proof.
  intros Hi Et Hnow (Hf & Hl & Hn). apply (frame_inv w); [|exact Hi].
  split; [done|]. split; [done|]. split; [done|]. split; [|intros id Hid; apply (Hf id Hid)].
  intros id cb Hcb. assert (cb_owner cb = OTrace) as Ho by (by destruct cb).
  assert (lane_timers OTrace w' !! id = Some cb <-> lane_timers OTrace w !! id = Some cb) as Hl'.
  { unfold lane in Hl. injection Hl as Hl _. by rewrite Hl. }
  unfold lane_timers in Hl'. rewrite !map_lookup_filter_Some in Hl'. tauto.
Qed.

(** The statements of the inputs that are not quiet, opened up. *)
Ltac view_frame :=
  unfold on_event, run_callback, run_answer, unless_paused, on_traceroute_result, handleTracerouteResult, startCooldown, resetTraceBtn, for_trace_btns,
    set_pending, set_cooldown, drawTraceroute, clearTraceRoute, appendTraceHistory, renderTraceHistory, open_panel,
    trace_timeout, startCooldown, resetTraceBtn, for_trace_btns, set_pending, set_cooldown, appendTraceHistory,
    renderTraceHistory, open_panel, cooldown_tick, for_trace_btns, resetTraceBtn, for_trace_btns, set_cooldown,
    connectSSE, refresh_done, trace_failed, action_done, refresh_answered,
    channels_loaded, renderSidebar, selectChannel, applyChatFilter, send_done, updateSendButton,
    loadChatHistory, appendChatMessage, updateBadges, applyChatFilter, scrollChatToBottom,
    if_open, if_enabled, if_channel, selectChannel, applyChatFilter, sse_open, sse_error, on_sse, refresh_click, initChat, startTraceroute, clearTraceRoute,
    set_pending, for_trace_btns, toggleNodeActions, closeNodeActions, nodeAction, closeNodeActions, request,
    on_chat_enter, sendMessage, on_chat_input, updateSendButton, on_chat, when;
  frame_solve.

Lemma base_part {A} (p : world -> A) (q : _ -> A) :
  (forall w, p w = q (base w)) -> forall w1 w2, base w2 = base w1 -> p w2 = p w1.
Proof. intros Hp w1 w2 E. by rewrite !Hp, E. Qed.

Lemma base_preserves {A B} (p : world -> A) (m : Page B) :
  (forall w1 w2, base w2 = base w1 -> p w2 = p w1) -> preserves m base -> preserves m p.
Proof. intros Hp Hm w. apply Hp, Hm. Qed.

(** The cases that are left once the owner of the input is known not to be that
    of the part. *)
Ltac view_cases :=
  match goal with Hb : forall w1 w2, base w2 = base w1 -> _ |- other_frame ?p ?i _ =>
    destruct i; try done; cbn [other_frame handle]; intros;
    repeat match goal with
    | ev : server_event |- _ => destruct ev; try done
    | t : tab |- _ => destruct t; try done; unfold switchTab; apply preserves_bind; [apply (base_preserves p _ Hb), tab_base|intros []]
    | Ho : input_owner ?w (ITimer ?id) <> _, Hcb : w_timers ?w !! ?id = Some ?cb |- _ =>
        cbn [input_owner] in Ho; rewrite Hcb in Ho; destruct cb; try done; clear Hcb Ho
    | Ho : input_owner ?w (IAnswer ?id _) <> _, Hf : w_fetches ?w !! ?id = Some ?f |- _ =>
        cbn [input_owner] in Ho; rewrite Hf in Ho; destruct f; try done; clear Hf Ho
    | Hcb : w_timers _ !! _ = Some ?cb |- _ => is_var cb; destruct cb
    | Hf : w_fetches _ !! _ = Some ?f |- _ => is_var f; destruct f; try congruence
    end;
    try (apply (base_preserves p _ Hb), favorite_base); view_frame
  end.

Lemma refresh_frame i w :
  input_owner w i <> Some ORefresh -> refresh_btn (snd (handle i w)) = refresh_btn w.
Proof.
  intros Ho. pose proof (base_part refresh_btn (fun b => b.1.2.1.1) (fun _ => eq_refl)) as Hb.
  apply handle_frame; [done|done|]. view_cases.
Qed.

Lemma link_frame i w :
  i <> IStreamOpen -> input_owner w i <> Some OStream -> link (snd (handle i w)) = link w.
Proof.
  intros Hi Ho. pose proof (base_part link (fun b => b.1.1.2) (fun _ => eq_refl)) as Hb.
  apply handle_frame; [done|done|]. view_cases.
Qed.

Lemma send_frame i w :
  input_owner w i <> Some OSend -> match i with IChatInput _ => False | _ => True end ->
  (chat_input (snd (handle i w)), send_btn (snd (handle i w))) = (chat_input w, send_btn w).
Proof.
  intros Ho Hi.
  pose proof (base_part (fun w => (chat_input w, send_btn w)) (fun b => (b.1.2.1.2, b.1.2.2)) (fun _ => eq_refl)) as Hb.
  apply (handle_frame (fun w => (chat_input w, send_btn w))); [done|done|]. view_cases.
Qed.

Lemma trace_frame_input i w :
  input_owner w i <> Some OTrace -> w_trace (snd (handle i w)) = w_trace w.
Proof.
  intros Ho. pose proof (base_part w_trace (fun b => b.1.1.1.1.1.1.1) (fun _ => eq_refl)) as Hb.
  apply handle_frame; [done|done|]. view_cases.
Qed.

Lemma now_frame i w : w_now w <= w_now (snd (handle i w)).
Proof.
  assert ((forall t, i <> IClock t) -> w_now (snd (handle i w)) = w_now w) as Hn.
  { intros Hi. pose proof (base_part w_now (fun b => b.1.1.1.1.2) (fun _ => eq_refl)) as Hb.
    apply handle_frame; [done|done|]. view_cases. by destruct (Hi now). }
  destruct i; try (by rewrite Hn by done). cbn. lia.
Qed.

(** ** The components, step by step *)

Lemma lane_set o w id cb :
  cb_owner cb = o -> lane_timers o (on_w_timers (<[id := cb]>) w) = <[id := cb]> (lane_timers o w).
Proof. intros Ho. unfold lane_timers. cbn. by rewrite map_filter_insert_True. Qed.
Lemma lane_clear o w id : lane_timers o (on_w_timers (delete id) w) = delete id (lane_timers o w).
Proof. unfold lane_timers. cbn. by rewrite map_filter_delete. Qed.
Lemma lane_fetch o w id f :
  fetch_owner f = o -> lane_fetches o (on_w_fetches (<[id := f]>) w) = <[id := f]> (lane_fetches o w).
Proof. intros Ho. unfold lane_fetches. cbn. by rewrite map_filter_insert_True. Qed.
Lemma lane_end o w id : lane_fetches o (on_w_fetches (delete id) w) = delete id (lane_fetches o w).
Proof. unfold lane_fetches. cbn. by rewrite map_filter_delete. Qed.

Lemma lane_timer_known o w id cb :
  w_timers w !! id = Some cb -> cb_owner cb = o -> lane_timers o w !! id = Some cb.
Proof. intros Hid Ho. unfold lane_timers. by rewrite map_lookup_filter_Some. Qed.
Lemma lane_fetch_known o w id f :
  w_fetches w !! id = Some f -> fetch_owner f = o -> lane_fetches o w !! id = Some f.
Proof. intros Hid Ho. unfold lane_fetches. by rewrite map_lookup_filter_Some. Qed.

(** A lane with one timer, and one of its timers. *)
Lemma single_known {A} (m : gmap nat A) k a id x : m = {[ k := a ]} -> m !! id = Some x -> k = id /\ a = x.
Proof. intros ->. rewrite lookup_singleton_Some. done. Qed.

Definition stream_inv (w : world) : Prop :=
  stream_ok (x_delay (w_sse w)) (x_open (w_sse w)) (lane_timers OStream w).

Lemma stream_error w : stream_inv w -> stream_inv (snd (if_open sse_error w)).
Proof.
  unfold stream_inv. intros [Hd Ho]. unfold if_open, when. cbn [mbind' gets].
  destruct (x_open (w_sse w)) eqn:E; [|cbn; rewrite E; by split].
  cbn. split; [lia|].
  exists (w_next w), (x_delay (w_sse w)). split; [|lia].
  unfold lane_timers in *. cbn. by rewrite map_filter_insert_True, Ho by done.
Qed.

Lemma stream_connect w id d :
  stream_inv w -> w_timers w !! id = Some (CbConnectSSE d) ->
  stream_inv (snd ((clear_timer id ;;; connectSSE) w)).
Proof.
  unfold stream_inv. intros [Hd Ho] Hid. pose proof (lane_timer_known OStream w id _ Hid eq_refl) as Hl.
  cbn. split; [lia|]. unfold lane_timers in *. cbn. rewrite map_filter_delete.
  destruct (x_open (w_sse w)); [by rewrite Ho in Hl|]. destruct Ho as (id' & d' & E & _).
  rewrite E in *. apply lookup_singleton_Some in Hl as [-> _]. by rewrite delete_singleton_eq.
Qed.

Lemma stream_step i w :
  trace_inv w -> fresh w -> stream_inv w -> stream_inv (snd (handle i w)).
Proof.
  intros Hi Hf Hs. destruct (decide (input_owner w i = Some OStream)) as [Ho|Ho].
  - destruct i; try done; cbn [handle input_owner] in *; try by repeat case_match.
    + by apply stream_error.
    + unfold fire. destruct (w_timers w !! id) as [[]|] eqn:Hid; try done. by eapply stream_connect.
    + destruct (w_fetches w !! id) as [[]|]; done.
  - destruct (input_spares OStream i w Hi Hf Ho) as (_ & Hl & _). unfold lane in Hl. injection Hl as Hl _.
    assert (i = IStreamOpen \/ i <> IStreamOpen) as [->|Hne] by (destruct i; auto).
    + unfold stream_inv. cbn [handle]. unfold if_open, when. cbn [mbind' gets].
      destruct Hs as [Hd Hs]. destruct (x_open (w_sse w)) eqn:E; cbn; rewrite E; split; try lia; done.
    + pose proof (link_frame i w Hne Ho) as El. unfold link in El. injection El as E1 E2.
      unfold stream_inv. by rewrite E1, E2, Hl.
Qed.

Definition refresh_inv (w : world) : Prop := refresh_ok (refresh_btn w) (lane ORefresh w).

Lemma refresh_started w : refresh_inv w -> refresh_inv (snd (if_enabled "btn-refresh-config" refresh_click w)).
Proof.
  unfold refresh_inv, refresh_ok, if_enabled, when. intros Hr. cbn [mbind' gets].
  fold (refresh_btn w). destruct (refresh_btn w) eqn:E; cbn [negb]; [cbn [snd mret']; by rewrite E|].
  change (refresh_btn (snd (refresh_click w))) with true. cbv iota. right. exists (w_next w).
  unfold lane in *. injection Hr as H1 H2. unfold lane_timers, lane_fetches in *. cbn.
  by rewrite map_filter_insert_True, H1, H2 by done.
Qed.

Lemma refresh_finished w id :
  refresh_inv w -> w_timers w !! id = Some CbRefreshDone ->
  refresh_inv (snd ((clear_timer id ;;; refresh_done) w)).
Proof.
  unfold refresh_inv, refresh_ok. intros Hr Hid.
  pose proof (lane_timer_known ORefresh w id _ Hid eq_refl) as Hl. rewrite run_seq by (by intros ?).
  change (refresh_btn (snd (refresh_done (snd (clear_timer id w))))) with false. cbv iota.
  unfold lane in *. destruct (refresh_btn w).
  - destruct Hr as [[id' E]|[id' E]]; injection E as E1 E2; rewrite E1 in Hl; [|done].
    apply lookup_singleton_Some in Hl as [-> _].
    unfold lane_timers, lane_fetches in *. cbn. by rewrite map_filter_delete, E1, E2, delete_singleton_eq.
  - injection Hr as E1 E2. by rewrite E1 in Hl.
Qed.

Lemma refresh_waits w id ok :
  refresh_inv w -> w_fetches w !! id = Some FRefresh ->
  refresh_inv (snd ((end_fetch id ;;; refresh_answered ok) w)).
Proof.
  unfold refresh_inv, refresh_ok. intros Hr Hid.
  pose proof (lane_fetch_known ORefresh w id _ Hid eq_refl) as Hl. rewrite run_seq by (by intros ?).
  assert (refresh_btn (snd (refresh_answered ok (snd (end_fetch id w)))) = refresh_btn w) as -> by (by destruct ok).
  unfold lane in *. destruct (refresh_btn w).
  - destruct Hr as [[id' E]|[id' E]]; injection E as E1 E2; rewrite E2 in Hl; [done|].
    apply lookup_singleton_Some in Hl as [-> _]. left. exists (w_next w).
    unfold lane_timers, lane_fetches in *.
    destruct ok; cbn; by rewrite map_filter_insert_True, map_filter_delete, E1, E2, delete_singleton_eq by done.
  - injection Hr as E1 E2. by rewrite E2 in Hl.
Qed.

Lemma refresh_step i w :
  trace_inv w -> fresh w -> refresh_inv w -> refresh_inv (snd (handle i w)).
Proof.
  intros Hi Hf Hr. destruct (decide (input_owner w i = Some ORefresh)) as [Ho|Ho].
  - destruct i; try done; cbn [handle input_owner] in *; try by repeat case_match.
    + unfold fire. destruct (w_timers w !! id) as [[]|] eqn:Hid; try done. by apply refresh_finished.
    + unfold answered. destruct (w_fetches w !! id) as [[]|] eqn:Hid; try done. by apply refresh_waits.
    + by apply refresh_started.
  - destruct (input_spares ORefresh i w Hi Hf Ho) as (_ & Hl & _).
    unfold refresh_inv. by rewrite (refresh_frame i w Ho), Hl.
Qed.

Definition send_inv (w : world) : Prop := send_ok (chat_input w) (send_btn w) (lane_fetches OSend w).

Lemma send_started w :
  chat_input w = false -> send_inv w -> send_inv (snd (sendMessage w)).
Proof.
  unfold send_inv, send_ok. intros E Hs. rewrite E in Hs.
  unfold sendMessage. cbn [mbind' gets].
  destruct (negb (truthy (trim (el_value (w_dom w "chat-input"))))); [cbn [snd mret']; by rewrite E|].
  match goal with |- context [snd (?m w)] => set (w' := snd (m w)) end.
  change (chat_input w') with true. change (send_btn w') with true. cbv iota. split; [done|].
  exists (w_next w). unfold lane_fetches in *. cbn. by rewrite map_filter_insert_True, Hs by done.
Qed.

Lemma send_input_step value w :
  send_inv w -> send_inv (snd (if_enabled "chat-input" (on_chat_input value) w)).
Proof.
  unfold send_inv, send_ok, if_enabled, when. intros Hs. cbn [mbind' gets]. fold (chat_input w).
  destruct (chat_input w) eqn:E; cbn [negb]; [cbn [snd mret']; by rewrite E|].
  match goal with |- context [snd (?m w)] => set (w' := snd (m w)) end.
  change (chat_input w') with (chat_input w). by rewrite E.
Qed.

Lemma send_finished w id ok :
  send_inv w -> w_fetches w !! id = Some FChatSend -> send_inv (snd ((end_fetch id ;;; send_done ok) w)).
Proof.
  unfold send_inv, send_ok. intros Hs Hid.
  pose proof (lane_fetch_known OSend w id _ Hid eq_refl) as Hl. rewrite run_seq by (by intros ?).
  assert (chat_input (snd (send_done ok (snd (end_fetch id w)))) = false) as -> by (by destruct ok).
  assert (lane_fetches OSend (snd (send_done ok (snd (end_fetch id w)))) = delete id (lane_fetches OSend w)) as ->.
  { rewrite <- lane_end. by destruct ok. }
  destruct (chat_input w); [|by rewrite Hs in Hl]. destruct Hs as (_ & id' & E). rewrite E in *.
  apply lookup_singleton_Some in Hl as [-> _]. by rewrite delete_singleton_eq.
Qed.

Lemma send_step i w : trace_inv w -> fresh w -> send_inv w -> send_inv (snd (handle i w)).
Proof.
  intros Hi Hf Hs. destruct (decide (input_owner w i = Some OSend)) as [Ho|Ho].
  - destruct i; try done; cbn [handle input_owner] in *; try by repeat case_match.
    + destruct (w_timers w !! id) as [[]|]; done.
    + unfold answered. destruct (w_fetches w !! id) as [[]|] eqn:Hid; try done. by apply send_finished.
    + unfold if_enabled, when. cbn [mbind' gets]. fold (send_btn w). destruct (send_btn w) eqn:E; [done|].
      apply send_started; [|done]. unfold send_inv, send_ok in Hs. destruct (chat_input w); [|done].
      destruct Hs as [Hs _]. congruence.
    + unfold if_enabled, when. cbn [mbind' gets]. fold (chat_input w). destruct (chat_input w) eqn:E; [done|].
      unfold on_chat_enter, when. cbn [mbind' gets negb].
      destruct (truthy _); [by apply send_started|done].
  - destruct (input_spares OSend i w Hi Hf Ho) as (_ & Hl & _). unfold lane in Hl. injection Hl as _ Hl.
    assert (match i with IChatInput _ => False | _ => True end \/ exists v, i = IChatInput v) as [Hc|[v ->]]
      by (destruct i; eauto).
    + pose proof (send_frame i w Ho Hc) as E. injection E as E1 E2. unfold send_inv. by rewrite E1, E2, Hl.
    + by apply send_input_step.
Qed.

Lemma trace_step_input i w : trace_inv w -> fresh w -> trace_inv (snd (handle i w)).
Proof.
  intros Hi Hf. destruct (decide (input_owner w i = Some OTrace)) as [Ho|Ho].
  - destruct i; try done; cbn [handle input_owner] in *; try by repeat case_match.
    + destruct ev; try done. unfold if_open, when. cbn [mbind' gets].
      destruct (x_open (w_sse w)); [by apply result_inv|done].
    + unfold fire. destruct (w_timers w !! id) as [[]|] eqn:Hid; try done; cbn [run_callback].
      * by apply timeout_inv.
      * by apply tick_inv.
    + unfold answered. destruct (w_fetches w !! id) as [[]|] eqn:Hid; try done. rewrite run_seq by (by intros ?).
      cbn [run_answer]. unfold when. destruct (an_ok a); [done|]. by apply failed_inv.
    + by apply start_inv.
  - apply (trace_inv_lane w); [done|by apply trace_frame_input|apply now_frame|by apply input_spares].
Qed.

(** Histories the server sends hold at most 500 messages, as its ring buffer. *)
Definition history_ok (i : input) : Prop :=
  match i with
  | IEvent (EvChatHistory (Some ms)) => (length ms <= 500)%nat
  | _ => True
  end.

Lemma log_frame i w :
  match i with
  | IEvent (EvChatHistory _) | IEvent (EvChatMessage _) | IChannel _ => False
  | IAnswer id _ => w_fetches w !! id <> Some FChannels
  | _ => True
  end -> chat_log (snd (handle i w)) = chat_log w.
Proof.
  intros Hc. pose proof (base_part chat_log (fun b => b.2) (fun _ => eq_refl)) as Hb.
  apply handle_frame; [done|done|]. view_cases.
Qed.

Lemma chat_step_input i w :
  history_ok i -> chat_sync (w_chat w) -> chat_sync (w_chat (snd (handle i w))).
Proof.
  intros Hok Hs.
  assert (chat_log (snd (handle i w)) = chat_log w -> chat_sync (w_chat (snd (handle i w)))) as Hframe.
  { unfold chat_log. intros E. injection E as E1 E2 E3. by apply (sync_frame w). }
  destruct i; try (by apply Hframe, log_frame); cbn [handle].
  - destruct ev; try (by apply Hframe, log_frame); unfold if_open, when; cbn [mbind' gets on_event];
      (destruct (x_open (w_sse w)); [|done]).
    + apply load_sync; [|done]. by destruct messages.
    + unfold unless_paused. cbn [mbind' gets]. destruct (x_paused (w_sse w)); [done|]. by apply append_sync.
  - destruct (w_fetches w !! id) as [f|] eqn:Hid; cycle 1.
    { apply Hframe, log_frame. by rewrite Hid. }
    assert (f = FChannels \/ f <> FChannels) as [->|Hf] by (destruct f; auto; by right).
    + unfold answered. rewrite Hid, run_seq by (by intros ?). by apply channels_sync.
    + apply Hframe, log_frame. rewrite Hid. congruence.
  - unfold if_channel, when. cbn [mbind' gets]. case_if; [by apply select_sync|done].
Qed.

Lemma fire_steady id w :
  trace_inv w -> map_inv w -> is_ok (fst (fire id w)) = true /\ map_inv (snd (fire id w)).
Proof.
  intros Hi Hm. unfold fire. destruct (w_timers w !! id) as [cb|] eqn:Hid; [|done].
  assert ((forall n r, cb <> CbCooldownTick n r) -> steady (run_callback id cb)) as Hs.
  { intros Hne. destruct cb; cbn [run_callback]; try (by destruct (Hne nodeNum remaining));
      unfold trace_timeout, set_pending, connectSSE, on_sse, refresh_done; pose proof steady_startCooldown;
      pose proof steady_appendHistory; steady_solve. }
  destruct cb; try (by apply Hs). cbn [run_callback].
  pose proof (proj1 (ok_tick _ _ _ _ Hi id nodeNum remaining) Hid) as Hc.
  unfold cooldown_tick. cbn [mbind' gets modify]. cbn [w_trace on_w_timers]. rewrite Hc.
  assert (forall m : Page unit, steady m -> is_ok (fst (m (on_w_timers (<[id := CbCooldownTick nodeNum (remaining - 1)]>) w))) = true /\
    map_inv (snd (m (on_w_timers (<[id := CbCooldownTick nodeNum (remaining - 1)]>) w)))) as Hst
    by (intros m Hst; by apply Hst).
  apply Hst. unfold set_cooldown, for_trace_btns, resetTraceBtn, when. steady_solve.
Qed.

(** ** All together *)

Lemma handle_fresh i w : trace_inv w -> fresh w -> fresh (snd (handle i w)).
Proof.
  intros Hi Hf. destruct (decide (input_owner w i = Some OOther)) as [Ho|Ho].
  - apply (input_spares OTrace i w Hi Hf). congruence.
  - apply (input_spares OOther i w Hi Hf Ho).
Qed.

Lemma handle_steady i w :
  input_ok i -> trace_inv w -> map_inv w -> fst (handle i w) = Ok tt /\ map_inv (snd (handle i w)).
Proof.
  intros Hok Hi Hm. assert (is_ok (fst (handle i w)) = true /\ map_inv (snd (handle i w))) as [H1 H2].
  { assert ((exists id, i = ITimer id) \/ match i with ITimer _ => False | _ => True end) as [[id ->]|Ht]
      by (destruct i; eauto).
    - by apply fire_steady.
    - by apply steady_input. }
  split; [|done]. by destruct (fst (handle i w)) as [[]|].
Qed.

Lemma page_step i w :
  input_ok i -> history_ok i -> page_inv w -> fst (handle i w) = Ok tt /\ page_inv (snd (handle i w)).
Proof.
  intros Hok Hh [Hf Hm Hi Hs Hr Hc Hl].
  destruct (handle_steady i w Hok Hi Hm) as [Ho Hm']. split; [exact Ho|]. split.
  - by apply handle_fresh.
  - exact Hm'.
  - by apply trace_step_input.
  - by apply stream_step.
  - by apply refresh_step.
  - by apply send_step.
  - by apply chat_step_input.
Qed.

Lemma page_run inputs w :
  Forall (fun i => input_ok i /\ history_ok i) inputs -> page_inv w -> page_inv (snd (run inputs w)).
Proof.
  intros Hin. revert w. induction Hin as [|i inputs [Hok Hh] _ IH]; intros w Hw; [done|].
  unfold run. cbn [for_each]. rewrite run_seq by (by intros ?). apply IH. by apply page_step.
Qed.

Lemma boot_inv nodeDir rows now series counts :
  match nodeDir with Some dir => dir_ok dir | None => True end ->
  page_inv (boot nodeDir rows now series counts).
Proof.
  intros Hd. unfold boot. rewrite run_seq by (intros w; reflexivity). split.
  - by intros id _.
  - intros dir. cbn. intros ->. by split.
  - by apply trace_initial_inv.
  - split; [cbn; lia|reflexivity].
  - reflexivity.
  - reflexivity.
  - split; [constructor|cbn; lia].
Qed.

(** C1. The page is safe, as long as a node with a position has both coordinates,
    as numbers, in what the server sends, and a chat history holds at most 500
    messages: after any sequence of inputs - events of the stream,
    clicks, timers, answers, in any order - no listener throws on the next one;
    a traceroute is never pending while another cools down and each has its
    timer; either the event stream is open or exactly one timer is set to reopen
    it, after at most 30 seconds; the refresh button and the chat box are
    disabled exactly while their request is under way, so neither stays dead and
    at most one message is being sent; the chat log is in step with its messages;
    and every node with a position has a marker at its coordinates. *)
Theorem page_safe nodeDir rows now series counts inputs :
  match nodeDir with Some dir => dir_ok dir | None => True end ->
  Forall (fun i => input_ok i /\ history_ok i) inputs ->
  let w := snd (run inputs (boot nodeDir rows now series counts)) in
  (forall i, input_ok i -> fst (handle i w) = Ok tt) /\
  trace_inv w /\ stream_inv w /\ refresh_inv w /\ send_inv w /\ chat_sync (w_chat w) /\ map_inv w.
Proof.
  intros Hd Hin. cbv zeta. set (w := snd (run _ _)).
  assert (page_inv w) as [Hf Hm Hi Hs Hr Hc Hl] by (by apply page_run, boot_inv).
  split; [intros i Hok; by apply handle_steady|]. done.
Qed.

(** The outcome of the refresh request, then its timer. *)
Lemma refresh_comes_back w id a :
  w_fetches w !! id = Some FRefresh ->
  refresh_btn (snd (run [IAnswer id a; ITimer (w_next w)] w)) = false.
Proof.
  intros Hid. unfold run. cbn [for_each]. rewrite run_seq by (by intros ?). cbn [dispatch snd handle].
  assert (w_timers (snd (answered id a w)) !! w_next w = Some CbRefreshDone) as Ht.
  { unfold answered. rewrite Hid, run_seq by (by intros ?). cbn [run_answer].
    destruct (an_ok a); cbn; apply lookup_insert_eq. }
  revert Ht. generalize (snd (answered id a w)). intros w1 Ht. rewrite run_seq by (by intros ?).
  cbn [dispatch snd mret']. unfold fire. by rewrite Ht.
Qed.

(** C2. The connection is never lost for good: in every page that is reachable by
    such inputs and whose
    stream is closed, a timer is set, and when it fires a source is open; and
    the disabled refresh button is always enabled again by the timer that is set
    once its request has an outcome. *)
Theorem page_recovers nodeDir rows now series counts inputs :
  match nodeDir with Some dir => dir_ok dir | None => True end ->
  Forall (fun i => input_ok i /\ history_ok i) inputs ->
  let w := snd (run inputs (boot nodeDir rows now series counts)) in
  (x_open (w_sse w) = false ->
   exists id, x_open (w_sse (snd (handle (ITimer id) w))) = true) /\
  (refresh_btn w = true ->
   (exists id, refresh_btn (snd (handle (ITimer id) w)) = false) \/
   (exists id, forall a, exists id', refresh_btn (snd (run [IAnswer id a; ITimer id'] w)) = false)) /\
  (chat_input w = true -> exists id, forall a, chat_input (snd (handle (IAnswer id a) w)) = false).
Proof.
  intros Hd Hin. cbv zeta. set (w := snd (run _ _)).
  assert (page_inv w) as [_ _ _ Hs Hr Hc _] by (by apply page_run, boot_inv).
  generalize dependent w. intros w Hs Hr Hc.
  assert (forall o id cb, lane_timers o w !! id = Some cb -> w_timers w !! id = Some cb) as Ht
    by (intros o id cb [E _]%map_lookup_filter_Some; done).
  assert (forall o id f, lane_fetches o w !! id = Some f -> w_fetches w !! id = Some f) as Hfe
    by (intros o id f [E _]%map_lookup_filter_Some; done).
  split; [|split].
  - intros E. destruct Hs as [_ Hs]. rewrite E in Hs. destruct Hs as (id & d & El & _). exists id.
    cbn [handle]. unfold fire. rewrite (Ht OStream id (CbConnectSSE d)) by (rewrite El; apply lookup_singleton_eq).
    done.
  - intros E. unfold refresh_ok in Hr. rewrite E in Hr. unfold lane in Hr.
    destruct Hr as [[id El]|[id El]]; injection El as E1 E2.
    + left. exists id. cbn [handle]. unfold fire.
      by rewrite (Ht ORefresh id CbRefreshDone) by (rewrite E1; apply lookup_singleton_eq).
    + right. exists id. intros a. exists (w_next w). apply refresh_comes_back.
      apply (Hfe ORefresh). rewrite E2. apply lookup_singleton_eq.
  - intros E. unfold send_ok in Hc. rewrite E in Hc. destruct Hc as (_ & id & El). exists id. intros a.
    cbn [handle]. unfold answered. rewrite (Hfe OSend id FChatSend) by (rewrite El; apply lookup_singleton_eq).
    cbn [run_answer]. by destruct (an_ok a).
Qed.
End steps.

(** ** Witnesses

    A page whose connection was lost while the refresh button waits and a message
    is being sent. *)

Definition busy_inputs : list input :=
  [IStreamOpen; IEvent (EvNodeDirectory (Some map_dir)); ITab TabMap; ITab TabChat;
   IChatInput (js "hello"); IChatSend; IRefresh; ITrace 5; IStreamError].

Lemma busy_inputs_ok : Forall (fun i => input_ok i /\ history_ok i) busy_inputs.
Proof. repeat constructor; done || apply map_dir_ok. Qed.

Lemma page_safe_witness :
  let P := Reference.platform in
  let w := snd (run busy_inputs (boot None [] 1000 [] [])) in
  fst (handle (IStreamError) w) = Ok tt /\ trace_inv w /\ map_inv w /\ x_open (w_sse w) = false.
Proof.
  intros P w.
  destruct (@page_safe Reference.platform None [] 1000 [] [] busy_inputs I busy_inputs_ok)
    as (Hs & Ht & _ & _ & _ & _ & Hm).
  split; [by apply Hs|]. split; [exact Ht|]. split; [exact Hm|]. by vm_compute.
Defined.

Lemma page_recovers_witness :
  let P := Reference.platform in
  let w := snd (run busy_inputs (boot None [] 1000 [] [])) in
  (exists id, x_open (w_sse (snd (handle (ITimer id) w))) = true) /\
  exists id, forall a, chat_input (snd (handle (IAnswer id a) w)) = false.
Proof.
  intros P w.
  destruct (@page_recovers Reference.platform None [] 1000 [] [] busy_inputs I busy_inputs_ok)
    as (Ho & _ & Hc).
  split; [apply Ho; by vm_compute|apply Hc; by vm_compute].
Defined.
